(** * ServiVENT: the transactional edge functions

    A shallow embedding of the four database-backed handlers of
    [supabase/functions]: create-sale, create-purchase,
    registrar-pago-compra and receive-purchase-stock.

    - request bodies are JSON values with JavaScript's truthiness,
      [typeof] and property access;
    - the relational store is a record of tables; a connection carries the
      committed tables, the open transaction (if any) and a statement
      counter; the handlers are written in a small state-and-exception
      monad over it, statement by statement as in the source;
    - identifiers and quantities are integers ([Z]); money and costs are
      decimals, held as rationals ([Q]).  The store adds and multiplies
      decimals exactly and rounds when it divides; the driver hands a
      decimal column to the handler as text, so what JavaScript computes
      with it is computed on the nearest doubles. *)

From Stdlib Require Import ZArith QArith Qfield Qround Qpower Lqa String Ascii
  List Lia Permutation.
From stdpp Require Import base gmap strings list.

Open Scope string_scope.
Open Scope Z_scope.

(** ** JSON values and the JavaScript operators the handlers use *)

#[local] Unset Elimination Schemes.
Inductive json : Type :=
| JUndefined
| JNull
| JBool (b : bool)
| JNum (q : Q)
| JStr (s : string)
| JArr (xs : list json)
| JObj (fields : list (string * json)).
#[local] Set Elimination Schemes.

Definition num_of_Z (z : Z) : json := JNum (inject_Z z).

(** [!v] is [negb (truthy v)].  JSON has no NaN. *)
Definition truthy (v : json) : bool :=
  match v with
  | JUndefined | JNull => false
  | JBool b => b
  | JNum q => negb (Qeq_bool q 0)
  | JStr EmptyString => false
  | JStr _ => true
  | JArr _ | JObj _ => true
  end.

(** [typeof v === 'number'] *)
Definition is_number (v : json) : bool :=
  match v with JNum _ => true | _ => false end.

(** [Array.isArray(v)] *)
Definition isArray (v : json) : bool :=
  match v with JArr _ => true | _ => false end.

(** [v <= 0], used only behind a [typeof v === 'number'] test. *)
Definition le_zero (v : json) : bool :=
  match v with JNum q => Qle_bool q 0 | _ => false end.

(** [v === 'text'] *)
Definition is_text (v : json) (t : string) : bool :=
  match v with JStr s => String.eqb s t | _ => false end.

Fixpoint find_key (k : string) (fs : list (string * json)) : json :=
  match fs with
  | [] => JUndefined
  | (k', v) :: fs' => if String.eqb k' k then v else find_key k fs'
  end.

(** A key of a parsed object: the last occurrence wins. *)
Definition assoc (k : string) (fs : list (string * json)) : json :=
  find_key k (rev fs).

(** ** JavaScript numbers

    A number is a binary64 value.  The finite ones are rationals; the sign
    of zero is not kept, which no comparison and no text of a number
    shows. *)
Inductive number := Finite (q : Q) | NaN | PlusInfinity | MinusInfinity.

(** [2 ^ k] and [10 ^ k], for any integer [k]. *)
Definition pow2 (k : Z) : Q :=
  if 0 <=? k then inject_Z (2 ^ k) else (/ inject_Z (2 ^ (- k)))%Q.

Definition pow10 (k : Z) : Q :=
  if 0 <=? k then inject_Z (10 ^ k) else (/ inject_Z (10 ^ (- k)))%Q.

(** The floor of the binary logarithm of a positive rational. *)
Definition ilog2 (x : Q) : Z :=
  let n := Qnum x in
  let d := Zpos (Qden x) in
  let k := Z.log2 n - Z.log2 d in
  if (if 0 <=? k then d * 2 ^ k <=? n else d <=? n * 2 ^ (- k))
  then k else k - 1.

(** The integer nearest to a rational; of two, the even one. *)
Definition nearest_even (a : Q) : Z :=
  let f := Qfloor a in
  match (a - inject_Z f ?= 1 # 2)%Q with
  | Lt => f
  | Gt => f + 1
  | Eq => if Z.even f then f else f + 1
  end.

(** The binary64 value nearest to a positive rational: 53 binary digits
    over exponents from -1074 up, and nothing from [2 ^ 1024] on. *)
Definition exponent (x : Q) : Z := Z.max (ilog2 x - 52) (- 1074).

Definition significand (x : Q) : Z := nearest_even (x / pow2 (exponent x)).

Definition nearest_double (x : Q) : option Q :=
  let e := exponent x in
  let m := significand x in
  if (971 <? e) || ((e =? 971) && (m =? 2 ^ 53))
  then None
  else Some (Qred (inject_Z m * pow2 e)).

(** [Number(s)] for the text [s] of a decimal, and the number a decimal
    literal of the source denotes. *)
Definition to_number (x : Q) : number :=
  let x := Qred x in
  match Qnum x with
  | 0 => Finite 0
  | Zpos _ =>
      match nearest_double x with
      | Some v => Finite v
      | None => PlusInfinity
      end
  | Zneg _ =>
      match nearest_double (- x) with
      | Some v => Finite (- v)
      | None => MinusInfinity
      end
  end.

(** [a - b] and [a * b]: the exact result, rounded. *)
Definition number_sub (a b : number) : number :=
  match a, b with
  | NaN, _ | _, NaN => NaN
  | Finite x, Finite y => to_number (x - y)
  | PlusInfinity, PlusInfinity | MinusInfinity, MinusInfinity => NaN
  | PlusInfinity, _ | _, MinusInfinity => PlusInfinity
  | MinusInfinity, _ | _, PlusInfinity => MinusInfinity
  end.

Definition number_mul (a b : number) : number :=
  match a, b with
  | NaN, _ | _, NaN => NaN
  | Finite x, Finite y => to_number (x * y)
  | Finite x, PlusInfinity | PlusInfinity, Finite x =>
      match Qnum x with
      | 0 => NaN
      | Zpos _ => PlusInfinity
      | Zneg _ => MinusInfinity
      end
  | Finite x, MinusInfinity | MinusInfinity, Finite x =>
      match Qnum x with
      | 0 => NaN
      | Zpos _ => MinusInfinity
      | Zneg _ => PlusInfinity
      end
  | PlusInfinity, PlusInfinity | MinusInfinity, MinusInfinity => PlusInfinity
  | PlusInfinity, MinusInfinity | MinusInfinity, PlusInfinity => MinusInfinity
  end.

(** [a >= b] and [a > b] *)
Definition number_ge (a b : number) : bool :=
  match a, b with
  | NaN, _ | _, NaN => false
  | Finite x, Finite y => Qle_bool y x
  | PlusInfinity, _ | _, MinusInfinity => true
  | MinusInfinity, _ | _, PlusInfinity => false
  end.

Definition number_gt (a b : number) : bool :=
  match a, b with
  | NaN, _ | _, NaN => false
  | Finite x, Finite y => negb (Qle_bool x y)
  | PlusInfinity, PlusInfinity | MinusInfinity, MinusInfinity => false
  | PlusInfinity, _ | _, MinusInfinity => true
  | MinusInfinity, _ | _, PlusInfinity => false
  end.

(** The number is the finite value [z]. *)
Definition is_value (a : number) (z : Q) : bool :=
  match a with Finite v => Qeq_bool v z | _ => false end.

(** The floor of the decimal logarithm of a positive rational. *)
Definition ilog10 (x : Q) : Z :=
  let k := ilog2 x * 30103 / 100000 in
  if Qle_bool (pow10 (k + 1)) x then k + 1
  else if Qle_bool (pow10 k) x then k
  else k - 1.

(** The decimal of [k] digits that is nearest to the positive double [z],
    if it reads back as [z]. *)
Definition decimal_of_digits (z : Q) (k : Z) : option Q :=
  let s := k - 1 - ilog10 z in
  let lo := Qfloor (z * pow10 s) in
  let vlo := Qred (inject_Z lo / pow10 s) in
  let vhi := Qred (inject_Z (lo + 1) / pow10 s) in
  match is_value (to_number vlo) z, is_value (to_number vhi) z with
  | true, true =>
      match (z - vlo ?= vhi - z)%Q with
      | Lt => Some vlo
      | Gt => Some vhi
      | Eq => Some (if Z.even lo then vlo else vhi)
      end
  | true, false => Some vlo
  | false, true => Some vhi
  | false, false => None
  end.

Fixpoint shortest_from (z : Q) (k : Z) (fuel : nat) : Q :=
  match fuel with
  | O => z
  | S fuel' =>
      match decimal_of_digits z k with
      | Some v => v
      | None => shortest_from z (k + 1) fuel'
      end
  end.

(** [String(z)], read as a decimal: the decimal of fewest digits that
    reads back as the double [z]; seventeen digits always do. *)
Definition shortest_decimal (z : Q) : Q :=
  match Qnum z with
  | 0 => 0%Q
  | Zpos _ => shortest_from z 1 17
  | Zneg _ => (- shortest_from (- z) 1 17)%Q
  end.

(** The decimal that the store reads from the text of a number sent as a
    parameter.  'Infinity' and 'NaN' are no decimals of this model. *)
Definition number_text (n : number) : option Q :=
  match n with Finite z => Some (shortest_decimal z) | _ => None end.

(** ** Messages

    An error message is a template literal: text chunks and interpolated
    values.  Text produced outside the handlers (the database driver, the
    runtime's TypeError) is kept symbolic. *)

Inductive driver_error :=
| Fault (code : nat)
| DivisionByZero
| InvalidParameter
| UniqueViolation.

Inductive part :=
| Txt (s : string)
| Val (v : json)
| Drv (e : driver_error)
| TypeErrorText.

Definition template := list part.

Definition dquote : string := String "034"%char EmptyString.

(** ** Responses *)

Inductive payload :=
| PlainOk
| Success (field : string) (id : Z)
| SuccessMsg (message : string)
| ErrMsg (msg : template).

Record response := { status : Z; body : payload }.

Record request := { method : string; json_body : json }.

(** ** Tables *)

(** Modelled from the spec: the relational schema, which is not part of
    the repository.  [Inventario] is keyed by (id_producto, id_sucursal),
    the conflict target of both upserts; [Ventas], [Compras] and
    [Productos] by their id.  Quantities and ids are integer columns, money
    is decimal.  Columns the handlers pass through unchecked keep the JSON
    value they were given.  No foreign key is modelled: no handler relies on
    one. *)
Record venta := {
  v_id_sucursal : Z; v_monto_total : Q; v_fecha_venta : Z;
  v_id_usuario : json; v_metodo_pago : json; v_estado : string }.

Record detalle_venta := {
  dv_id_venta : Z; dv_id_producto : Z; dv_cantidad : Z; dv_precio_unitario : Q }.

Record inventario := { cantidad : Z; costo_promedio : Q }.

Record compra := {
  c_id_proveedor : json; c_id_sucursal : Z; c_monto_total : Q; c_estado : json;
  c_fecha_compra : Z; c_tipo_cambio : option Q; c_estado_pago : option string }.

Record detalle_compra := {
  dc_id_compra : Z; dc_id_producto : Z; dc_cantidad : Z; dc_costo_unitario : Q;
  dc_moneda : option string }.

Record pago_compra := {
  p_id_compra : Z; p_monto : Q; p_fecha_pago : json; p_metodo_pago : json;
  p_notas : json }.

Record db := {
  Ventas : gmap Z venta;
  Detalles_Venta : list detalle_venta;
  Inventario : gmap (Z * Z) inventario;
  Productos : gmap Z string;
  Compras : gmap Z compra;
  Detalles_Compra : list detalle_compra;
  Pagos_Compra : list pago_compra }.

(** The id sequences live outside the transaction: a rollback does not
    give a drawn id back. *)
Record store := { committed : db; seq_ventas : Z; seq_compras : Z }.

(** ** The connection monad *)

Record env := {
  pool : bool;                 (* DB_CONNECTION_STRING was set *)
  faults : nat -> option nat;  (* the n-th round trip fails with this code *)
  now : Z;                     (* new Date() *)
  (* the schema, which is not in the repository: whether the id columns
     are int8, which the driver hands over as BigInt, and the defaults of
     the columns an INSERT leaves out *)
  bigint_ids : bool;
  default_tipo_cambio : option Q;
  default_estado_pago : option string;
  default_moneda : option string;
  (* the store's division of two decimals: the quotient, rounded to the
     number of decimals that the store gives it *)
  numeric_div : Q -> Q -> Q }.

Record session := {
  srv : store; txn : option db; tick : nat; connected : bool }.

Inductive result (A : Type) : Type :=
| Ok (a : A)
| Throw (m : template).
Arguments Ok {A} a.
Arguments Throw {A} m.

Definition M (A : Type) : Type := session -> result A * session.

Definition ret {A} (a : A) : M A := fun s => (Ok a, s).
Definition throw {A} (m : template) : M A := fun s => (Throw m, s).
Definition bind {A B} (m : M A) (k : A -> M B) : M B :=
  fun s => match m s with
           | (Ok a, s1) => k a s1
           | (Throw t, s1) => (Throw t, s1)
           end.

Notation "x <~ m ;; k" := (bind m (fun x => k))
  (at level 90, m at level 89, right associativity).
Notation "m ;;; k" := (bind m (fun _ => k))
  (at level 90, right associativity).

Fixpoint for_each {A} (f : A -> M unit) (l : list A) : M unit :=
  match l with
  | [] => ret tt
  | x :: l' => f x ;;; for_each f l'
  end.

Definition set_committed (st : store) (d : db) : store :=
  {| committed := d; seq_ventas := seq_ventas st; seq_compras := seq_compras st |}.

Definition next (s : session) : session :=
  {| srv := srv s; txn := txn s; tick := S (tick s); connected := connected s |}.

Definition with_txn (s : session) (t : option db) : session :=
  {| srv := srv s; txn := t; tick := tick s; connected := connected s |}.

Definition with_srv (s : session) (st : store) : session :=
  {| srv := st; txn := txn s; tick := tick s; connected := connected s |}.

(** [v.k]: reading a property of [null] or [undefined] is a TypeError. *)
Definition prop (v : json) (k : string) : M json :=
  match v with
  | JUndefined | JNull => throw [TypeErrorText]
  | JObj fs => ret (assoc k fs)
  | _ => ret JUndefined
  end.

Section Connection.
Variable e : env.

(** One round trip: it fails when the environment says so, and a failed
    round trip leaves the store as it was. *)
Definition round_trip {A} (k : session -> result A * session) : M A :=
  fun s => match faults e (tick s) with
           | Some code => (Throw [Drv (Fault code)], next s)
           | None => k (next s)
           end.

(** [pool.connect()] *)
Definition connect : M unit :=
  round_trip (fun s =>
    (Ok tt, {| srv := srv s; txn := txn s; tick := tick s; connected := true |})).

(** [queryObject('BEGIN')]: inside a transaction it only warns. *)
Definition begin : M unit :=
  round_trip (fun s =>
    match txn s with
    | Some _ => (Ok tt, s)
    | None => (Ok tt, with_txn s (Some (committed (srv s))))
    end).

(** [queryObject('COMMIT')] *)
Definition commit : M unit :=
  round_trip (fun s =>
    match txn s with
    | Some w => (Ok tt, with_txn (with_srv s (set_committed (srv s) w)) None)
    | None => (Ok tt, s)
    end).

(** A statement runs on the open transaction, or commits on its own. *)
Definition exec {A} (q : db -> result (A * db)) : M A :=
  round_trip (fun s =>
    match txn s with
    | Some w =>
        match q w with
        | Ok (a, w') => (Ok a, with_txn s (Some w'))
        | Throw m => (Throw m, s)
        end
    | None =>
        match q (committed (srv s)) with
        | Ok (a, d') => (Ok a, with_srv s (set_committed (srv s) d'))
        | Throw m => (Throw m, s)
        end
    end).

(** [RETURNING id] of a serial column. *)
Definition nextval_ventas : M Z :=
  fun s => (Ok (seq_ventas (srv s)),
            with_srv s {| committed := committed (srv s);
                          seq_ventas := seq_ventas (srv s) + 1;
                          seq_compras := seq_compras (srv s) |}).

Definition nextval_compras : M Z :=
  fun s => (Ok (seq_compras (srv s)),
            with_srv s {| committed := committed (srv s);
                          seq_ventas := seq_ventas (srv s);
                          seq_compras := seq_compras (srv s) + 1 |}).

(** The [catch] block's ROLLBACK: its own failure is logged and
    swallowed. *)
Definition rollback (s : session) : session :=
  match faults e (tick s) with
  | Some _ => next s
  | None => with_txn (next s) None
  end.

(** The shared shape of the four [try]/[catch]/[finally] blocks: on an
    exception roll back if a connection was obtained, and answer with
    the given status and the exception's message.  A call starts on a
    connection with no transaction open; what the caller can observe
    afterwards is the committed store. *)
Definition handle (err_status : Z) (wrap : template -> template)
           (try_block : M response) (st : store) : response * store :=
  let s0 := {| srv := st; txn := None; tick := O; connected := false |} in
  match try_block s0 with
  | (Ok r, s1) => (r, srv s1)
  | (Throw m, s1) =>
      let s2 := if connected s1 then rollback s1 else s1 in
      ({| status := err_status; body := ErrMsg (wrap m) |}, srv s2)
  end.
End Connection.

(** ** Statement parameters *)

(** The integer that the store reads from a text: blanks, a sign, decimal
    digits, blanks. *)
Definition is_blank (c : ascii) : bool :=
  let n := Z.of_nat (nat_of_ascii c) in
  (n =? 32) || ((9 <=? n) && (n <=? 13)).

Definition digit_of (c : ascii) : option Z :=
  let n := Z.of_nat (nat_of_ascii c) in
  if (48 <=? n) && (n <=? 57) then Some (n - 48) else None.

Fixpoint skip_blanks (s : string) : string :=
  match s with
  | String c s' => if is_blank c then skip_blanks s' else s
  | EmptyString => s
  end.

Fixpoint read_digits (s : string) (acc : Z) : Z * string :=
  match s with
  | String c s' =>
      match digit_of c with
      | Some d => read_digits s' (10 * acc + d)
      | None => (acc, s)
      end
  | EmptyString => (acc, s)
  end.

Definition int_of_text (s : string) : option Z :=
  let s := skip_blanks s in
  let '(negative, s) :=
    match s with
    | String "-" s' => (true, s')
    | String "+" s' => (false, s')
    | _ => (false, s)
    end in
  match s with
  | String c _ =>
      match digit_of c with
      | Some _ =>
          let '(n, rest) := read_digits s 0 in
          match skip_blanks rest with
          | EmptyString => Some (if negative then - n else n)
          | _ => None
          end
      | None => None
      end
  | EmptyString => None
  end.

(** A value sent for an integer column.  The driver writes a parameter as
    text and the store reads the integer from it: a JSON number has to be
    whole, a string has to spell a whole number; the text of anything else
    is refused. *)
Definition bind_int (v : json) : option Z :=
  match v with
  | JNum q =>
      let r := Qred q in
      if (Qden r =? 1)%positive then Some (Qnum r) else None
  | JStr s => int_of_text s
  | _ => None
  end.

(** A value sent for a decimal column.  The handlers send there what
    they have tested to be a number; the driver writes it as its text,
    which spells the decimal of the body when that has no more than
    fifteen digits. *)
Definition bind_decimal (v : json) : option Q :=
  match v with JNum q => Some q | _ => None end.

Definition invalid_parameter {A} : result A := Throw [Drv InvalidParameter].

Definition elements (v : json) : list json :=
  match v with JArr xs => xs | _ => [] end.

(** ** Table updates *)

Definition with_Ventas (d : db) (l : gmap Z venta) : db :=
  {| Ventas := l; Detalles_Venta := Detalles_Venta d; Inventario := Inventario d;
     Productos := Productos d; Compras := Compras d;
     Detalles_Compra := Detalles_Compra d; Pagos_Compra := Pagos_Compra d |}.

Definition with_Detalles_Venta (d : db) (l : list detalle_venta) : db :=
  {| Ventas := Ventas d; Detalles_Venta := l; Inventario := Inventario d;
     Productos := Productos d; Compras := Compras d;
     Detalles_Compra := Detalles_Compra d; Pagos_Compra := Pagos_Compra d |}.

Definition with_Inventario (d : db) (m : gmap (Z * Z) inventario) : db :=
  {| Ventas := Ventas d; Detalles_Venta := Detalles_Venta d; Inventario := m;
     Productos := Productos d; Compras := Compras d;
     Detalles_Compra := Detalles_Compra d; Pagos_Compra := Pagos_Compra d |}.

Definition with_Compras (d : db) (m : gmap Z compra) : db :=
  {| Ventas := Ventas d; Detalles_Venta := Detalles_Venta d; Inventario := Inventario d;
     Productos := Productos d; Compras := m;
     Detalles_Compra := Detalles_Compra d; Pagos_Compra := Pagos_Compra d |}.

Definition with_Detalles_Compra (d : db) (l : list detalle_compra) : db :=
  {| Ventas := Ventas d; Detalles_Venta := Detalles_Venta d; Inventario := Inventario d;
     Productos := Productos d; Compras := Compras d;
     Detalles_Compra := l; Pagos_Compra := Pagos_Compra d |}.

Definition with_Pagos_Compra (d : db) (l : list pago_compra) : db :=
  {| Ventas := Ventas d; Detalles_Venta := Detalles_Venta d; Inventario := Inventario d;
     Productos := Productos d; Compras := Compras d;
     Detalles_Compra := Detalles_Compra d; Pagos_Compra := l |}.

(** ** create-sale: the statements *)

(** INSERT INTO "Ventas" (...) VALUES ($1, $2, $3, $4, $5, 'Completada')
    RETURNING id *)
Definition insert_venta (id : Z) (id_sucursal monto_total : json) (fecha : Z)
           (id_usuario metodo_pago : json) (d : db) : result (Z * db) :=
  match bind_int id_sucursal, bind_decimal monto_total with
  | Some b, Some m =>
      match Ventas d !! id with
      | Some _ => Throw [Drv UniqueViolation]
      | None =>
          Ok (id, with_Ventas d
                (<[id := {| v_id_sucursal := b; v_monto_total := m;
                            v_fecha_venta := fecha; v_id_usuario := id_usuario;
                            v_metodo_pago := metodo_pago;
                            v_estado := "Completada" |}]> (Ventas d)))
      end
  | _, _ => invalid_parameter
  end.

(** INSERT INTO "Detalles_Venta" (id_venta, id_producto, cantidad,
    precio_unitario) VALUES ($1, $2, $3, $4) *)
Definition insert_detalle_venta (id_venta : Z) (id_producto cant precio : json)
           (d : db) : result (unit * db) :=
  match bind_int id_producto, bind_int cant, bind_decimal precio with
  | Some p, Some q, Some pr =>
      Ok (tt, with_Detalles_Venta d (Detalles_Venta d ++
            [{| dv_id_venta := id_venta; dv_id_producto := p; dv_cantidad := q;
                dv_precio_unitario := pr |}]))
  | _, _, _ => invalid_parameter
  end.

(** UPDATE "Inventario" SET cantidad = cantidad - $1
    WHERE id_producto = $2 AND id_sucursal = $3 AND cantidad >= $1
    The result is the affected-row count. *)
Definition update_inventario (cant id_producto id_sucursal : json)
           (d : db) : result (nat * db) :=
  match bind_int cant, bind_int id_producto, bind_int id_sucursal with
  | Some q, Some p, Some b =>
      match Inventario d !! (p, b) with
      | Some r =>
          if q <=? cantidad r
          then Ok (1%nat, with_Inventario d
                     (<[(p, b) := {| cantidad := cantidad r - q;
                                     costo_promedio := costo_promedio r |}]>
                        (Inventario d)))
          else Ok (0%nat, d)
      | None => Ok (0%nat, d)
      end
  | _, _, _ => invalid_parameter
  end.

(** SELECT p."Nombre", i.cantidad FROM "Inventario" i
    JOIN "Productos" p ON p.id = i.id_producto
    WHERE i.id_producto = $1 AND i.id_sucursal = $2 *)
Definition select_stock_info (id_producto id_sucursal : json)
           (d : db) : result (list (string * Z) * db) :=
  match bind_int id_producto, bind_int id_sucursal with
  | Some p, Some b =>
      match Inventario d !! (p, b), Productos d !! p with
      | Some r, Some nombre => Ok ([(nombre, cantidad r)], d)
      | _, _ => Ok ([], d)
      end
  | _, _ => invalid_parameter
  end.

(** [stockInfo.rows[0]?.Nombre || `Producto ID ${item.id_producto}`] *)
Definition productName (rows : list (string * Z)) (id_producto : json) : template :=
  match rows with
  | (String c n, _) :: _ => [Val (JStr (String c n))]
  | _ => [Txt "Producto ID "; Val id_producto]
  end.

(** [stockInfo.rows[0]?.cantidad ?? 0] *)
Definition availableStock (rows : list (string * Z)) : Z :=
  match rows with
  | (_, c) :: _ => c
  | [] => 0
  end.

Definition stock_insuficiente (name : template) (available : Z) (requested : json)
  : template :=
  ([Txt (String.append "Stock insuficiente para " dquote)] ++ name ++
   [Txt (String.append dquote ". Disponible: "); Val (num_of_Z available);
    Txt ", Solicitado: "; Val requested; Txt "."])%list.

Definition datos_venta_invalidos : template :=
  [Txt "Datos requeridos para crear la venta están incompletos o son inválidos."].

Definition item_venta_invalido (id_producto : json) : template :=
  [Txt "Datos de item inválidos para el producto ID "; Val id_producto; Txt "."].

Definition config_error_long : template :=
  [Txt "Server Configuration Error: Database connection is not available. Please ensure the DB_CONNECTION_STRING secret is set correctly."].

Section CreateSale.
Variable e : env.

(** The body of [for (const item of items)]. *)
Definition sale_item (newVentaId : Z) (id_sucursal : json) (item : json) : M unit :=
  id_producto <~ prop item "id_producto" ;;
  cant <~ prop item "cantidad" ;;
  precio_unitario <~ prop item "precio_unitario" ;;
  if negb (is_number id_producto) || negb (is_number cant)
     || negb (is_number precio_unitario) || le_zero cant
  then throw (item_venta_invalido id_producto)
  else
    exec e (insert_detalle_venta newVentaId id_producto cant precio_unitario) ;;;
    rowCount <~ exec e (update_inventario cant id_producto id_sucursal) ;;
    if (rowCount =? 0)%nat
    then
      rows <~ exec e (select_stock_info id_producto id_sucursal) ;;
      throw (stock_insuficiente (productName rows id_producto)
                                (availableStock rows) cant)
    else ret tt.

Definition create_sale_try (body : json) : M response :=
  connect e ;;;
  id_sucursal <~ prop body "id_sucursal" ;;
  id_usuario <~ prop body "id_usuario" ;;
  monto_total <~ prop body "monto_total" ;;
  metodo_pago <~ prop body "metodo_pago" ;;
  items <~ prop body "items" ;;
  if negb (truthy id_sucursal) || negb (truthy id_usuario)
     || negb (is_number monto_total) || negb (truthy metodo_pago)
     || negb (truthy items) || negb (isArray items)
     || (length (elements items) =? 0)%nat
  then throw datos_venta_invalidos
  else
    begin e ;;;
    newVentaId <~ (id <~ nextval_ventas ;;
                   exec e (insert_venta id id_sucursal monto_total (now e)
                                        id_usuario metodo_pago)) ;;
    for_each (sale_item newVentaId id_sucursal) (elements items) ;;;
    commit e ;;;
    (* newVentaId = Number(ventaResult.rows[0].id) *)
    ret {| status := 200; body := Success "ventaId" newVentaId |}.

Definition create_sale (req : request) (st : store) : response * store :=
  if String.eqb (method req) "OPTIONS"
  then ({| status := 200; body := PlainOk |}, st)
  else if negb (pool e)
  then ({| status := 500; body := ErrMsg config_error_long |}, st)
  else handle e 500 (fun m => m) (create_sale_try (json_body req)) st.
End CreateSale.

(** ** create-purchase: the statements *)

(** INSERT INTO "Compras" (id_proveedor, id_sucursal, monto_total, estado,
    fecha_compra) VALUES ($1, $2, $3, $4, $5) RETURNING id
    The columns left out take the schema's defaults. *)
Definition insert_compra (tipo_cambio : option Q) (estado_pago : option string)
           (id : Z) (id_proveedor id_sucursal monto_total estado : json)
           (fecha : Z) (d : db) : result (Z * db) :=
  match bind_int id_sucursal, bind_decimal monto_total with
  | Some b, Some m =>
      match Compras d !! id with
      | Some _ => Throw [Drv UniqueViolation]
      | None =>
          Ok (id, with_Compras d
                (<[id := {| c_id_proveedor := id_proveedor; c_id_sucursal := b;
                            c_monto_total := m; c_estado := estado;
                            c_fecha_compra := fecha; c_tipo_cambio := tipo_cambio;
                            c_estado_pago := estado_pago |}]> (Compras d)))
      end
  | _, _ => invalid_parameter
  end.

(** INSERT INTO "Detalles_Compra" (id_compra, id_producto, cantidad,
    costo_unitario) VALUES ($1, $2, $3, $4) *)
Definition insert_detalle_compra (moneda : option string) (id_compra : Z)
           (id_producto cant costo : json) (d : db) : result (unit * db) :=
  match bind_int id_producto, bind_int cant, bind_decimal costo with
  | Some p, Some q, Some c =>
      Ok (tt, with_Detalles_Compra d (Detalles_Compra d ++
            [{| dc_id_compra := id_compra; dc_id_producto := p; dc_cantidad := q;
                dc_costo_unitario := c; dc_moneda := moneda |}]))
  | _, _, _ => invalid_parameter
  end.

(** The DO UPDATE SET of create-purchase.  Both right-hand sides read the
    row as it was; dividing by zero aborts the statement.  [div] is the
    store's division. *)
Definition merge_compra (div : Q -> Q -> Q) (r : inventario) (q : Z) (c : Q)
  : result inventario :=
  if cantidad r + q =? 0
  then Throw [Drv DivisionByZero]
  else Ok {| cantidad := cantidad r + q;
             costo_promedio :=
               div (inject_Z (cantidad r) * costo_promedio r + inject_Z q * c)%Q
                   (inject_Z (cantidad r + q)) |}.

(** INSERT INTO "Inventario" (id_producto, id_sucursal, cantidad,
    costo_promedio) VALUES ($1, $2, $3, $4)
    ON CONFLICT (id_producto, id_sucursal) DO UPDATE SET ... *)
Definition upsert_inventario_compra (div : Q -> Q -> Q)
           (id_producto id_sucursal cant costo : json)
           (d : db) : result (unit * db) :=
  match bind_int id_producto, bind_int id_sucursal, bind_int cant,
        bind_decimal costo with
  | Some p, Some b, Some q, Some c =>
      match Inventario d !! (p, b) with
      | None =>
          Ok (tt, with_Inventario d
                (<[(p, b) := {| cantidad := q; costo_promedio := c |}]>
                   (Inventario d)))
      | Some r =>
          match merge_compra div r q c with
          | Ok r' => Ok (tt, with_Inventario d (<[(p, b) := r']> (Inventario d)))
          | Throw m => Throw m
          end
      end
  | _, _, _, _ => invalid_parameter
  end.

Definition required_data_missing : template :=
  [Txt "Required data for creating a purchase is missing or invalid."].

Definition invalid_item_data (id_producto : json) : template :=
  [Txt "Invalid item data for product ID "; Val id_producto; Txt "."].

Definition database_error (m : template) : template :=
  Txt "Database Error: " :: m.

Section CreatePurchase.
Variable e : env.

Definition purchase_item (newCompraId : Z) (id_sucursal : json) (item : json)
  : M unit :=
  id_producto <~ prop item "id_producto" ;;
  cant <~ prop item "cantidad" ;;
  costo_unitario <~ prop item "costo_unitario" ;;
  if negb (is_number id_producto) || negb (is_number cant)
     || negb (is_number costo_unitario) || le_zero cant
  then throw (invalid_item_data id_producto)
  else
    exec e (insert_detalle_compra (default_moneda e) newCompraId id_producto
                                  cant costo_unitario) ;;;
    exec e (upsert_inventario_compra (numeric_div e) id_producto id_sucursal
                                     cant costo_unitario).

Definition create_purchase_try (body : json) : M response :=
  connect e ;;;
  id_proveedor <~ prop body "id_proveedor" ;;
  id_sucursal <~ prop body "id_sucursal" ;;
  monto_total <~ prop body "monto_total" ;;
  estado <~ prop body "estado" ;;
  items <~ prop body "items" ;;
  if negb (truthy id_proveedor) || negb (truthy id_sucursal)
     || negb (is_number monto_total) || negb (truthy items)
     || negb (isArray items) || (length (elements items) =? 0)%nat
  then throw required_data_missing
  else
    begin e ;;;
    newCompraId <~ (id <~ nextval_compras ;;
                    exec e (insert_compra (default_tipo_cambio e)
                                          (default_estado_pago e) id id_proveedor
                                          id_sucursal monto_total estado (now e))) ;;
    for_each (purchase_item newCompraId id_sucursal) (elements items) ;;;
    commit e ;;;
    (* JSON.stringify({ success: true, compraId: newCompraId }): the id is
       used as the driver returned it, and a BigInt cannot be serialized *)
    if bigint_ids e
    then throw [TypeErrorText]
    else ret {| status := 200; body := Success "compraId" newCompraId |}.

Definition create_purchase (req : request) (st : store) : response * store :=
  if String.eqb (method req) "OPTIONS"
  then ({| status := 200; body := PlainOk |}, st)
  else if negb (pool e)
  then ({| status := 500; body := ErrMsg config_error_long |}, st)
  else handle e 500 database_error (create_purchase_try (json_body req)) st.
End CreatePurchase.

(** ** registrar-pago-compra: the statements *)

(** INSERT INTO "Pagos_Compra" ("id_compra", "monto", "fecha_pago",
    "metodo_pago", "notas") VALUES ($1, $2, $3, $4, $5) *)
Definition insert_pago (purchaseId amount paymentDate method_ notes : json)
           (d : db) : result (unit * db) :=
  match bind_int purchaseId, bind_decimal amount with
  | Some id, Some a =>
      Ok (tt, with_Pagos_Compra d (Pagos_Compra d ++
            [{| p_id_compra := id; p_monto := a; p_fecha_pago := paymentDate;
                p_metodo_pago := method_; p_notas := notes |}]))
  | _, _ => invalid_parameter
  end.

(** SUM skips NULLs and is NULL when nothing is left. *)
Fixpoint sql_sum (l : list (option Q)) : option Q :=
  match l with
  | [] => None
  | x :: l' =>
      match x, sql_sum l' with
      | None, r => r
      | Some a, None => Some a
      | Some a, Some b => Some (a + b)%Q
      end
  end.

Definition coalesce (x : option Q) (dflt : Q) : Q :=
  match x with Some a => a | None => dflt end.

Definition is_dollar (moneda : option string) : bool :=
  match moneda with Some m => String.eqb m "$" | None => false end.

(** FROM "Compras" c LEFT JOIN "Detalles_Compra" d ON c.id = d.id_compra
    WHERE c.id = $1 *)
Definition compras_left_join_detalles (id : Z) (d : db)
  : list (compra * option detalle_compra) :=
  match Compras d !! id with
  | None => []
  | Some c =>
      match List.filter (fun x => dc_id_compra x =? id) (Detalles_Compra d) with
      | [] => [(c, None)]
      | ds => map (fun x => (c, Some x)) ds
      end
  end.

(** CASE WHEN d.moneda = '$'
         THEN d.cantidad * d.costo_unitario * COALESCE(c.tipo_cambio, 1.0)
         ELSE d.cantidad * d.costo_unitario END
    On the NULL-extended row of the outer join the result is NULL. *)
Definition line_amount (row : compra * option detalle_compra) : option Q :=
  match row with
  | (c, Some x) =>
      if is_dollar (dc_moneda x)
      then Some (inject_Z (dc_cantidad x) * dc_costo_unitario x
                 * coalesce (c_tipo_cambio c) 1)%Q
      else Some (inject_Z (dc_cantidad x) * dc_costo_unitario x)%Q
  | (_, None) => None
  end.

(** The CTE [calculated_total]: an aggregate without GROUP BY, one row. *)
Definition calculated_total (id : Z) (d : db) : Q :=
  coalesce (sql_sum (map line_amount (compras_left_join_detalles id d))) 0.

(** (SELECT COALESCE(SUM(p.monto), 0.0) FROM "Pagos_Compra" p
     WHERE p.id_compra = $1) *)
Definition total_paid (id : Z) (d : db) : Q :=
  coalesce (sql_sum (map (fun p => Some (p_monto p))
                         (List.filter (fun p => p_id_compra p =? id)
                                      (Pagos_Compra d)))) 0.

(** The outer SELECT has no FROM clause: it yields one row of two scalar
    subqueries. *)
Definition select_totals (purchaseId : json) (d : db)
  : result (list (Q * Q) * db) :=
  match bind_int purchaseId with
  | Some id => Ok ([(calculated_total id d, total_paid id d)], d)
  | None => invalid_parameter
  end.

(** [let newStatus = ...]: the if / else-if chain.  Both totals are the
    texts of decimals; the subtraction and the comparisons turn them into
    numbers. *)
Definition newStatus (total_paid monto_total_calculado : Q) : string :=
  if number_ge (to_number total_paid)
               (number_sub (to_number monto_total_calculado)
                           (to_number (1 # 1000)))
  then "Pagado"
  else if number_gt (to_number total_paid) (Finite 0)
  then "Parcialmente Pagado"
  else "Pago Pendiente".

(** UPDATE "Compras" SET "estado_pago" = $1, "monto_total" = $2
    WHERE "id" = $3 *)
Definition update_compra_pago (estado_pago : string) (monto : Q)
           (purchaseId : json) (d : db) : result (unit * db) :=
  match bind_int purchaseId with
  | Some id =>
      match Compras d !! id with
      | Some c =>
          Ok (tt, with_Compras d
                (<[id := {| c_id_proveedor := c_id_proveedor c;
                            c_id_sucursal := c_id_sucursal c;
                            c_monto_total := monto; c_estado := c_estado c;
                            c_fecha_compra := c_fecha_compra c;
                            c_tipo_cambio := c_tipo_cambio c;
                            c_estado_pago := Some estado_pago |}]> (Compras d)))
      | None => Ok (tt, d)
      end
  | None => invalid_parameter
  end.

Definition faltan_datos_pago : template :=
  [Txt "Faltan datos obligatorios o son inválidos para registrar el pago."].

Definition compra_no_encontrada (purchaseId : json) : template :=
  [Txt "No se encontró la compra con ID "; Val purchaseId; Txt "."].

Definition config_error_short : template :=
  [Txt "Server Configuration Error: Database connection is not available."].

Section RegistrarPagoCompra.
Variable e : env.

Definition registrar_pago_compra_try (body : json) : M response :=
  purchaseId <~ prop body "purchaseId" ;;
  amount <~ prop body "amount" ;;
  paymentDate <~ prop body "paymentDate" ;;
  method_ <~ prop body "method" ;;
  notes <~ prop body "notes" ;;
  if negb (truthy purchaseId) || negb (is_number amount) || le_zero amount
     || negb (truthy paymentDate) || negb (truthy method_)
  then throw faltan_datos_pago
  else
    connect e ;;;
    begin e ;;;
    exec e (insert_pago purchaseId amount paymentDate method_ notes) ;;;
    rows <~ exec e (select_totals purchaseId) ;;
    match rows with
    | [] => throw (compra_no_encontrada purchaseId)
    | (monto_total_calculado, total_paid) :: _ =>
        exec e (update_compra_pago (newStatus total_paid monto_total_calculado)
                                   monto_total_calculado purchaseId) ;;;
        commit e ;;;
        ret {| status := 200;
               body := SuccessMsg "Pago registrado y estado actualizado." |}
    end.

Definition registrar_pago_compra (req : request) (st : store) : response * store :=
  if String.eqb (method req) "OPTIONS"
  then ({| status := 200; body := PlainOk |}, st)
  else if negb (pool e)
  then ({| status := 500; body := ErrMsg config_error_short |}, st)
  else handle e 400 (fun m => m) (registrar_pago_compra_try (json_body req)) st.
End RegistrarPagoCompra.

(** ** receive-purchase-stock: the statements *)

(** SELECT "estado", "id_sucursal", "tipo_cambio" FROM "Compras"
    WHERE "id" = $1 FOR UPDATE *)
Definition select_compra_for_update (purchase_id : json) (d : db)
  : result (list compra * db) :=
  match bind_int purchase_id with
  | Some id =>
      Ok (match Compras d !! id with Some c => [c] | None => [] end, d)
  | None => invalid_parameter
  end.

(** SELECT "id_producto", "cantidad", "costo_unitario", "moneda"
    FROM "Detalles_Compra" WHERE "id_compra" = $1 *)
Definition select_detalles_compra (purchase_id : json) (d : db)
  : result (list detalle_compra * db) :=
  match bind_int purchase_id with
  | Some id =>
      Ok (List.filter (fun x => dc_id_compra x =? id) (Detalles_Compra d), d)
  | None => invalid_parameter
  end.

(** The DO UPDATE SET of receive-purchase-stock, with its CASE for an
    empty result.  [div] is the store's division. *)
Definition merge_recepcion (div : Q -> Q -> Q) (r : inventario) (q : Z) (c : Q)
  : inventario :=
  {| cantidad := cantidad r + q;
     costo_promedio :=
       if cantidad r + q =? 0 then 0%Q
       else div (inject_Z (cantidad r) * costo_promedio r + inject_Z q * c)%Q
                (inject_Z (cantidad r + q)) |}.

(** INSERT INTO "Inventario" ("id_producto", "id_sucursal", "cantidad",
    "costo_promedio") VALUES ($1, $2, $3, $4)
    ON CONFLICT ("id_producto", "id_sucursal") DO UPDATE SET ...
    The first three parameters are integers read from the store; the
    fourth is a decimal as the store gave it, or the text of a number. *)
Definition upsert_inventario_recepcion (div : Q -> Q -> Q) (p b q : Z)
           (costo : option Q) (d : db) : result (unit * db) :=
  match costo with
  | None => invalid_parameter
  | Some c =>
      match Inventario d !! (p, b) with
      | None =>
          Ok (tt, with_Inventario d
                (<[(p, b) := {| cantidad := q; costo_promedio := c |}]>
                   (Inventario d)))
      | Some r =>
          Ok (tt, with_Inventario d
                (<[(p, b) := merge_recepcion div r q c]> (Inventario d)))
      end
  end.

(** UPDATE "Compras" SET "estado" = 'Confirmado' WHERE "id" = $1 *)
Definition update_compra_estado (purchase_id : json) (d : db)
  : result (unit * db) :=
  match bind_int purchase_id with
  | Some id =>
      match Compras d !! id with
      | Some c =>
          Ok (tt, with_Compras d
                (<[id := {| c_id_proveedor := c_id_proveedor c;
                            c_id_sucursal := c_id_sucursal c;
                            c_monto_total := c_monto_total c;
                            c_estado := JStr "Confirmado";
                            c_fecha_compra := c_fecha_compra c;
                            c_tipo_cambio := c_tipo_cambio c;
                            c_estado_pago := c_estado_pago c |}]> (Compras d)))
      | None => Ok (tt, d)
      end
  | None => invalid_parameter
  end.

(** [purchase.tipo_cambio || 1].  The rate comes as the text of a
    decimal, which is truthy whatever it spells, a rate of 0 too; only a
    NULL rate gives 1. *)
Definition exchange_rate (tipo_cambio : option Q) : Q :=
  match tipo_cambio with
  | Some q => q
  | None => 1%Q
  end.

Definition id_obligatorio : template :=
  [Txt "El ID de la compra es obligatorio."].

Definition compra_no_existe (purchase_id : json) : template :=
  [Txt "Compra con ID "; Val purchase_id; Txt " no encontrada."].

Definition compra_ya_en_estado (estado : json) : template :=
  [Txt "La compra ya está en estado '"; Val estado; Txt "'."].

Definition sin_productos : template :=
  [Txt "La compra no tiene productos para recibir."].

Section ReceivePurchaseStock.
Variable e : env.

Definition receive_item (branchId : Z) (exchangeRate : Q) (item : detalle_compra)
  : M unit :=
  if dc_cantidad item <=? 0
  then ret tt
  else
    (* a line in '$': the product of two numbers, sent as its text;
       any other line: the decimal as the store gave it *)
    let receivedCostInBaseCurrency :=
      if is_dollar (dc_moneda item)
      then number_text (number_mul (to_number (dc_costo_unitario item))
                                   (to_number exchangeRate))
      else Some (dc_costo_unitario item) in
    exec e (upsert_inventario_recepcion (numeric_div e) (dc_id_producto item)
                                        branchId (dc_cantidad item)
                                        receivedCostInBaseCurrency).

Definition receive_purchase_stock_try (body : json) : M response :=
  purchase_id <~ prop body "purchase_id" ;;
  if negb (truthy purchase_id)
  then throw id_obligatorio
  else
    connect e ;;;
    begin e ;;;
    purchaseResult <~ exec e (select_compra_for_update purchase_id) ;;
    match purchaseResult with
    | [] => throw (compra_no_existe purchase_id)
    | purchase :: _ =>
        if negb (is_text (c_estado purchase) "Pendiente")
        then throw (compra_ya_en_estado (c_estado purchase))
        else
          let branchId := c_id_sucursal purchase in
          let exchangeRate := exchange_rate (c_tipo_cambio purchase) in
          items <~ exec e (select_detalles_compra purchase_id) ;;
          if (length items =? 0)%nat
          then throw sin_productos
          else
            for_each (receive_item branchId exchangeRate) items ;;;
            exec e (update_compra_estado purchase_id) ;;;
            commit e ;;;
            ret {| status := 200;
                   body := SuccessMsg "Stock actualizado correctamente." |}
    end.

Definition receive_purchase_stock (req : request) (st : store)
  : response * store :=
  if String.eqb (method req) "OPTIONS"
  then ({| status := 200; body := PlainOk |}, st)
  else if negb (pool e)
  then ({| status := 500; body := ErrMsg config_error_short |}, st)
  else handle e 400 (fun m => m) (receive_purchase_stock_try (json_body req)) st.
End ReceivePurchaseStock.

(** * Specification vocabulary *)

(** ** Triples over the connection monad

    [hoare P m Q]: from a session satisfying [P], [m] ends in a result and
    a session related by [Q].  [m] is a function, so this is total
    correctness. *)

Definition hoare {A} (P : session -> Prop) (m : M A)
           (Q : result A -> session -> Prop) : Prop :=
  forall s, P s -> Q (fst (m s)) (snd (m s)).

(** The postcondition that asks [R] after a normal end and [E] after an
    exception. *)
Definition post {A} (R : A -> session -> Prop) (E : template -> session -> Prop)
  : result A -> session -> Prop :=
  fun r s => match r with Ok a => R a s | Throw t => E t s end.

(** [keeps I m]: [m] maintains [I], whether it ends normally or not. *)
Definition keeps {A} (I : session -> Prop) (m : M A) : Prop :=
  hoare I m (fun _ s => I s).

(** [m] ends in an exception from every session. *)
Definition throws {A} (m : M A) : Prop :=
  hoare (fun _ => True) m (fun r _ => exists t, r = Throw t).

(** No round trip fails. *)
Definition reliable (e : env) : Prop := forall n, faults e n = None.

(** Every round trip made so far went through. *)
Definition clean (e : env) (s : session) : Prop :=
  forall n, (n < tick s)%nat -> faults e n = None.

(** The number of round trips the [try] block of a call makes, the failed
    one included. *)
Definition round_trips (try_block : M response) (st : store) : nat :=
  tick (snd (try_block {| srv := st; txn := None; tick := O; connected := false |})).

(** The same environment over a schema whose ids are plain integers. *)
Definition numeric_ids (e : env) : env :=
  {| pool := pool e; faults := faults e; now := now e; bigint_ids := false;
     default_tipo_cambio := default_tipo_cambio e;
     default_estado_pago := default_estado_pago e;
     default_moneda := default_moneda e;
     numeric_div := numeric_div e |}.

(** What a response that cannot be serialized does to the end of a [try]
    block: the exception replaces the response, the session stays. *)
Definition unserializable (bigint : bool) (x : result response * session)
  : result response * session :=
  match x with
  | (Ok r, s) => (if bigint then Throw [TypeErrorText] else Ok r, s)
  | (Throw t, s) => (Throw t, s)
  end.

(** ** Invariants of the tables and states of a transaction *)

(** [P] holds of the committed tables and of the working copy of the open
    transaction. *)
Definition db_inv (P : db -> Prop) (s : session) : Prop :=
  P (committed (srv s)) /\ forall w, txn s = Some w -> P w.

(** No quantity of [Inventario] is negative. *)
Definition stock_nonneg (d : db) : Prop :=
  forall k r, Inventario d !! k = Some r -> 0 <= cantidad r.

(** A statement that leaves [Inventario] alone. *)
Definition same_stock {A} (q : db -> result (A * db)) : Prop :=
  forall d a d', q d = Ok (a, d') -> Inventario d' = Inventario d.

(** The committed tables are [c0]. *)
Definition idle (c0 : db) (s : session) : Prop := committed (srv s) = c0.

(** A transaction is open over committed tables [c0]. *)
Definition in_txn (c0 : db) (s : session) : Prop :=
  committed (srv s) = c0 /\ txn s <> None.

(** The outcome wanted of a [try] block that started on [c0]: a normal
    end carries a 200 response, an exception leaves [c0] committed. *)
Definition committed_or_unchanged (c0 : db) : result response -> session -> Prop :=
  post (fun r _ => status r = 200) (fun _ s => committed (srv s) = c0).

(** ** Requests *)

(** The value a destructuring pattern binds to key [k]. *)
Definition field (v : json) (k : string) : json :=
  match v with JObj fs => assoc k fs | _ => JUndefined end.

(** [null] and [undefined] cannot be destructured. *)
Definition is_nullish (v : json) : bool :=
  match v with JUndefined | JNull => true | _ => false end.

(** The test of the first [if] of create-sale, on the fields of the body. *)
Definition sale_header_invalid (body : json) : bool :=
  negb (truthy (field body "id_sucursal")) || negb (truthy (field body "id_usuario"))
  || negb (is_number (field body "monto_total"))
  || negb (truthy (field body "metodo_pago"))
  || negb (truthy (field body "items")) || negb (isArray (field body "items"))
  || (length (elements (field body "items")) =? 0)%nat.

(** The test at the top of create-sale's loop body. *)
Definition sale_item_invalid (item : json) : bool :=
  is_nullish item
  || negb (is_number (field item "id_producto"))
  || negb (is_number (field item "cantidad"))
  || negb (is_number (field item "precio_unitario"))
  || le_zero (field item "cantidad").

(** The test of the first [if] of create-purchase. *)
Definition purchase_header_invalid (body : json) : bool :=
  negb (truthy (field body "id_proveedor")) || negb (truthy (field body "id_sucursal"))
  || negb (is_number (field body "monto_total"))
  || negb (truthy (field body "items")) || negb (isArray (field body "items"))
  || (length (elements (field body "items")) =? 0)%nat.

(** The test at the top of create-purchase's loop body. *)
Definition purchase_item_invalid (item : json) : bool :=
  is_nullish item
  || negb (is_number (field item "id_producto"))
  || negb (is_number (field item "cantidad"))
  || negb (is_number (field item "costo_unitario"))
  || le_zero (field item "cantidad").

(** The items of a request body. *)
Definition items_of (body : json) : list json := elements (field body "items").


(** The stock left in branch [b] once a run of items has been sold from
    [inv], when each of them is valid and in stock at its turn. *)
Fixpoint stock_after (b : Z) (inv : gmap (Z * Z) inventario) (items : list json)
  : option (gmap (Z * Z) inventario) :=
  match items with
  | [] => Some inv
  | it :: rest =>
      if sale_item_invalid it then None
      else
        match bind_int (field it "id_producto"), bind_int (field it "cantidad") with
        | Some p, Some q =>
            match inv !! (p, b) with
            | Some r =>
                if q <=? cantidad r
                then stock_after b
                       (<[(p, b) := {| cantidad := cantidad r - q;
                                       costo_promedio := costo_promedio r |}]> inv)
                       rest
                else None
            | None => None
            end
        | _, _ => None
        end
  end.

(** The rows of create-sale's stock query for product [p] in branch [b]. *)
Definition stock_rows (inv : gmap (Z * Z) inventario) (prods : gmap Z string)
           (p b : Z) : list (string * Z) :=
  match inv !! (p, b), prods !! p with
  | Some r, Some nombre => [(nombre, cantidad r)]
  | _, _ => []
  end.

(** ** Sample data: one branch, one product *)

Module Ex.

(** The store's division of decimals that carry no more decimal places
    than the quotient is given: digits are counted in groups of four, the
    quotient gets sixteen significant digits at least, and the last one is
    rounded half away from zero. *)
Definition group_weight (x : Q) : Z := ilog10 x / 4.

Definition first_group (x : Q) : Z := Qfloor (x / pow10 (4 * group_weight x)).

Definition div_scale (x y : Q) : Z :=
  let qweight :=
    group_weight x - group_weight y
    - (if first_group x <=? first_group y then 1 else 0) in
  Z.min (Z.max (16 - 4 * qweight) 0) 1000.

Definition div_positive (x y : Q) : Q :=
  let s := div_scale x y in
  Qred (inject_Z (Qfloor (x / y * pow10 s + (1 # 2))) / pow10 s).

Definition div (x y : Q) : Q :=
  match Qnum x, Qnum y with
  | 0, _ | _, 0 => 0%Q
  | Zpos _, Zpos _ => div_positive x y
  | Zneg _, Zneg _ => div_positive (- x) (- y)
  | Zpos _, Zneg _ => (- div_positive x (- y))%Q
  | Zneg _, Zpos _ => (- div_positive (- x) y)%Q
  end.

Definition e : env :=
  {| pool := true; faults := fun _ => None; now := 0; bigint_ids := false;
     default_tipo_cambio := Some 1%Q; default_estado_pago := None;
     default_moneda := None; numeric_div := div |}.

(** The same over a schema with int8 ids. *)
Definition int8 : env :=
  {| pool := true; faults := fun _ => None; now := 0; bigint_ids := true;
     default_tipo_cambio := Some 1%Q; default_estado_pago := None;
     default_moneda := None; numeric_div := div |}.

(** The same, but the round trip numbered [k] (from 0) fails. *)
Definition failing_at (k : nat) : env :=
  {| pool := true; faults := fun n => if Nat.eqb n k then Some 57%nat else None;
     now := 0; bigint_ids := false;
     default_tipo_cambio := Some 1%Q; default_estado_pago := None;
     default_moneda := None; numeric_div := div |}.

(** Branch 2 holds five units of product 7. *)
Definition shop : db :=
  {| Ventas := ∅; Detalles_Venta := [];
     Inventario := {[ (7, 2) := {| cantidad := 5; costo_promedio := 4%Q |} ]};
     Productos := {[ 7 := "Tornillo" ]};
     Compras := ∅; Detalles_Compra := []; Pagos_Compra := [] |}.

Definition st : store := {| committed := shop; seq_ventas := 1; seq_compras := 1 |}.

Definition post (b : json) : request := {| method := "POST"; json_body := b |}.

(** An item carrying both a sale price and a purchase cost. *)
Definition item (p q : Z) (amount : Q) : json :=
  JObj [("id_producto", num_of_Z p); ("cantidad", num_of_Z q);
        ("precio_unitario", JNum amount); ("costo_unitario", JNum amount)].

Definition sale (items : list json) : request :=
  post (JObj [("id_sucursal", num_of_Z 2); ("id_usuario", JStr "u-1");
              ("monto_total", JNum 30); ("metodo_pago", JStr "Efectivo");
              ("items", JArr items)]).

(** A body that both creating handlers read: a sale and a purchase. *)
Definition order (items : list json) : request :=
  post (JObj [("id_proveedor", JStr "prov-1"); ("id_sucursal", num_of_Z 2);
              ("id_usuario", JStr "u-1"); ("monto_total", JNum 30);
              ("metodo_pago", JStr "Efectivo"); ("estado", JStr "Pendiente");
              ("items", JArr items)]).

(** A purchase without its initial state. *)
Definition purchase_without_estado : request :=
  post (JObj [("id_proveedor", JStr "prov-1"); ("id_sucursal", num_of_Z 2);
              ("monto_total", JNum 30); ("items", JArr [item 7 10 4])]).

(** Purchase 1 of branch 2 at exchange rate 7: ten units at 3 in local
    currency and five at 2 in '$', 100 in all; its stored total is stale. *)
Definition ledger : db :=
  {| Ventas := ∅; Detalles_Venta := [];
     Inventario := {[ (7, 2) := {| cantidad := 5; costo_promedio := 4%Q |} ]};
     Productos := {[ 7 := "Tornillo" ]};
     Compras := {[ 1 := {| c_id_proveedor := JStr "prov-1"; c_id_sucursal := 2;
                           c_monto_total := 999%Q; c_estado := JStr "Pendiente";
                           c_fecha_compra := 0; c_tipo_cambio := Some 7%Q;
                           c_estado_pago := Some "Pago Pendiente" |} ]};
     Detalles_Compra :=
       [ {| dc_id_compra := 1; dc_id_producto := 7; dc_cantidad := 10;
            dc_costo_unitario := 3%Q; dc_moneda := Some "Bs." |};
         {| dc_id_compra := 1; dc_id_producto := 7; dc_cantidad := 5;
            dc_costo_unitario := 2%Q; dc_moneda := Some "$" |} ];
     Pagos_Compra := [] |}.

Definition books : store :=
  {| committed := ledger; seq_ventas := 1; seq_compras := 2 |}.

Definition payment (id : Z) (amount : Q) : request :=
  post (JObj [("purchaseId", num_of_Z id); ("amount", JNum amount);
              ("paymentDate", JStr "2024-05-01"); ("method", JStr "Efectivo")]).

(** The same payment, with a total of the client's own making. *)
Definition payment_with_total (id : Z) (amount total : Q) : request :=
  post (JObj [("purchaseId", num_of_Z id); ("amount", JNum amount);
              ("paymentDate", JStr "2024-05-01"); ("method", JStr "Efectivo");
              ("monto_total", JNum total)]).

(** A cash payment on purchase 1. *)
Definition pago (amount : Q) : pago_compra :=
  {| p_id_compra := 1; p_monto := amount; p_fecha_pago := JStr "2024-05-01";
     p_metodo_pago := JStr "Efectivo"; p_notas := JNull |}.

Definition receipt (id : Z) : request :=
  post (JObj [("purchase_id", num_of_Z id)]).

(** The same requests with the id written as a text. *)
Definition payment_by_text (id : string) (amount : Q) : request :=
  post (JObj [("purchaseId", JStr id); ("amount", JNum amount);
              ("paymentDate", JStr "2024-05-01"); ("method", JStr "Efectivo")]).

Definition receipt_by_text (id : string) : request :=
  post (JObj [("purchase_id", JStr id)]).

End Ex.

(** ** Sample data: amounts that get rounded *)

Module Rounding.

(** Purchase 1 of branch 2 amounts to 1.01: one unit of product 7 at 1.01
    in local currency.  Purchase 2 is in '$' at the rate 3: one unit of
    product 8, which the branch does not hold yet, at 0.1. *)
Definition ledger : db :=
  {| Ventas := ∅; Detalles_Venta := [];
     Inventario := {[ (7, 2) := {| cantidad := 5; costo_promedio := 4%Q |} ]};
     Productos := {[ 7 := "Tornillo" ]};
     Compras :=
       <[ 2 := {| c_id_proveedor := JStr "prov-1"; c_id_sucursal := 2;
                  c_monto_total := (3 # 10)%Q; c_estado := JStr "Pendiente";
                  c_fecha_compra := 0; c_tipo_cambio := Some 3%Q;
                  c_estado_pago := Some "Pago Pendiente" |} ]>
       {[ 1 := {| c_id_proveedor := JStr "prov-1"; c_id_sucursal := 2;
                  c_monto_total := (101 # 100)%Q; c_estado := JStr "Pendiente";
                  c_fecha_compra := 0; c_tipo_cambio := None;
                  c_estado_pago := Some "Pago Pendiente" |} ]};
     Detalles_Compra :=
       [ {| dc_id_compra := 1; dc_id_producto := 7; dc_cantidad := 1;
            dc_costo_unitario := (101 # 100)%Q; dc_moneda := Some "Bs." |};
         {| dc_id_compra := 2; dc_id_producto := 8; dc_cantidad := 1;
            dc_costo_unitario := (1 # 10)%Q; dc_moneda := Some "$" |} ];
     Pagos_Compra := [] |}.

Definition books : store :=
  {| committed := ledger; seq_ventas := 1; seq_compras := 3 |}.

End Rounding.

(** What the spec calls malformed input of create-sale: a body that
    cannot be destructured, a required field missing or mistyped, an empty
    item list, or an item that fails the loop's test. *)
Definition sale_malformed (body : json) : Prop :=
  is_nullish body = true \/ sale_header_invalid body = true
  \/ exists it, In it (items_of body) /\ sale_item_invalid it = true.

(** An item create-purchase accepts whose product id and quantity are
    whole numbers. *)
Definition purchase_item_good (item : json) : Prop :=
  purchase_item_invalid item = false
  /\ is_Some (bind_int (field item "id_producto"))
  /\ is_Some (bind_int (field item "cantidad")).

(** What the code's tests of create-purchase reject. *)
Definition purchase_malformed (body : json) : Prop :=
  is_nullish body = true \/ purchase_header_invalid body = true
  \/ exists it, In it (items_of body) /\ purchase_item_invalid it = true.

(** ** Batches and their weighted average *)

(** A batch is a quantity and a unit cost. *)
Definition total_qty (bs : list (Z * Q)) : Z :=
  fold_right (fun b acc => fst b + acc) 0 bs.



(** The formula of the spec for one merge. *)
Definition merged_cost (old_qty : Z) (old_cost : Q) (qty : Z) (unit_cost : Q) : Q :=
  ((inject_Z old_qty * old_cost + inject_Z qty * unit_cost)
   / inject_Z (old_qty + qty))%Q.

(** The same formula, divided as the store divides. *)
Definition merged_cost_by (div : Q -> Q -> Q) (old_qty : Z) (old_cost : Q)
           (qty : Z) (unit_cost : Q) : Q :=
  div (inject_Z old_qty * old_cost + inject_Z qty * unit_cost)%Q
      (inject_Z (old_qty + qty)).


(** The row of a pair after create-purchase has merged a batch into it:
    a pair without a row gets the batch as its row. *)
Definition stocked_row (div : Q -> Q -> Q) (old : option inventario)
           (qty : Z) (unit_cost : Q) : inventario :=
  match old with
  | None => {| cantidad := qty; costo_promedio := unit_cost |}
  | Some r =>
      {| cantidad := cantidad r + qty;
         costo_promedio :=
           merged_cost_by div (cantidad r) (costo_promedio r) qty unit_cost |}
  end.

(** The row of a pair after receive-purchase-stock has merged a batch
    into it: the cost of a row left without units is 0. *)
Definition received_row (div : Q -> Q -> Q) (old : option inventario)
           (qty : Z) (unit_cost : Q) : inventario :=
  match old with
  | None => {| cantidad := qty; costo_promedio := unit_cost |}
  | Some r =>
      {| cantidad := cantidad r + qty;
         costo_promedio :=
           if cantidad r + qty =? 0 then 0%Q
           else merged_cost_by div (cantidad r) (costo_promedio r) qty
                               unit_cost |}
  end.



(** The inventory after the lines of a new purchase of branch [b] have
    been merged into it, in order. *)
Definition stocked (div : Q -> Q -> Q) (b : Z) (lines : list detalle_compra)
           (inv : gmap (Z * Z) inventario) : gmap (Z * Z) inventario :=
  fold_left
    (fun inv x =>
       <[(dc_id_producto x, b) :=
           stocked_row div (inv !! (dc_id_producto x, b)) (dc_cantidad x)
                       (dc_costo_unitario x)]> inv)
    lines inv.

(** ** The purchase total and the payment state, in the spec's words *)

(** One line item in local currency: quantity times unit cost, times the
    exchange rate (1 when absent) for a line in '$'. *)
Definition line_total (rate : option Q) (x : detalle_compra) : Q :=
  (inject_Z (dc_cantidad x) * dc_costo_unitario x
   * (if is_dollar (dc_moneda x) then coalesce rate 1 else 1))%Q.

Definition purchase_lines (id : Z) (d : db) : list detalle_compra :=
  List.filter (fun x => dc_id_compra x =? id) (Detalles_Compra d).

(** The currency-normalized sum of a purchase's line items. *)
Definition purchase_total (id : Z) (d : db) : Q :=
  match Compras d !! id with
  | Some c =>
      fold_right (fun x acc => (line_total (c_tipo_cambio c) x + acc)%Q) 0%Q
                 (purchase_lines id d)
  | None => 0%Q
  end.

(** The tolerance of the payment rule. *)
Definition epsilon : Q := 1 # 1000.

(** The two tests of the payment rule, made on numbers: the paid total
    is not less than the amount minus the tolerance, and the paid total is
    more than nothing. *)
Definition paid_in_full (paid amount : Q) : Prop :=
  number_ge (to_number paid) (number_sub (to_number amount) (to_number epsilon))
  = true.

Definition paid_in_part (paid : Q) : Prop :=
  number_gt (to_number paid) (Finite 0) = true.

(** The sum of the amounts of a list of payments. *)
Definition sum_montos (ps : list pago_compra) : Q :=
  fold_right (fun p acc => (p_monto p + acc)%Q) 0%Q ps.

(** ** Sequences of payments *)

(** The request that registers payment [p]. *)
Definition payment_request (p : pago_compra) : request :=
  {| method := "POST";
     json_body := JObj [("purchaseId", num_of_Z (p_id_compra p));
                        ("amount", JNum (p_monto p));
                        ("paymentDate", p_fecha_pago p);
                        ("method", p_metodo_pago p);
                        ("notes", p_notas p)] |}.

(** A payment on purchase [id] that the handler's test lets through. *)
Definition valid_payment (id : Z) (p : pago_compra) : Prop :=
  p_id_compra p = id /\ (0 < p_monto p)%Q
  /\ truthy (p_fecha_pago p) = true /\ truthy (p_metodo_pago p) = true.

(** One call per payment, in order. *)
Definition register_all (e : env) (ps : list pago_compra) (st : store) : store :=
  fold_left (fun st p => snd (registrar_pago_compra e (payment_request p) st)) ps st.

Definition estado_pago_of (id : Z) (st : store) : option string :=
  Compras (committed st) !! id ≫= c_estado_pago.

(** ** Receipts *)

(** The unit cost at which a line is received, in local currency: the
    cost of a line in '$' is multiplied by the rate, as numbers, and the
    store reads the text of the product. *)
Definition received_cost (rate : Q) (it : detalle_compra) : option Q :=
  if is_dollar (dc_moneda it)
  then number_text (number_mul (to_number (dc_costo_unitario it))
                               (to_number rate))
  else Some (dc_costo_unitario it).

(** What the receipt of one line item does to the tables: a line of no
    units does nothing, any other is merged into the row of its product in
    branch [b]. *)
Definition credit_item (div : Q -> Q -> Q) (b : Z) (rate : Q)
           (it : detalle_compra) (d : db) : db :=
  if dc_cantidad it <=? 0 then d
  else
    match received_cost rate it with
    | Some c =>
        with_Inventario d
          (<[(dc_id_producto it, b) :=
               received_row div (Inventario d !! (dc_id_producto it, b))
                            (dc_cantidad it) c]> (Inventario d))
    | None => d
    end.

Definition credit (div : Q -> Q -> Q) (b : Z) (rate : Q)
           (items : list detalle_compra) (d : db) : db :=
  fold_left (fun d it => credit_item div b rate it d) items d.

(** The lines whose cost in local currency is a number that the store
    can read as a decimal. *)
Definition receivable (rate : Q) (it : detalle_compra) : Prop :=
  0 < dc_cantidad it -> is_Some (received_cost rate it).

(** A purchase marked as received. *)
Definition confirmed (c : compra) : compra :=
  {| c_id_proveedor := c_id_proveedor c; c_id_sucursal := c_id_sucursal c;
     c_monto_total := c_monto_total c; c_estado := JStr "Confirmado";
     c_fecha_compra := c_fecha_compra c; c_tipo_cambio := c_tipo_cambio c;
     c_estado_pago := c_estado_pago c |}.

(** * Accepted requests: rows and quantities *)

(** The test of the first [if] of registrar-pago-compra. *)
Definition payment_invalid (body : json) : bool :=
  negb (truthy (field body "purchaseId"))
  || negb (is_number (field body "amount")) || le_zero (field body "amount")
  || negb (truthy (field body "paymentDate"))
  || negb (truthy (field body "method")).

(** The row a sale item adds to [Detalles_Venta]. *)
Definition sale_line (id : Z) (it : json) : option detalle_venta :=
  match bind_int (field it "id_producto"), bind_int (field it "cantidad"),
        bind_decimal (field it "precio_unitario") with
  | Some p, Some q, Some pr =>
      Some {| dv_id_venta := id; dv_id_producto := p; dv_cantidad := q;
              dv_precio_unitario := pr |}
  | _, _, _ => None
  end.

Definition sale_lines (id : Z) (items : list json) : list detalle_venta :=
  omap (sale_line id) items.

(** The store after the sale of [body] by branch [b] for the amount [m],
    the stock being [inv'] once the items are sold. *)
Definition sold (e : env) (body : json) (b : Z) (m : Q)
           (inv' : gmap (Z * Z) inventario) (st : store) : store :=
  {| committed :=
       {| Ventas := <[seq_ventas st :=
                        {| v_id_sucursal := b; v_monto_total := m;
                           v_fecha_venta := now e;
                           v_id_usuario := field body "id_usuario";
                           v_metodo_pago := field body "metodo_pago";
                           v_estado := "Completada" |}]> (Ventas (committed st));
          Detalles_Venta := Detalles_Venta (committed st)
                            ++ sale_lines (seq_ventas st) (items_of body);
          Inventario := inv';
          Productos := Productos (committed st);
          Compras := Compras (committed st);
          Detalles_Compra := Detalles_Compra (committed st);
          Pagos_Compra := Pagos_Compra (committed st) |};
     seq_ventas := seq_ventas st + 1;
     seq_compras := seq_compras st |}.

(** The quantity on hand of product [p] in branch [b]; no row, no stock. *)
Definition stock_of (inv : gmap (Z * Z) inventario) (p b : Z) : Z :=
  match inv !! (p, b) with Some r => cantidad r | None => 0 end.

(** The units of product [p] that a list of sale items asks for. *)
Definition units_sold (p : Z) (items : list json) : Z :=
  fold_right
    (fun it acc =>
       match bind_int (field it "id_producto"), bind_int (field it "cantidad") with
       | Some p', Some q => if p' =? p then q + acc else acc
       | _, _ => acc
       end) 0 items.

(** The units of product [p] that the lines of a purchase bring in; a
    line with a quantity of zero or less brings nothing. *)
Definition units_received (p : Z) (lines : list detalle_compra) : Z :=
  fold_right
    (fun x acc =>
       if (dc_id_producto x =? p) && (0 <? dc_cantidad x)
       then dc_cantidad x + acc else acc) 0 lines.

(** The row a purchase item adds to [Detalles_Compra]. *)
Definition purchase_line (moneda : option string) (id : Z) (it : json)
  : option detalle_compra :=
  match bind_int (field it "id_producto"), bind_int (field it "cantidad"),
        bind_decimal (field it "costo_unitario") with
  | Some p, Some q, Some c =>
      Some {| dc_id_compra := id; dc_id_producto := p; dc_cantidad := q;
              dc_costo_unitario := c; dc_moneda := moneda |}
  | _, _, _ => None
  end.

(** The units of product [p] that a list of purchase items brings. *)
Definition units_bought (p : Z) (items : list json) : Z :=
  fold_right
    (fun it acc =>
       match bind_int (field it "id_producto"), bind_int (field it "cantidad") with
       | Some p', Some q => if p' =? p then q + acc else acc
       | _, _ => acc
       end) 0 items.

(** Two states of the tables that differ in [Inventario] and in the
    lines of [Detalles_Compra] only. *)
Definition bought (b : Z) (items : list json) (lines : list detalle_compra)
           (w w' : db) : Prop :=
  Detalles_Compra w' = (Detalles_Compra w ++ lines)%list
  /\ (forall p, stock_of (Inventario w') p b
                = stock_of (Inventario w) p b + units_bought p items)
  /\ (forall p b', b' <> b -> Inventario w' !! (p, b') = Inventario w !! (p, b'))
  /\ Compras w' = Compras w /\ Pagos_Compra w' = Pagos_Compra w
  /\ Ventas w' = Ventas w /\ Detalles_Venta w' = Detalles_Venta w
  /\ Productos w' = Productos w.

(** The purchase header that a request inserts. *)
Definition purchase_header (e : env) (body : json) (b : Z) (m : Q) : compra :=
  {| c_id_proveedor := field body "id_proveedor"; c_id_sucursal := b;
     c_monto_total := m; c_estado := field body "estado";
     c_fecha_compra := now e; c_tipo_cambio := default_tipo_cambio e;
     c_estado_pago := default_estado_pago e |}.

(** ** More sample data *)

Module Sample.

(** Purchase 5 of branch 2 is pending and has no line items. *)
Definition bare : db :=
  {| Ventas := ∅; Detalles_Venta := [];
     Inventario := {[ (7, 2) := {| cantidad := 5; costo_promedio := 4%Q |} ]};
     Productos := {[ 7 := "Tornillo" ]};
     Compras := {[ 5 := {| c_id_proveedor := JStr "prov-1"; c_id_sucursal := 2;
                           c_monto_total := 0%Q; c_estado := JStr "Pendiente";
                           c_fecha_compra := 0; c_tipo_cambio := None;
                           c_estado_pago := None |} ]};
     Detalles_Compra := []; Pagos_Compra := [] |}.

Definition bare_books : store :=
  {| committed := bare; seq_ventas := 1; seq_compras := 6 |}.

End Sample.

(** * update-branch-prices

    The fifth handler on the connection pool.  It reads and writes one
    table, [Precios_Sucursal], which no other handler touches: the model
    keeps that table on its own, with the connection of the other handlers
    over it ([env] gives the pool and the failing round trips as before). *)

Declare Scope prices_scope.

Module Prices.

(** [Precios_Sucursal]: the sale price of a product in a branch that has
    one of its own, keyed by (id_producto, id_sucursal), the conflict
    target of the upsert. *)
Record db := { Precios_Sucursal : gmap (Z * Z) Q }.

(** What the repository does not say about the table and the driver. *)
Record schema := {
  (* the integers that a JavaScript array denotes once the driver has
     written it as text and the store has read it as an int[] (NULLs are
     left out: they match no row); None when the store refuses the text *)
  int4_array : list json -> option (list Z);
  (* the table's own constraints (foreign keys, checks) on a row; a row
     that breaks one is refused with an error of class 23 *)
  admissible : Z * Z -> Q -> bool }.

Record session := {
  srv : db; txn : option db; tick : nat; connected : bool }.

Definition M (A : Type) : Type := session -> result A * session.

Definition ret {A} (a : A) : M A := fun s => (Ok a, s).
Definition throw {A} (m : template) : M A := fun s => (Throw m, s).
Definition bind {A B} (m : M A) (k : A -> M B) : M B :=
  fun s => match m s with
           | (Ok a, s1) => k a s1
           | (Throw t, s1) => (Throw t, s1)
           end.

Notation "x <~ m ;; k" := (bind m (fun x => k))
  (at level 90, m at level 89, right associativity) : prices_scope.
Notation "m ;;; k" := (bind m (fun _ => k))
  (at level 90, right associativity) : prices_scope.
Local Open Scope prices_scope.

Fixpoint for_each {A} (f : A -> M unit) (l : list A) : M unit :=
  match l with
  | [] => ret tt
  | x :: l' => f x ;;; for_each f l'
  end.

Definition next (s : session) : session :=
  {| srv := srv s; txn := txn s; tick := S (tick s); connected := connected s |}.

Definition with_txn (s : session) (t : option db) : session :=
  {| srv := srv s; txn := t; tick := tick s; connected := connected s |}.

Definition with_srv (s : session) (t : db) : session :=
  {| srv := t; txn := txn s; tick := tick s; connected := connected s |}.

(** [v.k] *)
Definition prop (v : json) (k : string) : M json :=
  match v with
  | JUndefined | JNull => throw [TypeErrorText]
  | JObj fs => ret (assoc k fs)
  | _ => ret JUndefined
  end.

Section Handler.
Variable e : env.
Variable sc : schema.

Definition round_trip {A} (k : session -> result A * session) : M A :=
  fun s => match faults e (tick s) with
           | Some code => (Throw [Drv (Fault code)], next s)
           | None => k (next s)
           end.

(** [pool.connect()] *)
Definition connect : M unit :=
  round_trip (fun s =>
    (Ok tt, {| srv := srv s; txn := txn s; tick := tick s; connected := true |})).

(** [queryObject('BEGIN')] *)
Definition begin : M unit :=
  round_trip (fun s =>
    match txn s with
    | Some _ => (Ok tt, s)
    | None => (Ok tt, with_txn s (Some (srv s)))
    end).

(** [queryObject('COMMIT')] *)
Definition commit : M unit :=
  round_trip (fun s =>
    match txn s with
    | Some w => (Ok tt, with_txn (with_srv s w) None)
    | None => (Ok tt, s)
    end).

Definition exec {A} (q : db -> result (A * db)) : M A :=
  round_trip (fun s =>
    match txn s with
    | Some w =>
        match q w with
        | Ok (a, w') => (Ok a, with_txn s (Some w'))
        | Throw m => (Throw m, s)
        end
    | None =>
        match q (srv s) with
        | Ok (a, t') => (Ok a, with_srv s t')
        | Throw m => (Throw m, s)
        end
    end).

(** The [catch] block's ROLLBACK. *)
Definition rollback (s : session) : session :=
  match faults e (tick s) with
  | Some _ => next s
  | None => with_txn (next s) None
  end.

(** [try] / [catch] / [finally], answering 400 on an exception. *)
Definition handle (try_block : M response) (t : db) : response * db :=
  let s0 := {| srv := t; txn := None; tick := O; connected := false |} in
  match try_block s0 with
  | (Ok r, s1) => (r, srv s1)
  | (Throw m, s1) =>
      let s2 := if connected s1 then rollback s1 else s1 in
      ({| status := 400; body := ErrMsg m |}, srv s2)
  end.

(** DELETE FROM "Precios_Sucursal"
    WHERE "id_producto" = $1 AND "id_sucursal" = ANY($2::int[]) *)
Definition delete_precios (productId branchIdsToDelete : json) (t : db)
  : result (unit * db) :=
  match bind_int productId, int4_array sc (elements branchIdsToDelete) with
  | Some p, Some bs =>
      Ok (tt, {| Precios_Sucursal :=
                   foldr (fun b acc => delete (p, b) acc) (Precios_Sucursal t) bs |})
  | _, _ => invalid_parameter
  end.

(** INSERT INTO "Precios_Sucursal" (id_producto, id_sucursal, precio_venta)
    VALUES ($1, $2, $3)
    ON CONFLICT (id_producto, id_sucursal)
    DO UPDATE SET precio_venta = EXCLUDED.precio_venta *)
Definition upsert_precio (productId id_sucursal precio_venta : json) (t : db)
  : result (unit * db) :=
  match bind_int productId, bind_int id_sucursal, bind_decimal precio_venta with
  | Some p, Some b, Some v =>
      if admissible sc (p, b) v
      then Ok (tt, {| Precios_Sucursal := <[(p, b) := v]> (Precios_Sucursal t) |})
      else Throw [Drv (Fault 23)]
  | _, _, _ => invalid_parameter
  end.

Definition datos_invalidos : template :=
  [Txt "Datos inválidos: se requieren productId, recordsToUpsert y branchIdsToDelete."].

Definition registro_invalido : template :=
  [Txt "Registro para upsert con formato inválido."].

(** The body of [for (const record of recordsToUpsert)]. *)
Definition upsert_record (productId record : json) : M unit :=
  id_sucursal <~ prop record "id_sucursal" ;;
  precio_venta <~ prop record "precio_venta" ;;
  if negb (is_number id_sucursal) || negb (is_number precio_venta)
  then throw registro_invalido
  else exec (upsert_precio productId id_sucursal precio_venta).

Definition update_branch_prices_try (body : json) : M response :=
  productId <~ prop body "productId" ;;
  recordsToUpsert <~ prop body "recordsToUpsert" ;;
  branchIdsToDelete <~ prop body "branchIdsToDelete" ;;
  if negb (is_number productId) || negb (isArray recordsToUpsert)
     || negb (isArray branchIdsToDelete)
  then throw datos_invalidos
  else
    connect ;;;
    begin ;;;
    (if (0 <? length (elements branchIdsToDelete))%nat
     then exec (delete_precios productId branchIdsToDelete)
     else ret tt) ;;;
    (if (0 <? length (elements recordsToUpsert))%nat
     then for_each (upsert_record productId) (elements recordsToUpsert)
     else ret tt) ;;;
    commit ;;;
    ret {| status := 200;
           body := SuccessMsg "Precios actualizados correctamente." |}.

Definition update_branch_prices (req : request) (t : db)
  : response * db :=
  if String.eqb (method req) "OPTIONS"
  then ({| status := 200; body := PlainOk |}, t)
  else if negb (pool e)
  then ({| status := 500; body := ErrMsg config_error_short |}, t)
  else handle (update_branch_prices_try (json_body req)) t.
End Handler.

End Prices.

(** The record of a price to upsert, as the statement reads it. *)
Definition price_record (record : json) : option (Z * Q) :=
  match bind_int (field record "id_sucursal"),
        bind_decimal (field record "precio_venta") with
  | Some b, Some v => Some (b, v)
  | _, _ => None
  end.

(** The price that the last record for branch [b] carries, if any. *)
Fixpoint last_price (b : Z) (records : list json) : option Q :=
  match records with
  | [] => None
  | record :: rest =>
      match last_price b rest with
      | Some v => Some v
      | None =>
          match price_record record with
          | Some (b', v) => if b' =? b then Some v else None
          | None => None
          end
      end
  end.

(** The table after a call for product [p] that deletes the prices of the
    branches [bs] and then upserts [records]. *)
Definition repriced (p : Z) (bs : list Z) (records : list json)
           (t : gmap (Z * Z) Q) (k : Z * Z) : option Q :=
  if decide (k.1 = p)
  then match last_price k.2 records with
       | Some v => Some v
       | None => if decide (k.2 ∈ bs) then None else t !! k
       end
  else t !! k.

(** The test of the handler's first [if]. *)
Definition prices_invalid (body : json) : bool :=
  negb (is_number (field body "productId"))
  || negb (isArray (field body "recordsToUpsert"))
  || negb (isArray (field body "branchIdsToDelete")).

(** The test at the top of the loop body. *)
Definition price_record_invalid (record : json) : bool :=
  is_nullish record
  || negb (is_number (field record "id_sucursal"))
  || negb (is_number (field record "precio_venta")).

(** A record that the loop accepts and the table admits. *)
Definition price_record_good (sc : Prices.schema) (p : Z) (record : json) : Prop :=
  price_record_invalid record = false
  /\ exists b v, price_record record = Some (b, v)
                 /\ Prices.admissible sc (p, b) v = true.

(** The [try] block of a call, from a fresh connection. *)
Definition prices_start (t : Prices.db) : Prices.session :=
  {| Prices.srv := t; Prices.txn := None; Prices.tick := O;
     Prices.connected := false |}.

(** While the [try] block runs, before BEGIN: the committed table is
    [t0]. *)
Definition prices_idle (t0 : Prices.db) (s : Prices.session) : Prop :=
  Prices.srv s = t0.

(** After BEGIN: the committed table is [t0] and a transaction is open. *)
Definition prices_in_txn (t0 : Prices.db) (s : Prices.session) : Prop :=
  Prices.srv s = t0 /\ Prices.txn s <> None.

Module PricesEx.

(** A driver and a table that take whole numbers and nothing else, and a
    table without further constraints. *)
Definition strict : Prices.schema :=
  {| Prices.int4_array := fun l => mapM bind_int l;
     Prices.admissible := fun _ _ => true |}.

(** Branch 2 sells product 7 at 12 and product 8 at 9; branch 3 sells
    product 7 at 15. *)
Definition list_ : Prices.db :=
  {| Prices.Precios_Sucursal :=
       {[ (7, 2) := 12%Q; (7, 3) := 15%Q; (8, 2) := 9%Q ]} |}.

Definition record (b : Z) (v : Q) : json :=
  JObj [("id_sucursal", num_of_Z b); ("precio_venta", JNum v)].

Definition update (p : json) (records : list json) (ids : list json) : request :=
  Ex.post (JObj [("productId", p); ("recordsToUpsert", JArr records);
                 ("branchIdsToDelete", JArr ids)]).

End PricesEx.

(** * A purchase created, then received *)

(** The request of the purchase page's button that receives the stock of
    purchase [id]: [{ purchase_id: purchase.id }]. *)
Definition receipt_request (id : Z) : request :=
  {| method := "POST"; json_body := JObj [("purchase_id", num_of_Z id)] |}.

(** * The user-administration handlers

    update-user-password and create-user work through the Supabase admin
    client.  What the client's calls answer is not the handlers' to decide:
    the model reads it from a [service], and records the calls made. *)

Module Admin.

(** ** Strings, as JavaScript measures and searches them *)

(** The model's strings hold text in UTF-8, as Rocq writes it.
    [s.length] counts UTF-16 code units: one for each character of one,
    two or three bytes, two for a character of four. *)
Definition code_units (c : ascii) : nat :=
  let n := nat_of_ascii c in
  if (n <? 128)%nat then 1%nat
  else if (n <? 192)%nat then 0%nat
  else if (n <? 240)%nat then 1%nat
  else 2%nat.

Fixpoint js_length (s : string) : nat :=
  match s with
  | EmptyString => 0%nat
  | String c s' => (code_units c + js_length s')%nat
  end.

(** [s.includes(t)] *)
Fixpoint includes (s t : string) : bool :=
  String.prefix t s
  || match s with
     | EmptyString => false
     | String _ s' => includes s' t
     end.

(** [v.length < 6], for a truthy [v].  A string and an array have their
    own length; a number and [true] have none, and [undefined < 6] is
    false; an object has the [length] it was given, if any, which is
    compared as a number.  [to_number] stands for the conversion of a
    string, an array or an object to a number, which the model leaves
    open ([None] for NaN). *)
Definition less_than_6 (to_number : json -> option Q) (v : json) : bool :=
  match v with
  | JUndefined => false
  | JNull => true
  | JBool _ => true
  | JNum q => negb (Qle_bool 6 q)
  | JStr _ | JArr _ | JObj _ =>
      match to_number v with
      | Some q => negb (Qle_bool 6 q)
      | None => false
      end
  end.

Definition length_below_6 (to_number : json -> option Q) (v : json) : bool :=
  match v with
  | JStr s => (js_length s <? 6)%nat
  | JArr xs => (length xs <? 6)%nat
  | JObj fs => less_than_6 to_number (assoc "length" fs)
  | _ => false
  end.

(** ** The admin client *)

(** A call returns or throws. *)
Inductive outcome (A : Type) : Type :=
| Returned (a : A)
| Raised (message : string).
Arguments Returned {A} a.
Arguments Raised {A} message.

(** [{ data: { user }, error }]; of [error] only the message is read. *)
Record auth_reply := { user : json; auth_error : option string }.

Inductive call :=
| UpdateUserById (userId password : json)
| CreateUser (email password nombre : json)
| InsertUsuario (id nombre email rol id_sucursal : json)
| DeleteUser (id : json).

Record service := {
  (* createClient(...): [Some m] when it throws (no URL, no key) *)
  createClient : option string;
  updateUserById : json -> json -> outcome auth_reply;
  createUser : json -> json -> json -> outcome auth_reply;
  (* from('Usuarios').insert(...): the [error], if any *)
  insertUsuario : json -> json -> json -> json -> json -> outcome (option string);
  deleteUser : json -> outcome unit }.

(** A response: a status and a JSON body, or the text 'ok'.  A property
    that is [undefined] is left out when the body is written. *)
Inductive reply_body :=
| Plain
| Json (fields : list (string * json))
| Msg (m : template).

Record reply := { code : Z; content : reply_body }.

(** The handlers run against the trace of the calls made so far. *)
Definition H (A : Type) : Type := list call -> result A * list call.

Definition ret {A} (a : A) : H A := fun tr => (Ok a, tr).
Definition throw {A} (m : template) : H A := fun tr => (Throw m, tr).
Definition bind {A B} (m : H A) (k : A -> H B) : H B :=
  fun tr => match m tr with
            | (Ok a, tr1) => k a tr1
            | (Throw t, tr1) => (Throw t, tr1)
            end.

Declare Scope admin_scope.
Notation "x <~ m ;; k" := (bind m (fun x => k))
  (at level 90, m at level 89, right associativity) : admin_scope.
Notation "m ;;; k" := (bind m (fun _ => k))
  (at level 90, right associativity) : admin_scope.
Local Open Scope admin_scope.

(** [await client.op(...)]: the call is recorded, whatever it answers. *)
Definition await {A} (c : call) (o : outcome A) : H A :=
  fun tr => match o with
            | Returned a => (Ok a, (tr ++ [c])%list)
            | Raised m => (Throw [Txt m], (tr ++ [c])%list)
            end.

(** [v.k] *)
Definition prop (v : json) (k : string) : H json :=
  match v with
  | JUndefined | JNull => throw [TypeErrorText]
  | JObj fs => ret (assoc k fs)
  | _ => ret JUndefined
  end.

(** [createClient(...)] *)
Definition client (sv : service) : H unit :=
  match createClient sv with
  | Some m => throw [Txt m]
  | None => ret tt
  end.

(** The one [catch] of each handler: 400 and the message. *)
Definition handle (try_block : H reply) : reply * list call :=
  match try_block [] with
  | (Ok r, tr) => (r, tr)
  | (Throw m, tr) => ({| code := 400; content := Msg m |}, tr)
  end.

(** ** update-user-password *)

Definition faltan_campos_password : template :=
  [Txt "Faltan campos obligatorios: userId y newPassword son requeridos."].

Definition nueva_contrasena_corta : template :=
  [Txt "La nueva contraseña debe tener al menos 6 caracteres."].

Definition contrasena_corta : template :=
  [Txt "La contraseña debe tener al menos 6 caracteres."].

Definition usuario_no_encontrado : template :=
  [Txt "El usuario especificado no fue encontrado."].

Definition no_se_pudo_actualizar : template :=
  [Txt "No se pudo actualizar el usuario."].

Section Handlers.
Variable sv : service.
Variable to_number : json -> option Q.

Definition update_user_password_try (body : json) : H reply :=
  userId <~ prop body "userId" ;;
  newPassword <~ prop body "newPassword" ;;
  if negb (truthy userId) || negb (truthy newPassword)
  then throw faltan_campos_password
  else if length_below_6 to_number newPassword
  then throw nueva_contrasena_corta
  else
    client sv ;;;
    r <~ await (UpdateUserById userId newPassword)
               (updateUserById sv userId newPassword) ;;
    match auth_error r with
    | Some message =>
        if includes message "Password should be at least 6 characters"
        then throw contrasena_corta
        else if includes message "User not found"
        then throw usuario_no_encontrado
        else throw [Txt message]
    | None =>
        if negb (truthy (user r))
        then throw no_se_pudo_actualizar
        else ret {| code := 200;
                    content := Json [("success", JBool true);
                                     ("userId", field (user r) "id")] |}
    end.

Definition update_user_password (req : request) : reply * list call :=
  if String.eqb (method req) "OPTIONS"
  then ({| code := 200; content := Plain |}, [])
  else handle (update_user_password_try (json_body req)).

(** ** create-user *)

Definition faltan_campos_usuario : template :=
  [Txt "Faltan campos obligatorios: email, password, nombre y rol son requeridos."].

Definition correo_registrado : template :=
  [Txt "Este correo electrónico ya está registrado."].

Definition sin_usuario : template :=
  [Txt "La creación del usuario en Auth falló y no devolvió un usuario."].

Definition create_user_try (body : json) : H reply :=
  email <~ prop body "email" ;;
  password <~ prop body "password" ;;
  nombre <~ prop body "nombre" ;;
  rol <~ prop body "rol" ;;
  id_sucursal <~ prop body "id_sucursal" ;;
  if negb (truthy email) || negb (truthy password) || negb (truthy nombre)
     || negb (truthy rol)
  then throw faltan_campos_usuario
  else
    client sv ;;;
    r <~ await (CreateUser email password nombre)
               (createUser sv email password nombre) ;;
    match auth_error r with
    | Some message =>
        if includes message "already registered"
        then throw correo_registrado
        else if includes message "Password should be at least 6 characters"
        then throw contrasena_corta
        else throw [Txt message]
    | None =>
        let newUser := user r in
        if negb (truthy newUser)
        then throw sin_usuario
        else
          id <~ prop newUser "id" ;;
          profileError <~ await (InsertUsuario id nombre email rol id_sucursal)
                                (insertUsuario sv id nombre email rol id_sucursal) ;;
          match profileError with
          | Some message =>
              await (DeleteUser id) (deleteUser sv id) ;;;
              throw [Txt message]
          | None =>
              ret {| code := 200;
                     content := Json [("success", JBool true); ("userId", id)] |}
          end
    end.

Definition create_user (req : request) : reply * list call :=
  if String.eqb (method req) "OPTIONS"
  then ({| code := 200; content := Plain |}, [])
  else handle (create_user_try (json_body req)).
End Handlers.

End Admin.

(** Sample services and requests. *)
Module AdminEx.

(** No string, array or object converts to a number. *)
Definition to_number (v : json) : option Q := None.

Definition u9 : Admin.auth_reply :=
  {| Admin.user := JObj [("id", JStr "u-9")]; Admin.auth_error := None |}.

(** A service that grants everything, and names its user u-9. *)
Definition ready : Admin.service :=
  {| Admin.createClient := None;
     Admin.updateUserById := fun _ _ => Admin.Returned u9;
     Admin.createUser := fun _ _ _ => Admin.Returned u9;
     Admin.insertUsuario := fun _ _ _ _ _ => Admin.Returned None;
     Admin.deleteUser := fun _ => Admin.Returned tt |}.

(** The same, but 'Usuarios' refuses the profile. *)
Definition taken : Admin.service :=
  {| Admin.createClient := None;
     Admin.updateUserById := fun _ _ => Admin.Returned u9;
     Admin.createUser := fun _ _ _ => Admin.Returned u9;
     Admin.insertUsuario := fun _ _ _ _ _ => Admin.Returned (Some "duplicate key");
     Admin.deleteUser := fun _ => Admin.Returned tt |}.

(** A service that knows no user. *)
Definition unknown : Admin.service :=
  {| Admin.createClient := None;
     Admin.updateUserById := fun _ _ =>
       Admin.Returned {| Admin.user := JNull;
                         Admin.auth_error := Some "User not found" |};
     Admin.createUser := fun _ _ _ => Admin.Returned u9;
     Admin.insertUsuario := fun _ _ _ _ _ => Admin.Returned None;
     Admin.deleteUser := fun _ => Admin.Returned tt |}.

Definition password (userId newPassword : string) : request :=
  {| method := "POST";
     json_body := JObj [("userId", JStr userId);
                        ("newPassword", JStr newPassword)] |}.

Definition new_user : request :=
  {| method := "POST";
     json_body := JObj [("email", JStr "ana@example.com");
                        ("password", JStr "secreto");
                        ("nombre", JStr "Ana"); ("rol", JStr "Empleado");
                        ("id_sucursal", num_of_Z 2)] |}.

End AdminEx.

(** The one call update-user-password can make. *)
Definition password_call (body : json) : Admin.call :=
  Admin.UpdateUserById (field body "userId") (field body "newPassword").

(** The two calls of create-user that create, and the state of the
    service in which the first of them has created the auth user [id]. *)
Definition create_call (body : json) : Admin.call :=
  Admin.CreateUser (field body "email") (field body "password")
                   (field body "nombre").

Definition profile_call (body id : json) : Admin.call :=
  Admin.InsertUsuario id (field body "nombre") (field body "email")
                      (field body "rol") (field body "id_sucursal").

Definition profile_answer (sv : Admin.service) (body id : json)
  : Admin.outcome (option string) :=
  Admin.insertUsuario sv id (field body "nombre") (field body "email")
                      (field body "rol") (field body "id_sucursal").

Definition auth_user_created (sv : Admin.service) (body id : json) : Prop :=
  is_nullish body = false
  /\ truthy (field body "email") = true /\ truthy (field body "password") = true
  /\ truthy (field body "nombre") = true /\ truthy (field body "rol") = true
  /\ Admin.createClient sv = None
  /\ exists reply,
       Admin.createUser sv (field body "email") (field body "password")
                        (field body "nombre") = Admin.Returned reply
       /\ Admin.auth_error reply = None /\ truthy (Admin.user reply) = true
       /\ field (Admin.user reply) "id" = id.

(** * The pages that call the handlers *)

(** ** Values of the pages *)

(** [JSON.stringify] writes NaN and the infinities as [null]. *)
Definition stringify_number (n : number) : json :=
  match n with Finite q => JNum q | _ => JNull end.

(** [isNaN(n)], [n <= 0] *)
Definition isNaN (n : number) : bool :=
  match n with NaN => true | _ => false end.

Definition number_le_zero (n : number) : bool :=
  match n with
  | Finite q => Qle_bool q 0
  | MinusInfinity => true
  | NaN | PlusInfinity => false
  end.

(** [n >= 0] *)
Definition number_ge_zero (n : number) : bool :=
  match n with
  | Finite q => Qle_bool 0 q
  | PlusInfinity => true
  | NaN | MinusInfinity => false
  end.

(** A value of type [number | null | undefined] that holds an id. *)
Inductive maybe_number := Undefined | Null | Number (n : Z).

(** [a === b] *)
Definition strict_eq (a b : maybe_number) : bool :=
  match a, b with
  | Undefined, Undefined => true
  | Null, Null => true
  | Number n, Number m => n =? m
  | _, _ => false
  end.

(** [!a] *)
Definition not_number (a : maybe_number) : bool :=
  match a with Number n => n =? 0 | _ => true end.

Definition stringify_maybe (a : maybe_number) : json :=
  match a with
  | Number n => num_of_Z n
  | Null => JNull
  | Undefined => JUndefined
  end.

(** [AppUser], as far as the pages below read it.  A role that is [null]
    compares as a text that names no role. *)
Module User.
Record AppUser := {
  id : string;
  nombre : string;
  rol : string;
  id_Sucursal : maybe_number }.
End User.

(** [PaymentMethod] *)
Inductive PaymentMethod := Efectivo | Transferencia | Tarjeta | QR | Otro.

Definition method_text (m : PaymentMethod) : string :=
  match m with
  | Efectivo => "Efectivo"
  | Transferencia => "Transferencia"
  | Tarjeta => "Tarjeta de Débito/Crédito"
  | QR => "QR"
  | Otro => "Otro"
  end.

(** ** The point of sale

    TerminalVentaPage keeps the cart; SalePaymentModal sends it to
    create-sale. *)

Module Pos.

(** A product of the catalogue, with the stock of the user's branch as it
    was when the page loaded it; the fields that the cart does not read
    are carried along and left out here. *)
Record product := {
  id : Z;
  nombre : string;
  stock : Z;
  precio_base : json;
  costo_promedio : json }.

(** A line of the cart: the product it was made from, spread, with a
    quantity and a unit price. *)
Record item := {
  of_product : product;
  cantidad : Z;
  precio_unitario : json }.

(** [{ ...item, cantidad: q }] *)
Definition with_cantidad (it : item) (q : Z) : item :=
  {| of_product := of_product it; cantidad := q;
     precio_unitario := precio_unitario it |}.

(** The two toasts of the cart: no stock left for the product named, with
    the units available; more asked than the units available. *)
Inductive toast :=
| StockInsuficiente (nombre : string) (disponible : Z)
| MaximoDisponible (disponible : Z).

(** [item.id === productId] *)
Definition is_item (productId : Z) (it : item) : bool :=
  id (of_product it) =? productId.

(** Each function answers the next cart and the toast it shows. *)
Definition addToCart (cart : list item) (product : product)
  : list item * option toast :=
  let existingCartItem := List.find (is_item (id product)) cart in
  let currentQtyInCart :=
    match existingCartItem with Some it => cantidad it | None => 0 end in
  if stock product <? currentQtyInCart + 1
  then (cart, Some (StockInsuficiente (nombre product) (stock product)))
  else
    match existingCartItem with
    | Some _ =>
        (List.map (fun it => if is_item (id product) it
                             then with_cantidad it (cantidad it + 1) else it)
                  cart, None)
    | None =>
        ((cart ++ [ {| of_product := product; cantidad := 1;
                       precio_unitario := precio_base product |} ])%list, None)
    end.

Definition removeFromCart (cart : list item) (productId : Z) : list item :=
  List.filter (fun it => negb (is_item productId it)) cart.

Definition updateCartQuantity (products : list product) (cart : list item)
           (productId newQuantity : Z) : list item * option toast :=
  match List.find (fun p => id p =? productId) products with
  | None => (cart, None)
  | Some productInCatalog =>
      let over := stock productInCatalog <? newQuantity in
      let newQuantity := if over then stock productInCatalog else newQuantity in
      let toasted :=
        if over then Some (MaximoDisponible (stock productInCatalog)) else None in
      if newQuantity <=? 0
      then (removeFromCart cart productId, toasted)
      else (List.map (fun it => if is_item productId it
                                then with_cantidad it newQuantity else it)
                     cart, toasted)
  end.

(** What the user does with the cart: a click on a product card, a
    quantity set from a line of the cart (its buttons and its field give
    integers), a line removed.  The page is rendered anew after each of
    them: an action finds the cart that the one before it left. *)
Inductive action :=
| Add (p : product)
| SetQuantity (productId newQuantity : Z)
| Remove (productId : Z).

Definition step (products : list product) (cart : list item) (a : action)
  : list item :=
  match a with
  | Add p => fst (addToCart cart p)
  | SetQuantity productId newQuantity =>
      fst (updateCartQuantity products cart productId newQuantity)
  | Remove productId => removeFromCart cart productId
  end.

(** The cart after a run of actions, from the empty cart of a new page. *)
Definition cart_after (products : list product) (actions : list action)
  : list item :=
  fold_left (step products) actions [].

(** The cards shown are those of the catalogue. *)
Definition shown (products : list product) (a : action) : Prop :=
  match a with Add p => In p products | _ => True end.

(** The units of product [p] in a cart. *)
Definition units_in_cart (p : Z) (cart : list item) : Z :=
  fold_right (fun it acc => if is_item p it then cantidad it + acc else acc)
             0 cart.

(** A cart within the catalogue: one line per product, each for a product
    of the catalogue at its base price, and for at least one unit and at
    most the stock the catalogue shows. *)
Definition within_stock (products : list product) (cart : list item) : Prop :=
  NoDup (List.map (fun it => id (of_product it)) cart)
  /\ Forall (fun it => In (of_product it) products
                       /\ 1 <= cantidad it <= stock (of_product it)
                       /\ precio_unitario it = precio_base (of_product it))
            cart.

(** The sale modal: [items] of the payload. *)
Definition item_payload (it : item) : json :=
  JObj [("id_producto", num_of_Z (id (of_product it)));
        ("cantidad", num_of_Z (cantidad it));
        ("precio_unitario", precio_unitario it)].

Definition salePayload (profile : User.AppUser) (total : number)
           (selectedMethod : PaymentMethod) (cart : list item) : json :=
  JObj [("id_sucursal", stringify_maybe (User.id_Sucursal profile));
        ("id_usuario", JStr (User.id profile));
        ("monto_total", stringify_number total);
        ("metodo_pago", JStr (method_text selectedMethod));
        ("items", JArr (List.map item_payload cart))].

(** [handleFinalizeSale], up to the request it sends to create-sale, if
    any. *)
Definition handleFinalizeSale (profile : option User.AppUser) (total : number)
           (selectedMethod : PaymentMethod) (cart : list item) : option request :=
  match profile with
  | None => None
  | Some profile =>
      if not_number (User.id_Sucursal profile)
         || String.eqb (User.id profile) ""
      then None
      else Some {| method := "POST";
                   json_body := salePayload profile total selectedMethod cart |}
  end.

End Pos.

(** Sample catalogue: product 7 as branch 2 holds it in [Ex.shop]. *)
Module PosEx.

Definition tornillo : Pos.product :=
  {| Pos.id := 7; Pos.nombre := "Tornillo"; Pos.stock := 5;
     Pos.precio_base := JNum 10; Pos.costo_promedio := JNum 4 |}.

Definition cashier : User.AppUser :=
  {| User.id := "u-1"; User.nombre := "Ana"; User.rol := "Empleado";
     User.id_Sucursal := Number 2 |}.

End PosEx.

(** ** The users page: who may edit and deactivate whom

    UsersPage shows the edit and the deactivate button of a user under
    these two tests. *)

Module Users.
Section Page.
Variable profile : option User.AppUser.

(** [profile?.rol === r] *)
Definition has_rol (r : string) : bool :=
  match profile with
  | Some p => String.eqb (User.rol p) r
  | None => false
  end.

Definition isOwner : bool := has_rol "Propietario".
Definition isAdministrator : bool := has_rol "Administrador".
Definition isEmployee : bool := has_rol "Empleado".

Definition canEditUser (userToEdit : User.AppUser) : bool :=
  match profile with
  | None => false
  | Some profile =>
      if isOwner then true
      else if isAdministrator
      then negb (String.eqb (User.rol userToEdit) "Propietario")
           && strict_eq (User.id_Sucursal userToEdit) (User.id_Sucursal profile)
      else if isEmployee
      then String.eqb (User.id userToEdit) (User.id profile)
      else false
  end.

Definition canDeleteUser (userToDelete : User.AppUser) : bool :=
  match profile with
  | None => false
  | Some profile =>
      if String.eqb (User.id userToDelete) (User.id profile) then false
      else if isOwner
      then negb (String.eqb (User.rol userToDelete) "Propietario")
      else if isAdministrator
      then negb (String.eqb (User.rol userToDelete) "Propietario")
           && strict_eq (User.id_Sucursal userToDelete)
                        (User.id_Sucursal profile)
      else false
  end.
End Page.
End Users.

(** ** The payments modal

    PaymentsModal registers a payment on the purchase it was opened
    for. *)

Module Payments.

(** What the form does on submit: a toast, or the request it sends to
    registrar-pago-compra. *)
Inductive submitted :=
| Toast (message : string)
| Sent (req : request).

(** [handleAddPayment], up to the request; [paymentAmount] is
    [parseFloat(amount)]. *)
Definition handleAddPayment (purchase_id : Z) (paymentAmount : number)
           (paymentDate : string) (method_ : PaymentMethod) (notes : string)
  : submitted :=
  if isNaN paymentAmount || number_le_zero paymentAmount
  then Toast "El monto del pago debe ser mayor a cero."
  else if String.eqb paymentDate "" || String.eqb (method_text method_) ""
  then Toast "Por favor complete la fecha y el método de pago."
  else Sent {| method := "POST";
               json_body :=
                 JObj [("purchaseId", num_of_Z purchase_id);
                       ("amount", stringify_number paymentAmount);
                       ("paymentDate", JStr paymentDate);
                       ("method", JStr (method_text method_));
                       ("notes", if String.eqb notes "" then JNull
                                 else JStr notes)] |}.

(** The row of [Pagos_Compra] that the form describes. *)
Definition payment_row (purchase_id : Z) (amount : Q) (paymentDate : string)
           (method_ : PaymentMethod) (notes : string) : pago_compra :=
  {| p_id_compra := purchase_id; p_monto := amount;
     p_fecha_pago := JStr paymentDate;
     p_metodo_pago := JStr (method_text method_);
     p_notas := if String.eqb notes "" then JNull else JStr notes |}.

End Payments.

Module UsersEx.

Definition owner : User.AppUser :=
  {| User.id := "u-0"; User.nombre := "Olga"; User.rol := "Propietario";
     User.id_Sucursal := Number 1 |}.

Definition manager : User.AppUser :=
  {| User.id := "u-2"; User.nombre := "Luis"; User.rol := "Administrador";
     User.id_Sucursal := Number 2 |}.

End UsersEx.

(** ** The product page: prices by branch

    ProductDetailPage holds one text field per branch and sends what has
    changed to update-branch-prices. *)

Module ProductPage.

(** [BranchPrice], for the product of the page. *)
Record BranchPrice := { id_sucursal : Z; precio_venta : Q }.

(** What the save button does: nothing without a product, a toast when
    nothing has changed, or the request it sends to
    update-branch-prices. *)
Inductive saved :=
| NoProduct
| NoChanges
| Sent (req : request).

Section Page.
(** [parseFloat] and [String.prototype.trim] *)
Variable parseFloat : string -> number.
Variable trim : string -> string.
(** the prices the page has loaded, and the text of each branch's field *)
Variable branchPrices : list BranchPrice.
Variable editableBranchPrices : gmap Z string.

(** [new Map(branchPrices.map(p => [p.id_sucursal, p.precio_venta]))]:
    of two prices for a branch the later one stays. *)
Definition originalPricesMap : gmap Z Q :=
  fold_left (fun m p => <[id_sucursal p := precio_venta p]> m) branchPrices ∅.

(** [newPriceNum !== originalPricesMap.get(branchId)] *)
Definition differs (newPriceNum : number) (original : option Q) : bool :=
  match newPriceNum, original with
  | Finite q, Some q' => negb (Qeq_bool q q')
  | _, _ => true
  end.

(** [originalPricesMap.has(branchId)] *)
Definition has (branchId : Z) : bool :=
  match originalPricesMap !! branchId with Some _ => true | None => false end.

(** The body of [allBranches.forEach]; of a branch only the id is read. *)
Definition visit (acc : list (Z * number) * list Z) (branchId : Z)
  : list (Z * number) * list Z :=
  let '(recordsToUpsert, branchIdsToDelete) := acc in
  let cleared :=
    if has branchId
    then (recordsToUpsert, (branchIdsToDelete ++ [branchId])%list)
    else acc in
  match editableBranchPrices !! branchId with
  | Some newPriceStr =>
      if negb (String.eqb (trim newPriceStr) "")
      then
        let newPriceNum := parseFloat newPriceStr in
        if negb (isNaN newPriceNum) && number_ge_zero newPriceNum
        then
          if differs newPriceNum (originalPricesMap !! branchId)
          then ((recordsToUpsert ++ [(branchId, newPriceNum)])%list,
                branchIdsToDelete)
          else acc
        else acc
      else cleared
  | None => cleared
  end.

Definition record_payload (r : Z * number) : json :=
  JObj [("id_sucursal", num_of_Z (fst r));
        ("precio_venta", stringify_number (snd r))].

(** [handleSaveBranchPrices], up to the request; of the product only the
    id is read. *)
Definition handleSaveBranchPrices (product : option Z) (allBranches : list Z)
  : saved :=
  match product with
  | None => NoProduct
  | Some product_id =>
      let '(recordsToUpsert, branchIdsToDelete) :=
        fold_left visit allBranches ([], []) in
      if (length recordsToUpsert =? 0)%nat && (length branchIdsToDelete =? 0)%nat
      then NoChanges
      else Sent {| method := "POST";
                   json_body :=
                     JObj [("productId", num_of_Z product_id);
                           ("recordsToUpsert",
                            JArr (List.map record_payload recordsToUpsert));
                           ("branchIdsToDelete",
                            JArr (List.map num_of_Z branchIdsToDelete))] |}
  end.

(** What the field of a branch holds: nothing, a price, or a text that is
    no price (not a number, or a negative one). *)
Inductive entry := Blank | Price (q : Q) | Unusable.

Definition entered (branchId : Z) : entry :=
  match editableBranchPrices !! branchId with
  | Some newPriceStr =>
      if String.eqb (trim newPriceStr) "" then Blank
      else match parseFloat newPriceStr with
           | Finite q => if Qle_bool 0 q then Price q else Unusable
           | _ => Unusable
           end
  | None => Blank
  end.

(** No field reads as Infinity. *)
Definition finite_entries (allBranches : list Z) : Prop :=
  forall b s, In b allBranches -> editableBranchPrices !! b = Some s ->
              negb (String.eqb (trim s) "") = true ->
              parseFloat s <> PlusInfinity.

(** What [visit] decides for a branch. *)
Inductive decision := Upsert (n : number) | Delete | Keep.

Definition decided (branchId : Z) : decision :=
  match editableBranchPrices !! branchId with
  | Some newPriceStr =>
      if negb (String.eqb (trim newPriceStr) "")
      then
        let newPriceNum := parseFloat newPriceStr in
        if negb (isNaN newPriceNum) && number_ge_zero newPriceNum
        then if differs newPriceNum (originalPricesMap !! branchId)
             then Upsert newPriceNum else Keep
        else Keep
      else if has branchId then Delete else Keep
  | None => if has branchId then Delete else Keep
  end.

Definition upserts (l : list Z) : list (Z * number) :=
  omap (fun b => match decided b with Upsert n => Some (b, n) | _ => None end) l.

Definition deletes (l : list Z) : list Z :=
  omap (fun b => match decided b with Delete => Some b | _ => None end) l.
End Page.

End ProductPage.

(** Sample page: branch 2 sells at 12, branch 3 at 15; the field of branch
    2 now reads 13.5 and that of branch 3 is empty. *)
Module PageEx.

Definition parseFloat (s : string) : number :=
  if String.eqb s "13.5" then Finite 13.5 else NaN.

Definition trim (s : string) : string := s.

Definition branchPrices : list ProductPage.BranchPrice :=
  [ {| ProductPage.id_sucursal := 2; ProductPage.precio_venta := 12 |};
    {| ProductPage.id_sucursal := 3; ProductPage.precio_venta := 15 |} ].

Definition fields : gmap Z string := {[ 2 := "13.5"; 3 := "" ]}.

End PageEx.

(** * Proofs *)

(** ** Rules for the triples *)

Lemma hoare_ret {A} (P : session -> Prop) (a : A) Q :
  (forall s, P s -> Q (Ok a) s) -> hoare P (ret a) Q.
Proof. intros H s Hs. apply H, Hs. Qed.

Lemma hoare_throw {A} (P : session -> Prop) (t : template)
      (Q : result A -> session -> Prop) :
  (forall s, P s -> Q (Throw t) s) -> hoare P (throw t) Q.
Proof. intros H s Hs. apply H, Hs. Qed.

Lemma hoare_bind {A B} (P : session -> Prop) (R : A -> session -> Prop)
      (m : M A) (k : A -> M B) (Q : result B -> session -> Prop) :
  hoare P m (post R (fun t s => Q (Throw t) s)) ->
  (forall a, hoare (R a) (k a) Q) ->
  hoare P (bind m k) Q.
Proof.
  intros Hm Hk s Hs. specialize (Hm s Hs). unfold bind.
  destruct (m s) as [[a | t] s1]; simpl in *.
  - apply Hk, Hm.
  - exact Hm.
Qed.

Lemma hoare_conseq {A} (P P' : session -> Prop) (m : M A)
      (Q Q' : result A -> session -> Prop) :
  hoare P' m Q' ->
  (forall s, P s -> P' s) ->
  (forall r s, Q' r s -> Q r s) ->
  hoare P m Q.
Proof. intros H HP HQ s Hs. apply HQ, H, HP, Hs. Qed.

Lemma hoare_if {A} (b : bool) P (m1 m2 : M A) Q :
  (b = true -> hoare P m1 Q) -> (b = false -> hoare P m2 Q) ->
  hoare P (if b then m1 else m2) Q.
Proof. destruct b; auto. Qed.

Lemma hoare_prop (v : json) (k : string) (P : session -> Prop)
      (Q : result json -> session -> Prop) :
  (forall s r, P s -> Q r s) -> hoare P (prop v k) Q.
Proof.
  intros H s Hs. destruct v; simpl; apply H, Hs.
Qed.

Lemma hoare_for_each {A} (f : A -> M unit) (l : list A)
      (I : session -> Prop) (E : template -> session -> Prop) :
  (forall x, In x l -> hoare I (f x) (post (fun _ => I) E)) ->
  hoare I (for_each f l) (post (fun _ => I) E).
Proof.
  induction l as [| x l IH]; intros Hf; simpl.
  - apply hoare_ret. auto.
  - eapply hoare_bind.
    + apply Hf. now left.
    + intros u. apply IH. intros y Hy. apply Hf. now right.
Qed.

(** ** Rules for invariants *)

Lemma keeps_ret {A} I (a : A) : keeps I (ret a).
Proof. apply hoare_ret. auto. Qed.

Lemma keeps_throw {A} I t : keeps I (@throw A t).
Proof. apply hoare_throw. auto. Qed.

Lemma keeps_bind {A B} I (m : M A) (k : A -> M B) :
  keeps I m -> (forall a, keeps I (k a)) -> keeps I (bind m k).
Proof.
  intros Hm Hk. eapply hoare_bind with (R := fun _ => I).
  - intros s Hs. specialize (Hm s Hs). unfold post. destruct (fst (m s)); exact Hm.
  - exact Hk.
Qed.

Lemma keeps_if {A} I (b : bool) (m1 m2 : M A) :
  keeps I m1 -> keeps I m2 -> keeps I (if b then m1 else m2).
Proof. destruct b; auto. Qed.

Lemma keeps_prop I v k : keeps I (prop v k).
Proof. apply hoare_prop. auto. Qed.

Lemma keeps_for_each {A} I (f : A -> M unit) (l : list A) :
  (forall x, keeps I (f x)) -> keeps I (for_each f l).
Proof.
  intros Hf. induction l as [| x l IH]; simpl.
  - apply keeps_ret.
  - apply keeps_bind; auto.
Qed.

Section ConnectionFacts.
Variable e : env.
Variable P : db -> Prop.

Lemma keeps_connect : keeps (db_inv P) (connect e).
Proof.
  intros s Hs. unfold connect, round_trip.
  destruct (faults e (tick s)); simpl; exact Hs.
Qed.

Lemma keeps_begin : keeps (db_inv P) (begin e).
Proof.
  intros s Hs. unfold begin, round_trip.
  destruct (faults e (tick s)); simpl; [exact Hs |].
  destruct (txn s) as [w |] eqn:Ht; simpl.
  - exact Hs.
  - destruct Hs as [Hc _]. split; [exact Hc |]. simpl. intros w [= <-]. exact Hc.
Qed.

Lemma keeps_commit : keeps (db_inv P) (commit e).
Proof.
  intros s Hs. unfold commit, round_trip.
  destruct (faults e (tick s)); simpl; [exact Hs |].
  destruct (txn s) as [w |] eqn:Ht; simpl.
  - destruct Hs as [_ Hw]. split; simpl; [now apply Hw | discriminate].
  - exact Hs.
Qed.

Lemma keeps_exec {A} (q : db -> result (A * db)) :
  (forall d a d', P d -> q d = Ok (a, d') -> P d') ->
  keeps (db_inv P) (exec e q).
Proof.
  intros Hq s Hs. unfold exec, round_trip.
  destruct (faults e (tick s)); simpl; [exact Hs |].
  destruct (txn s) as [w |] eqn:Ht; simpl.
  - destruct (q w) as [[a w'] | m] eqn:Hqw; simpl; [| exact Hs].
    destruct Hs as [Hc Hw]. split; [exact Hc |]. simpl.
    intros w0 [= <-]. eapply Hq; [apply Hw, Ht | exact Hqw].
  - destruct (q (committed (srv s))) as [[a d'] | m] eqn:Hqc; simpl; [| exact Hs].
    destruct Hs as [Hc Hw]. split; simpl; [eapply Hq; [exact Hc | exact Hqc] |].
    rewrite Ht. discriminate.
Qed.

Lemma keeps_nextval_ventas : keeps (db_inv P) nextval_ventas.
Proof. intros s Hs. exact Hs. Qed.

Lemma keeps_nextval_compras : keeps (db_inv P) nextval_compras.
Proof. intros s Hs. exact Hs. Qed.

Lemma rollback_db_inv s : db_inv P s -> db_inv P (rollback e s).
Proof.
  intros [Hc Hw]. unfold rollback.
  destruct (faults e (tick s)); simpl; split; auto; discriminate.
Qed.

(** An invariant of the tables that every statement of the [try] block
    maintains holds of the store the handler leaves behind. *)
Lemma handle_db_inv (code : Z) wrap (m : M response) (st : store) :
  keeps (db_inv P) m -> P (committed st) ->
  P (committed (snd (handle e code wrap m st))).
Proof.
  intros Hm Hst. unfold handle.
  set (s0 := {| srv := st; txn := None; tick := O; connected := false |}).
  assert (H0 : db_inv P s0) by (split; [exact Hst | discriminate]).
  specialize (Hm s0 H0).
  destruct (m s0) as [[r | t] s1]; simpl in *.
  - exact (proj1 Hm).
  - destruct (connected s1).
    + exact (proj1 (rollback_db_inv s1 Hm)).
    + exact (proj1 Hm).
Qed.
End ConnectionFacts.

(** ** create-sale: stock never goes negative *)

Lemma same_stock_nonneg {A} (q : db -> result (A * db)) :
  same_stock q ->
  forall d a d', stock_nonneg d -> q d = Ok (a, d') -> stock_nonneg d'.
Proof.
  intros Hq d a d' Hd Hr k r Hk. rewrite (Hq _ _ _ Hr) in Hk. eauto.
Qed.

Lemma insert_venta_same_stock id b m f u mp :
  same_stock (insert_venta id b m f u mp).
Proof.
  intros d a d'. unfold insert_venta, invalid_parameter.
  destruct (bind_int b), (bind_decimal m); try discriminate.
  destruct (Ventas d !! id); [discriminate |]. intros [= <- <-]. reflexivity.
Qed.

Lemma insert_detalle_venta_same_stock id p c pr :
  same_stock (insert_detalle_venta id p c pr).
Proof.
  intros d a d'. unfold insert_detalle_venta, invalid_parameter.
  destruct (bind_int p), (bind_int c), (bind_decimal pr);
    intros [= <- <-] || discriminate.
  reflexivity.
Qed.

Lemma select_stock_info_same_stock p b :
  same_stock (select_stock_info p b).
Proof.
  intros d a d'. unfold select_stock_info, invalid_parameter.
  destruct (bind_int p) as [pz |]; [| discriminate].
  destruct (bind_int b) as [bz |]; [| discriminate].
  destruct (Inventario d !! (pz, bz)), (Productos d !! pz);
    intros [= <- <-]; reflexivity.
Qed.

(** The guarded decrement: a row is rewritten only when the guard
    [cantidad >= $1] holds of it, so what it writes is not negative. *)
Lemma update_inventario_nonneg c p b d n d' :
  stock_nonneg d -> update_inventario c p b d = Ok (n, d') -> stock_nonneg d'.
Proof.
  intros Hd. unfold update_inventario, invalid_parameter.
  destruct (bind_int c) as [q |]; [| discriminate].
  destruct (bind_int p) as [pz |]; [| discriminate].
  destruct (bind_int b) as [bz |]; [| discriminate].
  destruct (Inventario d !! (pz, bz)) as [r |] eqn:Hr.
  - destruct (q <=? cantidad r) eqn:Hq; intros [= <- <-]; [| exact Hd].
    intros k r' Hk. simpl in Hk.
    destruct (decide ((pz, bz) = k)) as [<- | Hne].
    + rewrite lookup_insert_eq in Hk. injection Hk as <-. simpl.
      apply Z.leb_le in Hq. lia.
    + rewrite lookup_insert_ne in Hk by exact Hne. eauto.
  - intros [= <- <-]. exact Hd.
Qed.

Ltac keeps_step :=
  first [ apply keeps_ret | apply keeps_throw | apply keeps_prop
        | apply keeps_connect | apply keeps_begin | apply keeps_commit
        | apply keeps_nextval_ventas | apply keeps_nextval_compras
        | apply keeps_if
        | apply keeps_bind; [| intros ?] ].

Lemma sale_item_stock_nonneg e id b it :
  keeps (db_inv stock_nonneg) (sale_item e id b it).
Proof.
  unfold sale_item. repeat keeps_step.
  - apply keeps_exec, same_stock_nonneg, insert_detalle_venta_same_stock.
  - apply keeps_exec. intros d n d'. apply update_inventario_nonneg.
  - apply keeps_exec, same_stock_nonneg, select_stock_info_same_stock.
Qed.

Lemma create_sale_try_stock_nonneg e body :
  keeps (db_inv stock_nonneg) (create_sale_try e body).
Proof.
  unfold create_sale_try. repeat keeps_step.
  - apply keeps_exec, same_stock_nonneg, insert_venta_same_stock.
  - apply keeps_for_each. intros it. apply sale_item_stock_nonneg.
Qed.

Lemma create_sale_stock_nonneg e req st :
  stock_nonneg (committed st) ->
  stock_nonneg (committed (snd (create_sale e req st))).
Proof.
  intros Hst. unfold create_sale.
  destruct (String.eqb (method req) "OPTIONS"); [exact Hst |].
  destruct (negb (pool e)); [exact Hst |].
  apply handle_db_inv; [apply create_sale_try_stock_nonneg | exact Hst].
Qed.

(** ** Transactions: what a failed [try] block leaves behind *)

Lemma keeps_post {A} I (m : M A) (E : template -> session -> Prop) :
  keeps I m -> (forall t s, I s -> E t s) ->
  hoare I m (post (fun _ => I) E).
Proof.
  intros Hm HE s Hs. specialize (Hm s Hs). unfold post.
  destruct (fst (m s)); auto.
Qed.

Section TransactionFacts.
Variable e : env.
Variable c0 : db.

Lemma idle_connect : keeps (idle c0) (connect e).
Proof.
  intros s Hs. unfold connect, round_trip.
  destruct (faults e (tick s)); exact Hs.
Qed.

Lemma idle_begin :
  hoare (idle c0) (begin e) (post (fun _ => in_txn c0) (fun _ => idle c0)).
Proof.
  intros s Hs. unfold begin, round_trip.
  destruct (faults e (tick s)); simpl; [exact Hs |].
  destruct (txn s) as [w |] eqn:Ht; simpl.
  - split; [exact Hs | simpl; congruence].
  - split; [exact Hs | discriminate].
Qed.

Lemma in_txn_exec {A} (q : db -> result (A * db)) : keeps (in_txn c0) (exec e q).
Proof.
  intros s [Hc Ht]. unfold exec, round_trip.
  destruct (faults e (tick s)); simpl; [now split |].
  destruct (txn s) as [w |] eqn:Hts; [| congruence]. simpl.
  destruct (q w) as [[a w'] | m]; simpl; split; simpl; congruence.
Qed.

Lemma in_txn_nextval_ventas : keeps (in_txn c0) nextval_ventas.
Proof. intros s Hs. exact Hs. Qed.

Lemma in_txn_nextval_compras : keeps (in_txn c0) nextval_compras.
Proof. intros s Hs. exact Hs. Qed.

Lemma in_txn_commit :
  hoare (in_txn c0) (commit e) (post (fun _ _ => True) (fun _ => idle c0)).
Proof.
  intros s [Hc Ht]. unfold commit, round_trip.
  destruct (faults e (tick s)); simpl; [exact Hc |].
  destruct (txn s); simpl; exact I.
Qed.

Lemma rollback_committed s : committed (srv (rollback e s)) = committed (srv s).
Proof. unfold rollback. destruct (faults e (tick s)); reflexivity. Qed.

(** The [catch] block never writes: when the [try] block ends as
    [committed_or_unchanged] asks, a response other than 200 means the
    committed tables are the ones the call started with. *)
Lemma handle_all_or_nothing (code : Z) wrap (m : M response) (st : store) :
  hoare (idle (committed st)) m (committed_or_unchanged (committed st)) ->
  status (fst (handle e code wrap m st)) = 200
  \/ (status (fst (handle e code wrap m st)) = code
      /\ committed (snd (handle e code wrap m st)) = committed st).
Proof.
  intros Hm. unfold handle.
  set (s0 := {| srv := st; txn := None; tick := O; connected := false |}).
  specialize (Hm s0 eq_refl). unfold committed_or_unchanged, post in Hm.
  destruct (m s0) as [[r | t] s1]; simpl in *.
  - now left.
  - right. split; [reflexivity |].
    destruct (connected s1); [rewrite rollback_committed |]; exact Hm.
Qed.
End TransactionFacts.

Ltac txn_step e :=
  first [ apply keeps_ret | apply keeps_throw | apply keeps_prop
        | apply in_txn_nextval_ventas | apply in_txn_nextval_compras
        | apply in_txn_exec
        | apply keeps_if
        | apply keeps_for_each; intros ?
        | apply keeps_bind; [| intros ?] ].

Lemma sale_item_in_txn e c0 id b it : keeps (in_txn c0) (sale_item e id b it).
Proof. unfold sale_item. repeat txn_step e. Qed.

Lemma in_txn_idle c0 s : in_txn c0 s -> idle c0 s.
Proof. now intros [H _]. Qed.

Lemma create_sale_try_all_or_nothing e c0 body :
  hoare (idle c0) (create_sale_try e body) (committed_or_unchanged c0).
Proof.
  unfold create_sale_try, committed_or_unchanged.
  eapply hoare_bind; [apply keeps_post; [apply idle_connect | auto] | intros ?].
  do 5 (eapply hoare_bind; [apply keeps_post; [apply keeps_prop | auto] | intros ?]).
  apply hoare_if; intros _; [apply hoare_throw; auto |].
  eapply hoare_bind; [apply idle_begin | intros ?].
  eapply hoare_bind with (R := fun _ => in_txn c0).
  { apply keeps_post; [| intros t s; apply in_txn_idle].
    apply keeps_bind; [apply in_txn_nextval_ventas | intros id; apply in_txn_exec]. }
  intros newVentaId.
  eapply hoare_bind with (R := fun _ => in_txn c0).
  { apply keeps_post; [| intros t s; apply in_txn_idle].
    apply keeps_for_each. intros it. apply sale_item_in_txn. }
  intros ?.
  eapply hoare_bind; [apply in_txn_commit | intros ?].
  apply hoare_ret. reflexivity.
Qed.


(** ** Invalid input makes the [try] block throw *)

Lemma bind_ret {A B} (a : A) (k : A -> M B) : bind (ret a) k = k a.
Proof. reflexivity. Qed.

Lemma bind_throw {A B} t (k : A -> M B) : bind (throw t) k = throw t.
Proof. reflexivity. Qed.

Lemma prop_field v k : is_nullish v = false -> prop v k = ret (field v k).
Proof. destruct v; simpl; congruence. Qed.

Lemma prop_nullish v k : is_nullish v = true -> prop v k = throw [TypeErrorText].
Proof. destruct v; simpl; congruence. Qed.

Lemma throws_throw {A} t : throws (@throw A t).
Proof. intros s _. simpl. eauto. Qed.

Lemma throws_bind_l {A B} (m : M A) (k : A -> M B) : throws m -> throws (bind m k).
Proof.
  intros Hm s _. destruct (Hm s I) as [t Ht]. unfold bind.
  destruct (m s) as [[a | t'] s1]; simpl in *; [discriminate | eauto].
Qed.

Lemma throws_bind_r {A B} (m : M A) (k : A -> M B) :
  (forall a, throws (k a)) -> throws (bind m k).
Proof.
  intros Hk s _. unfold bind.
  destruct (m s) as [[a | t'] s1]; simpl; [apply Hk, I | eauto].
Qed.

Lemma throws_for_each {A} (f : A -> M unit) (l : list A) x :
  In x l -> throws (f x) -> throws (for_each f l).
Proof.
  induction l as [| y l IH]; intros Hin Hx; [destruct Hin |]. simpl.
  destruct Hin as [-> | Hin].
  - apply throws_bind_l, Hx.
  - apply throws_bind_r. intros _. apply IH; assumption.
Qed.

Lemma sale_item_invalid_throws e id b it :
  sale_item_invalid it = true -> throws (sale_item e id b it).
Proof.
  unfold sale_item_invalid, sale_item. intros H.
  destruct (is_nullish it) eqn:Hn.
  - rewrite prop_nullish by exact Hn. apply throws_throw.
  - rewrite !prop_field by exact Hn. rewrite !bind_ret.
    simpl in H. rewrite H. apply throws_throw.
Qed.

Lemma create_sale_try_throws e body :
  is_nullish body = true \/ sale_header_invalid body = true
  \/ (exists it, In it (items_of body) /\ sale_item_invalid it = true) ->
  throws (create_sale_try e body).
Proof.
  intros H. unfold create_sale_try. apply throws_bind_r. intros _.
  destruct (is_nullish body) eqn:Hn.
  { rewrite prop_nullish by exact Hn. apply throws_throw. }
  rewrite !prop_field by exact Hn. rewrite !bind_ret.
  destruct H as [H | [H | (it & Hin & Hit)]]; [discriminate | |].
  - unfold sale_header_invalid in H. rewrite H. apply throws_throw.
  - match goal with |- throws (if ?c then _ else _) => destruct c end;
      [apply throws_throw |].
    do 2 (apply throws_bind_r; intros ?).
    apply throws_bind_l. eapply throws_for_each; [exact Hin |].
    apply sale_item_invalid_throws, Hit.
Qed.

Lemma handle_throws e code wrap (m : M response) st :
  throws m ->
  status (fst (handle e code wrap m st)) = code
  /\ exists t, body (fst (handle e code wrap m st)) = ErrMsg (wrap t).
Proof.
  intros Hm. unfold handle.
  set (s0 := {| srv := st; txn := None; tick := O; connected := false |}).
  destruct (Hm s0 I) as [t Ht].
  destruct (m s0) as [[r | t'] s1]; simpl in *; [discriminate |].
  split; [reflexivity | eauto].
Qed.

Lemma purchase_item_invalid_throws e id b it :
  purchase_item_invalid it = true -> throws (purchase_item e id b it).
Proof.
  unfold purchase_item_invalid, purchase_item. intros H.
  destruct (is_nullish it) eqn:Hn.
  - rewrite prop_nullish by exact Hn. apply throws_throw.
  - rewrite !prop_field by exact Hn. rewrite !bind_ret.
    simpl in H. rewrite H. apply throws_throw.
Qed.

Lemma create_purchase_try_throws e body :
  is_nullish body = true \/ purchase_header_invalid body = true
  \/ (exists it, In it (items_of body) /\ purchase_item_invalid it = true) ->
  throws (create_purchase_try e body).
Proof.
  intros H. unfold create_purchase_try. apply throws_bind_r. intros _.
  destruct (is_nullish body) eqn:Hn.
  { rewrite prop_nullish by exact Hn. apply throws_throw. }
  rewrite !prop_field by exact Hn. rewrite !bind_ret.
  destruct H as [H | [H | (it & Hin & Hit)]]; [discriminate | |].
  - unfold purchase_header_invalid in H. rewrite H. apply throws_throw.
  - match goal with |- throws (if ?c then _ else _) => destruct c end;
      [apply throws_throw |].
    do 2 (apply throws_bind_r; intros ?).
    apply throws_bind_l. eapply throws_for_each; [exact Hin |].
    apply purchase_item_invalid_throws, Hit.
Qed.

Lemma purchase_item_in_txn e c0 id b it :
  keeps (in_txn c0) (purchase_item e id b it).
Proof. unfold purchase_item. repeat txn_step e. Qed.

Lemma create_purchase_try_all_or_nothing e c0 body :
  bigint_ids e = false ->
  hoare (idle c0) (create_purchase_try e body) (committed_or_unchanged c0).
Proof.
  intros Hids. unfold create_purchase_try, committed_or_unchanged. rewrite Hids.
  eapply hoare_bind; [apply keeps_post; [apply idle_connect | auto] | intros ?].
  do 5 (eapply hoare_bind; [apply keeps_post; [apply keeps_prop | auto] | intros ?]).
  apply hoare_if; intros _; [apply hoare_throw; auto |].
  eapply hoare_bind; [apply idle_begin | intros ?].
  eapply hoare_bind with (R := fun _ => in_txn c0).
  { apply keeps_post; [| intros t s; apply in_txn_idle].
    apply keeps_bind; [apply in_txn_nextval_compras | intros id; apply in_txn_exec]. }
  intros newCompraId.
  eapply hoare_bind with (R := fun _ => in_txn c0).
  { apply keeps_post; [| intros t s; apply in_txn_idle].
    apply keeps_for_each. intros it. apply purchase_item_in_txn. }
  intros ?.
  eapply hoare_bind; [apply in_txn_commit | intros ?].
  apply hoare_ret. reflexivity.
Qed.

(** ** Failed round trips

    While every round trip goes through the session stays [clean]; the
    first one that fails throws with the committed tables untouched. *)

Lemma hoare_post_weaken {A} P (m : M A) (R : A -> session -> Prop)
      (E E' : template -> session -> Prop) :
  hoare P m (post R E) -> (forall t s, E t s -> E' t s) ->
  hoare P m (post R E').
Proof.
  intros H HE s Hs. specialize (H s Hs). unfold post in *.
  destruct (fst (m s)); auto.
Qed.

Section Guarded.
Variable e : env.
Variable c0 : db.

Lemma clean_next s : clean e s -> faults e (tick s) = None -> clean e (next s).
Proof.
  intros Hc Hf n Hn. simpl in Hn.
  destruct (Nat.eq_dec n (tick s)) as [-> | Hne]; [exact Hf |].
  apply Hc. lia.
Qed.

Lemma guarded_connect :
  hoare (fun s => clean e s /\ idle c0 s) (connect e)
        (post (fun _ s => clean e s /\ idle c0 s) (fun _ s => idle c0 s)).
Proof.
  intros s [Hc Hi]. unfold connect, round_trip.
  destruct (faults e (tick s)) eqn:Hf; simpl; [exact Hi |].
  split; [| exact Hi]. apply (clean_next s Hc Hf).
Qed.

Lemma guarded_begin :
  hoare (fun s => clean e s /\ idle c0 s) (begin e)
        (post (fun _ s => clean e s /\ in_txn c0 s) (fun _ s => idle c0 s)).
Proof.
  intros s [Hc Hi]. unfold begin, round_trip.
  destruct (faults e (tick s)) eqn:Hf; simpl; [exact Hi |].
  pose proof (clean_next s Hc Hf) as Hn.
  destruct (txn s) as [w |] eqn:Ht; simpl.
  - split; [exact Hn |]. split; [exact Hi | simpl; congruence].
  - split; [exact Hn |]. split; [exact Hi | discriminate].
Qed.

Lemma guarded_exec {A} (q : db -> result (A * db)) :
  hoare (fun s => clean e s /\ in_txn c0 s) (exec e q)
        (post (fun _ s => clean e s /\ in_txn c0 s) (fun _ s => idle c0 s)).
Proof.
  intros s [Hc [Hi Ht]]. unfold exec, round_trip.
  destruct (faults e (tick s)) eqn:Hf; simpl; [exact Hi |].
  pose proof (clean_next s Hc Hf) as Hn.
  destruct (txn s) as [w |] eqn:Hts; [| congruence]. simpl.
  destruct (q w) as [[a w'] | m]; simpl; [| exact Hi].
  split; [exact Hn |]. split; [exact Hi | discriminate].
Qed.

Lemma guarded_commit :
  hoare (fun s => clean e s /\ in_txn c0 s) (commit e)
        (post (fun _ s => clean e s) (fun _ s => idle c0 s)).
Proof.
  intros s [Hc [Hi Ht]]. unfold commit, round_trip.
  destruct (faults e (tick s)) eqn:Hf; simpl; [exact Hi |].
  pose proof (clean_next s Hc Hf) as Hn.
  destruct (txn s); simpl; exact Hn.
Qed.

Lemma guarded_keeps {A} (P : session -> Prop) (m : M A) :
  keeps P m -> (forall s, P s -> idle c0 s) ->
  hoare P m (post (fun _ => P) (fun _ s => idle c0 s)).
Proof. intros Hm HP. apply keeps_post; auto. Qed.

Lemma keeps_clean_prop (P : session -> Prop) v k :
  hoare P (prop v k) (post (fun _ => P) (fun _ => P)).
Proof. intros s Hs. destruct v; simpl; exact Hs. Qed.

Lemma clean_idle_weaken s : clean e s /\ idle c0 s -> idle c0 s.
Proof. now intros [_ H]. Qed.

Lemma clean_txn_weaken s : clean e s /\ in_txn c0 s -> idle c0 s.
Proof. now intros [_ [H _]]. Qed.
End Guarded.

Ltac guarded_prop :=
  eapply hoare_bind;
  [ eapply hoare_post_weaken; [apply keeps_clean_prop |];
    first [ intros ? ?; apply clean_idle_weaken
          | intros ? ?; apply clean_txn_weaken ]
  | intros ? ].

Lemma sale_item_guarded e c0 id b it :
  hoare (fun s => clean e s /\ in_txn c0 s) (sale_item e id b it)
        (post (fun _ s => clean e s /\ in_txn c0 s) (fun _ s => idle c0 s)).
Proof.
  unfold sale_item. do 3 guarded_prop.
  apply hoare_if; intros _;
    [apply hoare_throw; intros s; apply clean_txn_weaken |].
  eapply hoare_bind; [apply guarded_exec | intros ?].
  eapply hoare_bind; [apply guarded_exec | intros rowCount].
  apply hoare_if; intros _.
  - eapply hoare_bind; [apply guarded_exec | intros rows].
    apply hoare_throw. intros s. apply clean_txn_weaken.
  - apply hoare_ret. auto.
Qed.

(** create-sale: a normal end means that no round trip failed; an
    exception means that nothing was committed. *)
Lemma create_sale_try_guarded e c0 body :
  hoare (fun s => clean e s /\ idle c0 s) (create_sale_try e body)
        (post (fun _ s => clean e s) (fun _ s => idle c0 s)).
Proof.
  unfold create_sale_try.
  eapply hoare_bind; [apply guarded_connect | intros ?].
  do 5 guarded_prop.
  apply hoare_if; intros _;
    [apply hoare_throw; intros s; apply clean_idle_weaken |].
  eapply hoare_bind; [apply guarded_begin | intros ?].
  eapply hoare_bind with (R := fun _ s => clean e s /\ in_txn c0 s).
  { eapply hoare_bind with (R := fun _ s => clean e s /\ in_txn c0 s).
    - intros s Hs. exact Hs.
    - intros id. apply guarded_exec. }
  intros newVentaId.
  eapply hoare_bind; [apply hoare_for_each; intros it _; apply sale_item_guarded |].
  intros ?.
  eapply hoare_bind; [apply guarded_commit | intros ?].
  apply hoare_ret. auto.
Qed.

Lemma purchase_item_guarded e c0 id b it :
  hoare (fun s => clean e s /\ in_txn c0 s) (purchase_item e id b it)
        (post (fun _ s => clean e s /\ in_txn c0 s) (fun _ s => idle c0 s)).
Proof.
  unfold purchase_item. do 3 guarded_prop.
  apply hoare_if; intros _;
    [apply hoare_throw; intros s; apply clean_txn_weaken |].
  eapply hoare_bind; [apply guarded_exec | intros ?].
  apply guarded_exec.
Qed.

Lemma create_purchase_try_guarded e c0 body :
  bigint_ids e = false ->
  hoare (fun s => clean e s /\ idle c0 s) (create_purchase_try e body)
        (post (fun _ s => clean e s) (fun _ s => idle c0 s)).
Proof.
  intros Hids. unfold create_purchase_try. rewrite Hids.
  eapply hoare_bind; [apply guarded_connect | intros ?].
  do 5 guarded_prop.
  apply hoare_if; intros _;
    [apply hoare_throw; intros s; apply clean_idle_weaken |].
  eapply hoare_bind; [apply guarded_begin | intros ?].
  eapply hoare_bind with (R := fun _ s => clean e s /\ in_txn c0 s).
  { eapply hoare_bind with (R := fun _ s => clean e s /\ in_txn c0 s).
    - intros s Hs. exact Hs.
    - intros id. apply guarded_exec. }
  intros newCompraId.
  eapply hoare_bind;
    [apply hoare_for_each; intros it _; apply purchase_item_guarded |].
  intros ?.
  eapply hoare_bind; [apply guarded_commit | intros ?].
  apply hoare_ret. auto.
Qed.

(** ** create-purchase over a schema with BigInt ids

    The [try] block runs as it does over plain integers; only its last
    step differs. *)

Lemma unserializable_bind {A} (bigint : bool) (m : M A) (k k' : A -> M response) :
  (forall a s, k' a s = unserializable bigint (k a s)) ->
  forall s, bind m k' s = unserializable bigint (bind m k s).
Proof.
  intros H s. unfold bind. destruct (m s) as [[a | t] s1]; [apply H | reflexivity].
Qed.

Lemma unserializable_throw bigint t s :
  @throw response t s = unserializable bigint (throw t s).
Proof. reflexivity. Qed.

Lemma create_purchase_try_bigint e body s :
  create_purchase_try e body s
  = unserializable (bigint_ids e) (create_purchase_try (numeric_ids e) body s).
Proof.
  unfold create_purchase_try. revert s.
  apply unserializable_bind; intros ?.
  do 5 (apply unserializable_bind; intros ?).
  match goal with |- forall s, (if ?c then _ else _) s = _ => destruct c end;
    [intros s; apply unserializable_throw |].
  do 4 (apply unserializable_bind; intros ?).
  intros s. simpl. destruct (bigint_ids e); reflexivity.
Qed.

(** Over int8 ids a valid purchase is committed and then answered 500:
    the response cannot be serialized. *)
Example create_purchase_int8 :
  fst (create_purchase Ex.int8 (Ex.order [Ex.item 7 10 4]) Ex.st)
  = {| status := 500; body := ErrMsg (database_error [TypeErrorText]) |}
  /\ cantidad <$> Inventario (committed (snd (create_purchase Ex.int8 (Ex.order [Ex.item 7 10 4]) Ex.st))) !! (7, 2)
     = Some 15.
Proof. split; vm_compute; reflexivity. Qed.

(** What the two creating handlers answer and leave behind, whatever the
    request and whatever fails on the way. *)
Lemma create_sale_outcome e req st :
  status (fst (create_sale e req st)) = 200
  \/ (status (fst (create_sale e req st)) = 500
      /\ committed (snd (create_sale e req st)) = committed st).
Proof.
  unfold create_sale.
  destruct (String.eqb (method req) "OPTIONS"); [now left |].
  destruct (negb (pool e)); [now right |].
  apply handle_all_or_nothing, create_sale_try_all_or_nothing.
Qed.

Lemma create_purchase_outcome e req st :
  bigint_ids e = false ->
  status (fst (create_purchase e req st)) = 200
  \/ (status (fst (create_purchase e req st)) = 500
      /\ committed (snd (create_purchase e req st)) = committed st).
Proof.
  intros Hids. unfold create_purchase.
  destruct (String.eqb (method req) "OPTIONS"); [now left |].
  destruct (negb (pool e)); [now right |].
  apply handle_all_or_nothing, create_purchase_try_all_or_nothing, Hids.
Qed.

Lemma create_sale_failed_round_trip e req st n code :
  method req <> "OPTIONS" -> pool e = true ->
  (n < round_trips (create_sale_try e (json_body req)) st)%nat ->
  faults e n = Some code ->
  status (fst (create_sale e req st)) = 500
  /\ committed (snd (create_sale e req st)) = committed st.
Proof.
  intros Hm Hpool Hn Hf. unfold create_sale, round_trips in *.
  apply String.eqb_neq in Hm. rewrite Hm, Hpool. simpl. unfold handle.
  set (s0 := {| srv := st; txn := None; tick := O; connected := false |}) in *.
  assert (H0 : clean e s0 /\ idle (committed st) s0).
  { split; [intros k Hk; simpl in Hk; lia | reflexivity]. }
  pose proof (create_sale_try_guarded e (committed st) (json_body req) s0 H0) as H.
  unfold post in H.
  destruct (create_sale_try e (json_body req) s0) as [[r | t] s1]; simpl in *.
  - rewrite (H n Hn) in Hf. discriminate.
  - split; [reflexivity |].
    destruct (connected s1); [rewrite rollback_committed |]; exact H.
Qed.

Lemma create_purchase_failed_round_trip e req st n code :
  method req <> "OPTIONS" -> pool e = true ->
  (n < round_trips (create_purchase_try e (json_body req)) st)%nat ->
  faults e n = Some code ->
  status (fst (create_purchase e req st)) = 500
  /\ committed (snd (create_purchase e req st)) = committed st.
Proof.
  intros Hm Hpool Hn Hf. unfold create_purchase, round_trips in *.
  apply String.eqb_neq in Hm. rewrite Hm, Hpool. simpl. unfold handle.
  set (s0 := {| srv := st; txn := None; tick := O; connected := false |}) in *.
  assert (H0 : clean (numeric_ids e) s0 /\ idle (committed st) s0).
  { split; [intros k Hk; simpl in Hk; lia | reflexivity]. }
  pose proof (create_purchase_try_guarded (numeric_ids e) (committed st)
                (json_body req) eq_refl s0 H0) as H.
  unfold post in H.
  rewrite create_purchase_try_bigint in Hn |- *.
  destruct (create_purchase_try (numeric_ids e) (json_body req) s0)
    as [[r | t] s1]; simpl in *.
  - pose proof (H n Hn) as Hnone. simpl in Hnone. congruence.
  - split; [reflexivity |].
    destruct (connected s1); [rewrite rollback_committed |]; exact H.
Qed.

Lemma create_purchase_malformed_unchanged e req st :
  is_nullish (json_body req) = true
  \/ purchase_header_invalid (json_body req) = true
  \/ (exists it, In it (items_of (json_body req))
                 /\ purchase_item_invalid it = true) ->
  committed (snd (create_purchase e req st)) = committed st.
Proof.
  intros Hmal. unfold create_purchase.
  destruct (String.eqb (method req) "OPTIONS"); [reflexivity |].
  destruct (negb (pool e)); [reflexivity |].
  unfold handle.
  set (s0 := {| srv := st; txn := None; tick := O; connected := false |}).
  pose proof (create_purchase_try_throws (numeric_ids e) (json_body req) Hmal s0 I)
    as [t Ht].
  pose proof (create_purchase_try_all_or_nothing (numeric_ids e) (committed st)
                (json_body req) eq_refl s0 eq_refl) as H.
  unfold committed_or_unchanged, post in H.
  rewrite create_purchase_try_bigint.
  destruct (create_purchase_try (numeric_ids e) (json_body req) s0)
    as [[r | t'] s1]; simpl in *; [discriminate |].
  destruct (connected s1); [rewrite rollback_committed |]; exact H.
Qed.

Lemma create_sale_malformed e req st :
  method req <> "OPTIONS" ->
  is_nullish (json_body req) = true \/ sale_header_invalid (json_body req) = true
  \/ (exists it, In it (items_of (json_body req)) /\ sale_item_invalid it = true) ->
  status (fst (create_sale e req st)) = 500
  /\ exists m, body (fst (create_sale e req st)) = ErrMsg m.
Proof.
  intros Hm H. unfold create_sale.
  apply String.eqb_neq in Hm. rewrite Hm.
  destruct (negb (pool e)); [simpl; eauto |].
  destruct (handle_throws e 500 (fun m => m) _ st (create_sale_try_throws e _ H))
    as [Hs [t Ht]].
  eauto.
Qed.

Lemma create_purchase_malformed e req st :
  method req <> "OPTIONS" ->
  is_nullish (json_body req) = true
  \/ purchase_header_invalid (json_body req) = true
  \/ (exists it, In it (items_of (json_body req))
                 /\ purchase_item_invalid it = true) ->
  status (fst (create_purchase e req st)) = 500
  /\ exists m, body (fst (create_purchase e req st)) = ErrMsg m.
Proof.
  intros Hm H. unfold create_purchase.
  apply String.eqb_neq in Hm. rewrite Hm.
  destruct (negb (pool e)); [simpl; eauto |].
  destruct (handle_throws e 500 database_error _ st
              (create_purchase_try_throws e _ H)) as [Hs [t Ht]].
  eauto.
Qed.

(** ** Running the handlers when no round trip fails *)

Section ReliableRuns.
Variable e : env.
Hypothesis Hrel : reliable e.

Lemma round_trip_run {A} (k : session -> result A * session) s :
  round_trip e k s = k (next s).
Proof. unfold round_trip. now rewrite Hrel. Qed.

Lemma connect_run s :
  connect e s = (Ok tt, {| srv := srv s; txn := txn s; tick := S (tick s);
                           connected := true |}).
Proof. unfold connect. now rewrite round_trip_run. Qed.

Lemma begin_run s :
  txn s = None ->
  begin e s = (Ok tt, with_txn (next s) (Some (committed (srv s)))).
Proof. intros H. unfold begin. rewrite round_trip_run. simpl. now rewrite H. Qed.

Lemma exec_run {A} (q : db -> result (A * db)) s w :
  txn s = Some w ->
  exec e q s = match q w with
               | Ok (a, w') => (Ok a, with_txn (next s) (Some w'))
               | Throw m => (Throw m, next s)
               end.
Proof. intros H. unfold exec. rewrite round_trip_run. simpl. now rewrite H. Qed.

Lemma commit_run s w :
  txn s = Some w ->
  commit e s = (Ok tt, with_txn (with_srv (next s) (set_committed (srv s) w)) None).
Proof. intros H. unfold commit. rewrite round_trip_run. simpl. now rewrite H. Qed.

Lemma for_each_app_throw {A} (f : A -> M unit) l1 x l2 s s1 s2 t :
  for_each f l1 s = (Ok tt, s1) -> f x s1 = (Throw t, s2) ->
  for_each f (l1 ++ x :: l2) s = (Throw t, s2).
Proof.
  revert s. induction l1 as [| y l1 IH]; intros s H1 H2; simpl in *.
  - injection H1 as <-. unfold bind. now rewrite H2.
  - unfold bind in *. destruct (f y s) as [[[] | t'] s'] eqn:Hy; [| discriminate].
    now apply IH.
Qed.

(** A valid item that is in stock: one row inserted, one row decremented. *)
Lemma sale_item_sold id bj b it s w p q r :
  txn s = Some w -> bind_int bj = Some b ->
  sale_item_invalid it = false ->
  bind_int (field it "id_producto") = Some p ->
  bind_int (field it "cantidad") = Some q ->
  Inventario w !! (p, b) = Some r -> q <= cantidad r ->
  exists s' w',
    sale_item e id bj it s = (Ok tt, s') /\ txn s' = Some w'
    /\ Inventario w' = <[(p, b) := {| cantidad := cantidad r - q;
                                      costo_promedio := costo_promedio r |}]>
                         (Inventario w)
    /\ Productos w' = Productos w.
Proof.
  intros Ht Hb Hv Hp Hq Hr Hle. unfold sale_item_invalid in Hv.
  apply orb_false_elim in Hv as [Hv Hz].
  apply orb_false_elim in Hv as [Hv Hpr].
  apply orb_false_elim in Hv as [Hv Hc].
  apply orb_false_elim in Hv as [Hn Hpn].
  unfold sale_item. rewrite !prop_field by exact Hn. rewrite !bind_ret.
  rewrite Hpn, Hc, Hpr, Hz. simpl.
  destruct (field it "precio_unitario") as [| | | pr | | |] eqn:Hprecio;
    try discriminate.
  unfold bind at 1. rewrite (exec_run _ s w Ht).
  unfold insert_detalle_venta. rewrite Hp, Hq. simpl.
  unfold bind at 1. erewrite exec_run by reflexivity.
  unfold update_inventario. rewrite Hq, Hp, Hb. simpl. rewrite Hr.
  apply Z.leb_le in Hle. rewrite Hle. simpl.
  eexists _, _. split; [reflexivity |]. simpl. auto.
Qed.

Lemma sale_loop_run id bj b pre :
  bind_int bj = Some b ->
  forall s w inv',
    txn s = Some w -> stock_after b (Inventario w) pre = Some inv' ->
    exists s' w',
      for_each (sale_item e id bj) pre s = (Ok tt, s') /\ txn s' = Some w'
      /\ Inventario w' = inv' /\ Productos w' = Productos w.
Proof.
  intros Hb. induction pre as [| it pre IH]; intros s w inv' Ht Hst; simpl in *.
  - injection Hst as <-. exists s, w. repeat split; auto.
  - destruct (sale_item_invalid it) eqn:Hv; [discriminate |].
    destruct (bind_int (field it "id_producto")) as [p |] eqn:Hp; [| discriminate].
    destruct (bind_int (field it "cantidad")) as [q |] eqn:Hq; [| discriminate].
    destruct (Inventario w !! (p, b)) as [r |] eqn:Hr; [| discriminate].
    destruct (q <=? cantidad r) eqn:Hle; [| discriminate].
    apply Z.leb_le in Hle.
    destruct (sale_item_sold id bj b it s w p q r Ht Hb Hv Hp Hq Hr Hle)
      as (s1 & w1 & Hrun & Ht1 & Hi1 & Hp1).
    rewrite <- Hi1 in Hst.
    destruct (IH s1 w1 inv' Ht1 Hst) as (s' & w' & Hrun' & Ht' & Hi' & Hp').
    exists s', w'. unfold bind. rewrite Hrun. repeat split; try assumption.
    congruence.
Qed.

(** A valid item that is not in stock: the guarded UPDATE touches no row
    and the item fails with the stock message. *)
Lemma sale_item_short id bj b it s w p q :
  txn s = Some w -> bind_int bj = Some b ->
  sale_item_invalid it = false ->
  bind_int (field it "id_producto") = Some p ->
  bind_int (field it "cantidad") = Some q ->
  (Inventario w !! (p, b) = None
   \/ exists r, Inventario w !! (p, b) = Some r /\ cantidad r < q) ->
  exists s',
    sale_item e id bj it s =
      (Throw (stock_insuficiente
                (productName (stock_rows (Inventario w) (Productos w) p b)
                             (field it "id_producto"))
                (availableStock (stock_rows (Inventario w) (Productos w) p b))
                (field it "cantidad")), s').
Proof.
  intros Ht Hb Hv Hp Hq Hshort. unfold sale_item_invalid in Hv.
  apply orb_false_elim in Hv as [Hv Hz].
  apply orb_false_elim in Hv as [Hv Hpr].
  apply orb_false_elim in Hv as [Hv Hc].
  apply orb_false_elim in Hv as [Hn Hpn].
  unfold sale_item. rewrite !prop_field by exact Hn. rewrite !bind_ret.
  rewrite Hpn, Hc, Hpr, Hz. simpl.
  destruct (field it "precio_unitario") as [| | | pr | | |] eqn:Hprecio;
    try discriminate.
  unfold bind at 1. rewrite (exec_run _ s w Ht).
  unfold insert_detalle_venta. rewrite Hp, Hq. simpl.
  unfold bind at 1. erewrite exec_run by reflexivity.
  unfold update_inventario. rewrite Hq, Hp, Hb. simpl.
  assert (Hrows : forall w1 : db,
             Inventario w1 = Inventario w -> Productos w1 = Productos w ->
             select_stock_info (field it "id_producto") bj w1
             = Ok (stock_rows (Inventario w) (Productos w) p b, w1)).
  { intros w1 Hi1 Hp1. unfold select_stock_info, stock_rows.
    rewrite Hp, Hb, Hi1, Hp1.
    destruct (Inventario w !! (p, b)), (Productos w !! p); reflexivity. }
  destruct Hshort as [Hnone | (r & Hr & Hlt)].
  - rewrite Hnone. simpl. unfold bind at 1.
    erewrite exec_run by reflexivity. rewrite Hrows by reflexivity.
    simpl. eauto.
  - rewrite Hr. apply Z.leb_gt in Hlt. rewrite Hlt. simpl. unfold bind at 1.
    erewrite exec_run by reflexivity. rewrite Hrows by reflexivity.
    simpl. eauto.
Qed.
End ReliableRuns.

Lemma is_number_bind_decimal v :
  is_number v = true -> exists q, v = JNum q /\ bind_decimal v = Some q.
Proof. destruct v; try discriminate. eauto. Qed.

Lemma handle_throw_response e code wrap (m : M response) st t s1 :
  m {| srv := st; txn := None; tick := O; connected := false |} = (Throw t, s1) ->
  fst (handle e code wrap m st) = {| status := code; body := ErrMsg (wrap t) |}.
Proof. intros H. unfold handle. now rewrite H. Qed.

(** The first item of a sale that is short of stock decides the answer:
    500 with the stock message, computed from the stock the items before
    it have left, and nothing is committed. *)
Lemma create_sale_shortage e req st b pre it rest inv p q :
  reliable e -> pool e = true -> method req <> "OPTIONS" ->
  is_nullish (json_body req) = false ->
  sale_header_invalid (json_body req) = false ->
  bind_int (field (json_body req) "id_sucursal") = Some b ->
  Ventas (committed st) !! seq_ventas st = None ->
  items_of (json_body req) = (pre ++ it :: rest)%list ->
  stock_after b (Inventario (committed st)) pre = Some inv ->
  sale_item_invalid it = false ->
  bind_int (field it "id_producto") = Some p ->
  bind_int (field it "cantidad") = Some q ->
  (inv !! (p, b) = None \/ exists r, inv !! (p, b) = Some r /\ cantidad r < q) ->
  fst (create_sale e req st)
  = {| status := 500;
       body := ErrMsg (stock_insuficiente
                 (productName (stock_rows inv (Productos (committed st)) p b)
                              (field it "id_producto"))
                 (availableStock (stock_rows inv (Productos (committed st)) p b))
                 (field it "cantidad")) |}
  /\ committed (snd (create_sale e req st)) = committed st.
Proof.
  intros Hrel Hpool Hm Hn Hh Hb Hfresh Hitems Hst Hv Hp Hq Hshort.
  set (msg := stock_insuficiente
                (productName (stock_rows inv (Productos (committed st)) p b)
                             (field it "id_producto"))
                (availableStock (stock_rows inv (Productos (committed st)) p b))
                (field it "cantidad")).
  assert (Hresp : fst (create_sale e req st)
                  = {| status := 500; body := ErrMsg msg |}).
  { unfold create_sale. apply String.eqb_neq in Hm. rewrite Hm, Hpool. simpl.
    unfold sale_header_invalid in Hh.
    pose proof Hh as Hh'.
    do 4 (apply orb_false_elim in Hh as [Hh _]).
    apply orb_false_elim in Hh as [_ Hmt].
    apply negb_false_iff in Hmt.
    destruct (is_number_bind_decimal _ Hmt) as (mt & Hmt1 & Hmt2).
    set (s0 := {| srv := st; txn := None; tick := O; connected := false |}).
    set (w1 := with_Ventas (committed st)
                 (<[seq_ventas st :=
                      {| v_id_sucursal := b; v_monto_total := mt;
                         v_fecha_venta := now e;
                         v_id_usuario := field (json_body req) "id_usuario";
                         v_metodo_pago := field (json_body req) "metodo_pago";
                         v_estado := "Completada" |}]> (Ventas (committed st)))).
    assert (Hloop : forall s1, txn s1 = Some w1 ->
              exists s2,
                for_each (sale_item e (seq_ventas st)
                                    (field (json_body req) "id_sucursal"))
                         (pre ++ it :: rest) s1 = (Throw msg, s2)).
    { intros s1 Hs1.
      destruct (sale_loop_run e Hrel (seq_ventas st) _ b pre Hb s1 w1 inv Hs1 Hst)
        as (s2 & w2 & Hrun & Ht2 & Hi2 & Hp2).
      assert (Hshort2 : Inventario w2 !! (p, b) = None
                \/ exists r, Inventario w2 !! (p, b) = Some r /\ cantidad r < q)
        by (rewrite Hi2; exact Hshort).
      destruct (sale_item_short e Hrel (seq_ventas st) _ b it s2 w2 p q
                                Ht2 Hb Hv Hp Hq Hshort2) as (s3 & Hrun3).
      rewrite Hi2, Hp2 in Hrun3. exists s3.
      eapply for_each_app_throw; eassumption. }
    assert (Htry : exists s', create_sale_try e (json_body req) s0 = (Throw msg, s')).
    { unfold create_sale_try. unfold bind at 1. rewrite (connect_run e Hrel).
      rewrite !prop_field by exact Hn. rewrite !bind_ret.
      fold (items_of (json_body req)). rewrite Hitems.
      unfold items_of in Hitems. rewrite Hitems in Hh'. rewrite Hh'.
      unfold bind at 1. rewrite (begin_run e Hrel) by reflexivity.
      unfold bind at 1. unfold bind at 1. unfold nextval_ventas at 1.
      erewrite (exec_run e Hrel) by reflexivity.
      unfold insert_venta. rewrite Hb, Hmt2. simpl. rewrite Hfresh. fold w1.
      unfold bind at 1.
      match goal with |- context [for_each _ _ ?s1] =>
        destruct (Hloop s1 eq_refl) as (s2 & Hs2); rewrite Hs2 end.
      eauto. }
    destruct Htry as [s' Htry]. unfold handle. fold s0. rewrite Htry. reflexivity. }
  split; [exact Hresp |].
  destruct (create_sale_outcome e req st) as [H200 | [_ Hc]]; [| exact Hc].
  rewrite Hresp in H200. discriminate.
Qed.

(** ** The shape of an answer *)

Lemma handle_response e code wrap (m : M response) st :
  fst (handle e code wrap m st)
  = match fst (m {| srv := st; txn := None; tick := O; connected := false |}) with
    | Ok r => r
    | Throw t => {| status := code; body := ErrMsg (wrap t) |}
    end.
Proof.
  unfold handle.
  destruct (m {| srv := st; txn := None; tick := O; connected := false |})
    as [[r | t] s1]; reflexivity.
Qed.

Lemma create_sale_status e req st :
  status (fst (create_sale e req st)) = 200
  \/ (status (fst (create_sale e req st)) = 500
      /\ exists m, body (fst (create_sale e req st)) = ErrMsg m).
Proof.
  unfold create_sale.
  destruct (String.eqb (method req) "OPTIONS"); [now left |].
  destruct (negb (pool e)); [right; simpl; eauto |].
  rewrite handle_response.
  pose proof (create_sale_try_all_or_nothing e (committed st) (json_body req)
                {| srv := st; txn := None; tick := O; connected := false |}
                eq_refl) as H.
  unfold committed_or_unchanged, post in H.
  destruct (fst (create_sale_try e (json_body req) _)) as [r | t].
  - now left.
  - right. simpl. eauto.
Qed.

(** ** Running create-purchase *)

(** A quantity that passed [cantidad <= 0] and fits an integer column is
    positive. *)
Lemma bind_int_positive v q :
  is_number v = true -> bind_int v = Some q -> le_zero v = false -> 0 < q.
Proof.
  destruct v as [| | | x | | |]; try discriminate. intros _.
  unfold bind_int, le_zero. cbv zeta.
  destruct (Qden (Qred x) =? 1)%positive eqn:Hd; [| discriminate].
  intros [= <-] Hle.
  assert (Hx : (0 < x)%Q).
  { apply Qnot_le_lt. intros H. apply Qle_bool_iff in H. congruence. }
  rewrite <- (Qred_correct x) in Hx. unfold Qlt in Hx. simpl in Hx. lia.
Qed.

Lemma sale_item_positive it q :
  sale_item_invalid it = false -> bind_int (field it "cantidad") = Some q ->
  0 < q.
Proof.
  unfold sale_item_invalid. intros Hv Hq.
  apply orb_false_elim in Hv as [Hv Hz].
  apply orb_false_elim in Hv as [Hv _].
  apply orb_false_elim in Hv as [_ Hc]. apply negb_false_iff in Hc.
  exact (bind_int_positive _ _ Hc Hq Hz).
Qed.

Lemma purchase_item_positive it q :
  purchase_item_invalid it = false -> bind_int (field it "cantidad") = Some q ->
  0 < q.
Proof.
  unfold purchase_item_invalid. intros Hv Hq.
  apply orb_false_elim in Hv as [Hv Hz].
  apply orb_false_elim in Hv as [Hv _].
  apply orb_false_elim in Hv as [_ Hc]. apply negb_false_iff in Hc.
  exact (bind_int_positive _ _ Hc Hq Hz).
Qed.

Lemma merge_compra_ok div r q c :
  0 <= cantidad r -> 0 < q ->
  merge_compra div r q c
  = Ok {| cantidad := cantidad r + q;
          costo_promedio :=
            div (inject_Z (cantidad r) * costo_promedio r + inject_Z q * c)%Q
                (inject_Z (cantidad r + q)) |}.
Proof.
  intros Hr Hq. unfold merge_compra.
  destruct (cantidad r + q =? 0) eqn:H; [| reflexivity].
  apply Z.eqb_eq in H. lia.
Qed.

Section PurchaseRuns.
Variable e : env.
Hypothesis Hrel : reliable e.

Lemma purchase_item_run id bj b it s w :
  txn s = Some w -> bind_int bj = Some b -> stock_nonneg w ->
  purchase_item_good it ->
  exists s' w',
    purchase_item e id bj it s = (Ok tt, s') /\ txn s' = Some w'
    /\ stock_nonneg w' /\ Compras w' = Compras w.
Proof.
  intros Ht Hb Hnn (Hv & [p Hp] & [q Hq]). unfold purchase_item_invalid in Hv.
  apply orb_false_elim in Hv as [Hv Hz].
  apply orb_false_elim in Hv as [Hv Hco].
  apply orb_false_elim in Hv as [Hv Hc].
  apply orb_false_elim in Hv as [Hn Hpn].
  pose proof (bind_int_positive _ _ (proj1 (negb_false_iff _) Hc) Hq Hz)
    as Hqpos.
  unfold purchase_item. rewrite !prop_field by exact Hn. rewrite !bind_ret.
  rewrite Hpn, Hc, Hco, Hz. simpl.
  destruct (field it "costo_unitario") as [| | | c | | |] eqn:Hcosto;
    try discriminate.
  unfold bind at 1. rewrite (exec_run e Hrel _ s w Ht).
  unfold insert_detalle_compra. rewrite Hp, Hq. simpl.
  erewrite (exec_run e Hrel) by reflexivity.
  unfold upsert_inventario_compra. rewrite Hp, Hb, Hq. simpl.
  destruct (Inventario w !! (p, b)) as [r |] eqn:Hr.
  - rewrite merge_compra_ok by (eauto || exact Hqpos).
    eexists _, _. split; [reflexivity |]. simpl. repeat split; try reflexivity.
    intros k r' Hk. simpl in Hk.
    destruct (decide ((p, b) = k)) as [<- | Hne].
    + rewrite lookup_insert_eq in Hk. injection Hk as <-. simpl.
      specialize (Hnn _ _ Hr). lia.
    + rewrite lookup_insert_ne in Hk by exact Hne. eauto.
  - eexists _, _. split; [reflexivity |]. simpl. repeat split; try reflexivity.
    intros k r' Hk. simpl in Hk.
    destruct (decide ((p, b) = k)) as [<- | Hne].
    + rewrite lookup_insert_eq in Hk. injection Hk as <-. simpl. lia.
    + rewrite lookup_insert_ne in Hk by exact Hne. eauto.
Qed.

Lemma purchase_loop_run id bj b pre :
  bind_int bj = Some b -> Forall purchase_item_good pre ->
  forall s w,
    txn s = Some w -> stock_nonneg w ->
    exists s' w',
      for_each (purchase_item e id bj) pre s = (Ok tt, s') /\ txn s' = Some w'
      /\ stock_nonneg w' /\ Compras w' = Compras w.
Proof.
  intros Hb Hgood. induction Hgood as [| it pre Hit Hpre IH]; intros s w Ht Hnn.
  - exists s, w. repeat split; auto.
  - destruct (purchase_item_run id bj b it s w Ht Hb Hnn Hit)
      as (s1 & w1 & Hrun & Ht1 & Hnn1 & Hc1).
    destruct (IH s1 w1 Ht1 Hnn1) as (s' & w' & Hrun' & Ht' & Hnn' & Hc').
    exists s', w'. simpl. unfold bind. rewrite Hrun.
    repeat split; try assumption. congruence.
Qed.

Lemma purchase_item_rejected id bj it s :
  is_nullish it = false -> purchase_item_invalid it = true ->
  purchase_item e id bj it s
  = (Throw (invalid_item_data (field it "id_producto")), s).
Proof.
  intros Hn Hv. unfold purchase_item_invalid in Hv. rewrite Hn in Hv.
  simpl in Hv. unfold purchase_item.
  rewrite !prop_field by exact Hn. rewrite !bind_ret. now rewrite Hv.
Qed.
End PurchaseRuns.

Lemma create_purchase_header_rejected e req st :
  method req <> "OPTIONS" -> pool e = true -> faults e O = None ->
  is_nullish (json_body req) = false ->
  purchase_header_invalid (json_body req) = true ->
  fst (create_purchase e req st)
  = {| status := 500; body := ErrMsg (database_error required_data_missing) |}.
Proof.
  intros Hm Hpool Hf Hn Hh. unfold create_purchase.
  apply String.eqb_neq in Hm. rewrite Hm, Hpool. simpl.
  rewrite handle_response. unfold create_purchase_try.
  unfold bind at 1. unfold connect, round_trip. simpl. rewrite Hf.
  rewrite !prop_field by exact Hn. rewrite !bind_ret.
  unfold purchase_header_invalid in Hh. rewrite Hh. reflexivity.
Qed.

Lemma create_purchase_item_rejected e req st b pre it rest :
  reliable e -> pool e = true -> method req <> "OPTIONS" ->
  is_nullish (json_body req) = false ->
  purchase_header_invalid (json_body req) = false ->
  bind_int (field (json_body req) "id_sucursal") = Some b ->
  Compras (committed st) !! seq_compras st = None ->
  stock_nonneg (committed st) ->
  items_of (json_body req) = (pre ++ it :: rest)%list ->
  Forall purchase_item_good pre ->
  is_nullish it = false -> purchase_item_invalid it = true ->
  fst (create_purchase e req st)
  = {| status := 500;
       body := ErrMsg (database_error (invalid_item_data (field it "id_producto"))) |}.
Proof.
  intros Hrel Hpool Hm Hn Hh Hb Hfresh Hnn Hitems Hgood Hin Hv.
  unfold create_purchase. apply String.eqb_neq in Hm. rewrite Hm, Hpool. simpl.
  unfold purchase_header_invalid in Hh. pose proof Hh as Hh'.
  do 3 (apply orb_false_elim in Hh as [Hh _]).
  apply orb_false_elim in Hh as [_ Hmt]. apply negb_false_iff in Hmt.
  destruct (is_number_bind_decimal _ Hmt) as (mt & Hmt1 & Hmt2).
  rewrite handle_response. unfold create_purchase_try.
  unfold bind at 1. rewrite (connect_run e Hrel).
  rewrite !prop_field by exact Hn. rewrite !bind_ret.
  fold (items_of (json_body req)). rewrite Hitems.
  unfold items_of in Hitems. rewrite Hitems in Hh'. rewrite Hh'.
  unfold bind at 1. rewrite (begin_run e Hrel) by reflexivity.
  unfold bind at 1. unfold bind at 1. unfold nextval_compras at 1.
  erewrite (exec_run e Hrel) by reflexivity.
  unfold insert_compra. rewrite Hb, Hmt2. simpl. rewrite Hfresh.
  unfold bind at 1.
  match goal with |- context [for_each _ _ ?s1] =>
    match type of s1 with session =>
      destruct (purchase_loop_run e Hrel (seq_compras st)
                  (field (json_body req) "id_sucursal") b pre Hb Hgood s1 _
                  eq_refl) as (s2 & w2 & Hrun & _)
    end
  end.
  { intros k r Hk. simpl in Hk. eauto. }
  erewrite for_each_app_throw;
    [reflexivity | exact Hrun | apply purchase_item_rejected; assumption].
Qed.

(** ** Weighted-average cost *)

Lemma bind_int_num_of_Z z : bind_int (num_of_Z z) = Some z.
Proof.
  unfold bind_int, num_of_Z, inject_Z, Qred. cbv zeta.
  pose proof (Z.ggcd_gcd z 1) as Hg.
  pose proof (Z.ggcd_correct_divisors z 1) as Hd.
  destruct (Z.ggcd z 1) as [g [aa bb]]. simpl in *.
  rewrite Z.gcd_1_r in Hg. destruct Hd as [Ha Hb].
  assert (Hbb : bb = 1) by lia. assert (Haa : aa = z) by lia.
  rewrite Hbb, Haa. reflexivity.
Qed.

Lemma inject_Z_nonzero n : n <> 0 -> ~ (inject_Z n == 0)%Q.
Proof. intros Hn H. unfold Qeq in H. simpl in H. lia. Qed.

(** The weight of a row: quantity times average cost. *)
Lemma merged_cost_weight old_qty old_cost q c :
  old_qty + q <> 0 ->
  (inject_Z (old_qty + q) * merged_cost old_qty old_cost q c
   == inject_Z old_qty * old_cost + inject_Z q * c)%Q.
Proof.
  intros H. unfold merged_cost. field. now apply inject_Z_nonzero.
Qed.

Lemma total_qty_pos bs : Forall (fun b => 0 < fst b) bs -> 0 <= total_qty bs.
Proof. induction 1; simpl; lia. Qed.


Lemma total_qty_positive bs :
  bs <> [] -> Forall (fun b => 0 < fst b) bs -> 0 < total_qty bs.
Proof.
  intros Hne Hpos. destruct bs as [| x bs]; [congruence |].
  inversion Hpos as [| y l Hx Hbs]; subst. simpl.
  pose proof (total_qty_pos bs Hbs). lia.
Qed.




(** ** What a normal end of a [try] block tells *)

Lemma bind_Ok_inv {A B} (m : M A) (k : A -> M B) s b s' :
  bind m k s = (Ok b, s') ->
  exists a s1, m s = (Ok a, s1) /\ k a s1 = (Ok b, s').
Proof.
  unfold bind. destruct (m s) as [[a | t] s1]; [eauto | discriminate].
Qed.

Lemma prop_Ok_inv v k s a s' :
  prop v k s = (Ok a, s') -> a = field v k /\ s' = s /\ is_nullish v = false.
Proof.
  destruct v; simpl; unfold throw, ret; intros [= <- <-] || discriminate; auto.
Qed.

Lemma throw_Ok_inv {A} t s (a : A) s' : throw t s = (Ok a, s') -> False.
Proof. discriminate. Qed.

Section OkInversion.
Variable e : env.

Lemma round_trip_Ok_inv {A} (k : session -> result A * session) s a s' :
  round_trip e k s = (Ok a, s') -> k (next s) = (Ok a, s').
Proof. unfold round_trip. destruct (faults e (tick s)); [discriminate | auto]. Qed.

Lemma connect_Ok_inv s u s' :
  connect e s = (Ok u, s') ->
  s' = {| srv := srv s; txn := txn s; tick := S (tick s); connected := true |}.
Proof. intros H. apply round_trip_Ok_inv in H. now injection H as _ <-. Qed.

Lemma begin_Ok_inv s u s' :
  txn s = None -> begin e s = (Ok u, s') ->
  s' = with_txn (next s) (Some (committed (srv s))).
Proof.
  intros Ht H. apply round_trip_Ok_inv in H. simpl in H. rewrite Ht in H.
  now injection H as _ <-.
Qed.

Lemma exec_Ok_inv {A} (q : db -> result (A * db)) s w a s' :
  txn s = Some w -> exec e q s = (Ok a, s') ->
  exists w', q w = Ok (a, w') /\ s' = with_txn (next s) (Some w').
Proof.
  intros Ht H. apply round_trip_Ok_inv in H. simpl in H. rewrite Ht in H.
  destruct (q w) as [[a' w'] | m]; [| discriminate].
  injection H as <- <-. eauto.
Qed.

Lemma commit_Ok_inv s w u s' :
  txn s = Some w -> commit e s = (Ok u, s') ->
  s' = with_txn (with_srv (next s) (set_committed (srv s) w)) None.
Proof.
  intros Ht H. apply round_trip_Ok_inv in H. simpl in H. rewrite Ht in H.
  now injection H as _ <-.
Qed.

(** A payment that was registered: the three statements ran in order on
    the committed tables and their result was committed. *)
Lemma registrar_pago_compra_try_Ok body s0 r s1 :
  txn s0 = None ->
  registrar_pago_compra_try e body s0 = (Ok r, s1) ->
  exists d1 d2 total paid,
    le_zero (field body "amount") = false
    /\ insert_pago (field body "purchaseId") (field body "amount")
                   (field body "paymentDate") (field body "method")
                   (field body "notes") (committed (srv s0)) = Ok (tt, d1)
    /\ select_totals (field body "purchaseId") d1 = Ok ([(total, paid)], d1)
    /\ update_compra_pago (newStatus paid total) total
                          (field body "purchaseId") d1 = Ok (tt, d2)
    /\ committed (srv s1) = d2
    /\ r = {| status := 200;
              body := SuccessMsg "Pago registrado y estado actualizado." |}.
Proof.
  intros Ht0 H. unfold registrar_pago_compra_try in H.
  do 5 (apply bind_Ok_inv in H as (? & ? & Hp & H);
        apply prop_Ok_inv in Hp as (-> & -> & _)).
  destruct (negb (truthy (field body "purchaseId"))
            || negb (is_number (field body "amount"))
            || le_zero (field body "amount")
            || negb (truthy (field body "paymentDate"))
            || negb (truthy (field body "method"))) eqn:Hc;
    [discriminate |].
  do 2 (apply orb_false_elim in Hc as [Hc _]).
  apply orb_false_elim in Hc as [_ Hle].
  apply bind_Ok_inv in H as ([] & sa & Hconn & H). apply connect_Ok_inv in Hconn.
  apply bind_Ok_inv in H as ([] & sb & Hbeg & H).
  apply begin_Ok_inv in Hbeg; [| subst sa; exact Ht0].
  apply bind_Ok_inv in H as ([] & sc & Hins & H).
  eapply exec_Ok_inv in Hins as (d1 & Hins & ->); [| subst sb; reflexivity].
  apply bind_Ok_inv in H as (rows & sd & Hsel & H).
  eapply exec_Ok_inv in Hsel as (d1' & Hsel & ->); [| reflexivity].
  assert (Hrows : exists total paid, rows = [(total, paid)] /\ d1' = d1).
  { unfold select_totals, invalid_parameter in Hsel.
    destruct (bind_int (field body "purchaseId")); [| discriminate].
    injection Hsel as <- <-. eauto. }
  destruct Hrows as (total & paid & -> & ->).
  apply bind_Ok_inv in H as ([] & se & Hupd & H).
  eapply exec_Ok_inv in Hupd as (d2 & Hupd & ->); [| reflexivity].
  apply bind_Ok_inv in H as ([] & sf & Hcom & H).
  eapply commit_Ok_inv in Hcom; [| reflexivity].
  injection H as <- <-. subst.
  exists d1, d2, total, paid. repeat split; assumption.
Qed.
End OkInversion.

(** ** registrar-pago-compra: totals and payment state *)

Lemma insert_pago_inv pid a f m n d d1 :
  insert_pago pid a f m n d = Ok (tt, d1) ->
  exists id amount,
    bind_int pid = Some id /\ bind_decimal a = Some amount
    /\ d1 = with_Pagos_Compra d (Pagos_Compra d ++
              [{| p_id_compra := id; p_monto := amount; p_fecha_pago := f;
                  p_metodo_pago := m; p_notas := n |}]).
Proof.
  unfold insert_pago, invalid_parameter.
  destruct (bind_int pid) as [id |]; [| discriminate].
  destruct (bind_decimal a) as [amount |]; [| discriminate].
  intros [= <-]. eauto.
Qed.

Lemma update_compra_pago_inv st total pid id d1 d2 :
  bind_int pid = Some id ->
  update_compra_pago st total pid d1 = Ok (tt, d2) ->
  Pagos_Compra d2 = Pagos_Compra d1 /\ Detalles_Compra d2 = Detalles_Compra d1
  /\ Inventario d2 = Inventario d1
  /\ (forall c', Compras d2 !! id = Some c' ->
        c_monto_total c' = total /\ c_estado_pago c' = Some st
        /\ exists c, Compras d1 !! id = Some c
                     /\ c_tipo_cambio c' = c_tipo_cambio c
                     /\ c_estado c' = c_estado c)
  /\ (forall j, j <> id -> Compras d2 !! j = Compras d1 !! j)
  /\ (Compras d1 !! id = None -> d2 = d1).
Proof.
  intros Hid. unfold update_compra_pago. rewrite Hid.
  destruct (Compras d1 !! id) as [c |] eqn:Hc; intros [= <-]; simpl.
  - split; [reflexivity |]. split; [reflexivity |]. split; [reflexivity |].
    split; [| split].
    + intros c' Hc'. rewrite lookup_insert_eq in Hc'. injection Hc' as <-.
      simpl. split; [reflexivity |]. split; [reflexivity |]. eauto.
    + intros j Hj. rewrite lookup_insert_ne by congruence. reflexivity.
    + discriminate.
  - split; [reflexivity |]. split; [reflexivity |]. split; [reflexivity |].
    split; [| split].
    + intros c' Hc'. congruence.
    + reflexivity.
    + reflexivity.
Qed.

Lemma calculated_total_ext id d d' :
  Detalles_Compra d' = Detalles_Compra d ->
  (forall c', Compras d' !! id = Some c' ->
     exists c, Compras d !! id = Some c /\ c_tipo_cambio c' = c_tipo_cambio c) ->
  (Compras d' !! id = None -> Compras d !! id = None) ->
  calculated_total id d' = calculated_total id d.
Proof.
  intros Hd Hc Hn. unfold calculated_total, compras_left_join_detalles.
  rewrite Hd.
  destruct (Compras d' !! id) as [c' |] eqn:Hc'.
  - destruct (Hc c' eq_refl) as (c & -> & Ht).
    destruct (List.filter _ (Detalles_Compra d)) as [| x l]; [reflexivity |].
    f_equal. f_equal. rewrite !map_map. apply map_ext. intros y. simpl.
    now rewrite Ht.
  - now rewrite (Hn eq_refl).
Qed.

Lemma sum_lines c l :
  (coalesce (sql_sum (map line_amount (map (fun x => (c, Some x)) l))) 0
   == fold_right (fun x acc => line_total (c_tipo_cambio c) x + acc) 0 l)%Q.
Proof.
  induction l as [| x l IH]; simpl; [reflexivity |].
  rewrite <- IH. unfold line_total.
  destruct (is_dollar (dc_moneda x));
    destruct (sql_sum (map line_amount (map (fun x0 => (c, Some x0)) l)));
    simpl; ring.
Qed.

(** The total the query computes is the spec's sum over the line items. *)
Lemma calculated_total_spec id d :
  (calculated_total id d == purchase_total id d)%Q.
Proof.
  unfold calculated_total, purchase_total, compras_left_join_detalles,
    purchase_lines.
  destruct (Compras d !! id) as [c |]; [| reflexivity].
  destruct (List.filter _ (Detalles_Compra d)) as [| x l] eqn:Hl; [reflexivity |].
  apply (sum_lines c (x :: l)).
Qed.

Lemma sum_payments ps :
  (coalesce (sql_sum (map (fun p => Some (p_monto p)) ps)) 0 == sum_montos ps)%Q.
Proof.
  induction ps as [| p ps IH]; simpl; [reflexivity |].
  rewrite <- IH.
  destruct (sql_sum (map (fun p0 => Some (p_monto p0)) ps)); simpl; ring.
Qed.

(** ** Numbers *)

Lemma pow2_Qpower k : (pow2 k == 2 ^ k)%Q.
Proof.
  unfold pow2. destruct (Z.leb_spec 0 k) as [H | H].
  - rewrite Zpower_Qpower by exact H. reflexivity.
  - rewrite Zpower_Qpower by lia. change (inject_Z 2) with 2%Q.
    rewrite Qpower_opp, Qinv_involutive. reflexivity.
Qed.

Lemma pow2_pos k : (0 < pow2 k)%Q.
Proof. rewrite pow2_Qpower. now apply Qpower_0_lt. Qed.

Lemma pow2_add a b : (pow2 (a + b) == pow2 a * pow2 b)%Q.
Proof. rewrite !pow2_Qpower. now apply Qpower_plus. Qed.

Lemma pow2_le a b : a <= b -> (pow2 a <= pow2 b)%Q.
Proof.
  intros H. rewrite !pow2_Qpower. apply Qpower_le_compat_l; [exact H |].
  discriminate.
Qed.

Lemma pow2_lt a b : a < b -> (pow2 a < pow2 b)%Q.
Proof.
  intros H. replace b with (a + (b - a)) by lia. rewrite pow2_add.
  assert (H1 : (pow2 1 <= pow2 (b - a))%Q) by (apply pow2_le; lia).
  change (pow2 1) with 2%Q in H1.
  pose proof (pow2_pos a). nra.
Qed.

Lemma pow2_lt_inv a b : (pow2 a < pow2 b)%Q -> a < b.
Proof.
  intros H. destruct (Z.lt_ge_cases a b) as [Hlt | Hge]; [exact Hlt |].
  apply pow2_le in Hge. lra.
Qed.

Lemma pow2_of_nat k : 0 <= k -> pow2 k = inject_Z (2 ^ k).
Proof. intros H. unfold pow2. apply Z.leb_le in H. now rewrite H. Qed.

(** The test of [ilog2]. *)
Lemma pow2_le_fraction k n d :
  (if 0 <=? k then Zpos d * 2 ^ k <=? n else Zpos d <=? n * 2 ^ (- k)) = true
  <-> (pow2 k <= n # d)%Q.
Proof.
  unfold pow2. destruct (Z.leb_spec 0 k) as [H | H].
  - rewrite Z.leb_le. unfold Qle. simpl. lia.
  - rewrite Z.leb_le.
    assert (Hp : 0 < 2 ^ (- k)) by (apply Z.pow_pos_nonneg; lia).
    destruct (2 ^ (- k)) as [| p | p]; try lia.
    unfold Qle. simpl. lia.
Qed.

Lemma inject_Z_le_iff a b : (inject_Z a <= inject_Z b)%Q <-> a <= b.
Proof. rewrite <- Zle_Qle. tauto. Qed.

Lemma inject_Z_lt_iff a b : (inject_Z a < inject_Z b)%Q <-> a < b.
Proof. rewrite <- Zlt_Qlt. tauto. Qed.

Lemma log2_pow2 n :
  0 < n ->
  (pow2 (Z.log2 n) <= inject_Z n)%Q /\ (inject_Z n < pow2 (Z.log2 n + 1))%Q.
Proof.
  intros H. destruct (Z.log2_spec n H) as [H1 H2].
  pose proof (Z.log2_nonneg n).
  rewrite !pow2_of_nat by lia. split.
  - now apply inject_Z_le_iff.
  - apply inject_Z_lt_iff. exact H2.
Qed.

Lemma ilog2_spec x :
  (0 < x)%Q -> (pow2 (ilog2 x) <= x)%Q /\ (x < pow2 (ilog2 x + 1))%Q.
Proof.
  destruct x as [n d]. intros Hx.
  assert (Hn : 0 < n) by (unfold Qlt in Hx; simpl in Hx; lia).
  destruct (log2_pow2 n Hn) as [N1 N2].
  destruct (log2_pow2 (Zpos d) ltac:(lia)) as [D1 D2].
  set (a := Z.log2 n) in *. set (b := Z.log2 (Zpos d)) in *.
  assert (Hval : ((n # d) * inject_Z (Zpos d) == inject_Z n)%Q).
  { unfold Qeq, Qmult, inject_Z. simpl. lia. }
  assert (Hd : (0 < inject_Z (Zpos d))%Q) by (now apply inject_Z_lt_iff).
  assert (Hup : (n # d < pow2 (a - b + 1))%Q).
  { assert (E : (pow2 (a + 1) == pow2 (a - b + 1) * pow2 b)%Q).
    { rewrite <- pow2_add. now replace (a - b + 1 + b) with (a + 1) by lia. }
    pose proof (pow2_pos (a - b + 1)). nra. }
  assert (Hlo : (pow2 (a - b - 1) < n # d)%Q).
  { assert (E : (pow2 a == pow2 (a - b - 1) * pow2 (b + 1))%Q).
    { rewrite <- pow2_add. now replace (a - b - 1 + (b + 1)) with a by lia. }
    pose proof (pow2_pos (a - b - 1)). nra. }
  unfold ilog2. cbn [Qnum Qden]. fold a b.
  destruct (if 0 <=? a - b then _ else _) eqn:Ht.
  - apply pow2_le_fraction in Ht. split; assumption.
  - assert (Hnot : ~ (pow2 (a - b) <= n # d)%Q).
    { intros H. apply pow2_le_fraction in H. congruence. }
    apply Qnot_le_lt in Hnot.
    replace (a - b - 1 + 1) with (a - b) by lia. split; [lra | exact Hnot].
Qed.

Lemma ilog2_unique x k :
  (pow2 k <= x)%Q -> (x < pow2 (k + 1))%Q -> ilog2 x = k.
Proof.
  intros H1 H2.
  assert (Hx : (0 < x)%Q) by (pose proof (pow2_pos k); lra).
  destruct (ilog2_spec x Hx) as [H3 H4].
  assert (k < ilog2 x + 1) by (apply pow2_lt_inv; lra).
  assert (ilog2 x < k + 1) by (apply pow2_lt_inv; lra).
  lia.
Qed.

Lemma ilog2_mono x y : (0 < x)%Q -> (x <= y)%Q -> ilog2 x <= ilog2 y.
Proof.
  intros Hx Hxy.
  destruct (ilog2_spec x Hx) as [H1 _].
  destruct (ilog2_spec y ltac:(lra)) as [_ H2].
  assert (ilog2 x < ilog2 y + 1) by (apply pow2_lt_inv; lra).
  lia.
Qed.

(** Rounding to the nearest integer. *)
Lemma nearest_even_floor a :
  Qfloor a <= nearest_even a <= Qfloor a + 1.
Proof.
  unfold nearest_even.
  destruct (a - inject_Z (Qfloor a) ?= 1 # 2)%Q; [destruct (Z.even _) | |]; lia.
Qed.

Lemma nearest_even_mono a b : (a <= b)%Q -> nearest_even a <= nearest_even b.
Proof.
  intros Hab. pose proof (Qfloor_resp_le a b Hab) as Hf.
  pose proof (nearest_even_floor a). pose proof (nearest_even_floor b).
  destruct (Z.eq_dec (Qfloor a) (Qfloor b)) as [E | NE]; [| lia].
  unfold nearest_even. rewrite E.
  destruct (Qcompare_spec (a - inject_Z (Qfloor b)) (1 # 2)) as [Ha | Ha | Ha];
    destruct (Qcompare_spec (b - inject_Z (Qfloor b)) (1 # 2)) as [Hb | Hb | Hb];
    try (destruct (Z.even (Qfloor b))); try lia; exfalso; lra.
Qed.

Lemma nearest_even_Z m : nearest_even (inject_Z m) = m.
Proof.
  unfold nearest_even. rewrite Qfloor_Z.
  destruct (Qcompare_spec (inject_Z m - inject_Z m) (1 # 2)) as [H | H | H];
    [exfalso; lra | reflexivity | exfalso; lra].
Qed.

Lemma nearest_even_comp a b : (a == b)%Q -> nearest_even a = nearest_even b.
Proof.
  intros H. apply Z.le_antisymm; apply nearest_even_mono; lra.
Qed.

Lemma nearest_even_half a : (1 # 2 < a)%Q -> 1 <= nearest_even a.
Proof.
  intros H. pose proof (nearest_even_floor a) as Hf.
  assert (H0 : 0 <= Qfloor a).
  { change 0 with (Qfloor (inject_Z 0)). rewrite Qfloor_Z.
    rewrite <- (Qfloor_Z 0). apply Qfloor_resp_le. change (inject_Z 0) with 0%Q. lra. }
  destruct (Z.eq_dec (Qfloor a) 0) as [E | NE]; [| lia].
  unfold nearest_even. rewrite E. change (inject_Z 0) with 0%Q.
  destruct (Qcompare_spec (a - 0) (1 # 2)) as [Ha | Ha | Ha];
    [exfalso; lra | exfalso; lra | lia].
Qed.

(** The exponent and the significand of the double nearest to a positive
    rational. *)
Lemma exponent_ge x : - 1074 <= exponent x /\ ilog2 x - 52 <= exponent x.
Proof. unfold exponent. lia. Qed.

Lemma scaled x e : (x / pow2 e * pow2 e == x)%Q.
Proof. field. pose proof (pow2_pos e). lra. Qed.

Lemma significand_le x : (0 < x)%Q -> significand x <= 2 ^ 53.
Proof.
  intros Hx. unfold significand.
  rewrite <- (nearest_even_Z (2 ^ 53)). apply nearest_even_mono.
  destruct (ilog2_spec x Hx) as [_ H].
  destruct (exponent_ge x) as [_ He].
  assert (H1 : (pow2 (ilog2 x + 1) <= pow2 (exponent x + 53))%Q)
    by (apply pow2_le; lia).
  rewrite (pow2_add (exponent x) 53) in H1.
  change (pow2 53) with (inject_Z (2 ^ 53)) in H1.
  apply Qle_shift_div_r; [apply pow2_pos |]. lra.
Qed.

Lemma significand_ge x :
  (0 < x)%Q -> - 1074 < exponent x -> 2 ^ 52 <= significand x.
Proof.
  intros Hx He. unfold significand.
  rewrite <- (nearest_even_Z (2 ^ 52)). apply nearest_even_mono.
  destruct (ilog2_spec x Hx) as [H _].
  assert (E : ilog2 x = exponent x + 52) by (unfold exponent in *; lia).
  rewrite E, pow2_add in H. change (pow2 52) with (inject_Z (2 ^ 52)) in H.
  apply Qle_shift_div_l; [apply pow2_pos |]. lra.
Qed.

Lemma significand_nonneg x : (0 < x)%Q -> 0 <= significand x.
Proof.
  intros Hx. unfold significand.
  rewrite <- (nearest_even_Z 0). apply nearest_even_mono.
  apply Qle_shift_div_l; [apply pow2_pos |]. change (inject_Z 0) with 0%Q. lra.
Qed.

Lemma nearest_double_Some x v :
  nearest_double x = Some v ->
  (v == inject_Z (significand x) * pow2 (exponent x))%Q
  /\ exponent x <= 971
  /\ (exponent x = 971 -> significand x <> 2 ^ 53).
Proof.
  unfold nearest_double. cbv zeta.
  destruct (Z.ltb_spec 971 (exponent x)) as [H1 | H1]; cbn [orb];
    [discriminate |].
  destruct (Z.eqb_spec (exponent x) 971) as [H2 | H2]; cbn [andb].
  - destruct (Z.eqb_spec (significand x) (2 ^ 53)) as [H3 | H3];
      [discriminate |].
    intros [= <-]. split; [apply Qred_correct | split; [lia | auto]].
  - intros [= <-]. split; [apply Qred_correct | split; [lia | intros; lia]].
Qed.

Lemma nearest_double_None x :
  nearest_double x = None ->
  971 <= exponent x /\ (exponent x = 971 -> significand x = 2 ^ 53).
Proof.
  unfold nearest_double. cbv zeta.
  destruct (Z.ltb_spec 971 (exponent x)) as [H1 | H1]; cbn [orb];
    [intros _; lia |].
  destruct (Z.eqb_spec (exponent x) 971) as [H2 | H2]; cbn [andb];
    [| discriminate].
  destruct (Z.eqb_spec (significand x) (2 ^ 53)) as [H3 | H3];
    [| discriminate].
  intros _. split; [lia | auto].
Qed.

(** The value lies between the powers of two around [x]. *)
Lemma value_le x :
  (0 < x)%Q ->
  (inject_Z (significand x) * pow2 (exponent x)
   <= pow2 (Z.max (ilog2 x + 1) (exponent x)))%Q.
Proof.
  intros Hx. set (e := exponent x). set (u := Z.max (ilog2 x + 1) e).
  assert (Hu : (pow2 u == pow2 (u - e) * pow2 e)%Q).
  { rewrite <- pow2_add. now replace (u - e + e) with u by lia. }
  assert (Hm : significand x <= 2 ^ (u - e)).
  { unfold significand. fold e.
    rewrite <- (nearest_even_Z (2 ^ (u - e))). apply nearest_even_mono.
    rewrite <- pow2_of_nat by lia.
    apply Qle_shift_div_r; [apply pow2_pos |]. rewrite <- Hu.
    destruct (ilog2_spec x Hx) as [_ H].
    assert ((pow2 (ilog2 x + 1) <= pow2 u)%Q) by (apply pow2_le; lia).
    lra. }
  apply inject_Z_le_iff in Hm. rewrite <- pow2_of_nat in Hm by lia.
  rewrite Hu. pose proof (pow2_pos e). nra.
Qed.

Lemma value_ge x :
  (0 < x)%Q -> - 1074 < exponent x ->
  (pow2 (ilog2 x) <= inject_Z (significand x) * pow2 (exponent x))%Q.
Proof.
  intros Hx He. pose proof (significand_ge x Hx He) as Hm.
  assert (E : ilog2 x = 52 + exponent x) by (unfold exponent in *; lia).
  rewrite E, pow2_add. apply inject_Z_le_iff in Hm.
  change (pow2 52) with (inject_Z (2 ^ 52)).
  pose proof (pow2_pos (exponent x)). nra.
Qed.

Lemma exponent_mono x y : (0 < x)%Q -> (x <= y)%Q -> exponent x <= exponent y.
Proof.
  intros Hx Hxy. pose proof (ilog2_mono x y Hx Hxy). unfold exponent. lia.
Qed.

Lemma significand_mono x y :
  (x <= y)%Q -> exponent x = exponent y -> significand x <= significand y.
Proof.
  intros Hxy He. unfold significand. rewrite He. apply nearest_even_mono.
  apply Qle_shift_div_l; [apply pow2_pos |]. rewrite scaled. exact Hxy.
Qed.

(** Rounding keeps the order. *)
Lemma nearest_double_mono x y :
  (0 < x)%Q -> (x <= y)%Q ->
  match nearest_double x, nearest_double y with
  | Some v, Some w => (v <= w)%Q
  | None, Some _ => False
  | _, None => True
  end.
Proof.
  intros Hx Hxy. assert (Hy : (0 < y)%Q) by lra.
  pose proof (exponent_mono x y Hx Hxy) as He.
  destruct (nearest_double y) as [w |] eqn:Ey;
    [| destruct (nearest_double x); exact I].
  apply nearest_double_Some in Ey as (Hw & Hey & Hmy).
  destruct (nearest_double x) as [v |] eqn:Ex.
  - apply nearest_double_Some in Ex as (Hv & _ & _). rewrite Hv, Hw.
    destruct (Z.eq_dec (exponent x) (exponent y)) as [E | NE].
    + pose proof (significand_mono x y Hxy E) as Hm.
      apply inject_Z_le_iff in Hm. rewrite E.
      pose proof (pow2_pos (exponent y)). nra.
    + assert (Hlt : exponent x < exponent y) by lia.
      pose proof (exponent_ge x) as [Hx1 Hx2].
      pose proof (value_le x Hx) as Hup.
      pose proof (value_ge y Hy ltac:(lia)) as Hlo.
      assert (Hp : (pow2 (Z.max (ilog2 x + 1) (exponent x)) <= pow2 (ilog2 y))%Q).
      { apply pow2_le. unfold exponent in *. lia. }
      lra.
  - apply nearest_double_None in Ex as (Hex & Hmx).
    assert (E : exponent x = exponent y) by lia.
    pose proof (significand_mono x y Hxy E) as Hm.
    pose proof (significand_le y Hy).
    apply (Hmy ltac:(lia)). specialize (Hmx ltac:(lia)). lia.
Qed.

(** A double is the double nearest to itself. *)
Lemma nearest_double_fixed x v z :
  (0 < x)%Q -> nearest_double x = Some v -> (z == v)%Q -> (0 < z)%Q ->
  exists v', nearest_double z = Some v' /\ (v' == z)%Q.
Proof.
  intros Hx Ex Hz Hz0.
  apply nearest_double_Some in Ex as (Hv & He & Hov).
  set (e := exponent x) in *. set (m := significand x) in *.
  pose proof (significand_le x Hx) as Hm53. fold m in Hm53.
  pose proof (exponent_ge x) as [He0 _]. fold e in He0.
  assert (Hzv : (z == inject_Z m * pow2 e)%Q) by (rewrite Hz; exact Hv).
  assert (Hm0 : 0 < m).
  { apply inject_Z_lt_iff. change (inject_Z 0) with 0%Q.
    pose proof (pow2_pos e). nra. }
  destruct (log2_pow2 m Hm0) as [L1 L2]. set (L := Z.log2 m) in *.
  assert (Hlog : ilog2 z = L + e).
  { apply ilog2_unique.
    - rewrite pow2_add, Hzv. pose proof (pow2_pos e). nra.
    - replace (L + e + 1) with (L + 1 + e) by lia.
      rewrite pow2_add, Hzv. pose proof (pow2_pos e). nra. }
  destruct (Z.eq_dec m (2 ^ 53)) as [Em | Nm].
  - assert (HL : L = 53) by (unfold L; rewrite Em; reflexivity).
    assert (Hez : exponent z = e + 1) by (unfold exponent; lia).
    assert (Hmz : significand z = 2 ^ 52).
    { unfold significand. rewrite Hez.
      rewrite <- (nearest_even_Z (2 ^ 52)). apply nearest_even_comp.
      rewrite Hzv, Em, pow2_add. change (pow2 1) with 2%Q.
      assert (E2 : (inject_Z (2 ^ 53) == 2 * inject_Z (2 ^ 52))%Q)
        by reflexivity.
      rewrite E2. field. pose proof (pow2_pos e). lra. }
    unfold nearest_double. cbv zeta. rewrite Hez, Hmz.
    assert (Hlt : e < 971) by (specialize (Hov); lia).
    replace (971 <? e + 1) with false by (symmetry; apply Z.ltb_ge; lia).
    replace (2 ^ 52 =? 2 ^ 53) with false by reflexivity.
    rewrite andb_false_r. cbn [orb].
    eexists. split; [reflexivity |].
    rewrite Qred_correct, Hzv, Em, pow2_add. change (pow2 1) with 2%Q.
    assert (E2 : (inject_Z (2 ^ 53) == 2 * inject_Z (2 ^ 52))%Q)
      by reflexivity.
    rewrite E2. ring.
  - assert (Hlt : m < 2 ^ 53) by lia.
    assert (HL : L < 53) by (apply Z.log2_lt_pow2; [exact Hm0 | exact Hlt]).
    assert (Hez : exponent z = e).
    { unfold exponent. rewrite Hlog.
      destruct (Z.eq_dec e (- 1074)) as [Ee | Ne]; [lia |].
      pose proof (significand_ge x Hx ltac:(fold e; lia)) as Hm52. fold m in Hm52.
      assert (52 <= L) by (apply Z.log2_le_pow2; [exact Hm0 | exact Hm52]).
      lia. }
    assert (Hmz : significand z = m).
    { unfold significand. rewrite Hez.
      rewrite <- (nearest_even_Z m). apply nearest_even_comp.
      rewrite Hzv. field. pose proof (pow2_pos e). lra. }
    unfold nearest_double. cbv zeta. rewrite Hez, Hmz.
    replace (971 <? e) with false by (symmetry; apply Z.ltb_ge; lia).
    replace (m =? 2 ^ 53) with false by (symmetry; apply Z.eqb_neq; exact Nm).
    rewrite andb_false_r. cbn [orb].
    eexists. split; [reflexivity |].
    rewrite Qred_correct, Hzv. reflexivity.
Qed.

(** [to_number], by the sign of its argument. *)
Lemma Qred_sign x :
  match Qnum (Qred x) with
  | 0 => (x == 0)%Q
  | Zpos _ => (0 < x)%Q
  | Zneg _ => (x < 0)%Q
  end.
Proof.
  pose proof (Qred_correct x) as H.
  destruct (Qred x) as [n d]. cbn [Qnum].
  destruct n; rewrite <- H; unfold Qeq, Qlt; simpl; lia.
Qed.

Lemma to_number_zero x : (x == 0)%Q -> to_number x = Finite 0.
Proof.
  intros H. unfold to_number. pose proof (Qred_sign x) as Hs.
  destruct (Qnum (Qred x)); [reflexivity | lra | lra].
Qed.

Lemma to_number_pos x :
  (0 < x)%Q ->
  to_number x = match nearest_double (Qred x) with
                | Some v => Finite v
                | None => PlusInfinity
                end.
Proof.
  intros H. unfold to_number. pose proof (Qred_sign x) as Hs.
  destruct (Qnum (Qred x)); [lra | reflexivity | lra].
Qed.

Lemma to_number_neg x :
  (x < 0)%Q ->
  to_number x = match nearest_double (- Qred x) with
                | Some v => Finite (- v)
                | None => MinusInfinity
                end.
Proof.
  intros H. unfold to_number. pose proof (Qred_sign x) as Hs.
  destruct (Qnum (Qred x)); [lra | lra | reflexivity].
Qed.

Lemma nearest_double_nonneg x v :
  (0 < x)%Q -> nearest_double x = Some v -> (0 <= v)%Q.
Proof.
  intros Hx H. apply nearest_double_Some in H as (Hv & _ & _).
  pose proof (significand_nonneg x Hx) as Hm. apply inject_Z_le_iff in Hm.
  change (inject_Z 0) with 0%Q in Hm.
  pose proof (pow2_pos (exponent x)). rewrite Hv. nra.
Qed.

(** The sign of a number is the sign of what was rounded; rounding never
    gives NaN. *)
Lemma to_number_sign x :
  match to_number x with
  | Finite v => ((0 <= x)%Q -> (0 <= v)%Q) /\ ((x <= 0)%Q -> (v <= 0)%Q)
  | PlusInfinity => (0 < x)%Q
  | MinusInfinity => (x < 0)%Q
  | NaN => False
  end.
Proof.
  destruct (Q_dec x 0) as [[Hneg | Hpos] | Hzero].
  - rewrite (to_number_neg x Hneg).
    assert (H0 : (0 < - Qred x)%Q) by (rewrite Qred_correct; lra).
    destruct (nearest_double (- Qred x)) as [v |] eqn:E; [| exact Hneg].
    pose proof (nearest_double_nonneg _ _ H0 E). split; intros; lra.
  - rewrite (to_number_pos x Hpos).
    assert (H0 : (0 < Qred x)%Q) by (rewrite Qred_correct; lra).
    destruct (nearest_double (Qred x)) as [v |] eqn:E; [| exact Hpos].
    pose proof (nearest_double_nonneg _ _ H0 E). split; intros; lra.
  - rewrite (to_number_zero x Hzero). split; intros; lra.
Qed.

Lemma to_number_mono x y :
  (x <= y)%Q -> number_ge (to_number y) (to_number x) = true.
Proof.
  intros Hxy.
  destruct (Q_dec x 0) as [[Hx | Hx] | Hx].
  - destruct (Q_dec y 0) as [[Hy | Hy] | Hy].
    + rewrite (to_number_neg x Hx), (to_number_neg y Hy).
      assert (H0 : (0 < - Qred y)%Q) by (rewrite Qred_correct; lra).
      assert (H1 : (- Qred y <= - Qred x)%Q) by (rewrite !Qred_correct; lra).
      pose proof (nearest_double_mono _ _ H0 H1) as H.
      destruct (nearest_double (- Qred y)), (nearest_double (- Qred x));
        cbn [number_ge]; try reflexivity; try contradiction.
      apply Qle_bool_iff. lra.
    + pose proof (to_number_sign x) as Sx. pose proof (to_number_sign y) as Sy.
      destruct (to_number x), (to_number y); cbn [number_ge];
        try reflexivity; try contradiction; try lra.
      apply Qle_bool_iff. destruct Sx, Sy. lra.
    + pose proof (to_number_sign x) as Sx. pose proof (to_number_sign y) as Sy.
      destruct (to_number x), (to_number y); cbn [number_ge];
        try reflexivity; try contradiction; try lra.
      apply Qle_bool_iff. destruct Sx, Sy. lra.
  - rewrite (to_number_pos x Hx), (to_number_pos y ltac:(lra)).
    assert (H0 : (0 < Qred x)%Q) by (rewrite Qred_correct; lra).
    assert (H1 : (Qred x <= Qred y)%Q) by (rewrite !Qred_correct; lra).
    pose proof (nearest_double_mono _ _ H0 H1) as H.
    destruct (nearest_double (Qred x)), (nearest_double (Qred y));
      cbn [number_ge]; try reflexivity; try contradiction.
    apply Qle_bool_iff. exact H.
  - pose proof (to_number_sign x) as Sx. pose proof (to_number_sign y) as Sy.
    destruct (to_number x), (to_number y); cbn [number_ge];
      try reflexivity; try contradiction; try lra.
    apply Qle_bool_iff. destruct Sx, Sy. lra.
Qed.

Lemma to_number_fixed x v :
  to_number x = Finite v -> exists v', to_number v = Finite v' /\ (v' == v)%Q.
Proof.
  intros H.
  destruct (Q_dec v 0) as [[Hv | Hv] | Hv].
  - (* a negative double *)
    destruct (Q_dec x 0) as [[Hx | Hx] | Hx].
    + rewrite (to_number_neg x Hx) in H.
      assert (H0 : (0 < - Qred x)%Q) by (rewrite Qred_correct; lra).
      destruct (nearest_double (- Qred x)) as [w |] eqn:E; [| discriminate].
      injection H as <-.
      destruct (nearest_double_fixed (- Qred x) w (- Qred (- w)) H0 E)
        as (v' & E' & Hv').
      { rewrite Qred_correct. ring. }
      { rewrite Qred_correct. lra. }
      exists (- v')%Q. rewrite (to_number_neg _ Hv), E'.
      split; [reflexivity |]. rewrite Hv', Qred_correct. ring.
    + pose proof (to_number_sign x) as S. rewrite H in S. destruct S. lra.
    + pose proof (to_number_sign x) as S. rewrite H in S. destruct S. lra.
  - (* a positive double *)
    destruct (Q_dec x 0) as [[Hx | Hx] | Hx].
    + pose proof (to_number_sign x) as S. rewrite H in S. destruct S. lra.
    + rewrite (to_number_pos x Hx) in H.
      assert (H0 : (0 < Qred x)%Q) by (rewrite Qred_correct; lra).
      destruct (nearest_double (Qred x)) as [w |] eqn:E; [| discriminate].
      injection H as <-.
      destruct (nearest_double_fixed (Qred x) w (Qred w) H0 E)
        as (v' & E' & Hv').
      { apply Qred_correct. }
      { rewrite Qred_correct. exact Hv. }
      exists v'. rewrite (to_number_pos _ Hv), E'.
      split; [reflexivity |]. rewrite Hv'. apply Qred_correct.
    + pose proof (to_number_sign x) as S. rewrite H in S. destruct S. lra.
  - exists 0%Q. rewrite (to_number_zero v Hv). split; [reflexivity | lra].
Qed.

(** Rounding moves a rational by half a unit in the last place at most. *)
Lemma nearest_even_close a :
  (inject_Z (nearest_even a) - a <= 1 # 2)%Q
  /\ (a - inject_Z (nearest_even a) <= 1 # 2)%Q.
Proof.
  pose proof (Qfloor_le a) as H1. pose proof (Qlt_floor a) as H2.
  rewrite inject_Z_plus in H2. change (inject_Z 1) with 1%Q in H2.
  unfold nearest_even.
  destruct (Qcompare_spec (a - inject_Z (Qfloor a)) (1 # 2)) as [H | H | H];
    [destruct (Z.even (Qfloor a)) | |];
    rewrite ?inject_Z_plus; change (inject_Z 1) with 1%Q; split; lra.
Qed.

Lemma nearest_double_close x v :
  (0 < x)%Q -> nearest_double x = Some v ->
  (v - x <= pow2 (exponent x - 1))%Q /\ (x - v <= pow2 (exponent x - 1))%Q.
Proof.
  intros Hx H. apply nearest_double_Some in H as (Hv & _ & _).
  destruct (nearest_even_close (x / pow2 (exponent x))) as [H1 H2].
  fold (significand x) in H1, H2.
  pose proof (scaled x (exponent x)) as Hs.
  pose proof (pow2_pos (exponent x)) as Hp.
  assert (Hh : (pow2 (exponent x) == 2 * pow2 (exponent x - 1))%Q).
  { replace (exponent x) with (1 + (exponent x - 1)) at 1 by lia.
    rewrite pow2_add. reflexivity. }
  rewrite Hv. split; nra.
Qed.

(** Some doubles: 0.1, 1.01, the largest one, and what lies beyond. *)
Lemma to_number_samples :
  to_number (1 # 10) = Finite (3602879701896397 # 36028797018963968)
  /\ to_number (101 # 100) = Finite (4548635623644201 # 4503599627370496)
  /\ to_number (inject_Z (2 ^ 1024 - 2 ^ 970 - 1))
     = Finite (inject_Z (2 ^ 1024 - 2 ^ 971))
  /\ to_number (inject_Z (2 ^ 1024 - 2 ^ 970)) = PlusInfinity
  /\ to_number (- (3 # 2)) = Finite (- (3 # 2))
  /\ to_number (pow2 (- 1075)) = Finite 0.
Proof.
  repeat split; vm_compute; reflexivity.
Qed.

(** ** The payment rule, in exact terms *)

(** A paid total that reaches the amount is paid in full. *)
Lemma paid_in_full_reached paid amount :
  (amount <= paid)%Q -> paid_in_full paid amount.
Proof.
  intros Hle. unfold paid_in_full.
  pose proof (to_number_mono amount paid Hle) as HPA.
  pose proof (to_number_sign paid) as SP.
  pose proof (to_number_sign epsilon) as SE.
  destruct (to_number epsilon) as [eps | | |] eqn:HE;
    [| contradiction | |];
    [| vm_compute in HE; discriminate HE | vm_compute in SE; discriminate SE].
  destruct SE as [SE _]. specialize (SE ltac:(discriminate)). clear HE.
  destruct (to_number amount) as [a | | |] eqn:HA; cbn [number_sub].
  - destruct (to_number_fixed _ _ HA) as (a' & Ha' & Haa).
    pose proof (to_number_mono (a - eps) a ltac:(lra)) as HS.
    rewrite Ha' in HS.
    destruct (to_number paid), (to_number (a - eps)); cbn [number_ge] in *;
      try reflexivity; try discriminate; try contradiction.
    apply Qle_bool_iff. apply Qle_bool_iff in HPA, HS. lra.
  - pose proof (to_number_sign amount) as SA. rewrite HA in SA. contradiction.
  - exact HPA.
  - destruct (to_number paid); try reflexivity; contradiction.
Qed.

(** Only a positive paid total is paid in part. *)
Lemma paid_in_part_positive paid : paid_in_part paid -> (0 < paid)%Q.
Proof.
  unfold paid_in_part. intros H.
  destruct (Qlt_le_dec 0 paid) as [Hp | Hp]; [exact Hp |].
  pose proof (to_number_sign paid) as S.
  destruct (to_number paid); cbn [number_gt] in H; try discriminate;
    try contradiction; try lra.
  destruct S as [_ S]. specialize (S Hp).
  apply negb_true_iff in H.
  assert (Qle_bool q 0 = true) by (apply Qle_bool_iff; exact S). congruence.
Qed.

(** A paid total above half the least positive double is paid in part. *)
Lemma paid_in_part_reached paid :
  (pow2 (- 1075) < paid)%Q -> paid_in_part paid.
Proof.
  intros H. unfold paid_in_part.
  assert (Hp : (0 < paid)%Q) by (pose proof (pow2_pos (- 1075)); lra).
  rewrite (to_number_pos paid Hp).
  assert (H0 : (0 < Qred paid)%Q) by (rewrite Qred_correct; exact Hp).
  destruct (nearest_double (Qred paid)) as [v |] eqn:E; [| reflexivity].
  apply nearest_double_Some in E as (Hv & _ & _).
  cbn [number_gt]. apply negb_true_iff.
  destruct (Qle_bool v 0) eqn:Hle; [| reflexivity].
  apply Qle_bool_iff in Hle. exfalso.
  assert (Hm : 1 <= significand (Qred paid)).
  { destruct (Z.eq_dec (exponent (Qred paid)) (- 1074)) as [Ee | Ne].
    - unfold significand. rewrite Ee. apply nearest_even_half.
      apply Qlt_shift_div_l; [apply pow2_pos |].
      rewrite Qred_correct.
      assert (E2 : ((1 # 2) * pow2 (- 1074) == pow2 (- 1075))%Q).
      { replace (- 1075) with (- 1 + - 1074) by lia.
        rewrite pow2_add. reflexivity. }
      lra.
    - pose proof (exponent_ge (Qred paid)) as [He _].
      pose proof (significand_ge (Qred paid) H0 ltac:(lia)).
      assert (0 < 2 ^ 52) by reflexivity. lia. }
  apply inject_Z_le_iff in Hm. change (inject_Z 1) with 1%Q in Hm.
  pose proof (pow2_pos (exponent (Qred paid))). nra.
Qed.

(** The payment state, by the two tests of the rule. *)
Lemma newStatus_spec paid amount :
  (newStatus paid amount = "Pagado" <-> paid_in_full paid amount)
  /\ (newStatus paid amount = "Parcialmente Pagado"
      <-> ~ paid_in_full paid amount /\ paid_in_part paid)
  /\ (newStatus paid amount = "Pago Pendiente"
      <-> ~ paid_in_full paid amount /\ ~ paid_in_part paid).
Proof.
  unfold newStatus, paid_in_full, paid_in_part, epsilon.
  destruct (number_ge _ _); [| destruct (number_gt _ _)];
    (split; [| split]); split; intros H;
    first [ reflexivity | discriminate H
          | exfalso; intuition congruence | intuition congruence ].
Qed.

Lemma update_compra_pago_none st total pid id d1 d2 :
  bind_int pid = Some id ->
  update_compra_pago st total pid d1 = Ok (tt, d2) ->
  Compras d2 !! id = None -> Compras d1 !! id = None.
Proof.
  intros Hid. unfold update_compra_pago. rewrite Hid.
  destruct (Compras d1 !! id) as [c |] eqn:Hc; intros [= <-]; simpl; [| auto].
  rewrite lookup_insert_eq. discriminate.
Qed.

Lemma bind_decimal_inv v a : bind_decimal v = Some a -> v = JNum a.
Proof. destruct v; simpl; congruence. Qed.

Lemma le_zero_false a : le_zero (JNum a) = false -> (0 < a)%Q.
Proof.
  simpl. intros H. apply Qnot_le_lt. intros Hle.
  apply Qle_bool_iff in Hle. congruence.
Qed.

(** What a registered payment leaves committed. *)
Lemma registrar_pago_compra_success e req st :
  method req <> "OPTIONS" ->
  status (fst (registrar_pago_compra e req st)) = 200 ->
  exists id a,
    bind_int (field (json_body req) "purchaseId") = Some id
    /\ field (json_body req) "amount" = JNum a /\ (0 < a)%Q
    /\ Pagos_Compra (committed (snd (registrar_pago_compra e req st)))
       = (Pagos_Compra (committed st) ++
            [{| p_id_compra := id; p_monto := a;
                p_fecha_pago := field (json_body req) "paymentDate";
                p_metodo_pago := field (json_body req) "method";
                p_notas := field (json_body req) "notes" |}])%list
    /\ Detalles_Compra (committed (snd (registrar_pago_compra e req st)))
       = Detalles_Compra (committed st)
    /\ Inventario (committed (snd (registrar_pago_compra e req st)))
       = Inventario (committed st)
    /\ (forall c',
          Compras (committed (snd (registrar_pago_compra e req st))) !! id = Some c' ->
          c_monto_total c'
          = calculated_total id (committed (snd (registrar_pago_compra e req st)))
          /\ c_estado_pago c'
             = Some (newStatus
                       (total_paid id (committed (snd (registrar_pago_compra e req st))))
                       (c_monto_total c'))
          /\ exists c, Compras (committed st) !! id = Some c
                       /\ c_tipo_cambio c' = c_tipo_cambio c
                       /\ c_estado c' = c_estado c)
    /\ (forall j, j <> id ->
          Compras (committed (snd (registrar_pago_compra e req st))) !! j
          = Compras (committed st) !! j).
Proof.
  intros Hm H200. unfold registrar_pago_compra in *.
  apply String.eqb_neq in Hm. rewrite Hm in *.
  destruct (negb (pool e)); [discriminate |].
  unfold handle in *.
  destruct (registrar_pago_compra_try e (json_body req)
              {| srv := st; txn := None; tick := O; connected := false |})
    as [[r | t] s1] eqn:Htry; [| discriminate]. simpl in *.
  apply registrar_pago_compra_try_Ok in Htry; [| reflexivity].
  destruct Htry as (d1 & d2 & total & paid & Hle & Hins & Hsel & Hupd & Hc & _).
  simpl in Hins. rewrite Hc.
  apply insert_pago_inv in Hins as (id & a & Hid & Ha & Hd1).
  apply bind_decimal_inv in Ha. rewrite Ha in Hle. apply le_zero_false in Hle.
  unfold select_totals in Hsel. rewrite Hid in Hsel.
  injection Hsel as Htotal Hpaid.
  destruct (update_compra_pago_inv _ _ _ _ _ _ Hid Hupd)
    as (Hp2 & Hd2 & Hi2 & Hrow & Hother & _).
  exists id, a. split; [exact Hid |]. split; [exact Ha |]. split; [exact Hle |].
  split; [rewrite Hp2, Hd1; reflexivity |].
  split; [rewrite Hd2, Hd1; reflexivity |].
  split; [rewrite Hi2, Hd1; reflexivity |].
  split.
  - intros c' Hc'. destruct (Hrow c' Hc') as (Hmt & Hep & c & Hc1 & Htc & Hest).
    assert (Hct : calculated_total id d2 = total).
    { rewrite <- Htotal. apply calculated_total_ext; [exact Hd2 | |].
      - intros c2 Hc2. destruct (Hrow c2 Hc2) as (_ & _ & c3 & Hc3 & Htc3 & _).
        eauto.
      - apply (update_compra_pago_none _ _ _ _ _ _ Hid Hupd). }
    assert (Htp : total_paid id d2 = paid).
    { rewrite <- Hpaid. unfold total_paid. now rewrite Hp2. }
    rewrite Hct, Htp, Hmt. split; [reflexivity |]. split; [exact Hep |].
    exists c. rewrite Hd1 in Hc1. simpl in Hc1. auto.
  - intros j Hj. rewrite (Hother j Hj), Hd1. reflexivity.
Qed.

Lemma purchase_total_ext id d d' :
  Detalles_Compra d' = Detalles_Compra d ->
  c_tipo_cambio <$> Compras d' !! id = c_tipo_cambio <$> Compras d !! id ->
  purchase_total id d' = purchase_total id d.
Proof.
  intros Hd Hc. unfold purchase_total, purchase_lines. rewrite Hd.
  destruct (Compras d' !! id) as [c' |], (Compras d !! id) as [c |];
    simpl in Hc; try discriminate; [| reflexivity].
  injection Hc as ->. reflexivity.
Qed.

(** ** Payments in any order *)

Lemma truthy_num_of_Z z : z <> 0 -> truthy (num_of_Z z) = true.
Proof.
  intros Hz. unfold truthy, num_of_Z, Qeq_bool, inject_Z. simpl.
  destruct (Z.eqb_spec (z * 1) (0 * 1)); [lia | reflexivity].
Qed.

Lemma le_zero_pos a : (0 < a)%Q -> le_zero (JNum a) = false.
Proof.
  intros Ha. simpl. destruct (Qle_bool a 0) eqn:H; [| reflexivity].
  apply Qle_bool_iff in H. exfalso. apply (Qlt_not_le _ _ Ha H).
Qed.

Lemma registrar_pago_compra_accepts e id p st :
  reliable e -> pool e = true -> id <> 0 -> valid_payment id p ->
  status (fst (registrar_pago_compra e (payment_request p) st)) = 200.
Proof.
  intros Hrel Hpool Hid (Hpid & Ha & Hf & Hm).
  destruct p as [pid a f m n]. simpl in *. subst pid.
  unfold registrar_pago_compra, payment_request. simpl. rewrite Hpool. simpl.
  rewrite handle_response. unfold registrar_pago_compra_try.
  rewrite !prop_field by reflexivity. rewrite !bind_ret.
  change (field _ "purchaseId") with (num_of_Z id).
  change (field _ "amount") with (JNum a).
  change (field _ "paymentDate") with f.
  change (field _ "method") with m.
  rewrite (truthy_num_of_Z id Hid), (le_zero_pos a Ha), Hf, Hm. simpl.
  unfold bind at 1. rewrite (connect_run e Hrel).
  unfold bind at 1. rewrite (begin_run e Hrel) by reflexivity.
  unfold bind at 1. erewrite (exec_run e Hrel) by reflexivity.
  unfold insert_pago. rewrite bind_int_num_of_Z. simpl.
  unfold bind at 1. erewrite (exec_run e Hrel) by reflexivity.
  unfold select_totals. rewrite bind_int_num_of_Z.
  unfold bind at 1. erewrite (exec_run e Hrel) by reflexivity.
  unfold update_compra_pago. rewrite bind_int_num_of_Z.
  match goal with |- context [Compras ?d !! id] =>
    destruct (Compras d !! id) end;
    (unfold bind at 1; erewrite (commit_run e Hrel) by reflexivity; reflexivity).
Qed.

Lemma sum_montos_perm ps ps' :
  Permutation ps ps' -> (sum_montos ps == sum_montos ps')%Q.
Proof.
  induction 1; simpl.
  - reflexivity.
  - now rewrite IHPermutation.
  - ring.
  - now rewrite IHPermutation1.
Qed.

Lemma filter_perm {A} (f : A -> bool) l l' :
  Permutation l l' -> Permutation (List.filter f l) (List.filter f l').
Proof.
  induction 1; simpl.
  - constructor.
  - destruct (f x); [now constructor | assumption].
  - destruct (f x), (f y); try reflexivity. apply perm_swap.
  - etransitivity; eassumption.
Qed.

(** The paid total does not depend on the order of the payment rows. *)
Lemma total_paid_perm id d d' :
  Permutation (Pagos_Compra d) (Pagos_Compra d') ->
  (total_paid id d == total_paid id d')%Q.
Proof.
  intros H. unfold total_paid. rewrite !sum_payments.
  apply sum_montos_perm, filter_perm, H.
Qed.

Lemma to_number_proper x y : (x == y)%Q -> to_number x = to_number y.
Proof.
  intros H. unfold to_number. now rewrite (Qred_complete _ _ H).
Qed.

Lemma newStatus_proper paid paid' amount amount' :
  (paid == paid')%Q -> (amount == amount')%Q ->
  newStatus paid amount = newStatus paid' amount'.
Proof.
  intros Hp Ha. unfold newStatus.
  now rewrite (to_number_proper _ _ Hp), (to_number_proper _ _ Ha).
Qed.

Section PaymentSequences.
Variable e : env.
Hypothesis Hrel : reliable e.
Hypothesis Hpool : pool e = true.
Variable id : Z.
Hypothesis Hid : id <> 0.

(** One registered payment on an existing purchase. *)
Lemma register_one p st c :
  valid_payment id p -> Compras (committed st) !! id = Some c ->
  exists c',
    Compras (committed (snd (registrar_pago_compra e (payment_request p) st))) !! id
    = Some c'
    /\ c_tipo_cambio c' = c_tipo_cambio c
    /\ c_estado_pago c'
       = Some (newStatus
                 (total_paid id (committed (snd (registrar_pago_compra e (payment_request p) st))))
                 (calculated_total id (committed (snd (registrar_pago_compra e (payment_request p) st)))))
    /\ Pagos_Compra (committed (snd (registrar_pago_compra e (payment_request p) st)))
       = (Pagos_Compra (committed st) ++ [p])%list
    /\ Detalles_Compra (committed (snd (registrar_pago_compra e (payment_request p) st)))
       = Detalles_Compra (committed st).
Proof.
  intros Hv Hc.
  pose proof (registrar_pago_compra_accepts e id p st Hrel Hpool Hid Hv) as H200.
  destruct (registrar_pago_compra_success e (payment_request p) st
              ltac:(discriminate) H200)
    as (id' & a & Hid' & Ha & _ & Hpagos & Hdet & _ & Hrow & _).
  destruct Hv as (Hpid & _). destruct p as [pid a' f m n].
  simpl in Hpid. subst pid.
  change (field _ "purchaseId") with (num_of_Z id) in Hid'.
  rewrite bind_int_num_of_Z in Hid'. injection Hid' as <-.
  change (field _ "amount") with (JNum a') in Ha. injection Ha as <-.
  set (st' := snd (registrar_pago_compra e _ st)) in *.
  destruct (Compras (committed st') !! id) as [c' |] eqn:Hc'.
  - destruct (Hrow c' eq_refl) as (Hmt & Hep & c0 & Hc0 & Htc & _).
    exists c'. rewrite Hc in Hc0. injection Hc0 as <-.
    split; [reflexivity |]. split; [exact Htc |].
    split; [now rewrite Hep, Hmt |]. split; [exact Hpagos | exact Hdet].
  - exfalso.
    (* the purchase row cannot vanish: the UPDATE keeps the key *)
    unfold st', registrar_pago_compra, payment_request in Hc'. simpl in Hc'.
    rewrite Hpool in Hc'. simpl in Hc'. unfold handle in Hc'.
    destruct (registrar_pago_compra_try e _ _) as [[r | t] s1] eqn:Htry.
    + apply registrar_pago_compra_try_Ok in Htry; [| reflexivity].
      destruct Htry as (d1 & d2 & total & paid & _ & Hins & _ & Hupd & Hcm & _).
      simpl in Hc'. rewrite Hcm in Hc'.
      change (field _ "purchaseId") with (num_of_Z id) in Hins, Hupd.
      apply insert_pago_inv in Hins as (? & ? & _ & _ & ->).
      pose proof (update_compra_pago_none _ _ _ _ _ _
                    (bind_int_num_of_Z id) Hupd Hc') as Hnone.
      simpl in Hnone. congruence.
    + unfold registrar_pago_compra, payment_request in H200. simpl in H200.
      rewrite Hpool in H200. simpl in H200. unfold handle in H200.
      rewrite Htry in H200. discriminate.
Qed.

Lemma register_all_facts ps :
  Forall (valid_payment id) ps ->
  forall st c,
    Compras (committed st) !! id = Some c ->
    exists c',
      Compras (committed (register_all e ps st)) !! id = Some c'
      /\ c_tipo_cambio c' = c_tipo_cambio c
      /\ (ps <> [] ->
          c_estado_pago c'
          = Some (newStatus (total_paid id (committed (register_all e ps st)))
                            (calculated_total id (committed (register_all e ps st)))))
      /\ (ps = [] -> c' = c)
      /\ Pagos_Compra (committed (register_all e ps st))
         = (Pagos_Compra (committed st) ++ ps)%list
      /\ Detalles_Compra (committed (register_all e ps st))
         = Detalles_Compra (committed st).
Proof.
  induction 1 as [| p ps Hp Hps IH]; intros st c Hc.
  - exists c. simpl. rewrite app_nil_r. repeat split; auto. congruence.
  - destruct (register_one p st c Hp Hc) as (c1 & Hc1 & Htc1 & Hep1 & Hpg1 & Hd1).
    destruct (IH _ c1 Hc1) as (c' & Hc' & Htc' & Hep' & Hnil & Hpg' & Hd').
    exists c'. simpl. fold (register_all e ps).
    split; [exact Hc' |]. split; [congruence |]. split; [| split; [| split]].
    + intros _. destruct ps as [| p' ps'].
      * rewrite (Hnil eq_refl). exact Hep1.
      * apply Hep'. discriminate.
    + discriminate.
    + rewrite Hpg', Hpg1, <- app_assoc. reflexivity.
    + now rewrite Hd', Hd1.
Qed.

(** Registering the same payments in another order ends in the same
    payment state. *)
Lemma register_all_perm ps ps' st c :
  Forall (valid_payment id) ps -> Permutation ps ps' ->
  Compras (committed st) !! id = Some c ->
  estado_pago_of id (register_all e ps st)
  = estado_pago_of id (register_all e ps' st).
Proof.
  intros Hv Hperm Hc.
  assert (Hv' : Forall (valid_payment id) ps').
  { eapply Permutation_Forall; eassumption. }
  destruct (register_all_facts ps Hv st c Hc)
    as (c1 & Hc1 & Htc1 & Hep1 & Hnil1 & Hpg1 & Hd1).
  destruct (register_all_facts ps' Hv' st c Hc)
    as (c2 & Hc2 & Htc2 & Hep2 & Hnil2 & Hpg2 & Hd2).
  unfold estado_pago_of. rewrite Hc1, Hc2. simpl.
  destruct ps as [| p ps0].
  - apply Permutation_nil in Hperm. subst ps'.
    now rewrite (Hnil1 eq_refl), (Hnil2 eq_refl).
  - assert (Hne' : ps' <> []).
    { intros ->. apply Permutation_sym, Permutation_nil in Hperm. discriminate. }
    rewrite (Hep1 ltac:(discriminate)), (Hep2 Hne'). f_equal.
    apply newStatus_proper.
    + apply total_paid_perm. rewrite Hpg1, Hpg2.
      now apply Permutation_app_head.
    + assert (Hct : forall st' c',
                Compras (committed st') !! id = Some c' ->
                c_tipo_cambio c' = c_tipo_cambio c ->
                Detalles_Compra (committed st') = Detalles_Compra (committed st) ->
                calculated_total id (committed st') = calculated_total id (committed st)).
      { intros st' c' Hc' Htc' Hd'. apply calculated_total_ext; [exact Hd' | |].
        - intros c0 Hc0. exists c. split; [exact Hc | congruence].
        - congruence. }
      rewrite (Hct _ c1 Hc1 Htc1 Hd1), (Hct _ c2 Hc2 Htc2 Hd2). reflexivity.
Qed.
End PaymentSequences.

(** ** registrar-pago-compra: the not-found test *)

(** The totals query has no FROM clause: it always yields one row. *)
Lemma select_totals_one_row pid d rows d' :
  select_totals pid d = Ok (rows, d') -> length rows = 1%nat.
Proof.
  unfold select_totals, invalid_parameter.
  destruct (bind_int pid); [| discriminate]. now intros [= <- _].
Qed.

Lemma bind_Throw_inv {A B} (m : M A) (k : A -> M B) s t s' :
  bind m k s = (Throw t, s') ->
  m s = (Throw t, s') \/ exists a s1, m s = (Ok a, s1) /\ k a s1 = (Throw t, s').
Proof.
  unfold bind. destruct (m s) as [[a | t'] s1]; [eauto |].
  intros [= <- <-]. now left.
Qed.

Lemma prop_Throw_inv v k s t s' :
  prop v k s = (Throw t, s') -> t = [TypeErrorText].
Proof. destruct v; simpl; unfold throw, ret; now intros [= <- _]. Qed.

Section ThrowInversion.
Variable e : env.

Lemma round_trip_Throw_inv {A} (k : session -> result A * session) s t s' :
  round_trip e k s = (Throw t, s') ->
  (exists code, t = [Drv (Fault code)]) \/ k (next s) = (Throw t, s').
Proof.
  unfold round_trip. destruct (faults e (tick s)) as [code |]; [| auto].
  intros [= <- _]. eauto.
Qed.

Lemma exec_Throw_inv {A} (q : db -> result (A * db)) s t s' :
  exec e q s = (Throw t, s') ->
  (exists code, t = [Drv (Fault code)]) \/ exists d, q d = Throw t.
Proof.
  intros H. apply round_trip_Throw_inv in H as [H | H]; [now left |].
  right. simpl in H. destruct (txn s) as [w |].
  - exists w. destruct (q w) as [[a w'] | m]; [discriminate | congruence].
  - exists (committed (srv s)).
    destruct (q (committed (srv s))) as [[a w'] | m]; [discriminate | congruence].
Qed.

Lemma exec_Ok_from {A} (q : db -> result (A * db)) s a s' :
  exec e q s = (Ok a, s') -> exists d d', q d = Ok (a, d').
Proof.
  intros H. apply round_trip_Ok_inv in H. simpl in H.
  destruct (txn s) as [w |].
  - destruct (q w) as [[a' w'] | m] eqn:Hq; [| discriminate].
    injection H as <- _. eauto.
  - destruct (q (committed (srv s))) as [[a' w'] | m] eqn:Hq; [| discriminate].
    injection H as <- _. eauto.
Qed.

Lemma simple_round_trip_Throw {A} (k : session -> A * session) s t s' :
  round_trip e (fun s0 => (Ok (fst (k s0)), snd (k s0))) s = (Throw t, s') ->
  exists code, t = [Drv (Fault code)].
Proof.
  intros H. apply round_trip_Throw_inv in H as [H | H]; [exact H | discriminate].
Qed.

Lemma connect_Throw_inv s t s' :
  connect e s = (Throw t, s') -> exists code, t = [Drv (Fault code)].
Proof.
  intros H. apply round_trip_Throw_inv in H as [H | H]; [exact H | discriminate].
Qed.

Lemma begin_Throw_inv s t s' :
  begin e s = (Throw t, s') -> exists code, t = [Drv (Fault code)].
Proof.
  intros H. apply round_trip_Throw_inv in H as [H | H]; [exact H |].
  simpl in H. destruct (txn s); discriminate.
Qed.

Lemma commit_Throw_inv s t s' :
  commit e s = (Throw t, s') -> exists code, t = [Drv (Fault code)].
Proof.
  intros H. apply round_trip_Throw_inv in H as [H | H]; [exact H |].
  simpl in H. destruct (txn s); discriminate.
Qed.

(** Every exception of the [try] block of registrar-pago-compra: the
    validation message, a TypeError, or an error of the driver. *)
Lemma registrar_pago_compra_try_Throw body s0 t s1 :
  registrar_pago_compra_try e body s0 = (Throw t, s1) ->
  t = faltan_datos_pago \/ t = [TypeErrorText] \/ exists de, t = [Drv de].
Proof.
  intros H. unfold registrar_pago_compra_try in H.
  do 5 (apply bind_Throw_inv in H as [H | (? & ? & _ & H)];
        [apply prop_Throw_inv in H; auto |]).
  match type of H with (if ?c then _ else _) _ = _ => destruct c end.
  { injection H as <- _. auto. }
  right. right.
  apply bind_Throw_inv in H as [H | (? & ? & _ & H)].
  { apply connect_Throw_inv in H as [code ->]. eauto. }
  apply bind_Throw_inv in H as [H | (? & ? & _ & H)].
  { apply begin_Throw_inv in H as [code ->]. eauto. }
  apply bind_Throw_inv in H as [H | (? & ? & _ & H)].
  { apply exec_Throw_inv in H as [[code ->] | [d H]]; [eauto |].
    unfold insert_pago, invalid_parameter in H.
    repeat match type of H with
           | context [match bind_int ?v with _ => _ end] => destruct (bind_int v)
           | context [match bind_decimal ?v with _ => _ end] =>
               destruct (bind_decimal v)
           end; try discriminate; injection H as <-; eauto. }
  apply bind_Throw_inv in H as [H | (rows & ? & Hrows & H)].
  { apply exec_Throw_inv in H as [[code ->] | [d H]]; [eauto |].
    unfold select_totals, invalid_parameter in H.
    match type of H with
    | context [match bind_int ?v with _ => _ end] => destruct (bind_int v)
    end; try discriminate. injection H as <-. eauto. }
  apply exec_Ok_from in Hrows as (d & d' & Hrows).
  apply select_totals_one_row in Hrows.
  destruct rows as [| [total paid] rows]; [discriminate |].
  apply bind_Throw_inv in H as [H | (? & ? & _ & H)].
  { apply exec_Throw_inv in H as [[code ->] | [d0 H]]; [eauto |].
    unfold update_compra_pago, invalid_parameter in H.
    match type of H with
    | context [match bind_int ?v with _ => _ end] =>
        destruct (bind_int v) as [i |]
    end; [| injection H as <-; eauto].
    destruct (Compras d0 !! i); discriminate. }
  apply bind_Throw_inv in H as [H | (? & ? & _ & H)].
  { apply commit_Throw_inv in H as [code ->]. eauto. }
  discriminate.
Qed.

(** The handler never answers with its own not-found message. *)
Lemma registrar_pago_compra_never_not_found req st v :
  body (fst (registrar_pago_compra e req st)) <> ErrMsg (compra_no_encontrada v).
Proof.
  unfold registrar_pago_compra.
  destruct (String.eqb (method req) "OPTIONS"); [discriminate |].
  destruct (negb (pool e)); [discriminate |].
  unfold handle.
  destruct (registrar_pago_compra_try e (json_body req) _) as [[r | t] s1] eqn:H.
  - apply registrar_pago_compra_try_Ok in H; [| reflexivity].
    destruct H as (? & ? & ? & ? & _ & _ & _ & _ & _ & ->). discriminate.
  - apply registrar_pago_compra_try_Throw in H as [-> | [-> | [de ->]]];
      discriminate.
Qed.
End ThrowInversion.

(** ** receive-purchase-stock *)

Lemma receive_item_in_txn e c0 b rate it : keeps (in_txn c0) (receive_item e b rate it).
Proof. unfold receive_item. repeat txn_step e. Qed.

Lemma receive_purchase_stock_try_all_or_nothing e c0 body :
  hoare (idle c0) (receive_purchase_stock_try e body) (committed_or_unchanged c0).
Proof.
  unfold receive_purchase_stock_try, committed_or_unchanged.
  eapply hoare_bind; [apply keeps_post; [apply keeps_prop | auto] | intros ?].
  apply hoare_if; intros _; [apply hoare_throw; auto |].
  eapply hoare_bind; [apply keeps_post; [apply idle_connect | auto] | intros ?].
  eapply hoare_bind; [apply idle_begin | intros ?].
  eapply hoare_bind with (R := fun _ => in_txn c0).
  { apply keeps_post; [apply in_txn_exec | intros t s; apply in_txn_idle]. }
  intros [| purchase rows]; [apply hoare_throw; intros s; apply in_txn_idle |].
  apply hoare_if; intros _; [apply hoare_throw; intros s; apply in_txn_idle |].
  eapply hoare_bind with (R := fun _ => in_txn c0).
  { apply keeps_post; [apply in_txn_exec | intros t s; apply in_txn_idle]. }
  intros items.
  apply hoare_if; intros _; [apply hoare_throw; intros s; apply in_txn_idle |].
  eapply hoare_bind with (R := fun _ => in_txn c0).
  { apply keeps_post; [| intros t s; apply in_txn_idle].
    apply keeps_for_each. intros it. apply receive_item_in_txn. }
  intros ?.
  eapply hoare_bind with (R := fun _ => in_txn c0).
  { apply keeps_post; [apply in_txn_exec | intros t s; apply in_txn_idle]. }
  intros ?.
  eapply hoare_bind; [apply in_txn_commit | intros ?].
  apply hoare_ret. reflexivity.
Qed.

Lemma receive_purchase_stock_outcome e req st :
  status (fst (receive_purchase_stock e req st)) = 200
  \/ (status (fst (receive_purchase_stock e req st)) <> 200
      /\ committed (snd (receive_purchase_stock e req st)) = committed st).
Proof.
  unfold receive_purchase_stock.
  destruct (String.eqb (method req) "OPTIONS"); [now left |].
  destruct (negb (pool e)); [right; simpl; split; [discriminate | reflexivity] |].
  destruct (handle_all_or_nothing e 400 (fun m => m) _ st
              (receive_purchase_stock_try_all_or_nothing e (committed st)
                 (json_body req))) as [H | [H1 H2]]; [now left |].
  right. split; [rewrite H1; discriminate | exact H2].
Qed.

Lemma credit_item_Compras div b rate it d :
  Compras (credit_item div b rate it d) = Compras d
  /\ Detalles_Compra (credit_item div b rate it d) = Detalles_Compra d
  /\ Pagos_Compra (credit_item div b rate it d) = Pagos_Compra d.
Proof.
  unfold credit_item.
  destruct (dc_cantidad it <=? 0); [auto |].
  destruct (received_cost rate it); simpl; auto.
Qed.

Lemma credit_Compras div b rate items d :
  Compras (credit div b rate items d) = Compras d
  /\ Detalles_Compra (credit div b rate items d) = Detalles_Compra d
  /\ Pagos_Compra (credit div b rate items d) = Pagos_Compra d.
Proof.
  revert d. induction items as [| it items IH]; intros d; simpl; [auto |].
  destruct (IH (credit_item div b rate it d)) as (H1 & H2 & H3).
  destruct (credit_item_Compras div b rate it d) as (H4 & H5 & H6).
  fold (credit div b rate items (credit_item div b rate it d)).
  repeat split; congruence.
Qed.

Section ReceiptRuns.
Variable e : env.
Hypothesis Hrel : reliable e.

Lemma receive_item_run b rate it s w :
  txn s = Some w -> receivable rate it ->
  exists s',
    receive_item e b rate it s = (Ok tt, s')
    /\ txn s' = Some (credit_item (numeric_div e) b rate it w)
    /\ srv s' = srv s.
Proof.
  intros Ht Hc. unfold receive_item, credit_item.
  destruct (dc_cantidad it <=? 0) eqn:Hq.
  - exists s. auto.
  - apply Z.leb_gt in Hq. destruct (Hc Hq) as [c Hcost].
    rewrite (exec_run e Hrel _ s w Ht).
    unfold received_cost in Hcost. rewrite Hcost.
    unfold upsert_inventario_recepcion.
    destruct (Inventario w !! _) eqn:Hrow; eexists; (split; [reflexivity |]);
      (split; [| reflexivity]); unfold received_cost; rewrite Hcost;
      reflexivity.
Qed.

Lemma receive_loop_run b rate items :
  Forall (receivable rate) items ->
  forall s w,
    txn s = Some w ->
    exists s',
      for_each (receive_item e b rate) items s = (Ok tt, s')
      /\ txn s' = Some (credit (numeric_div e) b rate items w)
      /\ srv s' = srv s.
Proof.
  induction 1 as [| it items Hit Hitems IH]; intros s w Ht; simpl.
  - exists s. auto.
  - destruct (receive_item_run b rate it s w Ht Hit) as (s1 & Hrun & Ht1 & Hs1).
    destruct (IH s1 _ Ht1) as (s' & Hrun' & Ht' & Hs').
    exists s'. unfold bind. rewrite Hrun. repeat split; try assumption.
    congruence.
Qed.

(** The whole handler when nothing fails on the way. *)
Lemma receive_purchase_stock_run req st id :
  pool e = true -> method req <> "OPTIONS" ->
  is_nullish (json_body req) = false ->
  truthy (field (json_body req) "purchase_id") = true ->
  bind_int (field (json_body req) "purchase_id") = Some id ->
  match Compras (committed st) !! id with
  | None =>
      fst (receive_purchase_stock e req st)
      = {| status := 400;
           body := ErrMsg (compra_no_existe (field (json_body req) "purchase_id")) |}
  | Some c =>
      if is_text (c_estado c) "Pendiente"
      then
        match purchase_lines id (committed st) with
        | [] =>
            fst (receive_purchase_stock e req st)
            = {| status := 400; body := ErrMsg sin_productos |}
        | items =>
            Forall (receivable (exchange_rate (c_tipo_cambio c))) items ->
            receive_purchase_stock e req st
            = ({| status := 200;
                  body := SuccessMsg "Stock actualizado correctamente." |},
               set_committed st
                 (with_Compras
                    (credit (numeric_div e) (c_id_sucursal c)
                            (exchange_rate (c_tipo_cambio c))
                            items (committed st))
                    (<[id := confirmed c]> (Compras (committed st)))))
        end
      else
        fst (receive_purchase_stock e req st)
        = {| status := 400; body := ErrMsg (compra_ya_en_estado (c_estado c)) |}
  end.
Proof.
  intros Hpool Hm Hn Htr Hid.
  apply String.eqb_neq in Hm.
  assert (Hstart : forall c0 : option compra,
             Compras (committed st) !! id = c0 ->
             receive_purchase_stock e req st
             = handle e 400 (fun m => m)
                 (connect e ;;;
                  begin e ;;;
                  purchaseResult <~
                    exec e (fun d => Ok (match Compras d !! id with
                                         | Some c => [c]
                                         | None => []
                                         end, d)) ;;
                  match purchaseResult with
                  | [] => throw (compra_no_existe (field (json_body req) "purchase_id"))
                  | purchase :: _ =>
                      if negb (is_text (c_estado purchase) "Pendiente")
                      then throw (compra_ya_en_estado (c_estado purchase))
                      else
                        items <~ exec e (fun d => Ok (purchase_lines id d, d)) ;;
                        if (length items =? 0)%nat
                        then throw sin_productos
                        else
                          for_each (receive_item e (c_id_sucursal purchase)
                                      (exchange_rate (c_tipo_cambio purchase)))
                                   items ;;;
                          exec e (update_compra_estado
                                    (field (json_body req) "purchase_id")) ;;;
                          commit e ;;;
                          ret {| status := 200;
                                 body := SuccessMsg "Stock actualizado correctamente." |}
                  end) st).
  { intros c0 _. unfold receive_purchase_stock. rewrite Hm, Hpool. simpl.
    unfold receive_purchase_stock_try.
    rewrite prop_field by exact Hn. rewrite bind_ret. rewrite Htr. simpl.
    unfold select_compra_for_update, select_detalles_compra. rewrite Hid.
    reflexivity. }
  destruct (Compras (committed st) !! id) as [c |] eqn:Hc.
  - destruct (is_text (c_estado c) "Pendiente") eqn:Hp.
    + destruct (purchase_lines id (committed st)) as [| it items] eqn:Hitems.
      * rewrite (Hstart _ eq_refl). unfold handle.
        unfold bind at 1. rewrite (connect_run e Hrel).
        unfold bind at 1. rewrite (begin_run e Hrel) by reflexivity.
        unfold bind at 1. erewrite (exec_run e Hrel) by reflexivity.
        simpl. rewrite Hc, Hp. simpl.
        unfold bind at 1. erewrite (exec_run e Hrel) by reflexivity.
        rewrite Hitems. reflexivity.
      * cbv zeta. intros Hcosts. rewrite (Hstart _ eq_refl). unfold handle.
        unfold bind at 1. rewrite (connect_run e Hrel).
        unfold bind at 1. rewrite (begin_run e Hrel) by reflexivity.
        unfold bind at 1. erewrite (exec_run e Hrel) by reflexivity.
        simpl. rewrite Hc, Hp. simpl.
        unfold bind at 1. erewrite (exec_run e Hrel) by reflexivity.
        rewrite Hitems. cbn [length Nat.eqb].
        unfold bind at 1.
        match goal with |- context [for_each _ _ ?s1] =>
          destruct (receive_loop_run (c_id_sucursal c)
                      (exchange_rate (c_tipo_cambio c))
                      (it :: items) Hcosts s1 (committed st) eq_refl)
            as (s2 & Hrun & Ht2 & Hs2)
        end.
        rewrite Hrun.
        unfold bind at 1. rewrite (exec_run e Hrel _ s2 _ Ht2).
        unfold update_compra_estado. rewrite Hid.
        destruct (credit_Compras (numeric_div e) (c_id_sucursal c)
                    (exchange_rate (c_tipo_cambio c))
                    (it :: items) (committed st)) as (Hcc & _ & _).
        rewrite Hcc, Hc.
        unfold bind at 1. erewrite (commit_run e Hrel) by reflexivity.
        cbn [ret fst snd srv with_txn with_srv next]. rewrite Hs2. reflexivity.
    + rewrite (Hstart _ eq_refl). unfold handle.
      unfold bind at 1. rewrite (connect_run e Hrel).
      unfold bind at 1. rewrite (begin_run e Hrel) by reflexivity.
      unfold bind at 1. erewrite (exec_run e Hrel) by reflexivity.
      simpl. rewrite Hc, Hp. reflexivity.
  - rewrite (Hstart _ eq_refl). unfold handle.
    unfold bind at 1. rewrite (connect_run e Hrel).
    unfold bind at 1. rewrite (begin_run e Hrel) by reflexivity.
    unfold bind at 1. erewrite (exec_run e Hrel) by reflexivity.
    simpl. rewrite Hc. reflexivity.
Qed.
End ReceiptRuns.

Section ReceiptOk.
Variable e : env.

Lemma receive_item_Ok_inv b rate it s w u s' :
  txn s = Some w -> receive_item e b rate it s = (Ok u, s') ->
  txn s' = Some (credit_item (numeric_div e) b rate it w) /\ srv s' = srv s
  /\ receivable rate it.
Proof.
  intros Ht H. unfold receive_item, credit_item, receivable in *.
  destruct (dc_cantidad it <=? 0) eqn:Hle.
  - injection H as _ <-. apply Z.leb_le in Hle. repeat split; auto. lia.
  - eapply exec_Ok_inv in H as (w' & Hq & ->); [| exact Ht].
    unfold upsert_inventario_recepcion, invalid_parameter in Hq.
    fold (received_cost rate it) in Hq.
    destruct (received_cost rate it) as [c |]; [| discriminate].
    split; [| split; [reflexivity | eauto]].
    destruct (Inventario w !! _) eqn:Hrow; injection Hq as _ <-; reflexivity.
Qed.

Lemma receive_loop_Ok_inv b rate items :
  forall s w u s',
    txn s = Some w -> for_each (receive_item e b rate) items s = (Ok u, s') ->
    txn s' = Some (credit (numeric_div e) b rate items w) /\ srv s' = srv s
    /\ Forall (receivable rate) items.
Proof.
  induction items as [| it items IH]; intros s w u s' Ht H; simpl in *.
  - injection H as _ <-. auto.
  - apply bind_Ok_inv in H as (u1 & s1 & H1 & H).
    destruct (receive_item_Ok_inv b rate it s w u1 s1 Ht H1) as (Ht1 & Hs1 & Hr1).
    destruct (IH s1 _ u s' Ht1 H) as (Ht' & Hs' & Hr').
    split; [exact Ht' | split; [congruence | now constructor]].
Qed.

(** A receipt that went through. *)
Lemma receive_purchase_stock_try_Ok body s0 r s1 :
  txn s0 = None ->
  receive_purchase_stock_try e body s0 = (Ok r, s1) ->
  exists id c,
    bind_int (field body "purchase_id") = Some id
    /\ Compras (committed (srv s0)) !! id = Some c
    /\ is_text (c_estado c) "Pendiente" = true
    /\ purchase_lines id (committed (srv s0)) <> []
    /\ committed (srv s1)
       = with_Compras
           (credit (numeric_div e) (c_id_sucursal c)
                   (exchange_rate (c_tipo_cambio c))
                   (purchase_lines id (committed (srv s0))) (committed (srv s0)))
           (<[id := confirmed c]> (Compras (committed (srv s0))))
    /\ Forall (receivable (exchange_rate (c_tipo_cambio c)))
              (purchase_lines id (committed (srv s0)))
    /\ r = {| status := 200; body := SuccessMsg "Stock actualizado correctamente." |}.
Proof.
  intros Ht0 H. unfold receive_purchase_stock_try in H.
  apply bind_Ok_inv in H as (pid & ? & Hp & H).
  apply prop_Ok_inv in Hp as (-> & -> & _).
  destruct (negb (truthy (field body "purchase_id"))); [discriminate |].
  apply bind_Ok_inv in H as ([] & sa & Hconn & H). apply connect_Ok_inv in Hconn.
  apply bind_Ok_inv in H as ([] & sb & Hbeg & H).
  apply begin_Ok_inv in Hbeg; [| subst sa; exact Ht0].
  apply bind_Ok_inv in H as (rows & sc & Hsel & H).
  eapply exec_Ok_inv in Hsel as (d1 & Hsel & ->); [| subst sb; reflexivity].
  unfold select_compra_for_update, invalid_parameter in Hsel.
  destruct (bind_int (field body "purchase_id")) as [id |] eqn:Hid;
    [| discriminate].
  injection Hsel as <- <-. subst sb sa. simpl in *.
  destruct (Compras (committed (srv s0)) !! id) as [c |] eqn:Hc; [| discriminate].
  destruct (is_text (c_estado c) "Pendiente") eqn:Hpend; [| discriminate].
  simpl in H.
  apply bind_Ok_inv in H as (items & sd & Hitems & H).
  eapply exec_Ok_inv in Hitems as (d2 & Hitems & ->); [| reflexivity].
  unfold select_detalles_compra in Hitems. rewrite Hid in Hitems.
  injection Hitems as <- <-. fold (purchase_lines id (committed (srv s0))) in H.
  destruct (length (purchase_lines id (committed (srv s0))) =? 0)%nat eqn:Hlen;
    [discriminate |].
  apply bind_Ok_inv in H as ([] & se & Hloop & H).
  eapply receive_loop_Ok_inv in Hloop as (Hte & Hse & Hcosts); [| reflexivity].
  apply bind_Ok_inv in H as ([] & sf & Hupd & H).
  eapply exec_Ok_inv in Hupd as (d3 & Hupd & ->); [| exact Hte].
  unfold update_compra_estado in Hupd. rewrite Hid in Hupd.
  destruct (credit_Compras (numeric_div e) (c_id_sucursal c)
              (exchange_rate (c_tipo_cambio c))
              (purchase_lines id (committed (srv s0))) (committed (srv s0)))
    as (Hcc & _ & _).
  rewrite Hcc, Hc in Hupd. injection Hupd as <-.
  apply bind_Ok_inv in H as ([] & sg & Hcom & H).
  eapply commit_Ok_inv in Hcom; [| reflexivity].
  injection H as <- <-. subst sg. simpl.
  exists id, c. repeat split; try assumption.
  intros Hnil. rewrite Hnil in Hlen. discriminate.
Qed.
End ReceiptOk.

Lemma receive_purchase_stock_success e req st :
  method req <> "OPTIONS" ->
  status (fst (receive_purchase_stock e req st)) = 200 ->
  exists id c,
    bind_int (field (json_body req) "purchase_id") = Some id
    /\ Compras (committed st) !! id = Some c
    /\ is_text (c_estado c) "Pendiente" = true
    /\ purchase_lines id (committed st) <> []
    /\ committed (snd (receive_purchase_stock e req st))
       = with_Compras
           (credit (numeric_div e) (c_id_sucursal c)
                   (exchange_rate (c_tipo_cambio c))
                   (purchase_lines id (committed st)) (committed st))
           (<[id := confirmed c]> (Compras (committed st)))
    /\ Forall (receivable (exchange_rate (c_tipo_cambio c)))
              (purchase_lines id (committed st)).
Proof.
  intros Hm H200. unfold receive_purchase_stock in *.
  apply String.eqb_neq in Hm. rewrite Hm in *.
  destruct (negb (pool e)); [discriminate |].
  unfold handle in *.
  destruct (receive_purchase_stock_try e (json_body req)
              {| srv := st; txn := None; tick := O; connected := false |})
    as [[r | t] s1] eqn:Htry; [| discriminate]. simpl in *.
  apply receive_purchase_stock_try_Ok in Htry; [| reflexivity].
  destruct Htry as (id & c & Hid & Hc & Hp & Hl & Hcm & Hcosts & _).
  exists id, c. repeat split; assumption.
Qed.

(** * Properties of the handlers *)

Lemma update_inventario_guard c pj bj d n d' :
  update_inventario c pj bj d = Ok (n, d') ->
  (n = 0%nat /\ d' = d)
  \/ (n = 1%nat /\ exists q p b r,
        bind_int c = Some q /\ bind_int pj = Some p /\ bind_int bj = Some b
        /\ Inventario d !! (p, b) = Some r /\ q <= cantidad r
        /\ Inventario d'
           = <[(p, b) := {| cantidad := cantidad r - q;
                            costo_promedio := costo_promedio r |}]>
               (Inventario d)).
Proof.
  unfold update_inventario, invalid_parameter.
  destruct (bind_int c) as [q |]; [| discriminate].
  destruct (bind_int pj) as [p |]; [| discriminate].
  destruct (bind_int bj) as [b |]; [| discriminate].
  destruct (Inventario d !! (p, b)) as [r |] eqn:Hr.
  - destruct (q <=? cantidad r) eqn:Hq; intros [= <- <-]; [| now left].
    right. split; [reflexivity |]. exists q, p, b, r.
    apply Z.leb_le in Hq. repeat split; assumption.
  - intros [= <- <-]. now left.
Qed.

(** C1.  create-sale never leaves a negative quantity in [Inventario]:
    whatever the request and whatever fails, non-negative stock stays
    non-negative; the decrement is one UPDATE that rewrites a row only
    under its guard [cantidad >= qty]; and when the guard matches no row
    for an item (no row, or less stock than asked once the items before it
    are sold) the handler answers with the stock message naming the
    product, the quantity available and the quantity asked, and commits
    nothing. *)
Theorem create_sale_stock_never_negative e req st b pre it rest inv p q :
  stock_nonneg (committed st) ->
  stock_nonneg (committed (snd (create_sale e req st)))
  /\ (forall c pj bj d n d',
        update_inventario c pj bj d = Ok (n, d') ->
        (n = 0%nat /\ d' = d)
        \/ (n = 1%nat /\ exists q' p' b' r,
              bind_int c = Some q' /\ bind_int pj = Some p'
              /\ bind_int bj = Some b'
              /\ Inventario d !! (p', b') = Some r /\ q' <= cantidad r
              /\ Inventario d'
                 = <[(p', b') := {| cantidad := cantidad r - q';
                                    costo_promedio := costo_promedio r |}]>
                     (Inventario d)))
  /\ (reliable e -> pool e = true -> method req <> "OPTIONS" ->
      is_nullish (json_body req) = false ->
      sale_header_invalid (json_body req) = false ->
      bind_int (field (json_body req) "id_sucursal") = Some b ->
      Ventas (committed st) !! seq_ventas st = None ->
      items_of (json_body req) = (pre ++ it :: rest)%list ->
      stock_after b (Inventario (committed st)) pre = Some inv ->
      sale_item_invalid it = false ->
      bind_int (field it "id_producto") = Some p ->
      bind_int (field it "cantidad") = Some q ->
      (inv !! (p, b) = None \/ exists r, inv !! (p, b) = Some r /\ cantidad r < q) ->
      fst (create_sale e req st)
      = {| status := 500;
           body := ErrMsg (stock_insuficiente
                     (productName (stock_rows inv (Productos (committed st)) p b)
                                  (field it "id_producto"))
                     (availableStock (stock_rows inv (Productos (committed st)) p b))
                     (field it "cantidad")) |}
      /\ committed (snd (create_sale e req st)) = committed st).
Proof.
  intros Hnn. split; [| split].
  - apply create_sale_stock_nonneg, Hnn.
  - intros c pj bj d n d'. apply update_inventario_guard.
  - intros. eapply create_sale_shortage; eassumption.
Qed.

(** Selling 3 + 3 of product 7 out of 5: the second item finds 2 left. *)
Lemma create_sale_stock_never_negative_witness :
  stock_nonneg (committed (snd (create_sale Ex.e (Ex.sale [Ex.item 7 3 10; Ex.item 7 3 10]) Ex.st)))
  /\ fst (create_sale Ex.e (Ex.sale [Ex.item 7 3 10; Ex.item 7 3 10]) Ex.st)
     = {| status := 500;
          body := ErrMsg (stock_insuficiente [Val (JStr "Tornillo")] 2 (num_of_Z 3)) |}.
Proof.
  assert (Hnn : stock_nonneg (committed Ex.st)).
  { intros k r. simpl. intros H.
    apply lookup_singleton_Some in H as [_ <-]. simpl. lia. }
  destruct (create_sale_stock_never_negative Ex.e
              (Ex.sale [Ex.item 7 3 10; Ex.item 7 3 10]) Ex.st 2
              [Ex.item 7 3 10] (Ex.item 7 3 10) []
              {[ (7, 2) := {| cantidad := 2; costo_promedio := 4%Q |} ]} 7 3 Hnn)
    as (H1 & _ & H3).
  split; [exact H1 |].
  apply H3; try reflexivity.
  - intros n. reflexivity.
  - discriminate.
  - right. exists {| cantidad := 2; costo_promedio := 4%Q |}.
    split; [reflexivity | simpl; lia].
Defined.

(** C10.  A sale item whose (product, branch) pair has no [Inventario]
    row at all: the guarded UPDATE touches no row, the stock query joins
    nothing, and the handler answers 500 with the stock message carrying
    the fallback name [Producto ID <id>] and available quantity 0 (the join
    is empty whether or not the product exists, so this covers the case of
    a missing product row too); it is not a separate not-found error, and
    nothing is committed. *)
Theorem create_sale_missing_inventory_row e req st b pre it rest inv p q :
  reliable e -> pool e = true -> method req <> "OPTIONS" ->
  is_nullish (json_body req) = false ->
  sale_header_invalid (json_body req) = false ->
  bind_int (field (json_body req) "id_sucursal") = Some b ->
  Ventas (committed st) !! seq_ventas st = None ->
  items_of (json_body req) = (pre ++ it :: rest)%list ->
  stock_after b (Inventario (committed st)) pre = Some inv ->
  sale_item_invalid it = false ->
  bind_int (field it "id_producto") = Some p ->
  bind_int (field it "cantidad") = Some q ->
  inv !! (p, b) = None ->
  (forall d, Inventario d !! (p, b) = None ->
             update_inventario (field it "cantidad") (field it "id_producto")
                               (field (json_body req) "id_sucursal") d
             = Ok (0%nat, d))
  /\ fst (create_sale e req st)
     = {| status := 500;
          body := ErrMsg (stock_insuficiente
                            [Txt "Producto ID "; Val (field it "id_producto")]
                            0 (field it "cantidad")) |}
  /\ committed (snd (create_sale e req st)) = committed st.
Proof.
  intros Hrel Hpool Hm Hn Hh Hb Hfresh Hitems Hst Hv Hp Hq Hnone.
  split.
  - intros d Hd. unfold update_inventario. rewrite Hq, Hp, Hb. now rewrite Hd.
  - destruct (create_sale_shortage e req st b pre it rest inv p q
                Hrel Hpool Hm Hn Hh Hb Hfresh Hitems Hst Hv Hp Hq (or_introl Hnone))
      as [Hresp Hc].
    split; [| exact Hc]. rewrite Hresp. unfold stock_rows. now rewrite Hnone.
Qed.

(** Product 8 is unknown to branch 2 and to the catalogue. *)
Lemma create_sale_missing_inventory_row_witness :
  fst (create_sale Ex.e (Ex.sale [Ex.item 7 3 10; Ex.item 8 1 10]) Ex.st)
  = {| status := 500;
       body := ErrMsg (stock_insuficiente
                         [Txt "Producto ID "; Val (num_of_Z 8)] 0 (num_of_Z 1)) |}
  /\ committed (snd (create_sale Ex.e (Ex.sale [Ex.item 7 3 10; Ex.item 8 1 10]) Ex.st))
     = Ex.shop.
Proof.
  apply (create_sale_missing_inventory_row Ex.e
           (Ex.sale [Ex.item 7 3 10; Ex.item 8 1 10]) Ex.st 2
           [Ex.item 7 3 10] (Ex.item 8 1 10) []
           {[ (7, 2) := {| cantidad := 2; costo_promedio := 4%Q |} ]} 8 1);
    try reflexivity.
  - intros n. reflexivity.
  - discriminate.
Defined.

(** C5.  create-sale and create-purchase are all-or-nothing.  A request
    with an invalid item anywhere in its list (a quantity of 0 among valid
    items, say) is answered 500 with nothing committed; so is a call one of
    whose round trips fails, whichever it is: connecting, BEGIN, an INSERT,
    the UPDATE or upsert, COMMIT.  For create-sale every response other than
    200 leaves the committed tables exactly as they were, and the same holds
    of create-purchase over a schema whose ids are plain integers. *)
Theorem create_handlers_all_or_nothing e req st :
  method req <> "OPTIONS" ->
  ((exists it, In it (items_of (json_body req)) /\ sale_item_invalid it = true) ->
   status (fst (create_sale e req st)) = 500
   /\ committed (snd (create_sale e req st)) = committed st)
  /\ ((exists it, In it (items_of (json_body req))
                  /\ purchase_item_invalid it = true) ->
      status (fst (create_purchase e req st)) = 500
      /\ committed (snd (create_purchase e req st)) = committed st)
  /\ (forall n code,
        pool e = true ->
        (n < round_trips (create_sale_try e (json_body req)) st)%nat ->
        faults e n = Some code ->
        status (fst (create_sale e req st)) = 500
        /\ committed (snd (create_sale e req st)) = committed st)
  /\ (forall n code,
        pool e = true ->
        (n < round_trips (create_purchase_try e (json_body req)) st)%nat ->
        faults e n = Some code ->
        status (fst (create_purchase e req st)) = 500
        /\ committed (snd (create_purchase e req st)) = committed st)
  /\ (status (fst (create_sale e req st)) <> 200 ->
      committed (snd (create_sale e req st)) = committed st)
  /\ (bigint_ids e = false ->
      status (fst (create_purchase e req st)) <> 200 ->
      committed (snd (create_purchase e req st)) = committed st).
Proof.
  intros Hm.
  assert (Hs : status (fst (create_sale e req st)) <> 200 ->
               committed (snd (create_sale e req st)) = committed st).
  { intros H. destruct (create_sale_outcome e req st) as [H2 | [_ Hc]];
      [contradiction | exact Hc]. }
  split; [| split; [| split; [| split; [| split]]]].
  - intros Hit.
    destruct (create_sale_malformed e req st Hm) as [H5 _]; [auto |].
    split; [exact H5 |]. apply Hs. rewrite H5. discriminate.
  - intros Hit.
    destruct (create_purchase_malformed e req st Hm) as [H5 _]; [auto |].
    split; [exact H5 |]. apply create_purchase_malformed_unchanged. auto.
  - intros n code Hpool Hn Hf.
    apply (create_sale_failed_round_trip e req st n code Hm Hpool Hn Hf).
  - intros n code Hpool Hn Hf.
    apply (create_purchase_failed_round_trip e req st n code Hm Hpool Hn Hf).
  - exact Hs.
  - intros Hids H.
    destruct (create_purchase_outcome e req st Hids) as [H2 | [_ Hc]];
      [contradiction | exact Hc].
Qed.

(** One item with quantity 0 after a valid one: neither handler keeps
    anything.  A sale whose UPDATE of the inventory (its fifth round trip)
    fails: nothing is kept either. *)
Lemma create_handlers_all_or_nothing_witness :
  (status (fst (create_sale Ex.e (Ex.order [Ex.item 7 3 10; Ex.item 7 0 10]) Ex.st)) = 500
   /\ committed (snd (create_sale Ex.e (Ex.order [Ex.item 7 3 10; Ex.item 7 0 10]) Ex.st))
      = Ex.shop)
  /\ (status (fst (create_purchase Ex.e (Ex.order [Ex.item 7 3 10; Ex.item 7 0 10]) Ex.st)) = 500
      /\ committed (snd (create_purchase Ex.e (Ex.order [Ex.item 7 3 10; Ex.item 7 0 10]) Ex.st))
         = Ex.shop)
  /\ (status (fst (create_sale (Ex.failing_at 4) (Ex.order [Ex.item 7 3 10]) Ex.st)) = 500
      /\ committed (snd (create_sale (Ex.failing_at 4) (Ex.order [Ex.item 7 3 10]) Ex.st))
         = Ex.shop).
Proof.
  destruct (create_handlers_all_or_nothing Ex.e
              (Ex.order [Ex.item 7 3 10; Ex.item 7 0 10]) Ex.st)
    as (Hs & Hp & _); [discriminate |].
  destruct (create_handlers_all_or_nothing (Ex.failing_at 4)
              (Ex.order [Ex.item 7 3 10]) Ex.st)
    as (_ & _ & Hf & _); [discriminate |].
  split; [| split].
  - apply Hs. exists (Ex.item 7 0 10). split; [simpl; auto | reflexivity].
  - apply Hp. exists (Ex.item 7 0 10). split; [simpl; auto | reflexivity].
  - apply (Hf 4%nat 57%nat); [reflexivity | vm_compute; lia | reflexivity].
Defined.

(** C8, as the code has it.  create-sale has one [catch] block and it
    answers 500: every response is 200 or 500, never 400; a 500 carries a
    body [{msg}]; and malformed input (required field missing or mistyped,
    empty item list, item with a non-positive quantity) is answered 500. *)
Theorem create_sale_errors_are_500 e req st :
  method req <> "OPTIONS" ->
  (status (fst (create_sale e req st)) = 200
   \/ (status (fst (create_sale e req st)) = 500
       /\ exists m, body (fst (create_sale e req st)) = ErrMsg m))
  /\ status (fst (create_sale e req st)) <> 400
  /\ (sale_malformed (json_body req) ->
      status (fst (create_sale e req st)) = 500
      /\ exists m, body (fst (create_sale e req st)) = ErrMsg m).
Proof.
  intros Hm. pose proof (create_sale_status e req st) as H.
  split; [exact H |]. split.
  - destruct H as [H | [H _]]; rewrite H; discriminate.
  - intros Hmal. apply (create_sale_malformed e req st Hm Hmal).
Qed.

Lemma create_sale_errors_are_500_witness :
  status (fst (create_sale Ex.e (Ex.sale [Ex.item 7 0 10]) Ex.st)) = 500.
Proof.
  destruct (create_sale_errors_are_500 Ex.e (Ex.sale [Ex.item 7 0 10]) Ex.st)
    as (_ & _ & H).
  - discriminate.
  - apply H. right. right. exists (Ex.item 7 0 10).
    split; [simpl; auto | reflexivity].
Defined.

(** C8 as stated fails: a sale with an empty item list is malformed and
    is answered 500, not 400. *)
Lemma create_sale_malformed_not_400 :
  sale_header_invalid (json_body (Ex.sale [])) = true
  /\ fst (create_sale Ex.e (Ex.sale []) Ex.st)
     = {| status := 500; body := ErrMsg datos_venta_invalidos |}
  /\ status (fst (create_sale Ex.e (Ex.sale []) Ex.st)) <> 400.
Proof. repeat split. discriminate. Qed.

(** C9, as the code has it.  create-purchase rejects a request, with
    status 500 and nothing committed, when [id_proveedor] or [id_sucursal]
    is missing or falsy, [monto_total] is not a number, or [items] is
    missing, not an array or empty (message "Required data ... missing or
    invalid."), and when an item's [id_producto], [cantidad] or
    [costo_unitario] is not a number or its [cantidad] is not positive
    (message "Invalid item data for product ID ...", once the items before
    it went in).  [estado] takes no part in the tests. *)
Theorem create_purchase_validation e req st b pre it rest :
  method req <> "OPTIONS" ->
  (purchase_malformed (json_body req) ->
   status (fst (create_purchase e req st)) = 500
   /\ (exists m, body (fst (create_purchase e req st)) = ErrMsg m)
   /\ committed (snd (create_purchase e req st)) = committed st)
  /\ (pool e = true -> faults e O = None ->
      is_nullish (json_body req) = false ->
      purchase_header_invalid (json_body req) = true ->
      fst (create_purchase e req st)
      = {| status := 500;
           body := ErrMsg (database_error required_data_missing) |})
  /\ (reliable e -> pool e = true ->
      is_nullish (json_body req) = false ->
      purchase_header_invalid (json_body req) = false ->
      bind_int (field (json_body req) "id_sucursal") = Some b ->
      Compras (committed st) !! seq_compras st = None ->
      stock_nonneg (committed st) ->
      items_of (json_body req) = (pre ++ it :: rest)%list ->
      Forall purchase_item_good pre ->
      is_nullish it = false -> purchase_item_invalid it = true ->
      fst (create_purchase e req st)
      = {| status := 500;
           body := ErrMsg (database_error
                             (invalid_item_data (field it "id_producto"))) |}).
Proof.
  intros Hm. split; [| split].
  - intros Hmal.
    destruct (create_purchase_malformed e req st Hm Hmal) as [H5 Hb].
    split; [exact H5 |]. split; [exact Hb |].
    apply create_purchase_malformed_unchanged, Hmal.
  - intros. now apply create_purchase_header_rejected.
  - intros. eapply create_purchase_item_rejected; eassumption.
Qed.

Lemma create_purchase_validation_witness :
  fst (create_purchase Ex.e (Ex.order [Ex.item 7 3 10; Ex.item 7 0 10]) Ex.st)
  = {| status := 500;
       body := ErrMsg (database_error (invalid_item_data (num_of_Z 7))) |}
  /\ committed (snd (create_purchase Ex.e (Ex.order [Ex.item 7 3 10; Ex.item 7 0 10]) Ex.st))
     = Ex.shop
  /\ fst (create_purchase Ex.e (Ex.order []) Ex.st)
     = {| status := 500; body := ErrMsg (database_error required_data_missing) |}.
Proof.
  destruct (create_purchase_validation Ex.e
              (Ex.order [Ex.item 7 3 10; Ex.item 7 0 10]) Ex.st 2
              [Ex.item 7 3 10] (Ex.item 7 0 10) []) as (H1 & _ & H3);
    [discriminate |].
  destruct (create_purchase_validation Ex.e (Ex.order []) Ex.st 2 [] JNull [])
    as (_ & H2 & _); [discriminate |].
  split; [| split].
  - apply H3; try reflexivity.
    + intros n. reflexivity.
    + intros k r. simpl. intros H.
      apply lookup_singleton_Some in H as [_ <-]. simpl. lia.
    + constructor; [| constructor].
      repeat split; simpl; eauto.
  - apply H1. right. right. exists (Ex.item 7 0 10).
    split; [simpl; auto | reflexivity].
  - apply H2; reflexivity.
Defined.

(** C9 as stated fails: a purchase without [estado] passes both tests of
    the handler; it is committed with no state, and answered 200 where the
    id can be serialized. *)
Lemma create_purchase_accepts_missing_estado :
  field (json_body Ex.purchase_without_estado) "estado" = JUndefined
  /\ purchase_header_invalid (json_body Ex.purchase_without_estado) = false
  /\ Forall (fun it => purchase_item_invalid it = false)
            (items_of (json_body Ex.purchase_without_estado))
  /\ fst (create_purchase Ex.e Ex.purchase_without_estado Ex.st)
     = {| status := 200; body := Success "compraId" 1 |}
  /\ c_estado <$> Compras (committed (snd (create_purchase Ex.e Ex.purchase_without_estado Ex.st))) !! 1
     = Some JUndefined
  /\ c_estado <$> Compras (committed (snd (create_purchase Ex.int8 Ex.purchase_without_estado Ex.st))) !! 1
     = Some JUndefined.
Proof.
  split; [reflexivity |]. split; [reflexivity |].
  split; [repeat constructor |].
  repeat split; vm_compute; reflexivity.
Qed.

(** C4.  A registered payment leaves in [monto_total] of the purchase
    the currency-normalized sum of its line items: quantity times unit
    cost, times the purchase's exchange rate (1 when it has none) for the
    lines in '$'.  The sum is taken over the line-item rows as they are in
    the store at the call; it is a function of those rows and of the rate
    alone, so neither the request nor the total stored before enters it. *)
Theorem registrar_pago_compra_recomputes_total e req st :
  method req <> "OPTIONS" ->
  status (fst (registrar_pago_compra e req st)) = 200 ->
  exists id,
    bind_int (field (json_body req) "purchaseId") = Some id
    /\ (forall c',
          Compras (committed (snd (registrar_pago_compra e req st))) !! id = Some c' ->
          c_monto_total c'
          = calculated_total id (committed (snd (registrar_pago_compra e req st)))
          /\ (c_monto_total c' == purchase_total id (committed st))%Q)
    /\ (forall d d',
          Detalles_Compra d' = Detalles_Compra d ->
          c_tipo_cambio <$> Compras d' !! id = c_tipo_cambio <$> Compras d !! id ->
          purchase_total id d' = purchase_total id d).
Proof.
  intros Hm H200.
  destruct (registrar_pago_compra_success e req st Hm H200)
    as (id & a & Hid & _ & _ & _ & Hd & _ & Hrow & _).
  exists id. split; [exact Hid |]. split.
  - intros c' Hc'. destruct (Hrow c' Hc') as (Hmt & _ & c & Hc & Htc & _).
    split; [exact Hmt |].
    rewrite Hmt, calculated_total_spec.
    rewrite (purchase_total_ext id (committed st)); [reflexivity | exact Hd |].
    rewrite Hc', Hc. simpl. now rewrite Htc.
  - intros d d'. apply purchase_total_ext.
Qed.

(** Paying 40 on purchase 1: the stale 999 is replaced by 30 + 5 * 2 * 7,
    and the [monto_total] of 1 that the request carries is ignored. *)
Lemma registrar_pago_compra_recomputes_total_witness :
  exists c',
    Compras (committed (snd (registrar_pago_compra Ex.e
                               (Ex.payment_with_total 1 40 1) Ex.books))) !! 1
    = Some c'
    /\ (c_monto_total c' == 100)%Q.
Proof.
  destruct (registrar_pago_compra_recomputes_total Ex.e
              (Ex.payment_with_total 1 40 1) Ex.books)
    as (id & Hid & Hrow & _).
  - discriminate.
  - reflexivity.
  - injection Hid as <-.
    eexists. split; [reflexivity |].
    destruct (Hrow _ eq_refl) as [_ H]. rewrite H. reflexivity.
Defined.

(** C3.  After a registered payment the purchase's [estado_pago] is the
    tolerance rule (epsilon = 0.001) applied to the amount just recomputed
    and to the sum of the purchase's payments, both exact sums of the
    store; the rule itself is computed on numbers: 'Pagado' iff the paid
    total, as a number, is not less than the number that the amount minus
    0.001 rounds to; 'Parcialmente Pagado' iff not so and the paid total is
    a number above 0; 'Pago Pendiente' otherwise.  In exact terms: a paid
    total that reaches the amount gives 'Pagado'; 'Parcialmente Pagado'
    is the state of a positive paid total below the amount only; 'Pago
    Pendiente' of a paid total below the amount that rounds to 0 only.
    The paid total is a sum over the payment rows, so registering the same
    payments in another order ends in the same state. *)
Theorem registrar_pago_compra_payment_state e req st :
  (method req <> "OPTIONS" ->
   status (fst (registrar_pago_compra e req st)) = 200 ->
   exists id,
     bind_int (field (json_body req) "purchaseId") = Some id
     /\ forall c',
         Compras (committed (snd (registrar_pago_compra e req st))) !! id = Some c' ->
         let paid := total_paid id (committed (snd (registrar_pago_compra e req st))) in
         let amount := c_monto_total c' in
         (amount == purchase_total id (committed (snd (registrar_pago_compra e req st))))%Q
         /\ (paid == sum_montos
                       (List.filter (fun p => p_id_compra p =? id)
                          (Pagos_Compra (committed (snd (registrar_pago_compra e req st))))))%Q
         /\ (c_estado_pago c' = Some "Pagado" <-> paid_in_full paid amount)
         /\ (c_estado_pago c' = Some "Parcialmente Pagado"
             <-> ~ paid_in_full paid amount /\ paid_in_part paid)
         /\ (c_estado_pago c' = Some "Pago Pendiente"
             <-> ~ paid_in_full paid amount /\ ~ paid_in_part paid)
         /\ ((amount <= paid)%Q -> c_estado_pago c' = Some "Pagado")
         /\ (c_estado_pago c' = Some "Parcialmente Pagado"
             -> (0 < paid)%Q /\ (paid < amount)%Q)
         /\ (c_estado_pago c' = Some "Pago Pendiente"
             -> (paid <= pow2 (- 1075))%Q /\ (paid < amount)%Q))
  /\ (forall id ps ps' st0 c,
        reliable e -> pool e = true -> id <> 0 ->
        Forall (valid_payment id) ps -> Permutation ps ps' ->
        Compras (committed st0) !! id = Some c ->
        estado_pago_of id (register_all e ps st0)
        = estado_pago_of id (register_all e ps' st0)).
Proof.
  split.
  - intros Hm H200.
    destruct (registrar_pago_compra_success e req st Hm H200)
      as (id & a & Hid & _ & _ & _ & _ & _ & Hrow & _).
    exists id. split; [exact Hid |]. intros c' Hc' paid amount.
    destruct (Hrow c' Hc') as (Hmt & Hep & _).
    destruct (newStatus_spec paid amount) as (H1 & H2 & H3).
    fold paid in Hep. fold amount in Hep. rewrite Hep.
    split; [unfold amount; rewrite Hmt; apply calculated_total_spec |].
    split; [apply sum_payments |].
    assert (Hbelow : ~ paid_in_full paid amount -> (paid < amount)%Q).
    { intros Hnot. apply Qnot_le_lt. intros Hle. apply Hnot.
      now apply paid_in_full_reached. }
    split; [| split; [| split; [| split; [| split]]]].
    + rewrite <- H1. split; [now intros [= ->] | now intros ->].
    + rewrite <- H2. split; [now intros [= ->] | now intros ->].
    + rewrite <- H3. split; [now intros [= ->] | now intros ->].
    + intros Hle. f_equal. apply H1. now apply paid_in_full_reached.
    + intros [= Hs]. apply H2 in Hs as [Hnot Hpart].
      split; [now apply paid_in_part_positive | now apply Hbelow].
    + intros [= Hs]. apply H3 in Hs as [Hnot Hpart].
      split; [| now apply Hbelow].
      apply Qnot_lt_le. intros Hlt. apply Hpart.
      now apply paid_in_part_reached.
  - intros id ps ps' st0 c Hrel Hpool Hid Hv Hperm Hc.
    eapply register_all_perm; eassumption.
Qed.


(** Purchase 1 amounts to 100: after 40 it is partially paid, after 40
    and 60 it is paid, and so it is after 60 and 40. *)
Lemma registrar_pago_compra_payment_state_witness :
  estado_pago_of 1 (register_all Ex.e [Ex.pago 40] Ex.books)
  = Some "Parcialmente Pagado"
  /\ estado_pago_of 1 (register_all Ex.e [Ex.pago 40; Ex.pago 60] Ex.books)
     = Some "Pagado"
  /\ estado_pago_of 1 (register_all Ex.e [Ex.pago 60; Ex.pago 40] Ex.books)
     = estado_pago_of 1 (register_all Ex.e [Ex.pago 40; Ex.pago 60] Ex.books).
Proof.
  split; [| split].
  - destruct (registrar_pago_compra_payment_state Ex.e
                (payment_request (Ex.pago 40)) Ex.books) as [HA _].
    destruct HA as (id & Hid & Hrow); [discriminate | vm_compute; reflexivity |].
    vm_compute in Hid. injection Hid as <-.
    unfold estado_pago_of.
    change (register_all Ex.e [Ex.pago 40] Ex.books)
      with (snd (registrar_pago_compra Ex.e (payment_request (Ex.pago 40)) Ex.books)).
    destruct (Compras (committed (snd (registrar_pago_compra Ex.e
                (payment_request (Ex.pago 40)) Ex.books))) !! 1)
      as [c' |] eqn:Hc'; [| vm_compute in Hc'; discriminate Hc'].
    destruct (Hrow c' eq_refl) as (_ & _ & _ & H2 & _).
    simpl. apply H2.
    vm_compute in Hc'. injection Hc' as <-.
    split; [vm_compute; discriminate | vm_compute; reflexivity].
  - destruct (registrar_pago_compra_payment_state Ex.e
                (payment_request (Ex.pago 60))
                (register_all Ex.e [Ex.pago 40] Ex.books)) as [HA _].
    destruct HA as (id & Hid & Hrow); [discriminate | vm_compute; reflexivity |].
    vm_compute in Hid. injection Hid as <-.
    unfold estado_pago_of.
    change (register_all Ex.e [Ex.pago 40; Ex.pago 60] Ex.books)
      with (snd (registrar_pago_compra Ex.e (payment_request (Ex.pago 60))
                   (register_all Ex.e [Ex.pago 40] Ex.books))).
    destruct (Compras (committed (snd (registrar_pago_compra Ex.e
                (payment_request (Ex.pago 60))
                (register_all Ex.e [Ex.pago 40] Ex.books)))) !! 1)
      as [c' |] eqn:Hc'; [| vm_compute in Hc'; discriminate Hc'].
    destruct (Hrow c' eq_refl) as (_ & _ & H1 & _).
    simpl. apply H1.
    vm_compute in Hc'. injection Hc' as <-. vm_compute. reflexivity.
  - destruct (registrar_pago_compra_payment_state Ex.e
                (payment_request (Ex.pago 40)) Ex.books) as [_ HB].
    apply (HB 1 [Ex.pago 60; Ex.pago 40] [Ex.pago 40; Ex.pago 60] Ex.books
              {| c_id_proveedor := JStr "prov-1"; c_id_sucursal := 2;
                 c_monto_total := 999%Q; c_estado := JStr "Pendiente";
                 c_fecha_compra := 0; c_tipo_cambio := Some 7%Q;
                 c_estado_pago := Some "Pago Pendiente" |}).
    + intros n. reflexivity.
    + reflexivity.
    + discriminate.
    + repeat constructor.
    + apply perm_swap.
    + vm_compute. reflexivity.
Defined.

(** The rule of C3 is not the exact one.  Purchase 1 amounts to 1.01 and
    1.009 is paid: the amount minus 0.001 is the paid total, but as
    numbers 1.01 - 0.001 is above 1.009, and the state stored is
    'Parcialmente Pagado'. *)
Lemma registrar_pago_compra_tolerance_rounded :
  fst (registrar_pago_compra Ex.e (Ex.payment 1 (1009 # 1000)) Rounding.books)
  = {| status := 200;
       body := SuccessMsg "Pago registrado y estado actualizado." |}
  /\ estado_pago_of 1
       (snd (registrar_pago_compra Ex.e (Ex.payment 1 (1009 # 1000))
               Rounding.books))
     = Some "Parcialmente Pagado"
  /\ (purchase_total 1 Rounding.ledger == 101 # 100)%Q
  /\ (total_paid 1
        (committed (snd (registrar_pago_compra Ex.e
                           (Ex.payment 1 (1009 # 1000)) Rounding.books)))
      == 1009 # 1000)%Q
  /\ ((101 # 100) - epsilon <= 1009 # 1000)%Q.
Proof.
  split; [vm_compute; reflexivity |]. split; [vm_compute; reflexivity |].
  split; [vm_compute; reflexivity |]. split; [vm_compute; reflexivity |].
  vm_compute. discriminate.
Qed.

(** C7 does not hold of the code.  The handler's not-found test looks at
    the row count of a query that always has one row, so it never fires:
    a payment for purchase 999, which does not exist, is inserted and
    committed, the UPDATE touches nothing, and the answer is 200. *)
Theorem registrar_pago_compra_unknown_purchase :
  Compras Ex.ledger !! 999 = None
  /\ purchase_lines 999 Ex.ledger = []
  /\ fst (registrar_pago_compra Ex.e (Ex.payment 999 60) Ex.books)
     = {| status := 200;
          body := SuccessMsg "Pago registrado y estado actualizado." |}
  /\ Pagos_Compra (committed (snd (registrar_pago_compra Ex.e (Ex.payment 999 60) Ex.books)))
     = [{| p_id_compra := 999; p_monto := 60%Q;
           p_fecha_pago := JStr "2024-05-01"; p_metodo_pago := JStr "Efectivo";
           p_notas := JUndefined |}]
  /\ forall e req st v,
       body (fst (registrar_pago_compra e req st))
       <> ErrMsg (compra_no_encontrada v).
Proof.
  split; [reflexivity |]. split; [reflexivity |].
  split; [vm_compute; reflexivity |]. split; [vm_compute; reflexivity |].
  intros e req st v. apply registrar_pago_compra_never_not_found.
Qed.

(** * Further properties of the handlers *)

Lemma registrar_pago_compra_try_rejected e body s :
  is_nullish body = false -> payment_invalid body = true ->
  registrar_pago_compra_try e body s = (Throw faltan_datos_pago, s).
Proof.
  intros Hn Hi. unfold registrar_pago_compra_try.
  rewrite !(prop_field _ _ Hn), !bind_ret.
  unfold payment_invalid in Hi. rewrite Hi. reflexivity.
Qed.

Lemma registrar_pago_compra_try_valid_Throw e body s0 t s1 :
  is_nullish body = false -> payment_invalid body = false ->
  registrar_pago_compra_try e body s0 = (Throw t, s1) ->
  exists de, t = [Drv de].
Proof.
  intros Hn Hi H. unfold registrar_pago_compra_try in H.
  rewrite !(prop_field _ _ Hn), !bind_ret in H.
  unfold payment_invalid in Hi. rewrite Hi in H.
  apply bind_Throw_inv in H as [H | (? & ? & _ & H)].
  { apply connect_Throw_inv in H as [code ->]. eauto. }
  apply bind_Throw_inv in H as [H | (? & ? & _ & H)].
  { apply begin_Throw_inv in H as [code ->]. eauto. }
  apply bind_Throw_inv in H as [H | (? & ? & _ & H)].
  { apply exec_Throw_inv in H as [[code ->] | [d H]]; [eauto |].
    unfold insert_pago, invalid_parameter in H.
    repeat match type of H with
           | context [match bind_int ?v with _ => _ end] => destruct (bind_int v)
           | context [match bind_decimal ?v with _ => _ end] =>
               destruct (bind_decimal v)
           end; try discriminate; injection H as <-; eauto. }
  apply bind_Throw_inv in H as [H | (rows & ? & Hrows & H)].
  { apply exec_Throw_inv in H as [[code ->] | [d H]]; [eauto |].
    unfold select_totals, invalid_parameter in H.
    match type of H with
    | context [match bind_int ?v with _ => _ end] => destruct (bind_int v)
    end; try discriminate. injection H as <-. eauto. }
  apply exec_Ok_from in Hrows as (d & d' & Hrows).
  apply select_totals_one_row in Hrows.
  destruct rows as [| [total paid] rows]; [discriminate |].
  apply bind_Throw_inv in H as [H | (? & ? & _ & H)].
  { apply exec_Throw_inv in H as [[code ->] | [d0 H]]; [eauto |].
    unfold update_compra_pago, invalid_parameter in H.
    match type of H with
    | context [match bind_int ?v with _ => _ end] =>
        destruct (bind_int v) as [i |]
    end; [| injection H as <-; eauto].
    destruct (Compras d0 !! i); discriminate. }
  apply bind_Throw_inv in H as [H | (? & ? & _ & H)].
  { apply commit_Throw_inv in H as [code ->]. eauto. }
  discriminate.
Qed.

(** X1.  registrar-pago-compra tests its input before it connects: a
    body whose [purchaseId], [paymentDate] or [method] is missing or falsy,
    or whose [amount] is not a number or not positive, is answered 400 with
    the message on missing data, without a single round trip and with the
    store untouched; and that message is given for no other reason. *)
Theorem registrar_pago_compra_validation e req st :
  method req <> "OPTIONS" -> pool e = true ->
  is_nullish (json_body req) = false ->
  (payment_invalid (json_body req) = true ->
   registrar_pago_compra e req st
   = ({| status := 400; body := ErrMsg faltan_datos_pago |}, st)
   /\ round_trips (registrar_pago_compra_try e (json_body req)) st = 0%nat)
  /\ (payment_invalid (json_body req) = false ->
      body (fst (registrar_pago_compra e req st)) <> ErrMsg faltan_datos_pago).
Proof.
  intros Hm Hpool Hn. apply String.eqb_neq in Hm.
  unfold registrar_pago_compra, round_trips. rewrite Hm, Hpool. simpl.
  split.
  - intros Hi. unfold handle.
    rewrite (registrar_pago_compra_try_rejected e _ _ Hn Hi). simpl.
    split; [| reflexivity]. reflexivity.
  - intros Hi. unfold handle.
    destruct (registrar_pago_compra_try e (json_body req) _) as [[r | t] s1] eqn:H.
    + apply registrar_pago_compra_try_Ok in H; [| reflexivity].
      destruct H as (? & ? & ? & ? & _ & _ & _ & _ & _ & ->). discriminate.
    + apply (registrar_pago_compra_try_valid_Throw e _ _ _ _ Hn Hi) in H
        as [de ->]. discriminate.
Qed.

Lemma db_eta d :
  d = {| Ventas := Ventas d; Detalles_Venta := Detalles_Venta d;
         Inventario := Inventario d; Productos := Productos d;
         Compras := Compras d; Detalles_Compra := Detalles_Compra d;
         Pagos_Compra := Pagos_Compra d |}.
Proof. now destruct d. Qed.

Section SaleInversion.
Variable e : env.

Lemma sale_item_Ok_inv id bj b it s w u s' :
  txn s = Some w -> bind_int bj = Some b ->
  sale_item e id bj it s = (Ok u, s') ->
  exists p q r line,
    sale_item_invalid it = false
    /\ bind_int (field it "id_producto") = Some p
    /\ bind_int (field it "cantidad") = Some q
    /\ sale_line id it = Some line
    /\ Inventario w !! (p, b) = Some r /\ q <= cantidad r
    /\ s' = with_txn (next (next s))
              (Some (with_Inventario
                       (with_Detalles_Venta w (Detalles_Venta w ++ [line]))
                       (<[(p, b) := {| cantidad := cantidad r - q;
                                       costo_promedio := costo_promedio r |}]>
                          (Inventario w)))).
Proof.
  intros Ht Hb H. unfold sale_item in H.
  apply bind_Ok_inv in H as (? & ? & Hp & H).
  apply prop_Ok_inv in Hp as (-> & -> & Hn).
  apply bind_Ok_inv in H as (? & ? & Hp & H).
  apply prop_Ok_inv in Hp as (-> & -> & _).
  apply bind_Ok_inv in H as (? & ? & Hp & H).
  apply prop_Ok_inv in Hp as (-> & -> & _).
  destruct (negb (is_number (field it "id_producto"))
            || negb (is_number (field it "cantidad"))
            || negb (is_number (field it "precio_unitario"))
            || le_zero (field it "cantidad")) eqn:Hc; [discriminate |].
  apply bind_Ok_inv in H as ([] & s1 & Hins & H).
  eapply exec_Ok_inv in Hins as (w1 & Hins & ->); [| exact Ht].
  apply bind_Ok_inv in H as (n & s2 & Hupd & H).
  eapply exec_Ok_inv in Hupd as (w2 & Hupd & ->); [| reflexivity].
  unfold insert_detalle_venta, invalid_parameter in Hins.
  destruct (bind_int (field it "id_producto")) as [p |] eqn:Hp; [| discriminate].
  destruct (bind_int (field it "cantidad")) as [q |] eqn:Hq; [| discriminate].
  destruct (bind_decimal (field it "precio_unitario")) as [pr |] eqn:Hpr;
    [| discriminate].
  injection Hins as <-.
  unfold update_inventario in Hupd. rewrite Hq, Hp, Hb in Hupd. simpl in Hupd.
  destruct (Inventario w !! (p, b)) as [r |] eqn:Hr.
  - destruct (q <=? cantidad r) eqn:Hle.
    + injection Hupd as <- <-. simpl in H. injection H as _ <-.
      exists p, q, r, {| dv_id_venta := id; dv_id_producto := p; dv_cantidad := q;
                         dv_precio_unitario := pr |}.
      split. { unfold sale_item_invalid. rewrite Hn. exact Hc. }
      split; [reflexivity |]. split; [reflexivity |].
      split. { unfold sale_line. now rewrite Hp, Hq, Hpr. }
      split; [exact Hr |]. split; [now apply Z.leb_le |]. reflexivity.
    + injection Hupd as <- <-. simpl in H.
      apply bind_Ok_inv in H as (? & ? & _ & H). discriminate.
  - injection Hupd as <- <-. simpl in H.
    apply bind_Ok_inv in H as (? & ? & _ & H). discriminate.
Qed.

Lemma sale_loop_Ok_inv id bj b items :
  bind_int bj = Some b ->
  forall s w u s',
    txn s = Some w ->
    for_each (sale_item e id bj) items s = (Ok u, s') ->
    exists inv',
      stock_after b (Inventario w) items = Some inv'
      /\ txn s' = Some (with_Inventario
                          (with_Detalles_Venta w (Detalles_Venta w
                                                  ++ sale_lines id items)) inv')
      /\ srv s' = srv s.
Proof.
  intros Hb. induction items as [| it items IH]; intros s w u s' Ht H.
  - injection H as _ <-. exists (Inventario w). split; [reflexivity |].
    split; [| reflexivity]. rewrite Ht. f_equal.
    unfold sale_lines. simpl. rewrite app_nil_r.
    unfold with_Inventario, with_Detalles_Venta. simpl. apply db_eta.
  - simpl in H. apply bind_Ok_inv in H as (u1 & s1 & Hit & H).
    destruct (sale_item_Ok_inv id bj b it s w u1 s1 Ht Hb Hit)
      as (p & q & r & line & Hv & Hp & Hq & Hline & Hr & Hle & ->).
    eapply IH in H as (inv' & Hst & Ht' & Hsrv); [| reflexivity].
    exists inv'. simpl in *. rewrite Hv, Hp, Hq, Hr.
    apply Z.leb_le in Hle. rewrite Hle.
    split; [exact Hst |]. split; [| exact Hsrv].
    rewrite Ht'. f_equal. unfold sale_lines. simpl. rewrite Hline.
    unfold with_Inventario, with_Detalles_Venta. simpl.
    now rewrite <- app_assoc.
Qed.
End SaleInversion.

Lemma insert_venta_inv id bj mj f u mp d a d' :
  insert_venta id bj mj f u mp d = Ok (a, d') ->
  exists b m,
    bind_int bj = Some b /\ mj = JNum m /\ a = id /\ Ventas d !! id = None
    /\ d' = with_Ventas d
              (<[id := {| v_id_sucursal := b; v_monto_total := m;
                          v_fecha_venta := f; v_id_usuario := u;
                          v_metodo_pago := mp; v_estado := "Completada" |}]>
                 (Ventas d)).
Proof.
  unfold insert_venta, invalid_parameter.
  destruct (bind_int bj) as [b |]; [| discriminate].
  destruct (bind_decimal mj) as [m |] eqn:Hm; [| discriminate].
  destruct (Ventas d !! id) eqn:Hv; [discriminate |].
  intros [= <- <-]. apply bind_decimal_inv in Hm.
  exists b, m. repeat split; auto.
Qed.

Lemma create_sale_try_Ok e body s0 r s1 :
  txn s0 = None ->
  create_sale_try e body s0 = (Ok r, s1) ->
  exists b m inv',
    bind_int (field body "id_sucursal") = Some b
    /\ field body "monto_total" = JNum m
    /\ sale_header_invalid body = false
    /\ Ventas (committed (srv s0)) !! seq_ventas (srv s0) = None
    /\ stock_after b (Inventario (committed (srv s0))) (items_of body) = Some inv'
    /\ srv s1 = sold e body b m inv' (srv s0)
    /\ r = {| status := 200; body := Success "ventaId" (seq_ventas (srv s0)) |}.
Proof.
  intros Ht0 H. unfold create_sale_try in H.
  apply bind_Ok_inv in H as ([] & sa & Hconn & H). apply connect_Ok_inv in Hconn.
  do 5 (apply bind_Ok_inv in H as (? & ? & Hp & H);
        apply prop_Ok_inv in Hp as (-> & -> & _)).
  match type of H with (if ?c then _ else _) _ = _ => destruct c eqn:Hc end;
    [discriminate |].
  apply bind_Ok_inv in H as ([] & sb & Hbeg & H).
  apply begin_Ok_inv in Hbeg; [| subst sa; exact Ht0].
  apply bind_Ok_inv in H as (newVentaId & sc & Hins & H).
  apply bind_Ok_inv in Hins as (id & sn & Hnext & Hins).
  unfold nextval_ventas in Hnext. injection Hnext as <- <-.
  eapply exec_Ok_inv in Hins as (w1 & Hins & ->); [| subst sb; reflexivity].
  apply insert_venta_inv in Hins as (b & m & Hb & Hmt & -> & Hfresh & ->).
  apply bind_Ok_inv in H as ([] & sd & Hloop & H).
  eapply (sale_loop_Ok_inv e _ _ b _ Hb) in Hloop as (inv' & Hst & Htd & Hsrv);
    [| reflexivity].
  apply bind_Ok_inv in H as ([] & se & Hcom & H).
  eapply commit_Ok_inv in Hcom; [| exact Htd].
  injection H as <- <-. subst. simpl in *.
  exists b, m, inv'. repeat split; try assumption.
  rewrite Hsrv. reflexivity.
Qed.

Lemma create_sale_try_run e body s0 b inv' :
  reliable e -> txn s0 = None ->
  is_nullish body = false -> sale_header_invalid body = false ->
  bind_int (field body "id_sucursal") = Some b ->
  Ventas (committed (srv s0)) !! seq_ventas (srv s0) = None ->
  stock_after b (Inventario (committed (srv s0))) (items_of body) = Some inv' ->
  exists r s1, create_sale_try e body s0 = (Ok r, s1).
Proof.
  intros Hrel Ht0 Hn Hh Hb Hfresh Hst.
  unfold sale_header_invalid in Hh. pose proof Hh as Hh'.
  do 4 (apply orb_false_elim in Hh as [Hh _]).
  apply orb_false_elim in Hh as [_ Hmt]. apply negb_false_iff in Hmt.
  destruct (is_number_bind_decimal _ Hmt) as (mt & Hmt1 & Hmt2).
  unfold create_sale_try. unfold bind at 1. rewrite (connect_run e Hrel).
  rewrite !prop_field by exact Hn. rewrite !bind_ret. rewrite Hh'.
  unfold bind at 1. rewrite (begin_run e Hrel) by exact Ht0.
  unfold bind at 1. unfold bind at 1. unfold nextval_ventas at 1.
  erewrite (exec_run e Hrel) by reflexivity.
  unfold insert_venta. rewrite Hb, Hmt2. simpl. rewrite Hfresh.
  unfold bind at 1.
  match goal with |- context [for_each _ _ ?s1] =>
    destruct (sale_loop_run e Hrel (seq_ventas (srv s0))
                (field body "id_sucursal") b (items_of body) Hb s1 _ inv'
                eq_refl Hst) as (s2 & w2 & Hrun & Ht2 & _ & _) end.
  unfold items_of in Hrun. rewrite Hrun.
  unfold bind at 1. rewrite (commit_run e Hrel _ _ Ht2). eauto.
Qed.

(** X4.  create-sale answers 200 exactly when the sale went through,
    and then the store is the one it started from with: one row in
    [Ventas] under the id that is answered, in state 'Completada' and with
    the branch, amount, user and payment method of the request; one row in
    [Detalles_Venta] per item, in the order of the request; the stock of the
    branch lowered item by item; the next sale id drawn.  Nothing else
    changes.  On a reliable connection, a well-formed request whose items
    are all in stock at their turn, and whose id is free, is answered
    200. *)
Theorem create_sale_commits e req st :
  method req <> "OPTIONS" ->
  (status (fst (create_sale e req st)) = 200 ->
   exists b m inv',
     bind_int (field (json_body req) "id_sucursal") = Some b
     /\ field (json_body req) "monto_total" = JNum m
     /\ stock_after b (Inventario (committed st)) (items_of (json_body req))
        = Some inv'
     /\ create_sale e req st
        = ({| status := 200; body := Success "ventaId" (seq_ventas st) |},
           sold e (json_body req) b m inv' st))
  /\ (forall b inv',
        reliable e -> pool e = true ->
        is_nullish (json_body req) = false ->
        sale_header_invalid (json_body req) = false ->
        bind_int (field (json_body req) "id_sucursal") = Some b ->
        Ventas (committed st) !! seq_ventas st = None ->
        stock_after b (Inventario (committed st)) (items_of (json_body req))
        = Some inv' ->
        status (fst (create_sale e req st)) = 200).
Proof.
  intros Hm. apply String.eqb_neq in Hm. unfold create_sale. rewrite Hm.
  split.
  - destruct (negb (pool e)); [discriminate |].
    unfold handle.
    destruct (create_sale_try e (json_body req) _) as [[r | t] s1] eqn:Htry;
      [| discriminate].
    intros _. apply create_sale_try_Ok in Htry; [| reflexivity].
    destruct Htry as (b & m & inv' & Hb & Hmt & _ & _ & Hst & Hsrv & ->).
    exists b, m, inv'. simpl in *. rewrite Hsrv. auto.
  - intros b inv' Hrel Hpool Hn Hh Hb Hfresh Hst. rewrite Hpool. simpl.
    destruct (create_sale_try_run e (json_body req)
                {| srv := st; txn := None; tick := O; connected := false |}
                b inv' Hrel eq_refl Hn Hh Hb Hfresh Hst) as (r & s1 & Htry).
    unfold handle. rewrite Htry. simpl.
    apply create_sale_try_Ok in Htry; [| reflexivity].
    destruct Htry as (? & ? & ? & _ & _ & _ & _ & _ & _ & ->). reflexivity.
Qed.

Lemma create_sale_commits_witness :
  create_sale Ex.e (Ex.sale [Ex.item 7 3 10; Ex.item 7 2 10]) Ex.st
  = ({| status := 200; body := Success "ventaId" 1 |},
     sold Ex.e (json_body (Ex.sale [Ex.item 7 3 10; Ex.item 7 2 10])) 2 30
          {[ (7, 2) := {| cantidad := 0; costo_promedio := 4%Q |} ]} Ex.st).
Proof.
  destruct (create_sale_commits Ex.e (Ex.sale [Ex.item 7 3 10; Ex.item 7 2 10]) Ex.st)
    as [Hinv Hrun]; [discriminate |].
  destruct Hinv as (b & m & inv' & Hb & Hmt & Hst & Heq).
  - apply (Hrun 2 {[ (7, 2) := {| cantidad := 0; costo_promedio := 4%Q |} ]});
      try reflexivity.
    intros n. reflexivity.
  - vm_compute in Hb. injection Hb as <-.
    vm_compute in Hmt. injection Hmt as <-.
    rewrite Heq. f_equal. f_equal.
    vm_compute in Hst. injection Hst as <-. reflexivity.
Defined.

Lemma stock_after_units b items :
  forall inv inv',
    stock_after b inv items = Some inv' ->
    (forall p, 0 <= units_sold p items
               /\ stock_of inv' p b = stock_of inv p b - units_sold p items
               /\ (0 < units_sold p items -> 0 <= stock_of inv' p b))
    /\ (forall p b', b' <> b -> inv' !! (p, b') = inv !! (p, b'))
    /\ (forall k, costo_promedio <$> inv' !! k = costo_promedio <$> inv !! k).
Proof.
  induction items as [| it items IH]; intros inv inv' H.
  - injection H as <-. split; [| split]; auto. intros p. simpl. lia.
  - simpl in H.
    destruct (sale_item_invalid it) eqn:Hv; [discriminate |].
    destruct (bind_int (field it "id_producto")) as [p0 |] eqn:Hp; [| discriminate].
    destruct (bind_int (field it "cantidad")) as [q |] eqn:Hq; [| discriminate].
    destruct (inv !! (p0, b)) as [r |] eqn:Hr; [| discriminate].
    destruct (q <=? cantidad r) eqn:Hle; [| discriminate].
    apply IH in H as (Hunits & Hother & Hcost).
    assert (Hq0 : 0 < q).
    { exact (sale_item_positive _ _ Hv Hq). }
    split; [| split].
    + intros p. destruct (Hunits p) as (H0 & Heq & Hpos). simpl. rewrite Hp, Hq.
      apply Z.leb_le in Hle. revert Hpos. rewrite Heq. unfold stock_of.
      destruct (Z.eqb_spec p0 p) as [-> | Hne].
      * rewrite lookup_insert_eq, Hr. simpl. lia.
      * rewrite lookup_insert_ne by congruence. lia.
    + intros p b' Hb'. rewrite (Hother p b' Hb').
      apply lookup_insert_ne. congruence.
    + intros k. rewrite Hcost.
      destruct (decide (k = (p0, b))) as [-> | Hne].
      * rewrite lookup_insert_eq, Hr. reflexivity.
      * now rewrite lookup_insert_ne.
Qed.

(** X5.  After a sale answered 200 the stock of every product in the
    selling branch is what it was minus the units the request asks for of
    that product, all its items counted; a product the request asks for was
    in stock for the whole of that quantity; the stock of the other
    branches is untouched, and no average cost changes. *)
Theorem create_sale_debits_quantities e req st :
  method req <> "OPTIONS" ->
  status (fst (create_sale e req st)) = 200 ->
  exists b,
    bind_int (field (json_body req) "id_sucursal") = Some b
    /\ (forall p,
          0 <= units_sold p (items_of (json_body req))
          /\ (0 < units_sold p (items_of (json_body req)) ->
              units_sold p (items_of (json_body req))
              <= stock_of (Inventario (committed st)) p b)
          /\ stock_of (Inventario (committed (snd (create_sale e req st)))) p b
             = stock_of (Inventario (committed st)) p b
               - units_sold p (items_of (json_body req)))
    /\ (forall p b', b' <> b ->
          Inventario (committed (snd (create_sale e req st))) !! (p, b')
          = Inventario (committed st) !! (p, b'))
    /\ (forall k,
          costo_promedio <$> Inventario (committed (snd (create_sale e req st))) !! k
          = costo_promedio <$> Inventario (committed st) !! k).
Proof.
  intros Hm H200. apply String.eqb_neq in Hm.
  unfold create_sale in *. rewrite Hm in *.
  destruct (negb (pool e)); [discriminate |].
  unfold handle in *.
  destruct (create_sale_try e (json_body req) _) as [[r | t] s1] eqn:Htry;
    [| discriminate].
  apply create_sale_try_Ok in Htry; [| reflexivity].
  destruct Htry as (b & m & inv' & Hb & _ & _ & _ & Hst & Hsrv & _).
  simpl in *. rewrite Hsrv. simpl.
  destruct (stock_after_units b _ _ _ Hst) as (Hunits & Hother & Hcost).
  exists b. split; [exact Hb |]. split; [| split]; [| exact Hother | exact Hcost].
  intros p. destruct (Hunits p) as (H0 & Heq & Hpos).
  split; [exact H0 |]. split; [| exact Heq]. intros Hp. specialize (Hpos Hp). lia.
Qed.

(** Three and two units of product 7 out of five: none is left. *)
Lemma create_sale_debits_quantities_witness :
  stock_of (Inventario (committed (snd (create_sale Ex.e
              (Ex.sale [Ex.item 7 3 10; Ex.item 7 2 10]) Ex.st)))) 7 2
  = 5 - units_sold 7 [Ex.item 7 3 10; Ex.item 7 2 10].
Proof.
  destruct (create_sale_debits_quantities Ex.e
              (Ex.sale [Ex.item 7 3 10; Ex.item 7 2 10]) Ex.st)
    as (b & Hb & Hq & _); [discriminate | reflexivity |].
  vm_compute in Hb. injection Hb as <-.
  destruct (Hq 7) as (_ & _ & H). exact H.
Defined.

(** A payment of 0 on purchase 1. *)
Lemma registrar_pago_compra_validation_witness :
  registrar_pago_compra Ex.e (Ex.payment 1 0) Ex.books
  = ({| status := 400; body := ErrMsg faltan_datos_pago |}, Ex.books).
Proof.
  destruct (registrar_pago_compra_validation Ex.e (Ex.payment 1 0) Ex.books)
    as [H _]; [discriminate | reflexivity | reflexivity |].
  apply H. reflexivity.
Defined.

Lemma registrar_pago_compra_try_all_or_nothing e c0 body :
  hoare (idle c0) (registrar_pago_compra_try e body) (committed_or_unchanged c0).
Proof.
  unfold registrar_pago_compra_try, committed_or_unchanged.
  do 5 (eapply hoare_bind; [apply keeps_post; [apply keeps_prop | auto] | intros ?]).
  apply hoare_if; intros _; [apply hoare_throw; auto |].
  eapply hoare_bind; [apply keeps_post; [apply idle_connect | auto] | intros ?].
  eapply hoare_bind; [apply idle_begin | intros ?].
  eapply hoare_bind with (R := fun _ => in_txn c0).
  { apply keeps_post; [apply in_txn_exec | intros t s; apply in_txn_idle]. }
  intros ?.
  eapply hoare_bind with (R := fun _ => in_txn c0).
  { apply keeps_post; [apply in_txn_exec | intros t s; apply in_txn_idle]. }
  intros [| [total paid] rows]; [apply hoare_throw; intros s; apply in_txn_idle |].
  eapply hoare_bind with (R := fun _ => in_txn c0).
  { apply keeps_post; [apply in_txn_exec | intros t s; apply in_txn_idle]. }
  intros ?.
  eapply hoare_bind; [apply in_txn_commit | intros ?].
  apply hoare_ret. reflexivity.
Qed.

Lemma registrar_pago_compra_outcome e req st :
  status (fst (registrar_pago_compra e req st)) = 200
  \/ (status (fst (registrar_pago_compra e req st)) <> 200
      /\ committed (snd (registrar_pago_compra e req st)) = committed st).
Proof.
  unfold registrar_pago_compra.
  destruct (String.eqb (method req) "OPTIONS"); [now left |].
  destruct (negb (pool e)); [right; simpl; split; [discriminate | reflexivity] |].
  destruct (handle_all_or_nothing e 400 (fun m => m) _ st
              (registrar_pago_compra_try_all_or_nothing e (committed st)
                 (json_body req))) as [H | [H1 H2]]; [now left |].
  right. split; [rewrite H1; discriminate | exact H2].
Qed.

Lemma update_compra_pago_frame st total pid d1 d2 :
  update_compra_pago st total pid d1 = Ok (tt, d2) ->
  Ventas d2 = Ventas d1 /\ Detalles_Venta d2 = Detalles_Venta d1
  /\ Productos d2 = Productos d1.
Proof.
  unfold update_compra_pago, invalid_parameter.
  destruct (bind_int pid) as [id |]; [| discriminate].
  destruct (Compras d1 !! id); intros [= <-]; auto.
Qed.

(** X2.  A call of registrar-pago-compra answered 200 has appended
    exactly one row to [Pagos_Compra], carrying the purchase id, amount,
    date, method and notes of the request; the other purchases, the line
    items, the inventory, the sales and the products are as they were, and
    when the purchase does not exist no purchase row changes at all.  Any
    other answer leaves the committed tables as they were. *)
Theorem registrar_pago_compra_records_payment e req st :
  method req <> "OPTIONS" ->
  (status (fst (registrar_pago_compra e req st)) = 200 ->
   exists id a,
     bind_int (field (json_body req) "purchaseId") = Some id
     /\ field (json_body req) "amount" = JNum a /\ (0 < a)%Q
     /\ Pagos_Compra (committed (snd (registrar_pago_compra e req st)))
        = (Pagos_Compra (committed st) ++
             [{| p_id_compra := id; p_monto := a;
                 p_fecha_pago := field (json_body req) "paymentDate";
                 p_metodo_pago := field (json_body req) "method";
                 p_notas := field (json_body req) "notes" |}])%list
     /\ Detalles_Compra (committed (snd (registrar_pago_compra e req st)))
        = Detalles_Compra (committed st)
     /\ Inventario (committed (snd (registrar_pago_compra e req st)))
        = Inventario (committed st)
     /\ Ventas (committed (snd (registrar_pago_compra e req st)))
        = Ventas (committed st)
     /\ Detalles_Venta (committed (snd (registrar_pago_compra e req st)))
        = Detalles_Venta (committed st)
     /\ Productos (committed (snd (registrar_pago_compra e req st)))
        = Productos (committed st)
     /\ (forall j, j <> id ->
           Compras (committed (snd (registrar_pago_compra e req st))) !! j
           = Compras (committed st) !! j)
     /\ (Compras (committed st) !! id = None ->
         Compras (committed (snd (registrar_pago_compra e req st)))
         = Compras (committed st)))
  /\ (status (fst (registrar_pago_compra e req st)) <> 200 ->
      committed (snd (registrar_pago_compra e req st)) = committed st).
Proof.
  intros Hm. split.
  - intros H200.
    destruct (registrar_pago_compra_success e req st Hm H200)
      as (id & a & Hid & Ha & Hpos & Hp & Hd & Hi & _ & Hother).
    exists id, a. do 6 (split; [assumption |]).
    unfold registrar_pago_compra in *.
    apply String.eqb_neq in Hm. rewrite Hm in *.
    destruct (negb (pool e)); [discriminate |].
    unfold handle in *.
    destruct (registrar_pago_compra_try e (json_body req)
                {| srv := st; txn := None; tick := O; connected := false |})
      as [[r | t] s1] eqn:Htry; [| discriminate]. simpl in *.
    apply registrar_pago_compra_try_Ok in Htry; [| reflexivity].
    destruct Htry as (d1 & d2 & total & paid & _ & Hins & _ & Hupd & Hc & _).
    simpl in Hins. rewrite Hc.
    apply insert_pago_inv in Hins as (id' & a' & Hid' & _ & Hd1).
    rewrite Hid in Hid'. injection Hid' as <-.
    destruct (update_compra_pago_frame _ _ _ _ _ Hupd) as (Hv & Hdv & Hpr).
    destruct (update_compra_pago_inv _ _ _ _ _ _ Hid Hupd)
      as (_ & _ & _ & _ & _ & Hnone).
    rewrite Hv, Hdv, Hpr, Hd1. simpl.
    do 3 (split; [reflexivity |]). split.
    + intros j Hj. specialize (Hother j Hj). rewrite Hc in Hother. exact Hother.
    + intros Hno. rewrite Hnone; [rewrite Hd1; reflexivity |].
      rewrite Hd1. exact Hno.
  - intros H. destruct (registrar_pago_compra_outcome e req st) as [H2 | [_ Hc]];
      [contradiction | exact Hc].
Qed.

Lemma registrar_pago_compra_records_payment_witness :
  Pagos_Compra (committed (snd (registrar_pago_compra Ex.e (Ex.payment 1 40) Ex.books)))
  = [{| p_id_compra := 1; p_monto := 40%Q; p_fecha_pago := JStr "2024-05-01";
        p_metodo_pago := JStr "Efectivo"; p_notas := JUndefined |}]
  /\ Inventario (committed (snd (registrar_pago_compra Ex.e (Ex.payment 1 40) Ex.books)))
     = Inventario Ex.ledger.
Proof.
  destruct (registrar_pago_compra_records_payment Ex.e (Ex.payment 1 40) Ex.books)
    as [H _]; [discriminate |].
  destruct H as (id & a & Hid & Ha & _ & Hp & _ & Hi & _); [reflexivity |].
  vm_compute in Hid. injection Hid as <-.
  vm_compute in Ha. injection Ha as <-.
  split; [exact Hp | exact Hi].
Defined.

(** X3.  receive-purchase-stock refuses a request without a
    [purchase_id] (or with a falsy one) with its own message, before it
    connects: no round trip is made and the store is untouched.  A pending
    purchase without line items is refused with the message that it has
    nothing to receive, and stays as it was. *)
Theorem receive_purchase_stock_rejects e req st :
  method req <> "OPTIONS" -> pool e = true ->
  is_nullish (json_body req) = false ->
  (truthy (field (json_body req) "purchase_id") = false ->
   receive_purchase_stock e req st
   = ({| status := 400; body := ErrMsg id_obligatorio |}, st)
   /\ round_trips (receive_purchase_stock_try e (json_body req)) st = 0%nat)
  /\ (forall id c,
        reliable e ->
        truthy (field (json_body req) "purchase_id") = true ->
        bind_int (field (json_body req) "purchase_id") = Some id ->
        Compras (committed st) !! id = Some c ->
        is_text (c_estado c) "Pendiente" = true ->
        purchase_lines id (committed st) = [] ->
        fst (receive_purchase_stock e req st)
        = {| status := 400; body := ErrMsg sin_productos |}
        /\ committed (snd (receive_purchase_stock e req st)) = committed st).
Proof.
  intros Hm Hpool Hn. split.
  - intros Hf. apply String.eqb_neq in Hm.
    unfold receive_purchase_stock, round_trips, handle. rewrite Hm, Hpool. simpl.
    unfold receive_purchase_stock_try.
    rewrite (prop_field _ _ Hn), bind_ret, Hf. simpl. split; reflexivity.
  - intros id c Hrel Ht Hid Hc Hp Hl.
    pose proof (receive_purchase_stock_run e Hrel req st id Hpool Hm Hn Ht Hid) as H.
    rewrite Hc, Hp, Hl in H. split; [exact H |].
    destruct (receive_purchase_stock_outcome e req st) as [H2 | [_ Hu]];
      [| exact Hu].
    rewrite H in H2. discriminate.
Qed.

(** A body without [purchase_id]; and purchase 5, which has no lines. *)
Lemma receive_purchase_stock_rejects_witness :
  receive_purchase_stock Ex.e (Ex.post (JObj [])) Sample.bare_books
  = ({| status := 400; body := ErrMsg id_obligatorio |}, Sample.bare_books)
  /\ fst (receive_purchase_stock Ex.e (Ex.receipt 5) Sample.bare_books)
     = {| status := 400; body := ErrMsg sin_productos |}
  /\ committed (snd (receive_purchase_stock Ex.e (Ex.receipt 5) Sample.bare_books))
     = Sample.bare.
Proof.
  split.
  - destruct (receive_purchase_stock_rejects Ex.e (Ex.post (JObj []))
                Sample.bare_books) as [H _];
      [discriminate | reflexivity | reflexivity |].
    apply H. reflexivity.
  - destruct (receive_purchase_stock_rejects Ex.e (Ex.receipt 5)
                Sample.bare_books) as [_ H];
      [discriminate | reflexivity | reflexivity |].
    apply (H 5 {| c_id_proveedor := JStr "prov-1"; c_id_sucursal := 2;
                  c_monto_total := 0%Q; c_estado := JStr "Pendiente";
                  c_fecha_compra := 0; c_tipo_cambio := None;
                  c_estado_pago := None |}); try reflexivity.
    intros n. reflexivity.
Defined.

(** X6.  create-purchase, unlike create-sale, puts the id in the
    response as the driver returned it.  Over a schema whose purchase ids
    are int8 (a BigInt in the runtime) the response cannot be serialized:
    the handler never answers 200, it commits exactly what it commits over
    plain integer ids, and a purchase that would have been answered 200 is
    committed and answered 500 with the TypeError's message. *)
Theorem create_purchase_unserializable_id e req st :
  bigint_ids e = true -> method req <> "OPTIONS" ->
  status (fst (create_purchase e req st)) = 500
  /\ committed (snd (create_purchase e req st))
     = committed (snd (create_purchase (numeric_ids e) req st))
  /\ (status (fst (create_purchase (numeric_ids e) req st)) = 200 ->
      fst (create_purchase e req st)
      = {| status := 500; body := ErrMsg (database_error [TypeErrorText]) |}).
Proof.
  intros Hbig Hm. apply String.eqb_neq in Hm.
  unfold create_purchase. rewrite Hm. simpl.
  destruct (negb (pool e)); [repeat split; discriminate |].
  unfold handle. rewrite create_purchase_try_bigint, Hbig.
  destruct (create_purchase_try (numeric_ids e) (json_body req) _)
    as [[r | t] s1]; simpl.
  - split; [reflexivity |]. split; [| reflexivity].
    destruct (connected s1); [apply rollback_committed | reflexivity].
  - split; [reflexivity |]. split; [| discriminate].
    destruct (connected s1); reflexivity.
Qed.

Lemma create_purchase_unserializable_id_witness :
  fst (create_purchase Ex.int8 (Ex.order [Ex.item 7 10 4]) Ex.st)
  = {| status := 500; body := ErrMsg (database_error [TypeErrorText]) |}
  /\ is_Some (Compras (committed (snd (create_purchase Ex.int8
                (Ex.order [Ex.item 7 10 4]) Ex.st))) !! 1).
Proof.
  destruct (create_purchase_unserializable_id Ex.int8
              (Ex.order [Ex.item 7 10 4]) Ex.st) as (_ & Hc & Hr);
    [reflexivity | discriminate |].
  split; [apply Hr; reflexivity |].
  rewrite Hc. vm_compute. eauto.
Defined.

Lemma credit_item_units div b rate it d :
  receivable rate it ->
  (forall p, stock_of (Inventario (credit_item div b rate it d)) p b
             = stock_of (Inventario d) p b + units_received p [it])
  /\ (forall p b', b' <> b ->
        Inventario (credit_item div b rate it d) !! (p, b')
        = Inventario d !! (p, b'))
  /\ Ventas (credit_item div b rate it d) = Ventas d
  /\ Detalles_Venta (credit_item div b rate it d) = Detalles_Venta d
  /\ Productos (credit_item div b rate it d) = Productos d.
Proof.
  intros Hcost. unfold credit_item, units_received, stock_of.
  simpl.
  destruct (Z.leb_spec (dc_cantidad it) 0) as [Hle | Hgt].
  - replace (0 <? dc_cantidad it) with false by (symmetry; apply Z.ltb_ge; lia).
    split; [| auto]. intros p. rewrite andb_false_r. lia.
  - replace (0 <? dc_cantidad it) with true by (symmetry; apply Z.ltb_lt; lia).
    destruct (Hcost Hgt) as [c ->]. simpl.
    split; [| split; [| auto]].
    + intros p. rewrite andb_true_r.
      destruct (Z.eqb_spec (dc_id_producto it) p) as [<- | Hne].
      * rewrite lookup_insert_eq.
        destruct (Inventario d !! (dc_id_producto it, b)); simpl; lia.
      * rewrite lookup_insert_ne by congruence. lia.
    + intros p b' Hb'. apply lookup_insert_ne. congruence.
Qed.

Lemma units_received_cons p x lines :
  units_received p (x :: lines) = units_received p [x] + units_received p lines.
Proof.
  unfold units_received. simpl.
  destruct ((dc_id_producto x =? p) && (0 <? dc_cantidad x)); lia.
Qed.

Lemma credit_units div b rate lines :
  Forall (receivable rate) lines ->
  forall d,
    (forall p, stock_of (Inventario (credit div b rate lines d)) p b
               = stock_of (Inventario d) p b + units_received p lines)
    /\ (forall p b', b' <> b ->
          Inventario (credit div b rate lines d) !! (p, b')
          = Inventario d !! (p, b'))
    /\ Ventas (credit div b rate lines d) = Ventas d
    /\ Detalles_Venta (credit div b rate lines d) = Detalles_Venta d
    /\ Productos (credit div b rate lines d) = Productos d.
Proof.
  induction 1 as [| it lines Hit Hlines IH]; intros d.
  - simpl. repeat split; auto. intros p. unfold units_received. simpl. lia.
  - change (credit div b rate (it :: lines) d)
      with (credit div b rate lines (credit_item div b rate it d)).
    destruct (IH (credit_item div b rate it d)) as (H1 & H2 & H3 & H4 & H5).
    destruct (credit_item_units div b rate it d Hit) as (G1 & G2 & G3 & G4 & G5).
    split; [| split; [| repeat split; congruence]].
    + intros p. rewrite H1, G1, (units_received_cons p it lines). lia.
    + intros p b' Hb'. rewrite H2, G2; auto.
Qed.

(** X7.  After a receipt answered 200 the stock of every product in the
    purchase's branch is what it was plus the units of that product on the
    purchase's lines, lines with a quantity of zero or less not counted;
    the other branches, the other purchases, the line items, the payments,
    the sales and the products are as they were. *)
Theorem receive_purchase_stock_credits_quantities e req st :
  method req <> "OPTIONS" ->
  status (fst (receive_purchase_stock e req st)) = 200 ->
  exists id c,
    bind_int (field (json_body req) "purchase_id") = Some id
    /\ Compras (committed st) !! id = Some c
    /\ (forall p,
          stock_of (Inventario (committed (snd (receive_purchase_stock e req st))))
                   p (c_id_sucursal c)
          = stock_of (Inventario (committed st)) p (c_id_sucursal c)
            + units_received p (purchase_lines id (committed st)))
    /\ (forall p b', b' <> c_id_sucursal c ->
          Inventario (committed (snd (receive_purchase_stock e req st))) !! (p, b')
          = Inventario (committed st) !! (p, b'))
    /\ (forall j, j <> id ->
          Compras (committed (snd (receive_purchase_stock e req st))) !! j
          = Compras (committed st) !! j)
    /\ Detalles_Compra (committed (snd (receive_purchase_stock e req st)))
       = Detalles_Compra (committed st)
    /\ Pagos_Compra (committed (snd (receive_purchase_stock e req st)))
       = Pagos_Compra (committed st)
    /\ Ventas (committed (snd (receive_purchase_stock e req st)))
       = Ventas (committed st)
    /\ Detalles_Venta (committed (snd (receive_purchase_stock e req st)))
       = Detalles_Venta (committed st)
    /\ Productos (committed (snd (receive_purchase_stock e req st)))
       = Productos (committed st).
Proof.
  intros Hm H200.
  destruct (receive_purchase_stock_success e req st Hm H200)
    as (id & c & Hid & Hc & _ & _ & Heq & Hcosts).
  exists id, c. split; [exact Hid |]. split; [exact Hc |].
  rewrite Heq. simpl.
  destruct (credit_units (numeric_div e) (c_id_sucursal c)
              (exchange_rate (c_tipo_cambio c))
              (purchase_lines id (committed st)) Hcosts (committed st))
    as (H1 & H2 & H3 & H4 & H5).
  destruct (credit_Compras (numeric_div e) (c_id_sucursal c)
              (exchange_rate (c_tipo_cambio c))
              (purchase_lines id (committed st)) (committed st))
    as (_ & G2 & G3).
  split; [exact H1 |]. split; [exact H2 |].
  split; [intros j Hj; now apply lookup_insert_ne |].
  repeat split; assumption.
Qed.

(** Purchase 1 brings ten and five units of product 7 to branch 2. *)
Lemma receive_purchase_stock_credits_quantities_witness :
  stock_of (Inventario (committed (snd (receive_purchase_stock Ex.e
              (Ex.receipt 1) Ex.books)))) 7 2 = 5 + 15.
Proof.
  destruct (receive_purchase_stock_credits_quantities Ex.e (Ex.receipt 1) Ex.books)
    as (id & c & Hid & Hc & Hq & _); [discriminate | reflexivity |].
  vm_compute in Hid. injection Hid as <-.
  vm_compute in Hc. injection Hc as <-.
  apply (Hq 7).
Defined.

Section PurchaseInversion.
Variable e : env.

Lemma purchase_item_Ok_inv id bj b it s w u s' :
  txn s = Some w -> bind_int bj = Some b ->
  purchase_item e id bj it s = (Ok u, s') ->
  exists line w',
    purchase_item_invalid it = false
    /\ purchase_line (default_moneda e) id it = Some line
    /\ bought b [it] [line] w w'
    /\ Inventario w' = stocked (numeric_div e) b [line] (Inventario w)
    /\ 0 < dc_cantidad line
    /\ s' = with_txn (next (next s)) (Some w').
Proof.
  intros Ht Hb H. unfold purchase_item in H.
  apply bind_Ok_inv in H as (? & ? & Hp & H).
  apply prop_Ok_inv in Hp as (-> & -> & Hn).
  apply bind_Ok_inv in H as (? & ? & Hp & H).
  apply prop_Ok_inv in Hp as (-> & -> & _).
  apply bind_Ok_inv in H as (? & ? & Hp & H).
  apply prop_Ok_inv in Hp as (-> & -> & _).
  destruct (negb (is_number (field it "id_producto"))
            || negb (is_number (field it "cantidad"))
            || negb (is_number (field it "costo_unitario"))
            || le_zero (field it "cantidad")) eqn:Hc; [discriminate |].
  apply bind_Ok_inv in H as ([] & s1 & Hins & H).
  eapply exec_Ok_inv in Hins as (w1 & Hins & ->); [| exact Ht].
  eapply exec_Ok_inv in H as (w2 & Hupd & ->); [| reflexivity].
  unfold insert_detalle_compra, invalid_parameter in Hins.
  destruct (bind_int (field it "id_producto")) as [p |] eqn:Hp; [| discriminate].
  destruct (bind_int (field it "cantidad")) as [q |] eqn:Hq; [| discriminate].
  destruct (bind_decimal (field it "costo_unitario")) as [c |] eqn:Hco;
    [| discriminate].
  injection Hins as <-.
  unfold upsert_inventario_compra in Hupd. rewrite Hp, Hb, Hq, Hco in Hupd.
  simpl in Hupd.
  exists {| dc_id_compra := id; dc_id_producto := p; dc_cantidad := q;
            dc_costo_unitario := c; dc_moneda := default_moneda e |}, w2.
  split. { unfold purchase_item_invalid. rewrite Hn. exact Hc. }
  split. { unfold purchase_line. now rewrite Hp, Hq, Hco. }
  assert (Hq0 : 0 < q).
  { apply orb_false_elim in Hc as [Hc Hz].
    apply orb_false_elim in Hc as [Hc _].
    apply orb_false_elim in Hc as [_ Hc]. apply negb_false_iff in Hc.
    exact (bind_int_positive _ _ Hc Hq Hz). }
  assert (Hw2 : w2 = with_Inventario
                   (with_Detalles_Compra w (Detalles_Compra w ++
                      [{| dc_id_compra := id; dc_id_producto := p;
                          dc_cantidad := q; dc_costo_unitario := c;
                          dc_moneda := default_moneda e |}]))
                   (<[(p, b) := stocked_row (numeric_div e)
                                  (Inventario w !! (p, b)) q c]> (Inventario w))).
  { destruct (Inventario w !! (p, b)) as [r |] eqn:Hr.
    - unfold merge_compra in Hupd.
      destruct (cantidad r + q =? 0); [discriminate |].
      injection Hupd as _ Hw. symmetry. exact Hw.
    - injection Hupd as _ Hw. symmetry. exact Hw. }
  subst w2.
  split; [| split; [reflexivity | split; [exact Hq0 | reflexivity]]].
  unfold bought, units_bought, stock_of. simpl. rewrite Hp, Hq.
  split; [reflexivity |]. split; [| split; [| auto 10]].
  - intros p'. destruct (Z.eqb_spec p p') as [<- | Hne].
    + rewrite lookup_insert_eq.
      destruct (Inventario w !! (p, b)); simpl; lia.
    + rewrite lookup_insert_ne by congruence. lia.
  - intros p' b' Hb'. apply lookup_insert_ne. congruence.
Qed.

Lemma stocked_app div b l1 l2 inv :
  stocked div b (l1 ++ l2) inv = stocked div b l2 (stocked div b l1 inv).
Proof. unfold stocked. apply fold_left_app. Qed.

Lemma units_bought_cons p it items :
  units_bought p (it :: items) = units_bought p [it] + units_bought p items.
Proof.
  unfold units_bought. simpl.
  destruct (bind_int (field it "id_producto")) as [p' |]; [| lia].
  destruct (bind_int (field it "cantidad")) as [q |]; [| lia].
  destruct (p' =? p); lia.
Qed.

Lemma bought_refl b w : bought b [] [] w w.
Proof.
  unfold bought. rewrite app_nil_r. repeat split; auto.
  intros p. unfold units_bought. simpl. lia.
Qed.

Lemma bought_trans b it items line lines w w1 w2 :
  bought b [it] [line] w w1 -> bought b items lines w1 w2 ->
  bought b (it :: items) (line :: lines) w w2.
Proof.
  intros (A1 & A2 & A3 & A4 & A5 & A6 & A7 & A8)
         (B1 & B2 & B3 & B4 & B5 & B6 & B7 & B8).
  unfold bought. split; [| split; [| split; [| repeat split; congruence]]].
  - rewrite B1, A1, <- app_assoc. reflexivity.
  - intros p. rewrite B2, A2, (units_bought_cons p it items). lia.
  - intros p b' Hb'. rewrite B3, A3; auto.
Qed.

Lemma purchase_loop_Ok_inv id bj b items :
  bind_int bj = Some b ->
  forall s w u s',
    txn s = Some w ->
    for_each (purchase_item e id bj) items s = (Ok u, s') ->
    exists w',
      Forall (fun it => purchase_item_invalid it = false) items
      /\ length (omap (purchase_line (default_moneda e) id) items) = length items
      /\ bought b items (omap (purchase_line (default_moneda e) id) items) w w'
      /\ Inventario w'
         = stocked (numeric_div e) b
                   (omap (purchase_line (default_moneda e) id) items)
                   (Inventario w)
      /\ Forall (fun x => 0 < dc_cantidad x)
                (omap (purchase_line (default_moneda e) id) items)
      /\ txn s' = Some w' /\ srv s' = srv s.
Proof.
  intros Hb. induction items as [| it items IH]; intros s w u s' Ht H.
  - injection H as _ <-. exists w. split; [constructor |].
    split; [reflexivity |]. split; [apply bought_refl |].
    split; [reflexivity |]. split; [constructor | auto].
  - simpl in H. apply bind_Ok_inv in H as (u1 & s1 & Hit & H).
    destruct (purchase_item_Ok_inv id bj b it s w u1 s1 Ht Hb Hit)
      as (line & w1 & Hv & Hline & Hb1 & Hst1 & Hq1 & ->).
    eapply IH in H as (w2 & Hall & Hlen & Hb2 & Hst2 & Hq2 & Ht2 & Hsrv);
      [| reflexivity].
    exists w2. split; [constructor; assumption |].
    simpl. rewrite Hline.
    split; [simpl; f_equal; exact Hlen |].
    split; [eapply bought_trans; eassumption |].
    split; [rewrite Hst2, Hst1; reflexivity |].
    split; [constructor; assumption |].
    split; [exact Ht2 | exact Hsrv].
Qed.
End PurchaseInversion.

Lemma insert_compra_inv tc ep id pj bj mj est f d a d' :
  insert_compra tc ep id pj bj mj est f d = Ok (a, d') ->
  exists b m,
    bind_int bj = Some b /\ mj = JNum m /\ a = id /\ Compras d !! id = None
    /\ d' = with_Compras d
              (<[id := {| c_id_proveedor := pj; c_id_sucursal := b;
                          c_monto_total := m; c_estado := est;
                          c_fecha_compra := f; c_tipo_cambio := tc;
                          c_estado_pago := ep |}]> (Compras d)).
Proof.
  unfold insert_compra, invalid_parameter.
  destruct (bind_int bj) as [b |]; [| discriminate].
  destruct (bind_decimal mj) as [m |] eqn:Hm; [| discriminate].
  destruct (Compras d !! id) eqn:Hv; [discriminate |].
  intros [= <- <-]. apply bind_decimal_inv in Hm.
  exists b, m. repeat split; auto.
Qed.

Lemma create_purchase_try_Ok e body s0 r s1 :
  txn s0 = None ->
  create_purchase_try e body s0 = (Ok r, s1) ->
  exists b m w,
    bigint_ids e = false
    /\ bind_int (field body "id_sucursal") = Some b
    /\ field body "monto_total" = JNum m
    /\ purchase_header_invalid body = false
    /\ Forall (fun it => purchase_item_invalid it = false) (items_of body)
    /\ Compras (committed (srv s0)) !! seq_compras (srv s0) = None
    /\ length (omap (purchase_line (default_moneda e) (seq_compras (srv s0)))
                    (items_of body)) = length (items_of body)
    /\ bought b (items_of body)
              (omap (purchase_line (default_moneda e) (seq_compras (srv s0)))
                    (items_of body))
              (with_Compras (committed (srv s0))
                 (<[seq_compras (srv s0) := purchase_header e body b m]>
                    (Compras (committed (srv s0))))) w
    /\ Inventario w
       = stocked (numeric_div e) b
                 (omap (purchase_line (default_moneda e) (seq_compras (srv s0)))
                       (items_of body))
                 (Inventario (committed (srv s0)))
    /\ Forall (fun x => 0 < dc_cantidad x)
              (omap (purchase_line (default_moneda e) (seq_compras (srv s0)))
                    (items_of body))
    /\ srv s1 = {| committed := w; seq_ventas := seq_ventas (srv s0);
                   seq_compras := seq_compras (srv s0) + 1 |}
    /\ r = {| status := 200; body := Success "compraId" (seq_compras (srv s0)) |}.
Proof.
  intros Ht0 H. unfold create_purchase_try in H.
  apply bind_Ok_inv in H as ([] & sa & Hconn & H). apply connect_Ok_inv in Hconn.
  do 5 (apply bind_Ok_inv in H as (? & ? & Hp & H);
        apply prop_Ok_inv in Hp as (-> & -> & _)).
  match type of H with (if ?c then _ else _) _ = _ => destruct c eqn:Hc end;
    [discriminate |].
  apply bind_Ok_inv in H as ([] & sb & Hbeg & H).
  apply begin_Ok_inv in Hbeg; [| subst sa; exact Ht0].
  apply bind_Ok_inv in H as (newCompraId & sc & Hins & H).
  apply bind_Ok_inv in Hins as (id & sn & Hnext & Hins).
  unfold nextval_compras in Hnext. injection Hnext as <- <-.
  eapply exec_Ok_inv in Hins as (w1 & Hins & ->); [| subst sb; reflexivity].
  apply insert_compra_inv in Hins as (b & m & Hb & Hmt & -> & Hfresh & ->).
  apply bind_Ok_inv in H as ([] & sd & Hloop & H).
  eapply (purchase_loop_Ok_inv e _ _ b _ Hb) in Hloop
    as (w2 & Hall & Hlen & Hbought & Hstock & Hqty & Htd & Hsrv);
    [| reflexivity].
  apply bind_Ok_inv in H as ([] & se & Hcom & H).
  eapply commit_Ok_inv in Hcom; [| exact Htd].
  destruct (bigint_ids e) eqn:Hbig; [discriminate |].
  injection H as <- <-. subst. simpl in *.
  exists b, m, w2. do 10 (split; [first [assumption | reflexivity] |]).
  split; [rewrite Hsrv; reflexivity | reflexivity].
Qed.

(** X8.  A call of create-purchase answered 200 has inserted the
    purchase under the id it answers, with the provider, branch, amount and
    state of the request and the schema's defaults elsewhere; has appended
    one line item per item of the request, in order; has raised the stock
    of each product in the purchase's branch by the units bought; and has
    left the other branches, the payments, the sales and the products as
    they were. *)
Theorem create_purchase_commits e req st :
  method req <> "OPTIONS" ->
  status (fst (create_purchase e req st)) = 200 ->
  exists b m,
    bind_int (field (json_body req) "id_sucursal") = Some b
    /\ field (json_body req) "monto_total" = JNum m
    /\ fst (create_purchase e req st)
       = {| status := 200; body := Success "compraId" (seq_compras st) |}
    /\ Compras (committed st) !! seq_compras st = None
    /\ Compras (committed (snd (create_purchase e req st)))
       = <[seq_compras st := purchase_header e (json_body req) b m]>
           (Compras (committed st))
    /\ Detalles_Compra (committed (snd (create_purchase e req st)))
       = (Detalles_Compra (committed st)
          ++ omap (purchase_line (default_moneda e) (seq_compras st))
                  (items_of (json_body req)))%list
    /\ length (omap (purchase_line (default_moneda e) (seq_compras st))
                    (items_of (json_body req)))
       = length (items_of (json_body req))
    /\ (forall p,
          stock_of (Inventario (committed (snd (create_purchase e req st)))) p b
          = stock_of (Inventario (committed st)) p b
            + units_bought p (items_of (json_body req)))
    /\ (forall p b', b' <> b ->
          Inventario (committed (snd (create_purchase e req st))) !! (p, b')
          = Inventario (committed st) !! (p, b'))
    /\ Pagos_Compra (committed (snd (create_purchase e req st)))
       = Pagos_Compra (committed st)
    /\ Ventas (committed (snd (create_purchase e req st))) = Ventas (committed st)
    /\ Detalles_Venta (committed (snd (create_purchase e req st)))
       = Detalles_Venta (committed st)
    /\ Productos (committed (snd (create_purchase e req st)))
       = Productos (committed st).
Proof.
  intros Hm H200. apply String.eqb_neq in Hm.
  unfold create_purchase in *. rewrite Hm in *.
  destruct (negb (pool e)); [discriminate |].
  unfold handle in *.
  destruct (create_purchase_try e (json_body req) _) as [[r | t] s1] eqn:Htry;
    [| discriminate].
  apply create_purchase_try_Ok in Htry; [| reflexivity].
  destruct Htry as (b & m & w & _ & Hb & Hmt & _ & Hall & Hfresh & Hlen
                    & Hbought & _ & _ & Hsrv & ->).
  destruct Hbought as (B1 & B2 & B3 & B4 & B5 & B6 & B7 & B8).
  simpl in *. rewrite Hsrv. simpl.
  exists b, m. do 5 (split; [assumption || reflexivity |]).
  split; [exact B1 |]. split; [exact Hlen |].
  split; [exact B2 |]. split; [exact B3 |]. auto.
Qed.

(** Ten units of product 7 bought for branch 2. *)
Lemma create_purchase_commits_witness :
  fst (create_purchase Ex.e (Ex.order [Ex.item 7 10 4]) Ex.st)
  = {| status := 200; body := Success "compraId" 1 |}
  /\ stock_of (Inventario (committed (snd (create_purchase Ex.e
                 (Ex.order [Ex.item 7 10 4]) Ex.st)))) 7 2 = 5 + 10.
Proof.
  destruct (create_purchase_commits Ex.e (Ex.order [Ex.item 7 10 4]) Ex.st)
    as (b & m & Hb & _ & Hr & _ & _ & _ & _ & Hq & _);
    [discriminate | reflexivity |].
  vm_compute in Hb. injection Hb as <-.
  split; [exact Hr | apply (Hq 7)].
Defined.

(** ** update-branch-prices *)

Section PricesFacts.
Import Prices.
Local Open Scope prices_scope.
Variable e : env.
Variable sc : schema.

Lemma prices_bind_Ok_inv {A B} (m : M A) (k : A -> M B) s b s' :
  bind m k s = (Ok b, s') ->
  exists a s1, m s = (Ok a, s1) /\ k a s1 = (Ok b, s').
Proof.
  unfold bind. destruct (m s) as [[a | t] s1]; [eauto | discriminate].
Qed.

Lemma prices_bind_Throw_inv {A B} (m : M A) (k : A -> M B) s t s' :
  bind m k s = (Throw t, s') ->
  m s = (Throw t, s') \/ exists a s1, m s = (Ok a, s1) /\ k a s1 = (Throw t, s').
Proof.
  unfold bind. destruct (m s) as [[a | t'] s1]; [eauto |].
  intros [= <- <-]. now left.
Qed.

Lemma prices_prop_field v k : is_nullish v = false -> prop v k = ret (field v k).
Proof. destruct v; simpl; intros; congruence. Qed.

Lemma prices_prop_nullish v k :
  is_nullish v = true -> prop v k = throw [TypeErrorText].
Proof. destruct v; simpl; intros; congruence. Qed.

Lemma prices_bind_ret {A B} (a : A) (k : A -> M B) : bind (ret a) k = k a.
Proof. reflexivity. Qed.

Lemma prices_bind_throw {A B} t (k : A -> M B) : bind (throw t) k = throw t.
Proof. reflexivity. Qed.

Lemma prices_exec_in_txn {A} (t0 : Prices.db) (q : Prices.db -> result (A * Prices.db)) s :
  prices_in_txn t0 s -> prices_in_txn t0 (snd (exec e q s)).
Proof.
  intros [Hs Ht]. unfold exec, round_trip.
  destruct (faults e (tick s)); [split; assumption |]. simpl.
  destruct (txn s) as [w |] eqn:Htx; [| congruence].
  destruct (q w) as [[a w'] | m]; simpl; (split; [exact Hs |]); simpl;
    [discriminate | rewrite Htx; discriminate].
Qed.

Lemma prices_upsert_record_in_txn (t0 : Prices.db) p record s :
  prices_in_txn t0 s -> prices_in_txn t0 (snd (upsert_record e sc p record s)).
Proof.
  intros Hs. unfold upsert_record.
  destruct (is_nullish record) eqn:Hn.
  { rewrite (prices_prop_nullish _ _ Hn), prices_bind_throw. exact Hs. }
  rewrite !(prices_prop_field _ _ Hn), !prices_bind_ret.
  match goal with |- context [if ?c then _ else _] => destruct c end;
    [exact Hs |].
  now apply prices_exec_in_txn.
Qed.

Lemma prices_for_each_in_txn (t0 : Prices.db) p records :
  forall s, prices_in_txn t0 s ->
            prices_in_txn t0 (snd (for_each (upsert_record e sc p) records s)).
Proof.
  induction records as [| r records IH]; intros s Hs; [exact Hs |].
  simpl. unfold bind.
  pose proof (prices_upsert_record_in_txn t0 p r s Hs) as H1.
  destruct (upsert_record e sc p r s) as [[[] | t] s1]; [| exact H1].
  apply IH, H1.
Qed.

Lemma prices_exec_in_txn_eq {A} (t0 : Prices.db) (q : Prices.db -> result (A * Prices.db)) s r s' :
  prices_in_txn t0 s -> exec e q s = (r, s') -> prices_in_txn t0 s'.
Proof. intros Hs H. pose proof (prices_exec_in_txn t0 q s Hs) as Hx. now rewrite H in Hx. Qed.

Lemma prices_for_each_in_txn_eq (t0 : Prices.db) p records s r s' :
  prices_in_txn t0 s -> for_each (upsert_record e sc p) records s = (r, s') ->
  prices_in_txn t0 s'.
Proof.
  intros Hs H. pose proof (prices_for_each_in_txn t0 p records s Hs) as Hx.
  now rewrite H in Hx.
Qed.

(** An exception of the [try] block leaves the committed table alone. *)
Lemma prices_try_Throw body t0 t s1 :
  update_branch_prices_try e sc body (prices_start t0) = (Throw t, s1) ->
  srv s1 = t0.
Proof.
  unfold update_branch_prices_try.
  destruct (is_nullish body) eqn:Hn.
  { rewrite (prices_prop_nullish _ _ Hn), prices_bind_throw.
    now intros [= _ <-]. }
  rewrite !(prices_prop_field _ _ Hn), !prices_bind_ret.
  match goal with |- context [if ?c then _ else _] => destruct c end;
    [now intros [= _ <-] |].
  intros H.
  apply prices_bind_Throw_inv in H as [H | ([] & sa & Hconn & H)].
  { unfold connect, round_trip in H. simpl in H.
    destruct (faults e 0); [now injection H as _ <- | discriminate]. }
  assert (Ha : prices_idle t0 sa).
  { unfold connect, round_trip in Hconn. simpl in Hconn.
    destruct (faults e 0); [discriminate | now injection Hconn as <-]. }
  assert (Hta : txn sa = None).
  { unfold connect, round_trip in Hconn. simpl in Hconn.
    destruct (faults e 0); [discriminate | now injection Hconn as <-]. }
  apply prices_bind_Throw_inv in H as [H | ([] & sb & Hbeg & H)].
  { unfold begin, round_trip in H.
    destruct (faults e (tick sa)); [now injection H as _ <- |].
    simpl in H. rewrite Hta in H. discriminate. }
  assert (Hb : prices_in_txn t0 sb).
  { unfold begin, round_trip in Hbeg.
    destruct (faults e (tick sa)); [discriminate |].
    simpl in Hbeg. rewrite Hta in Hbeg. injection Hbeg as <-.
    split; [exact Ha | discriminate]. }
  apply prices_bind_Throw_inv in H as [H | ([] & sc1 & Hdel & H)].
  { match type of H with context [if ?c then _ else _] => destruct c end;
      [| discriminate].
    apply (prices_exec_in_txn_eq t0 _ _ _ _ Hb H). }
  assert (Hc : prices_in_txn t0 sc1).
  { match type of Hdel with context [if ?c then _ else _] => destruct c end.
    - apply (prices_exec_in_txn_eq t0 _ _ _ _ Hb Hdel).
    - injection Hdel as <-. exact Hb. }
  apply prices_bind_Throw_inv in H as [H | ([] & sd & Hups & H)].
  { match type of H with context [if ?c then _ else _] => destruct c end;
      [| discriminate].
    apply (prices_for_each_in_txn_eq t0 _ _ _ _ _ Hc H). }
  assert (Hd : prices_in_txn t0 sd).
  { match type of Hups with context [if ?c then _ else _] => destruct c end.
    - apply (prices_for_each_in_txn_eq t0 _ _ _ _ _ Hc Hups).
    - injection Hups as <-. exact Hc. }
  apply prices_bind_Throw_inv in H as [H | ([] & se & _ & H)]; [| discriminate].
  unfold commit, round_trip in H.
  destruct (faults e (tick sd)); [injection H as _ <-; apply Hd |].
  simpl in H. destruct (txn sd); discriminate.
Qed.

Lemma prices_try_Ok_status body s0 r s1 :
  update_branch_prices_try e sc body s0 = (Ok r, s1) ->
  r = {| status := 200;
         body := SuccessMsg "Precios actualizados correctamente." |}.
Proof.
  unfold update_branch_prices_try.
  destruct (is_nullish body) eqn:Hn.
  { rewrite (prices_prop_nullish _ _ Hn), prices_bind_throw. discriminate. }
  rewrite !(prices_prop_field _ _ Hn), !prices_bind_ret.
  match goal with |- context [if ?c then _ else _] => destruct c end;
    [discriminate |].
  intros H.
  do 5 (apply prices_bind_Ok_inv in H as (? & ? & _ & H)).
  now injection H as <- _.
Qed.

Lemma prices_rollback_srv s : srv (rollback e s) = srv s.
Proof. unfold rollback. destruct (faults e (tick s)); reflexivity. Qed.

Lemma prices_outcome req t :
  fst (update_branch_prices e sc req t)
  = {| status := 200; body := SuccessMsg "Precios actualizados correctamente." |}
  \/ (method req = "OPTIONS"
      /\ update_branch_prices e sc req t
         = ({| status := 200; body := PlainOk |}, t))
  \/ (status (fst (update_branch_prices e sc req t)) <> 200
      /\ snd (update_branch_prices e sc req t) = t).
Proof.
  unfold update_branch_prices.
  destruct (String.eqb_spec (method req) "OPTIONS") as [Hm | Hm];
    [right; left; auto |].
  destruct (negb (pool e)); [right; right; split; [discriminate | reflexivity] |].
  unfold handle. fold (prices_start t).
  destruct (update_branch_prices_try e sc (json_body req) (prices_start t))
    as [[r | m] s1] eqn:Htry.
  - left. apply prices_try_Ok_status in Htry. now subst.
  - right. right. split; [discriminate |]. simpl.
    apply prices_try_Throw in Htry.
    destruct (connected s1); [rewrite prices_rollback_srv |]; exact Htry.
Qed.

Lemma prices_round_trip_Ok_inv {A} (k : session -> result A * session) s a s' :
  round_trip e k s = (Ok a, s') -> k (next s) = (Ok a, s').
Proof. unfold round_trip. destruct (faults e (tick s)); [discriminate | auto]. Qed.

Lemma prices_exec_Ok_inv {A} (q : Prices.db -> result (A * Prices.db)) s w a s' :
  txn s = Some w -> exec e q s = (Ok a, s') ->
  exists w', q w = Ok (a, w') /\ s' = with_txn (next s) (Some w').
Proof.
  intros Ht H. apply prices_round_trip_Ok_inv in H. simpl in H. rewrite Ht in H.
  destruct (q w) as [[a' w'] | m]; [| discriminate].
  injection H as <- <-. eauto.
Qed.

Lemma prices_delete_lookup (p : Z) (bs : list Z) (t : gmap (Z * Z) Q) (k : Z * Z) :
  foldr (fun b acc => delete (p, b) acc) t bs !! k
  = if decide (k.1 = p /\ k.2 ∈ bs) then None else t !! k.
Proof.
  induction bs as [| b bs IH]; cbn [foldr].
  - case_decide as H; [| reflexivity]. destruct H as [_ H]. inversion H.
  - destruct (decide (k = (p, b))) as [-> | Hne].
    + clear IH. rewrite lookup_delete_eq. case_decide as H; [reflexivity |].
      exfalso. apply H. split; [reflexivity | left].
    + rewrite lookup_delete_ne by congruence. rewrite IH. clear IH.
      destruct k as [p' b']. cbn [fst snd] in *.
      destruct (decide (p' = p /\ b' ∈ bs)) as [[H1 H2] | H];
        destruct (decide (p' = p /\ b' ∈ b :: bs)) as [[G1 G2] | G];
        try reflexivity; exfalso.
      * apply G. split; [exact H1 | right; exact H2].
      * apply elem_of_cons in G2 as [-> | G2]; [subst; now apply Hne |].
        apply H. auto.
Qed.

Lemma prices_upsert_record_Ok_inv p pj record s w u s' :
  txn s = Some w -> bind_int pj = Some p \/ bind_int pj = None ->
  upsert_record e sc pj record s = (Ok u, s') ->
  exists b v,
    bind_int pj = Some p
    /\ price_record_invalid record = false
    /\ price_record record = Some (b, v)
    /\ admissible sc (p, b) v = true
    /\ s' = with_txn (next s)
              (Some {| Precios_Sucursal := <[(p, b) := v]> (Precios_Sucursal w) |}).
Proof.
  intros Ht Hp H. unfold upsert_record in H.
  destruct (is_nullish record) eqn:Hn.
  { rewrite (prices_prop_nullish _ _ Hn), prices_bind_throw in H. discriminate. }
  rewrite !(prices_prop_field _ _ Hn), !prices_bind_ret in H.
  destruct (negb (is_number (field record "id_sucursal"))
            || negb (is_number (field record "precio_venta"))) eqn:Hc;
    [discriminate |].
  eapply prices_exec_Ok_inv in H as (w' & Hq & ->); [| exact Ht].
  unfold upsert_precio, invalid_parameter in Hq.
  destruct (bind_int pj) as [p0 |] eqn:Hpj; [| discriminate].
  destruct Hp as [Hp | Hp]; [| discriminate]. injection Hp as ->.
  destruct (bind_int (field record "id_sucursal")) as [b |] eqn:Hb;
    [| discriminate].
  destruct (bind_decimal (field record "precio_venta")) as [v |] eqn:Hv;
    [| discriminate].
  destruct (admissible sc (p, b) v) eqn:Hadm; [| discriminate].
  injection Hq as _ <-.
  exists b, v. split; [reflexivity |].
  split. { unfold price_record_invalid. rewrite Hn. exact Hc. }
  split. { unfold price_record. now rewrite Hb, Hv. }
  auto.
Qed.

Lemma prices_loop_Ok_inv p pj records :
  bind_int pj = Some p \/ bind_int pj = None ->
  forall s w u s',
    txn s = Some w ->
    for_each (upsert_record e sc pj) records s = (Ok u, s') ->
    exists w',
      txn s' = Some w' /\ srv s' = srv s
      /\ Forall (price_record_good sc p) records
      /\ (records <> [] -> bind_int pj = Some p)
      /\ forall k, Precios_Sucursal w' !! k
                   = repriced p [] records (Precios_Sucursal w) k.
Proof.
  intros Hp. induction records as [| r records IH]; intros s w u s' Ht H.
  - injection H as _ <-. exists w. split; [exact Ht |]. split; [reflexivity |].
    split; [constructor |]. split; [congruence |].
    intros k. unfold repriced. simpl.
    destruct (decide (k.1 = p)); [| reflexivity].
    destruct (decide (k.2 ∈ [])) as [Hin | _]; [inversion Hin | reflexivity].
  - simpl in H. apply prices_bind_Ok_inv in H as (u1 & s1 & Hr & H).
    destruct (prices_upsert_record_Ok_inv p pj r s w u1 s1 Ht Hp Hr)
      as (b & v & Hpj & Hv & Hrec & Hadm & ->).
    eapply IH in H as (w' & Ht' & Hsrv & Hall & _ & Hlook); [| reflexivity].
    exists w'. split; [exact Ht' |]. split; [exact Hsrv |].
    split. { constructor; [| exact Hall]. split; [exact Hv |]. eauto. }
    split; [intros _; exact Hpj |].
    intros k. rewrite Hlook. unfold repriced. simpl. rewrite Hrec.
    destruct k as [p' b']. simpl.
    destruct (decide (p' = p)) as [-> | Hne].
    + destruct (last_price b' records); [reflexivity |].
      destruct (decide (b' ∈ [])) as [Hin | _]; [inversion Hin |].
      destruct (Z.eqb_spec b b') as [-> | Hb].
      * apply lookup_insert_eq.
      * apply lookup_insert_ne. congruence.
    + apply lookup_insert_ne. congruence.
Qed.

Lemma prices_connect_Ok_inv s u s' :
  connect e s = (Ok u, s') ->
  s' = {| srv := srv s; txn := txn s; tick := S (tick s); connected := true |}.
Proof. intros H. apply prices_round_trip_Ok_inv in H. now injection H as _ <-. Qed.

Lemma prices_begin_Ok_inv s u s' :
  txn s = None -> begin e s = (Ok u, s') ->
  s' = with_txn (next s) (Some (srv s)).
Proof.
  intros Ht H. apply prices_round_trip_Ok_inv in H. simpl in H. rewrite Ht in H.
  now injection H as _ <-.
Qed.

Lemma prices_commit_Ok_inv s w u s' :
  txn s = Some w -> commit e s = (Ok u, s') ->
  s' = with_txn (with_srv (next s) w) None.
Proof.
  intros Ht H. apply prices_round_trip_Ok_inv in H. simpl in H. rewrite Ht in H.
  now injection H as _ <-.
Qed.

Lemma prices_length_0 {A} (l : list A) : (0 <? length l)%nat = false -> l = [].
Proof. destruct l; [reflexivity | discriminate]. Qed.

(** A call that ended normally: what ran, and the table it committed. *)
Lemma prices_try_Ok body t r s1 :
  update_branch_prices_try e sc body (prices_start t) = (Ok r, s1) ->
  exists p bs,
    is_nullish body = false /\ prices_invalid body = false
    /\ (bind_int (field body "productId") = Some p
        \/ (elements (field body "branchIdsToDelete") = []
            /\ elements (field body "recordsToUpsert") = []))
    /\ ((elements (field body "branchIdsToDelete") = [] /\ bs = [])
        \/ (elements (field body "branchIdsToDelete") <> []
            /\ int4_array sc (elements (field body "branchIdsToDelete")) = Some bs))
    /\ Forall (price_record_good sc p) (elements (field body "recordsToUpsert"))
    /\ forall k,
         Precios_Sucursal (srv s1) !! k
         = repriced p bs (elements (field body "recordsToUpsert"))
                    (Precios_Sucursal t) k.
Proof.
  unfold update_branch_prices_try.
  destruct (is_nullish body) eqn:Hn.
  { rewrite (prices_prop_nullish _ _ Hn), prices_bind_throw. discriminate. }
  rewrite !(prices_prop_field _ _ Hn), !prices_bind_ret.
  destruct (negb (is_number (field body "productId"))
            || negb (isArray (field body "recordsToUpsert"))
            || negb (isArray (field body "branchIdsToDelete"))) eqn:Hc;
    [discriminate |].
  intros H.
  apply prices_bind_Ok_inv in H as ([] & sa & Hconn & H).
  apply prices_connect_Ok_inv in Hconn. subst sa.
  apply prices_bind_Ok_inv in H as ([] & sb & Hbeg & H).
  apply prices_begin_Ok_inv in Hbeg; [| reflexivity]. subst sb.
  apply prices_bind_Ok_inv in H as ([] & sc1 & Hdel & H).
  set (p := default 0 (bind_int (field body "productId"))).
  assert (Hp : bind_int (field body "productId") = Some p
               \/ bind_int (field body "productId") = None).
  { unfold p. destruct (bind_int (field body "productId")); auto. }
  assert (Hdel' : exists bs w1,
            txn sc1 = Some w1 /\ srv sc1 = t
            /\ ((elements (field body "branchIdsToDelete") = [] /\ bs = [])
                \/ (elements (field body "branchIdsToDelete") <> []
                    /\ int4_array sc (elements (field body "branchIdsToDelete"))
                       = Some bs
                    /\ bind_int (field body "productId") = Some p))
            /\ forall k, Precios_Sucursal w1 !! k
                         = if decide (k.1 = p /\ k.2 ∈ bs) then None
                           else Precios_Sucursal t !! k).
  { destruct (0 <? length (elements (field body "branchIdsToDelete")))%nat eqn:Hl.
    - eapply prices_exec_Ok_inv in Hdel as (w1 & Hq & ->); [| reflexivity].
      unfold delete_precios, invalid_parameter in Hq.
      destruct Hp as [Hp | Hp]; rewrite Hp in Hq; [| discriminate].
      destruct (int4_array sc (elements (field body "branchIdsToDelete")))
        as [bs |] eqn:Hbs; [| discriminate].
      injection Hq as <-. exists bs. eexists. split; [reflexivity |].
      split; [reflexivity |]. split.
      { right. split; [| auto].
        destruct (elements (field body "branchIdsToDelete"));
          [discriminate | discriminate]. }
      intros k. simpl. apply prices_delete_lookup.
    - injection Hdel as <-. apply prices_length_0 in Hl.
      exists [], t. split; [reflexivity |]. split; [reflexivity |].
      split; [left; auto |]. intros k.
      destruct (decide (k.1 = p /\ k.2 ∈ [])) as [[_ Hin] | _];
        [inversion Hin | reflexivity]. }
  destruct Hdel' as (bs & w1 & Ht1 & Hs1 & Hbs & Hlook1).
  apply prices_bind_Ok_inv in H as ([] & sd & Hups & H).
  assert (Hups' : exists w2,
            txn sd = Some w2 /\ srv sd = t
            /\ Forall (price_record_good sc p)
                      (elements (field body "recordsToUpsert"))
            /\ (elements (field body "recordsToUpsert") <> [] ->
                bind_int (field body "productId") = Some p)
            /\ forall k, Precios_Sucursal w2 !! k
                         = repriced p [] (elements (field body "recordsToUpsert"))
                                    (Precios_Sucursal w1) k).
  { destruct (0 <? length (elements (field body "recordsToUpsert")))%nat eqn:Hl.
    - destruct (prices_loop_Ok_inv p _ _ Hp _ _ _ _ Ht1 Hups)
        as (w2 & Ht2 & Hs2 & Hall & Hne & Hlook).
      exists w2. rewrite Hs2. auto.
    - injection Hups as <-. apply prices_length_0 in Hl. rewrite Hl.
      exists w1. split; [exact Ht1 |]. split; [exact Hs1 |].
      split; [constructor |]. split; [congruence |].
      intros k. unfold repriced. simpl.
      destruct (decide (k.1 = p)); [| reflexivity].
      destruct (decide (k.2 ∈ [])) as [Hin | _]; [inversion Hin | reflexivity]. }
  destruct Hups' as (w2 & Ht2 & Hs2 & Hall & Hne & Hlook2).
  apply prices_bind_Ok_inv in H as ([] & se & Hcom & H).
  eapply prices_commit_Ok_inv in Hcom; [| exact Ht2]. subst se.
  injection H as _ <-.
  exists p, bs. split; [reflexivity |]. split; [exact Hc |].
  split.
  { destruct Hp as [Hp | Hp]; [now left |]. right.
    destruct Hbs as [[Hb _] | (_ & _ & Hb)]; [| congruence].
    split; [exact Hb |].
    destruct (elements (field body "recordsToUpsert")); [reflexivity |].
    rewrite Hne in Hp; [discriminate | discriminate]. }
  split. { destruct Hbs as [Hb | (Hb1 & Hb2 & _)]; auto. }
  split; [exact Hall |].
  intros k. simpl. rewrite Hlook2. unfold repriced.
  destruct (decide (k.1 = p)) as [Hk | Hk].
  - destruct (last_price k.2 (elements (field body "recordsToUpsert")));
      [reflexivity |].
    destruct (decide (k.2 ∈ [])) as [Hin | _]; [inversion Hin |].
    rewrite Hlook1.
    destruct (decide (k.1 = p /\ k.2 ∈ bs)) as [[_ Hin] | Hno];
      destruct (decide (k.2 ∈ bs)) as [Hin' | Hno']; try reflexivity;
      exfalso; auto.
  - rewrite Hlook1.
    destruct (decide (k.1 = p /\ k.2 ∈ bs)) as [[Hk' _] | _];
      [contradiction | reflexivity].
Qed.

(** On a connection that does not fail. *)
Lemma prices_round_trip_run {A} (k : session -> result A * session) s :
  reliable e -> round_trip e k s = k (next s).
Proof. intros Hrel. unfold round_trip. now rewrite Hrel. Qed.

Lemma prices_upsert_record_run p pj record s w :
  reliable e -> bind_int pj = Some p -> price_record_good sc p record ->
  txn s = Some w ->
  exists w', upsert_record e sc pj record s = (Ok tt, with_txn (next s) (Some w')).
Proof.
  intros Hrel Hp (Hv & b & v & Hrec & Hadm) Ht.
  unfold price_record_invalid in Hv.
  apply orb_false_elim in Hv as [Hv Hv3].
  apply orb_false_elim in Hv as [Hn Hv2].
  unfold price_record in Hrec.
  destruct (bind_int (field record "id_sucursal")) as [b' |] eqn:Hb;
    [| discriminate].
  destruct (bind_decimal (field record "precio_venta")) as [v' |] eqn:Hpv;
    [| discriminate].
  injection Hrec as -> ->.
  unfold upsert_record.
  rewrite !(prices_prop_field _ _ Hn), !prices_bind_ret, Hv2, Hv3. simpl.
  unfold exec. rewrite (prices_round_trip_run _ _ Hrel). simpl. rewrite Ht.
  unfold upsert_precio. rewrite Hp, Hb, Hpv, Hadm. eauto.
Qed.

Lemma prices_loop_run p pj records :
  reliable e -> bind_int pj = Some p ->
  Forall (price_record_good sc p) records ->
  forall s w, txn s = Some w ->
    exists s' w', for_each (upsert_record e sc pj) records s = (Ok tt, s')
                  /\ txn s' = Some w'.
Proof.
  intros Hrel Hp Hall. induction Hall as [| r records Hr _ IH]; intros s w Ht.
  - exists s, w. split; [reflexivity | exact Ht].
  - destruct (prices_upsert_record_run p pj r s w Hrel Hp Hr Ht) as (w' & Hrun).
    simpl. unfold bind at 1. rewrite Hrun. apply (IH _ w'). reflexivity.
Qed.

Lemma prices_try_run body t p bs :
  reliable e ->
  is_nullish body = false -> prices_invalid body = false ->
  (bind_int (field body "productId") = Some p
   \/ (elements (field body "branchIdsToDelete") = []
       /\ elements (field body "recordsToUpsert") = [])) ->
  ((elements (field body "branchIdsToDelete") = [] /\ bs = [])
   \/ (elements (field body "branchIdsToDelete") <> []
       /\ int4_array sc (elements (field body "branchIdsToDelete")) = Some bs)) ->
  Forall (price_record_good sc p) (elements (field body "recordsToUpsert")) ->
  exists r s1, update_branch_prices_try e sc body (prices_start t) = (Ok r, s1).
Proof.
  intros Hrel Hn Hv Hp Hbs Hall. unfold update_branch_prices_try.
  rewrite !(prices_prop_field _ _ Hn), !prices_bind_ret.
  unfold prices_invalid in Hv. rewrite Hv.
  unfold bind at 1. unfold connect. rewrite (prices_round_trip_run _ _ Hrel).
  unfold bind at 1. unfold begin. rewrite (prices_round_trip_run _ _ Hrel).
  simpl.
  unfold bind at 1.
  match goal with |- context [(if ?c then exec _ _ else ret tt) ?s] =>
    assert (Hd : exists s' w', (if c then exec e (delete_precios sc
                     (field body "productId") (field body "branchIdsToDelete"))
                                else ret tt) s = (Ok tt, s')
                               /\ txn s' = Some w') end.
  { destruct (elements (field body "branchIdsToDelete")) as [| x xs] eqn:Hids.
    - simpl. unfold ret. eauto.
    - simpl. unfold exec. rewrite (prices_round_trip_run _ _ Hrel). simpl.
      unfold delete_precios. rewrite Hids.
      destruct Hp as [Hp | [Hp _]]; [| discriminate].
      destruct Hbs as [[Hb _] | [_ Hb]]; [discriminate |].
      rewrite Hp, Hb. eauto. }
  destruct Hd as (s' & w' & -> & Ht').
  unfold bind at 1.
  match goal with |- context [(if ?c then for_each ?f ?l else ret tt) ?s] =>
    assert (Hu : exists s2 w2, (if c then for_each f l else ret tt) s = (Ok tt, s2)
                               /\ txn s2 = Some w2) end.
  { destruct (elements (field body "recordsToUpsert")) as [| x xs] eqn:Hrecs.
    - simpl. unfold ret. eauto.
    - destruct Hp as [Hp | [_ Hp]]; [| discriminate].
      change (0 <? length (x :: xs))%nat with true. cbv iota.
      apply (prices_loop_run p _ _ Hrel Hp Hall _ _ Ht'). }
  destruct Hu as (s2 & w2 & -> & Ht2).
  unfold bind at 1. unfold commit. rewrite (prices_round_trip_run _ _ Hrel).
  simpl. rewrite Ht2. eauto.
Qed.
End PricesFacts.

(** X10.  update-branch-prices is all or nothing: an answer other than
    200 is a 400 or a 500 with a message and leaves the table as it was; a
    body that fails the handler's first test is answered 400 with the
    message on invalid data before any round trip; and one malformed
    record among those to upsert makes the whole call fail, the deletions
    and the records before it undone. *)
Theorem update_branch_prices_all_or_nothing e sc req t :
  method req <> "OPTIONS" ->
  (status (fst (Prices.update_branch_prices e sc req t)) <> 200 ->
   snd (Prices.update_branch_prices e sc req t) = t
   /\ (status (fst (Prices.update_branch_prices e sc req t)) = 400
       \/ status (fst (Prices.update_branch_prices e sc req t)) = 500)
   /\ exists m, body (fst (Prices.update_branch_prices e sc req t)) = ErrMsg m)
  /\ (pool e = true -> is_nullish (json_body req) = false ->
      prices_invalid (json_body req) = true ->
      Prices.update_branch_prices e sc req t
      = ({| status := 400; body := ErrMsg Prices.datos_invalidos |}, t)
      /\ Prices.tick (snd (Prices.update_branch_prices_try e sc (json_body req)
                             (prices_start t))) = O)
  /\ (forall record,
        In record (elements (field (json_body req) "recordsToUpsert")) ->
        price_record_invalid record = true ->
        status (fst (Prices.update_branch_prices e sc req t)) <> 200
        /\ snd (Prices.update_branch_prices e sc req t) = t).
Proof.
  intros Hm.
  assert (Hout : status (fst (Prices.update_branch_prices e sc req t)) <> 200 ->
                 snd (Prices.update_branch_prices e sc req t) = t).
  { intros H. destruct (prices_outcome e sc req t) as [H2 | [[H2 _] | [_ H2]]];
      [rewrite H2 in H; now elim H | contradiction | exact H2]. }
  split; [| split].
  - intros H. split; [apply Hout, H |].
    revert H. unfold Prices.update_branch_prices.
    apply String.eqb_neq in Hm. rewrite Hm.
    destruct (negb (pool e)); [simpl; eauto |].
    unfold Prices.handle.
    destruct (Prices.update_branch_prices_try e sc (json_body req) _)
      as [[r | m] s1] eqn:Htry; simpl; [| eauto].
    apply prices_try_Ok_status in Htry. subst r. intros H. now elim H.
  - intros Hpool Hn Hv. apply String.eqb_neq in Hm.
    unfold Prices.update_branch_prices, Prices.handle. rewrite Hm, Hpool. simpl.
    fold (prices_start t). unfold Prices.update_branch_prices_try.
    rewrite !(prices_prop_field _ _ Hn), !prices_bind_ret.
    unfold prices_invalid in Hv. rewrite Hv. split; reflexivity.
  - intros record Hin Hbad.
    assert (H : status (fst (Prices.update_branch_prices e sc req t)) <> 200).
    { unfold Prices.update_branch_prices.
      apply String.eqb_neq in Hm. rewrite Hm.
      destruct (negb (pool e)); [discriminate |].
      unfold Prices.handle. fold (prices_start t).
      destruct (Prices.update_branch_prices_try e sc (json_body req) _)
        as [[r | m] s1] eqn:Htry; [| discriminate].
      exfalso. apply prices_try_Ok in Htry
        as (p & bs & _ & _ & _ & _ & Hall & _).
      destruct (proj1 (List.Forall_forall _ _) Hall record Hin) as [Hgood _].
      congruence. }
    split; [exact H | apply Hout, H].
Qed.

Lemma update_branch_prices_all_or_nothing_witness :
  Prices.update_branch_prices Ex.e PricesEx.strict
    (PricesEx.update (num_of_Z 7) [PricesEx.record 2 13; JObj []] [num_of_Z 3])
    PricesEx.list_
  = ({| status := 400; body := ErrMsg Prices.registro_invalido |}, PricesEx.list_).
Proof.
  destruct (update_branch_prices_all_or_nothing Ex.e PricesEx.strict
              (PricesEx.update (num_of_Z 7) [PricesEx.record 2 13; JObj []]
                               [num_of_Z 3]) PricesEx.list_)
    as (_ & _ & H); [discriminate |].
  destruct (H (JObj [])) as [_ Hsame].
  - simpl. auto.
  - reflexivity.
  - rewrite (surjective_pairing (Prices.update_branch_prices _ _ _ _)).
    rewrite Hsame. reflexivity.
Defined.

(** X11.  A call of update-branch-prices answered 200 has changed the
    prices of the request's product only: the branches listed for deletion
    have lost their price, and each branch named by a record has the price
    of the last record that names it, also when the branch was listed for
    deletion; every other row is as it was.  On a reliable connection a
    well-formed request whose records the table admits is answered 200. *)
Theorem update_branch_prices_commits e sc req t :
  method req <> "OPTIONS" ->
  (status (fst (Prices.update_branch_prices e sc req t)) = 200 ->
   exists p bs,
     (bind_int (field (json_body req) "productId") = Some p
      \/ (elements (field (json_body req) "branchIdsToDelete") = []
          /\ elements (field (json_body req) "recordsToUpsert") = []))
     /\ ((elements (field (json_body req) "branchIdsToDelete") = [] /\ bs = [])
         \/ (elements (field (json_body req) "branchIdsToDelete") <> []
             /\ Prices.int4_array sc
                  (elements (field (json_body req) "branchIdsToDelete"))
                = Some bs))
     /\ forall k,
          Prices.Precios_Sucursal (snd (Prices.update_branch_prices e sc req t)) !! k
          = repriced p bs (elements (field (json_body req) "recordsToUpsert"))
                     (Prices.Precios_Sucursal t) k)
  /\ (forall p bs,
        reliable e -> pool e = true ->
        is_nullish (json_body req) = false ->
        prices_invalid (json_body req) = false ->
        bind_int (field (json_body req) "productId") = Some p ->
        Prices.int4_array sc
          (elements (field (json_body req) "branchIdsToDelete")) = Some bs ->
        Forall (price_record_good sc p)
               (elements (field (json_body req) "recordsToUpsert")) ->
        fst (Prices.update_branch_prices e sc req t)
        = {| status := 200;
             body := SuccessMsg "Precios actualizados correctamente." |}).
Proof.
  intros Hm. apply String.eqb_neq in Hm.
  unfold Prices.update_branch_prices. rewrite Hm. split.
  - destruct (negb (pool e)); [discriminate |].
    unfold Prices.handle. fold (prices_start t).
    destruct (Prices.update_branch_prices_try e sc (json_body req) _)
      as [[r | m] s1] eqn:Htry; [| discriminate].
    intros _. apply prices_try_Ok in Htry
      as (p & bs & _ & _ & Hp & Hbs & _ & Hlook).
    exists p, bs. auto.
  - intros p bs Hrel Hpool Hn Hv Hp Hbs Hall. rewrite Hpool. simpl.
    assert (Hbs' : (elements (field (json_body req) "branchIdsToDelete") = []
                    /\ ([] : list Z) = [])
                   \/ (elements (field (json_body req) "branchIdsToDelete") <> []
                       /\ Prices.int4_array sc
                            (elements (field (json_body req) "branchIdsToDelete"))
                          = Some bs)).
    { destruct (elements (field (json_body req) "branchIdsToDelete"));
        [left; auto | right; split; [discriminate | exact Hbs]]. }
    assert (Htry : exists r s1,
               Prices.update_branch_prices_try e sc (json_body req) (prices_start t)
               = (Ok r, s1)).
    { destruct Hbs' as [Hb | Hb].
      - apply (prices_try_run e sc (json_body req) t p [] Hrel Hn Hv
                 (or_introl Hp) (or_introl Hb) Hall).
      - apply (prices_try_run e sc (json_body req) t p bs Hrel Hn Hv
                 (or_introl Hp) (or_intror Hb) Hall). }
    destruct Htry as (r & s1 & Htry).
    unfold Prices.handle. fold (prices_start t). rewrite Htry. simpl.
    apply (prices_try_Ok_status e sc _ _ _ _ Htry).
Qed.

(** Product 7: 13 in branch 2, nothing in branch 3; product 8 as before. *)
Lemma update_branch_prices_commits_witness :
  Prices.Precios_Sucursal
    (snd (Prices.update_branch_prices Ex.e PricesEx.strict
            (PricesEx.update (num_of_Z 7) [PricesEx.record 2 13] [num_of_Z 3])
            PricesEx.list_)) !! (7, 2) = Some 13%Q
  /\ Prices.Precios_Sucursal
       (snd (Prices.update_branch_prices Ex.e PricesEx.strict
               (PricesEx.update (num_of_Z 7) [PricesEx.record 2 13] [num_of_Z 3])
               PricesEx.list_)) !! (7, 3) = None
  /\ Prices.Precios_Sucursal
       (snd (Prices.update_branch_prices Ex.e PricesEx.strict
               (PricesEx.update (num_of_Z 7) [PricesEx.record 2 13] [num_of_Z 3])
               PricesEx.list_)) !! (8, 2) = Some 9%Q.
Proof.
  destruct (update_branch_prices_commits Ex.e PricesEx.strict
              (PricesEx.update (num_of_Z 7) [PricesEx.record 2 13] [num_of_Z 3])
              PricesEx.list_) as [Hinv _]; [discriminate |].
  destruct Hinv as (p & bs & Hp & Hbs & Hlook); [reflexivity |].
  destruct Hp as [Hp | [Hp _]]; [| discriminate].
  destruct Hbs as [[Hbs _] | [_ Hbs]]; [discriminate |].
  vm_compute in Hp. injection Hp as <-.
  vm_compute in Hbs. injection Hbs as <-.
  rewrite !Hlook. repeat split; vm_compute; reflexivity.
Defined.

Lemma repriced_nothing (p : Z) (t : gmap (Z * Z) Q) (k : Z * Z) :
  repriced p [] [] t k = t !! k.
Proof.
  unfold repriced. simpl. destruct (decide (k.1 = p)); [| reflexivity].
  destruct (decide (k.2 ∈ [])) as [Hin | _]; [inversion Hin | reflexivity].
Qed.

Lemma repriced_twice (p : Z) (bs : list Z) (records : list json)
      (t m1 m2 : gmap (Z * Z) Q) :
  (forall k, m1 !! k = repriced p bs records t k) ->
  (forall k, m2 !! k = repriced p bs records m1 k) ->
  m2 = m1.
Proof.
  intros H1 H2. apply map_eq. intros k. rewrite H2. unfold repriced.
  destruct (decide (k.1 = p)) as [Hk | Hk]; [| reflexivity].
  destruct (last_price k.2 records) as [v |] eqn:Hl.
  - rewrite H1. unfold repriced. rewrite decide_True by exact Hk.
    now rewrite Hl.
  - destruct (decide (k.2 ∈ bs)) as [Hin | Hin]; [| reflexivity].
    rewrite H1. unfold repriced. rewrite decide_True by exact Hk.
    rewrite Hl. now rewrite decide_True by exact Hin.
Qed.

(** X12.  update-branch-prices is idempotent: a call answered 200,
    made again on a reliable connection, is answered 200 again and leaves
    the table as the first call left it. *)
Theorem update_branch_prices_idempotent e e' sc req t :
  method req <> "OPTIONS" ->
  status (fst (Prices.update_branch_prices e sc req t)) = 200 ->
  reliable e' -> pool e' = true ->
  Prices.update_branch_prices e' sc req
    (snd (Prices.update_branch_prices e sc req t))
  = ({| status := 200; body := SuccessMsg "Precios actualizados correctamente." |},
     snd (Prices.update_branch_prices e sc req t)).
Proof.
  intros Hm H200 Hrel Hpool. apply String.eqb_neq in Hm.
  unfold Prices.update_branch_prices in *. rewrite Hm in *. rewrite Hpool.
  destruct (negb (pool e)); [discriminate |]. simpl.
  unfold Prices.handle in *. fold (prices_start t) in *.
  destruct (Prices.update_branch_prices_try e sc (json_body req) (prices_start t))
    as [[r | m] s1] eqn:Htry; [| discriminate]. simpl.
  apply prices_try_Ok in Htry as (p & bs & Hn & Hv & Hp & Hbs & Hall & Hlook).
  fold (prices_start (Prices.srv s1)).
  destruct (prices_try_run e' sc (json_body req) (Prices.srv s1) p bs
              Hrel Hn Hv Hp Hbs Hall) as (r2 & s2 & Htry2).
  rewrite Htry2.
  pose proof (prices_try_Ok_status e' sc _ _ _ _ Htry2) as ->.
  f_equal.
  apply prices_try_Ok in Htry2
    as (p2 & bs2 & _ & _ & Hp2 & Hbs2 & _ & Hlook2).
  assert (Hsame : forall k,
             Prices.Precios_Sucursal (Prices.srv s2) !! k
             = repriced p bs (elements (field (json_body req) "recordsToUpsert"))
                        (Prices.Precios_Sucursal (Prices.srv s1)) k).
  { intros k. rewrite Hlook2.
    assert (Hbb : bs2 = bs).
    { destruct Hbs as [[Hb ->] | [Hb Hb']]; destruct Hbs2 as [[Hb2 ->] | [Hb2 Hb2']];
        congruence. }
    subst bs2.
    destruct Hp as [Hp | [Hd Hr]]; destruct Hp2 as [Hp2 | [Hd2 Hr2]].
    - assert (p2 = p) by congruence. now subst p2.
    - destruct Hbs as [[_ ->] | [Hb _]]; [| contradiction].
      rewrite Hr2, !repriced_nothing. reflexivity.
    - destruct Hbs as [[_ ->] | [Hb _]]; [| contradiction].
      rewrite Hr, !repriced_nothing. reflexivity.
    - destruct Hbs as [[_ ->] | [Hb _]]; [| contradiction].
      rewrite Hr, !repriced_nothing. reflexivity. }
  pose proof (repriced_twice _ _ _ _ _ _ Hlook Hsame) as Heq.
  destruct (Prices.srv s2), (Prices.srv s1). simpl in Heq. now subst.
Qed.

(** The update of the witness above, twice. *)
Lemma update_branch_prices_idempotent_witness :
  Prices.update_branch_prices Ex.e PricesEx.strict
    (PricesEx.update (num_of_Z 7) [PricesEx.record 2 13] [num_of_Z 3])
    (snd (Prices.update_branch_prices Ex.e PricesEx.strict
            (PricesEx.update (num_of_Z 7) [PricesEx.record 2 13] [num_of_Z 3])
            PricesEx.list_))
  = ({| status := 200; body := SuccessMsg "Precios actualizados correctamente." |},
     snd (Prices.update_branch_prices Ex.e PricesEx.strict
            (PricesEx.update (num_of_Z 7) [PricesEx.record 2 13] [num_of_Z 3])
            PricesEx.list_)).
Proof.
  apply update_branch_prices_idempotent;
    [discriminate | reflexivity | intros n; reflexivity | reflexivity].
Defined.

(** ** create-purchase followed by receive-purchase-stock *)

Lemma units_received_bought moneda id p items :
  Forall (fun it => purchase_item_invalid it = false) items ->
  units_received p (omap (purchase_line moneda id) items) = units_bought p items.
Proof.
  induction 1 as [| it items Hv _ IH]; [reflexivity |].
  rewrite (units_bought_cons p it items), <- IH.
  cbn [omap list_omap]. unfold purchase_line at 1. unfold units_bought at 1.
  cbn [foldr].
  destruct (bind_int (field it "id_producto")) as [p' |] eqn:Hp; [| simpl; lia].
  destruct (bind_int (field it "cantidad")) as [q |] eqn:Hq; [| simpl; lia].
  assert (Hq0 : 0 < q).
  { exact (purchase_item_positive _ _ Hv Hq). }
  unfold purchase_item_invalid in Hv.
  apply orb_false_elim in Hv as [Hv _].
  apply orb_false_elim in Hv as [_ Hc]. apply negb_false_iff in Hc.
  destruct (is_number_bind_decimal _ Hc) as (c & _ & Hc').
  rewrite Hc'.
  match goal with |- units_received p (?l :: ?ls) = _ =>
    rewrite (units_received_cons p l ls) end.
  unfold units_received at 1. cbn [foldr dc_id_producto dc_cantidad].
  replace (0 <? q) with true by (symmetry; now apply Z.ltb_lt).
  rewrite andb_true_r. destruct (p' =? p); lia.
Qed.

Lemma purchase_lines_new moneda id items old :
  List.filter (fun x => dc_id_compra x =? id) old = [] ->
  List.filter (fun x => dc_id_compra x =? id)
              (old ++ omap (purchase_line moneda id) items)
  = omap (purchase_line moneda id) items.
Proof.
  intros Hold. rewrite List.filter_app, Hold. cbn [app].
  induction items as [| it items IH]; [reflexivity |].
  cbn [omap list_omap].
  destruct (purchase_line moneda id it) as [line |] eqn:Hl; [| exact IH].
  assert (Hid : dc_id_compra line = id).
  { unfold purchase_line in Hl.
    destruct (bind_int (field it "id_producto")); [| discriminate].
    destruct (bind_int (field it "cantidad")); [| discriminate].
    destruct (bind_decimal (field it "costo_unitario")); [| discriminate].
    now injection Hl as <-. }
  cbn [List.filter]. rewrite Hid, Z.eqb_refl. f_equal. exact IH.
Qed.

(** X9.  A purchase created by create-purchase is credited to the
    inventory at once, and receive-purchase-stock credits it again: for a
    purchase created in state 'Pendiente' and then received, every product
    of the branch ends with its stock raised by twice the units bought.
    The receipt goes through when the cost of each line in local currency
    is a number that the store can read. *)
Theorem purchase_created_then_received e e' req st :
  method req <> "OPTIONS" ->
  status (fst (create_purchase e req st)) = 200 ->
  is_text (field (json_body req) "estado") "Pendiente" = true ->
  purchase_lines (seq_compras st) (committed st) = [] ->
  seq_compras st <> 0 ->
  reliable e' -> pool e' = true ->
  Forall (receivable (coalesce (default_tipo_cambio e) 1))
         (omap (purchase_line (default_moneda e) (seq_compras st))
               (items_of (json_body req))) ->
  status (fst (receive_purchase_stock e' (receipt_request (seq_compras st))
                 (snd (create_purchase e req st)))) = 200
  /\ exists b,
       bind_int (field (json_body req) "id_sucursal") = Some b
       /\ forall p,
            stock_of (Inventario (committed (snd (receive_purchase_stock e'
                        (receipt_request (seq_compras st))
                        (snd (create_purchase e req st)))))) p b
            = stock_of (Inventario (committed st)) p b
              + 2 * units_bought p (items_of (json_body req)).
Proof.
  intros Hm H200 Hpend Hfresh Hid Hrel Hpool Hcosts.
  set (id := seq_compras st) in *.
  assert (Hc : exists b m w,
             bind_int (field (json_body req) "id_sucursal") = Some b
             /\ purchase_header_invalid (json_body req) = false
             /\ Forall (fun it => purchase_item_invalid it = false)
                       (items_of (json_body req))
             /\ length (omap (purchase_line (default_moneda e) id)
                             (items_of (json_body req)))
                = length (items_of (json_body req))
             /\ bought b (items_of (json_body req))
                  (omap (purchase_line (default_moneda e) id)
                        (items_of (json_body req)))
                  (with_Compras (committed st)
                     (<[id := purchase_header e (json_body req) b m]>
                        (Compras (committed st)))) w
             /\ committed (snd (create_purchase e req st)) = w).
  { unfold create_purchase in *. apply String.eqb_neq in Hm. rewrite Hm in *.
    destruct (negb (pool e)); [discriminate |].
    unfold handle in *.
    destruct (create_purchase_try e (json_body req) _) as [[r | t] s1] eqn:Htry;
      [| discriminate].
    apply create_purchase_try_Ok in Htry; [| reflexivity].
    destruct Htry as (b & m & w & _ & Hb & _ & Hh & Hall & _ & Hlen & Hbought
                      & _ & _ & Hsrv & _).
    exists b, m, w. simpl in *. rewrite Hsrv. auto 10. }
  destruct Hc as (b & m & w & Hb & Hh & Hall & Hlen & Hbought & Hw).
  destruct Hbought as (B1 & B2 & B3 & B4 & B5 & B6 & B7 & B8).
  simpl in *.
  set (st1 := snd (create_purchase e req st)) in *.
  remember (omap (purchase_line (default_moneda e) id)
                  (items_of (json_body req))) as lines eqn:Elines.
  assert (Hlines : purchase_lines id (committed st1) = lines).
  { unfold purchase_lines. rewrite Hw, B1, Elines.
    apply purchase_lines_new. exact Hfresh. }
  assert (Hne : lines <> []).
  { intros H0. rewrite H0 in Hlen. simpl in Hlen.
    unfold purchase_header_invalid in Hh.
    apply orb_false_elim in Hh as [_ Hh]. unfold items_of in Hlen.
    rewrite <- Hlen in Hh. discriminate. }
  assert (Hrow : Compras (committed st1) !! id
                 = Some (purchase_header e (json_body req) b m)).
  { rewrite Hw, B4. simpl. apply lookup_insert_eq. }
  pose proof (receive_purchase_stock_run e' Hrel (receipt_request id) st1 id
                Hpool) as Hrun.
  specialize (Hrun ltac:(discriminate) eq_refl).
  simpl in Hrun. unfold field in Hrun. simpl in Hrun.
  specialize (Hrun (truthy_num_of_Z id Hid) (bind_int_num_of_Z id)).
  rewrite Hrow in Hrun. simpl in Hrun. rewrite Hpend in Hrun.
  rewrite Hlines in Hrun.
  assert (Hrun' : receive_purchase_stock e' (receipt_request id) st1
                   = ({| status := 200;
                         body := SuccessMsg "Stock actualizado correctamente." |},
                      set_committed st1
                        (with_Compras
                           (credit (numeric_div e') b
                                   (exchange_rate (default_tipo_cambio e)) lines
                                   (committed st1))
                           (<[id := confirmed (purchase_header e (json_body req) b m)]>
                              (Compras (committed st1)))))).
  { destruct lines; [congruence | exact (Hrun Hcosts)]. }
  rewrite Hrun'. split; [reflexivity |].
  exists b. split; [exact Hb |]. intros p.
  cbn [snd committed set_committed Inventario with_Compras].
  destruct (credit_units (numeric_div e') b
              (exchange_rate (default_tipo_cambio e)) lines Hcosts
              (committed st1)) as (C1 & _).
  rewrite C1, Hw, B2. cbn [Inventario with_Compras].
  rewrite Elines, (units_received_bought _ _ _ _ Hall). lia.
Qed.

(** Ten units of product 7 bought for branch 2, which held five, and then
    received: twenty-five. *)
Lemma purchase_created_then_received_witness :
  stock_of (Inventario (committed (snd (receive_purchase_stock Ex.e
              (receipt_request 1)
              (snd (create_purchase Ex.e (Ex.order [Ex.item 7 10 4]) Ex.st))))))
           7 2
  = 5 + 2 * 10.
Proof.
  destruct (purchase_created_then_received Ex.e Ex.e
              (Ex.order [Ex.item 7 10 4]) Ex.st)
    as (_ & b & Hb & Hq);
    [discriminate | reflexivity | reflexivity | reflexivity | discriminate
    | intros n; reflexivity | reflexivity
    | repeat constructor; intros _; vm_compute; eauto |].
  vm_compute in Hb. injection Hb as <-. apply (Hq 7).
Defined.

(** ** update-user-password and create-user *)

Lemma admin_prop_field v k :
  is_nullish v = false -> Admin.prop v k = Admin.ret (field v k).
Proof. destruct v; simpl; intros; congruence. Qed.

Lemma admin_prop_nullish v k :
  is_nullish v = true -> Admin.prop v k = Admin.throw [TypeErrorText].
Proof. destruct v; simpl; intros; congruence. Qed.

(** Running a handler of the admin client: unfold the monad. *)
Ltac admin_run :=
  cbv beta iota delta [Admin.bind Admin.ret Admin.throw Admin.client
                       Admin.await Admin.handle fst snd negb orb
                       Admin.code Admin.content app].

Lemma update_user_password_cases sv to_number req :
  method req <> "OPTIONS" ->
  let body := json_body req in
  let r := fst (Admin.update_user_password sv to_number req) in
  let calls := snd (Admin.update_user_password sv to_number req) in
  (calls = [] \/ calls = [password_call body])
  /\ (calls <> [] ->
      truthy (field body "userId") = true
      /\ truthy (field body "newPassword") = true
      /\ Admin.length_below_6 to_number (field body "newPassword") = false
      /\ forall s, field body "newPassword" = JStr s ->
                   (6 <= Admin.js_length s)%nat)
  /\ (Admin.code r = 200 ->
      exists reply,
        Admin.updateUserById sv (field body "userId") (field body "newPassword")
        = Admin.Returned reply
        /\ Admin.auth_error reply = None /\ truthy (Admin.user reply) = true
        /\ Admin.content r
           = Admin.Json [("success", JBool true);
                         ("userId", field (Admin.user reply) "id")]
        /\ calls = [password_call body])
  /\ (Admin.code r = 200
      \/ (Admin.code r = 400 /\ exists m, Admin.content r = Admin.Msg m))
  /\ (forall reply message,
        calls <> [] ->
        Admin.updateUserById sv (field body "userId") (field body "newPassword")
        = Admin.Returned reply ->
        Admin.auth_error reply = Some message ->
        Admin.content r
        = Admin.Msg
            (if Admin.includes message "Password should be at least 6 characters"
             then Admin.contrasena_corta
             else if Admin.includes message "User not found"
             then Admin.usuario_no_encontrado
             else [Txt message])).
Proof.
  intros Hm body r calls. subst r calls.
  unfold Admin.update_user_password.
  apply String.eqb_neq in Hm. rewrite Hm.
  unfold Admin.update_user_password_try. fold body.
  destruct (is_nullish body) eqn:Hn.
  { rewrite (admin_prop_nullish _ _ Hn). admin_run.
    repeat split; try (intros; congruence); eauto. }
  rewrite !(admin_prop_field _ _ Hn). admin_run.
  destruct (truthy (field body "userId")) eqn:Hu; admin_run;
    [| repeat split; try (intros; congruence); eauto].
  destruct (truthy (field body "newPassword")) eqn:Hp; admin_run;
    [| repeat split; try (intros; congruence); eauto].
  destruct (Admin.length_below_6 to_number (field body "newPassword")) eqn:Hl;
    admin_run; [repeat split; try (intros; congruence); eauto |].
  assert (Hs : forall s, field body "newPassword" = JStr s ->
                         (6 <= Admin.js_length s)%nat).
  { intros s Hs. rewrite Hs in Hl. simpl in Hl.
    apply Nat.ltb_ge in Hl. exact Hl. }
  destruct (Admin.createClient sv) as [m |]; admin_run;
    [repeat split; try (intros; congruence); eauto |].
  unfold password_call.
  destruct (Admin.updateUserById sv (field body "userId")
              (field body "newPassword")) as [reply | m] eqn:Hcall; admin_run;
    [| repeat split; try (intros; congruence); eauto].
  destruct (Admin.auth_error reply) as [message |] eqn:He; admin_run.
  - destruct (Admin.includes message
                "Password should be at least 6 characters") eqn:H1; admin_run;
      [split; [auto |]; split; [auto |]; split; [discriminate |];
       split; [eauto |]; intros ? ? _ [= <-] Hmsg;
       rewrite He in Hmsg; injection Hmsg as <-; now rewrite H1 |].
    destruct (Admin.includes message "User not found") eqn:H2; admin_run;
      (split; [auto |]; split; [auto |]; split; [discriminate |];
       split; [eauto |]; intros ? ? _ [= <-] Hmsg;
       rewrite He in Hmsg; injection Hmsg as <-; now rewrite H1, H2).
  - destruct (truthy (Admin.user reply)) eqn:Hus; admin_run.
    + split; [auto |]. split; [auto |].
      split; [intros _; exists reply; auto |].
      split; [auto |]. intros ? ? _ [= <-] Hmsg. congruence.
    + split; [auto |]. split; [auto |]. split; [discriminate |].
      split; [eauto |]. intros ? ? _ [= <-] Hmsg. congruence.
Qed.

Lemma create_user_created sv req id :
  method req <> "OPTIONS" ->
  auth_user_created sv (json_body req) id ->
  Admin.create_user sv req
  = match profile_answer sv (json_body req) id with
    | Admin.Returned None =>
        ({| Admin.code := 200;
            Admin.content := Admin.Json [("success", JBool true); ("userId", id)] |},
         [create_call (json_body req); profile_call (json_body req) id])
    | Admin.Returned (Some message) =>
        ({| Admin.code := 400;
            Admin.content :=
              Admin.Msg [Txt match Admin.deleteUser sv id with
                             | Admin.Returned _ => message
                             | Admin.Raised m => m
                             end] |},
         [create_call (json_body req); profile_call (json_body req) id;
          Admin.DeleteUser id])
    | Admin.Raised m =>
        ({| Admin.code := 400; Admin.content := Admin.Msg [Txt m] |},
         [create_call (json_body req); profile_call (json_body req) id])
    end.
Proof.
  intros Hm (Hn & H1 & H2 & H3 & H4 & Hcl & reply & Hcu & He & Hu & Hid).
  unfold Admin.create_user. apply String.eqb_neq in Hm. rewrite Hm.
  unfold Admin.create_user_try, profile_answer, create_call, profile_call.
  rewrite !(admin_prop_field _ _ Hn). admin_run.
  rewrite H1, H2, H3, H4. admin_run. rewrite Hcl. admin_run. rewrite Hcu.
  admin_run. rewrite He, Hu. admin_run.
  assert (Hnn : is_nullish (Admin.user reply) = false).
  { destruct (Admin.user reply); try reflexivity; discriminate. }
  rewrite (admin_prop_field _ _ Hnn), Hid. admin_run.
  destruct (Admin.insertUsuario sv id _ _ _ _) as [[message |] | m];
    admin_run; [| reflexivity | reflexivity].
  destruct (Admin.deleteUser sv id) as [[] | m]; reflexivity.
Qed.

Lemma create_user_inv sv req :
  method req <> "OPTIONS" ->
  (exists id, auth_user_created sv (json_body req) id)
  \/ (Admin.code (fst (Admin.create_user sv req)) = 400
      /\ (snd (Admin.create_user sv req) = []
          \/ snd (Admin.create_user sv req) = [create_call (json_body req)])
      /\ (snd (Admin.create_user sv req) <> [] ->
          truthy (field (json_body req) "email") = true
          /\ truthy (field (json_body req) "password") = true
          /\ truthy (field (json_body req) "nombre") = true
          /\ truthy (field (json_body req) "rol") = true)).
Proof.
  intros Hm. unfold Admin.create_user. apply String.eqb_neq in Hm. rewrite Hm.
  unfold Admin.create_user_try, auth_user_created, create_call.
  set (body := json_body req).
  destruct (is_nullish body) eqn:Hn.
  { right. rewrite (admin_prop_nullish _ _ Hn). admin_run.
    split; [reflexivity |]. split; [auto | congruence]. }
  rewrite !(admin_prop_field _ _ Hn). admin_run.
  destruct (truthy (field body "email")) eqn:H1; admin_run;
    [| right; split; [reflexivity |]; split; [auto | congruence]].
  destruct (truthy (field body "password")) eqn:H2; admin_run;
    [| right; split; [reflexivity |]; split; [auto | congruence]].
  destruct (truthy (field body "nombre")) eqn:H3; admin_run;
    [| right; split; [reflexivity |]; split; [auto | congruence]].
  destruct (truthy (field body "rol")) eqn:H4; admin_run;
    [| right; split; [reflexivity |]; split; [auto | congruence]].
  destruct (Admin.createClient sv) as [m |] eqn:Hcl; admin_run;
    [right; split; [reflexivity |]; split; [auto | congruence] |].
  destruct (Admin.createUser sv (field body "email") (field body "password")
              (field body "nombre")) as [reply | m] eqn:Hcu; admin_run;
    [| right; split; [reflexivity |]; split; [auto | auto]].
  destruct (Admin.auth_error reply) as [message |] eqn:He; admin_run.
  { right.
    destruct (Admin.includes message "already registered"); admin_run;
      [split; [reflexivity |]; split; [auto | auto] |].
    destruct (Admin.includes message "Password should be at least 6 characters");
      admin_run; split; try reflexivity; split; auto. }
  destruct (truthy (Admin.user reply)) eqn:Hu; admin_run;
    [| right; split; [reflexivity |]; split; [auto | auto]].
  left. exists (field (Admin.user reply) "id").
  repeat split; try assumption. exists reply. auto.
Qed.

(** X13.  update-user-password calls the admin service at most once, and
    only with a truthy user id and a truthy password that is not shorter
    than six: a text password of fewer than six UTF-16 code units is refused
    with status 400 before any call is made. *)
Theorem update_user_password_guard sv to_number req :
  method req <> "OPTIONS" ->
  let body := json_body req in
  let r := fst (Admin.update_user_password sv to_number req) in
  let calls := snd (Admin.update_user_password sv to_number req) in
  (calls = [] \/ calls = [password_call body])
  /\ (calls <> [] ->
      truthy (field body "userId") = true
      /\ truthy (field body "newPassword") = true
      /\ Admin.length_below_6 to_number (field body "newPassword") = false)
  /\ (forall s, field body "newPassword" = JStr s ->
                (Admin.js_length s < 6)%nat ->
                calls = [] /\ Admin.code r = 400).
Proof.
  intros Hm body r calls.
  destruct (update_user_password_cases sv to_number req Hm)
    as (Hcalls & Hguard & H200 & Hcode & _).
  fold body r calls in Hcalls, Hguard, H200, Hcode.
  split; [exact Hcalls |]. split.
  - intros Hne. destruct (Hguard Hne) as (H1 & H2 & H3 & _). auto.
  - intros s Hs Hlt.
    assert (Hnil : calls = []).
    { destruct Hcalls as [H | H]; [exact H |].
      assert (Hne : calls <> []) by (rewrite H; discriminate).
      destruct (Hguard Hne) as (_ & _ & _ & Hlen).
      specialize (Hlen s Hs). lia. }
    split; [exact Hnil |].
    destruct Hcode as [Hc | [Hc _]]; [| exact Hc].
    exfalso. destruct (H200 Hc) as (reply & _ & _ & _ & _ & Hcs).
    rewrite Hnil in Hcs. discriminate.
Qed.

(** The password 'abc' never reaches the service. *)
Lemma update_user_password_guard_witness :
  snd (Admin.update_user_password AdminEx.ready AdminEx.to_number
         (AdminEx.password "u-9" "abc")) = []
  /\ Admin.code (fst (Admin.update_user_password AdminEx.ready
                        AdminEx.to_number (AdminEx.password "u-9" "abc"))) = 400.
Proof.
  destruct (update_user_password_guard AdminEx.ready AdminEx.to_number
              (AdminEx.password "u-9" "abc")) as (_ & _ & H);
    [discriminate |].
  apply (H "abc"); [reflexivity | vm_compute; lia].
Defined.

(** X14.  update-user-password answers 200 only when the service was called
    once and returned a user without an error, and then with that user's id;
    every other answer is 400 with a message, and a service error that
    mentions the password length or a missing user is reported in the
    handler's own words. *)
Theorem update_user_password_reply sv to_number req :
  method req <> "OPTIONS" ->
  let body := json_body req in
  let r := fst (Admin.update_user_password sv to_number req) in
  let calls := snd (Admin.update_user_password sv to_number req) in
  (Admin.code r = 200 ->
   exists reply,
     Admin.updateUserById sv (field body "userId") (field body "newPassword")
     = Admin.Returned reply
     /\ Admin.auth_error reply = None /\ truthy (Admin.user reply) = true
     /\ Admin.content r
        = Admin.Json [("success", JBool true);
                      ("userId", field (Admin.user reply) "id")]
     /\ calls = [password_call body])
  /\ (Admin.code r = 200
      \/ (Admin.code r = 400 /\ exists m, Admin.content r = Admin.Msg m))
  /\ (forall reply message,
        calls <> [] ->
        Admin.updateUserById sv (field body "userId") (field body "newPassword")
        = Admin.Returned reply ->
        Admin.auth_error reply = Some message ->
        Admin.code r = 400
        /\ Admin.content r
           = Admin.Msg
               (if Admin.includes message
                     "Password should be at least 6 characters"
                then Admin.contrasena_corta
                else if Admin.includes message "User not found"
                then Admin.usuario_no_encontrado
                else [Txt message])).
Proof.
  intros Hm body r calls.
  destruct (update_user_password_cases sv to_number req Hm)
    as (_ & _ & H200 & Hcode & Herr).
  fold body r calls in H200, Hcode, Herr.
  split; [exact H200 |]. split; [exact Hcode |].
  intros reply message Hne Hr He.
  split; [| exact (Herr reply message Hne Hr He)].
  destruct Hcode as [Hc | [Hc _]]; [| exact Hc].
  destruct (H200 Hc) as (reply' & Hr' & He' & _).
  rewrite Hr in Hr'. injection Hr' as <-. congruence.
Qed.

(** The service does not know the user: the handler says so. *)
Lemma update_user_password_reply_witness :
  fst (Admin.update_user_password AdminEx.unknown AdminEx.to_number
         (AdminEx.password "u-9" "secreto"))
  = {| Admin.code := 400; Admin.content := Admin.Msg Admin.usuario_no_encontrado |}.
Proof.
  destruct (update_user_password_reply AdminEx.unknown AdminEx.to_number
              (AdminEx.password "u-9" "secreto")) as (_ & _ & H);
    [discriminate |].
  destruct (H {| Admin.user := JNull; Admin.auth_error := Some "User not found" |}
              "User not found") as [Hc Hm];
    [discriminate | reflexivity | reflexivity |].
  destruct (fst (Admin.update_user_password AdminEx.unknown AdminEx.to_number
                   (AdminEx.password "u-9" "secreto"))) as [c m].
  simpl in Hc, Hm. rewrite Hc, Hm. reflexivity.
Defined.

(** X15.  create-user removes the auth user it has just created exactly when
    the insertion of the profile answers with an error; the request then
    fails with status 400.  When the insertion throws instead, the auth user
    is left in place. *)
Theorem create_user_compensates sv req :
  method req <> "OPTIONS" ->
  let body := json_body req in
  let r := fst (Admin.create_user sv req) in
  let calls := snd (Admin.create_user sv req) in
  (forall id message,
     auth_user_created sv body id ->
     profile_answer sv body id = Admin.Returned (Some message) ->
     calls = [create_call body; profile_call body id; Admin.DeleteUser id]
     /\ Admin.code r = 400
     /\ (Admin.deleteUser sv id = Admin.Returned tt ->
         Admin.content r = Admin.Msg [Txt message]))
  /\ (forall id,
        In (Admin.DeleteUser id) calls ->
        auth_user_created sv body id
        /\ exists message,
             profile_answer sv body id = Admin.Returned (Some message))
  /\ (forall id message,
        auth_user_created sv body id ->
        profile_answer sv body id = Admin.Raised message ->
        Admin.create_user sv req
        = ({| Admin.code := 400; Admin.content := Admin.Msg [Txt message] |},
           [create_call body; profile_call body id])).
Proof.
  intros Hm body r calls. subst r calls.
  split; [| split].
  - intros id message Hc Hp.
    rewrite (create_user_created sv req id Hm Hc). fold body. rewrite Hp.
    simpl. split; [reflexivity |]. split; [reflexivity |].
    now intros ->.
  - intros id Hin.
    destruct (create_user_inv sv req Hm) as [[id' Hc] | (_ & Hcalls & _)].
    + rewrite (create_user_created sv req id' Hm Hc) in Hin. fold body in Hin.
      destruct (profile_answer sv body id') as [[message |] | m] eqn:Hp;
        simpl in Hin.
      * destruct Hin as [Hin | [Hin | [Hin | []]]]; try discriminate.
        injection Hin as <-. split; [exact Hc | eauto].
      * destruct Hin as [Hin | [Hin | []]]; discriminate.
      * destruct Hin as [Hin | [Hin | []]]; discriminate.
    + destruct Hcalls as [Hcalls | Hcalls]; rewrite Hcalls in Hin;
        simpl in Hin; [contradiction |].
      destruct Hin as [Hin | []]. discriminate.
  - intros id message Hc Hp.
    rewrite (create_user_created sv req id Hm Hc). fold body. now rewrite Hp.
Qed.

(** The e-mail is taken in 'Usuarios': the auth user u-9 is created and
    removed again. *)
Lemma create_user_compensates_witness :
  Admin.create_user AdminEx.taken AdminEx.new_user
  = ({| Admin.code := 400; Admin.content := Admin.Msg [Txt "duplicate key"] |},
     [create_call (json_body AdminEx.new_user);
      profile_call (json_body AdminEx.new_user) (JStr "u-9");
      Admin.DeleteUser (JStr "u-9")]).
Proof.
  destruct (create_user_compensates AdminEx.taken AdminEx.new_user)
    as (H & _); [discriminate |].
  destruct (H (JStr "u-9") "duplicate key") as (Hcalls & Hc & Hm).
  - repeat split. eexists. repeat split.
  - reflexivity.
  - specialize (Hm eq_refl).
    destruct (Admin.create_user AdminEx.taken AdminEx.new_user) as [[c m] calls].
    simpl in Hcalls, Hc, Hm. rewrite Hcalls, Hc, Hm. reflexivity.
Defined.

(** X16.  create-user answers 200 exactly when the auth user was created and
    its profile inserted without error, with the two calls made in that
    order and the new user's id in the body; it calls the service only for a
    body whose email, password, nombre and rol are all truthy. *)
Theorem create_user_succeeds sv req :
  method req <> "OPTIONS" ->
  let body := json_body req in
  let r := fst (Admin.create_user sv req) in
  let calls := snd (Admin.create_user sv req) in
  (forall id,
     auth_user_created sv body id ->
     profile_answer sv body id = Admin.Returned None ->
     Admin.create_user sv req
     = ({| Admin.code := 200;
           Admin.content := Admin.Json [("success", JBool true);
                                        ("userId", id)] |},
        [create_call body; profile_call body id]))
  /\ (Admin.code r = 200 ->
      exists id, auth_user_created sv body id
                 /\ profile_answer sv body id = Admin.Returned None)
  /\ (calls <> [] ->
      truthy (field body "email") = true /\ truthy (field body "password") = true
      /\ truthy (field body "nombre") = true /\ truthy (field body "rol") = true).
Proof.
  intros Hm body r calls. subst r calls.
  split; [| split].
  - intros id Hc Hp.
    rewrite (create_user_created sv req id Hm Hc). fold body. now rewrite Hp.
  - intros H200. destruct (create_user_inv sv req Hm) as [[id Hc] | (H4 & _)].
    + exists id. split; [exact Hc |].
      rewrite (create_user_created sv req id Hm Hc) in H200. fold body in H200.
      destruct (profile_answer sv body id) as [[message |] | m];
        [discriminate | reflexivity | discriminate].
    + rewrite H4 in H200. discriminate.
  - intros Hne.
    destruct (create_user_inv sv req Hm) as [[id Hc] | (_ & _ & H)];
      [| exact (H Hne)].
    destruct Hc as (_ & H1 & H2 & H3 & H4 & _). auto.
Qed.

(** A new user, created. *)
Lemma create_user_succeeds_witness :
  Admin.create_user AdminEx.ready AdminEx.new_user
  = ({| Admin.code := 200;
        Admin.content := Admin.Json [("success", JBool true);
                                     ("userId", JStr "u-9")] |},
     [create_call (json_body AdminEx.new_user);
      profile_call (json_body AdminEx.new_user) (JStr "u-9")]).
Proof.
  destruct (create_user_succeeds AdminEx.ready AdminEx.new_user)
    as (H & _); [discriminate |].
  apply (H (JStr "u-9")); [| reflexivity].
  repeat split. eexists. repeat split.
Defined.

(** ** The point of sale *)

(** Lists with distinct keys. *)
Lemma NoDup_map_inj {A B} (f : A -> B) (l : list A) a b :
  NoDup (List.map f l) -> In a l -> In b l -> f a = f b -> a = b.
Proof.
  induction l as [| x l IH]; simpl; [contradiction |].
  intros Hnd Ha Hb Hf. apply NoDup_cons in Hnd as [Hx Hnd].
  rewrite list_elem_of_In in Hx.
  destruct Ha as [<- | Ha], Hb as [<- | Hb]; auto.
  - exfalso. apply Hx. rewrite Hf. now apply in_map.
  - exfalso. apply Hx. rewrite <- Hf. now apply in_map.
Qed.

Lemma pos_ids_map (g : Pos.item -> Pos.item) cart :
  (forall it, Pos.of_product (g it) = Pos.of_product it) ->
  List.map (fun it => Pos.id (Pos.of_product it)) (List.map g cart)
  = List.map (fun it => Pos.id (Pos.of_product it)) cart.
Proof.
  intros Hg. rewrite List.map_map. apply List.map_ext. intros it. now rewrite Hg.
Qed.

Lemma pos_NoDup_filter (f : Pos.item -> bool) cart :
  NoDup (List.map (fun it => Pos.id (Pos.of_product it)) cart) ->
  NoDup (List.map (fun it => Pos.id (Pos.of_product it)) (List.filter f cart)).
Proof.
  induction cart as [| it cart IH]; simpl; [auto |].
  intros Hnd. apply NoDup_cons in Hnd as [Hx Hnd].
  destruct (f it); simpl; [| auto].
  apply NoDup_cons. split; [| auto].
  rewrite list_elem_of_In in *. intros Hin. apply Hx.
  apply in_map_iff in Hin as (y & Hy & Hin).
  apply filter_In in Hin as [Hin _].
  apply in_map_iff. eauto.
Qed.

Lemma pos_add_within products cart p :
  NoDup (List.map Pos.id products) -> In p products ->
  Pos.within_stock products cart ->
  Pos.within_stock products (fst (Pos.addToCart cart p)).
Proof.
  intros Hcat Hp [Hnd Hall]. unfold Pos.addToCart.
  destruct (List.find (Pos.is_item (Pos.id p)) cart) as [it0 |] eqn:Hfind.
  - apply find_some in Hfind as [Hin0 Hid0].
    unfold Pos.is_item in Hid0. apply Z.eqb_eq in Hid0.
    destruct (Pos.stock p <? Pos.cantidad it0 + 1) eqn:Hlt; simpl;
      [split; assumption |].
    apply Z.ltb_ge in Hlt.
    split.
    + rewrite pos_ids_map; [exact Hnd |].
      intros it. now destruct (Pos.is_item (Pos.id p) it).
    + apply List.Forall_forall. intros it' Hin'.
      apply in_map_iff in Hin' as (it & <- & Hin).
      pose proof (proj1 (List.Forall_forall _ _) Hall it Hin) as (H1 & H2 & H3).
      destruct (Pos.is_item (Pos.id p) it) eqn:Hit; [| auto].
      unfold Pos.is_item in Hit. apply Z.eqb_eq in Hit.
      assert (it = it0).
      { apply (NoDup_map_inj (fun it => Pos.id (Pos.of_product it)) cart);
          auto; congruence. }
      subst it.
      assert (Pos.of_product it0 = p).
      { apply (NoDup_map_inj Pos.id products); auto. }
      simpl. repeat split; auto; try lia. congruence.
  - destruct (Pos.stock p <? 0 + 1) eqn:Hlt; simpl; [split; assumption |].
    apply Z.ltb_ge in Hlt. split.
    + rewrite List.map_app. simpl.
      apply NoDup_app. split; [exact Hnd |]. split.
      * intros x Hx [Hx' | Hx']%elem_of_cons; [| inversion Hx'].
        subst x. rewrite list_elem_of_In in Hx.
        apply in_map_iff in Hx as (it & Hid & Hin).
        pose proof (find_none _ _ Hfind it Hin) as Hno.
        unfold Pos.is_item in Hno. apply Z.eqb_neq in Hno. contradiction.
      * apply NoDup_singleton.
    + apply Forall_app. split; [exact Hall |].
      constructor; [| constructor]. simpl. repeat split; auto; lia.
Qed.

Lemma pos_remove_within products cart productId :
  Pos.within_stock products cart ->
  Pos.within_stock products (Pos.removeFromCart cart productId).
Proof.
  intros [Hnd Hall]. unfold Pos.removeFromCart. split.
  - now apply pos_NoDup_filter.
  - apply List.Forall_forall. intros it Hin. apply filter_In in Hin as [Hin _].
    exact (proj1 (List.Forall_forall _ _) Hall it Hin).
Qed.

Lemma pos_update_within products cart productId newQuantity :
  NoDup (List.map Pos.id products) ->
  Pos.within_stock products cart ->
  Pos.within_stock products
    (fst (Pos.updateCartQuantity products cart productId newQuantity)).
Proof.
  intros Hcat Hw. unfold Pos.updateCartQuantity.
  destruct (List.find (fun p => Pos.id p =? productId) products) as [pc |] eqn:Hfind;
    [| exact Hw].
  apply find_some in Hfind as [Hpc Hid]. apply Z.eqb_eq in Hid.
  cbv zeta.
  set (q := if Pos.stock pc <? newQuantity then Pos.stock pc else newQuantity).
  assert (Hq : q <= Pos.stock pc).
  { unfold q. destruct (Pos.stock pc <? newQuantity) eqn:Hlt; [lia |].
    now apply Z.ltb_ge in Hlt. }
  destruct (q <=? 0) eqn:Hq0; simpl; [now apply pos_remove_within |].
  apply Z.leb_gt in Hq0. destruct Hw as [Hnd Hall]. split.
  - rewrite pos_ids_map; [exact Hnd |].
    intros it. now destruct (Pos.is_item productId it).
  - apply List.Forall_forall. intros it' Hin'.
    apply in_map_iff in Hin' as (it & <- & Hin).
    pose proof (proj1 (List.Forall_forall _ _) Hall it Hin) as (H1 & H2 & H3).
    destruct (Pos.is_item productId it) eqn:Hit; [| auto].
    unfold Pos.is_item in Hit. apply Z.eqb_eq in Hit.
    assert (Pos.of_product it = pc).
    { apply (NoDup_map_inj Pos.id products); auto. congruence. }
    simpl. repeat split; auto; try lia; congruence.
Qed.

Lemma pos_step_within products cart a :
  NoDup (List.map Pos.id products) -> Pos.shown products a ->
  Pos.within_stock products cart ->
  Pos.within_stock products (Pos.step products cart a).
Proof.
  intros Hcat Ha Hw. destruct a as [p | productId newQuantity | productId]; simpl.
  - now apply pos_add_within.
  - now apply pos_update_within.
  - now apply pos_remove_within.
Qed.

Lemma pos_run_within products actions :
  NoDup (List.map Pos.id products) -> Forall (Pos.shown products) actions ->
  forall cart,
    Pos.within_stock products cart ->
    Pos.within_stock products (fold_left (Pos.step products) actions cart).
Proof.
  intros Hcat. induction 1 as [| a actions Ha _ IH]; intros cart Hw; simpl;
    [exact Hw |].
  apply IH. now apply pos_step_within.
Qed.

(** X17.  The cart of the point of sale never asks for more than the
    catalogue shows: whatever the user does from the empty cart (products
    added from the catalogue, quantities set, lines removed), the cart holds
    one line per product, each for a product of the catalogue at its base
    price and for at least one unit and at most the stock shown. *)
Theorem pos_cart_within_stock products actions :
  NoDup (List.map Pos.id products) ->
  Forall (Pos.shown products) actions ->
  Pos.within_stock products (Pos.cart_after products actions).
Proof.
  intros Hcat Hact. unfold Pos.cart_after.
  apply pos_run_within; auto.
  split; [apply NoDup_nil_2 | constructor].
Qed.

(** Product 7 has five units: seven clicks and a quantity of nine leave
    five in the cart. *)
Lemma pos_cart_within_stock_witness :
  Pos.within_stock [PosEx.tornillo]
    (Pos.cart_after [PosEx.tornillo]
       (repeat (Pos.Add PosEx.tornillo) 7 ++ [Pos.SetQuantity 7 9]))
  /\ Pos.units_in_cart 7
       (Pos.cart_after [PosEx.tornillo]
          (repeat (Pos.Add PosEx.tornillo) 7 ++ [Pos.SetQuantity 7 9])) = 5.
Proof.
  split; [| reflexivity].
  apply pos_cart_within_stock.
  - apply NoDup_singleton.
  - repeat constructor.
Defined.

(** ** From the cart to create-sale *)

Lemma pos_le_zero_num_of_Z q : 1 <= q -> le_zero (num_of_Z q) = false.
Proof.
  intros Hq. unfold le_zero, num_of_Z, Qle_bool, inject_Z. simpl.
  apply Z.leb_gt. lia.
Qed.

Lemma pos_item_valid it :
  1 <= Pos.cantidad it -> is_number (Pos.precio_unitario it) = true ->
  sale_item_invalid (Pos.item_payload it) = false.
Proof.
  intros Hq Hp. unfold sale_item_invalid.
  replace (field (Pos.item_payload it) "id_producto")
    with (num_of_Z (Pos.id (Pos.of_product it))) by reflexivity.
  replace (field (Pos.item_payload it) "cantidad")
    with (num_of_Z (Pos.cantidad it)) by reflexivity.
  replace (field (Pos.item_payload it) "precio_unitario")
    with (Pos.precio_unitario it) by reflexivity.
  rewrite Hp, (pos_le_zero_num_of_Z _ Hq). reflexivity.
Qed.

Lemma stock_of_insert_ne inv p p' b r :
  p' <> p -> stock_of (<[(p, b) := r]> inv) p' b = stock_of inv p' b.
Proof.
  intros Hne. unfold stock_of. rewrite lookup_insert_ne; [reflexivity |].
  congruence.
Qed.

Lemma pos_stock_after b cart :
  forall inv,
    NoDup (List.map (fun it => Pos.id (Pos.of_product it)) cart) ->
    Forall (fun it => 1 <= Pos.cantidad it
                      /\ Pos.cantidad it
                         <= stock_of inv (Pos.id (Pos.of_product it)) b
                      /\ is_number (Pos.precio_unitario it) = true) cart ->
    exists inv', stock_after b inv (List.map Pos.item_payload cart) = Some inv'.
Proof.
  induction cart as [| it cart IH]; intros inv Hnd Hall; [simpl; eauto |].
  apply NoDup_cons in Hnd as [Hx Hnd]. rewrite list_elem_of_In in Hx.
  apply Forall_cons in Hall as [(Hq1 & Hq2 & Hp) Hall].
  change (List.map Pos.item_payload (it :: cart))
    with (Pos.item_payload it :: List.map Pos.item_payload cart).
  cbn [stock_after]. rewrite (pos_item_valid it Hq1 Hp).
  replace (field (Pos.item_payload it) "id_producto")
    with (num_of_Z (Pos.id (Pos.of_product it))) by reflexivity.
  replace (field (Pos.item_payload it) "cantidad")
    with (num_of_Z (Pos.cantidad it)) by reflexivity.
  rewrite !bind_int_num_of_Z.
  unfold stock_of in Hq2.
  destruct (inv !! (Pos.id (Pos.of_product it), b)) as [r |] eqn:Hr; [| lia].
  replace (Pos.cantidad it <=? cantidad r) with true
    by (symmetry; now apply Z.leb_le).
  apply IH; [exact Hnd |].
  apply List.Forall_forall. intros it' Hin'.
  pose proof (proj1 (List.Forall_forall _ _) Hall it' Hin') as (H1 & H2 & H3).
  repeat split; auto.
  rewrite stock_of_insert_ne; [exact H2 |].
  intros Heq. apply Hx. apply in_map_iff. eauto.
Qed.

Lemma pos_units_sold p cart :
  units_sold p (List.map Pos.item_payload cart) = Pos.units_in_cart p cart.
Proof.
  induction cart as [| it cart IH]; [reflexivity |].
  change (List.map Pos.item_payload (it :: cart))
    with (Pos.item_payload it :: List.map Pos.item_payload cart).
  unfold units_sold, Pos.units_in_cart in *. cbn [fold_right].
  replace (field (Pos.item_payload it) "id_producto")
    with (num_of_Z (Pos.id (Pos.of_product it))) by reflexivity.
  replace (field (Pos.item_payload it) "cantidad")
    with (num_of_Z (Pos.cantidad it)) by reflexivity.
  rewrite !bind_int_num_of_Z. unfold Pos.is_item. rewrite IH. reflexivity.
Qed.

(** X18.  A sale made at the point of sale goes through when the catalogue
    is still good: for a cart within the catalogue that is not empty, a user
    with a branch, a finite total, numeric base prices and a stock in the
    database that is at least the stock the catalogue shows, the request of
    the sale modal is answered 200 by create-sale on a reliable connection,
    and the branch's stock of every product goes down by the units of it in
    the cart. *)
Theorem pos_sale_accepted e st products cart profile b total selectedMethod :
  Pos.within_stock products cart -> cart <> [] ->
  User.id_Sucursal profile = Number b -> b <> 0 -> User.id profile <> "" ->
  (forall p, In p products ->
             is_number (Pos.precio_base p) = true
             /\ Pos.stock p <= stock_of (Inventario (committed st)) (Pos.id p) b) ->
  reliable e -> pool e = true ->
  Ventas (committed st) !! seq_ventas st = None ->
  exists req,
    Pos.handleFinalizeSale (Some profile) (Finite total) selectedMethod cart
    = Some req
    /\ fst (create_sale e req st)
       = {| status := 200; body := Success "ventaId" (seq_ventas st) |}
    /\ forall p,
         stock_of (Inventario (committed (snd (create_sale e req st)))) p b
         = stock_of (Inventario (committed st)) p b - Pos.units_in_cart p cart.
Proof.
  intros [Hnd Hall] Hne Hb Hb0 Hid Hcat Hrel Hpool Hfresh.
  unfold Pos.handleFinalizeSale. rewrite Hb. cbn [not_number].
  apply Z.eqb_neq in Hb0. rewrite Hb0.
  apply String.eqb_neq in Hid. rewrite Hid. cbn [orb].
  eexists. split; [reflexivity |].
  set (body := Pos.salePayload profile (Finite total) selectedMethod cart).
  assert (Hitems : items_of body = List.map Pos.item_payload cart) by reflexivity.
  assert (Hbi : bind_int (field body "id_sucursal") = Some b).
  { unfold body, Pos.salePayload. rewrite Hb.
    change (bind_int (num_of_Z b) = Some b). apply bind_int_num_of_Z. }
  assert (Hh : sale_header_invalid body = false).
  { unfold sale_header_invalid.
    replace (field body "id_sucursal") with (num_of_Z b)
      by (unfold body, Pos.salePayload; now rewrite Hb).
    apply Z.eqb_neq in Hb0. rewrite (truthy_num_of_Z b Hb0).
    replace (field body "id_usuario") with (JStr (User.id profile)) by reflexivity.
    replace (field body "monto_total") with (JNum total) by reflexivity.
    replace (field body "metodo_pago") with (JStr (method_text selectedMethod))
      by reflexivity.
    replace (field body "items") with (JArr (List.map Pos.item_payload cart))
      by reflexivity.
    assert (truthy (JStr (User.id profile)) = true) as ->.
    { apply String.eqb_neq in Hid. simpl.
      destruct (User.id profile); [congruence | reflexivity]. }
    assert (truthy (JStr (method_text selectedMethod)) = true) as ->
      by (destruct selectedMethod; reflexivity).
    cbn. destruct cart; [congruence | reflexivity]. }
  destruct (pos_stock_after b cart (Inventario (committed st)) Hnd) as [inv' Hst].
  { apply List.Forall_forall. intros it Hin.
    pose proof (proj1 (List.Forall_forall _ _) Hall it Hin) as (H1 & H2 & H3).
    destruct (Hcat _ H1) as [Hp Hs]. rewrite H3. repeat split; auto; lia. }
  rewrite <- Hitems in Hst.
  unfold create_sale. cbn [method json_body String.eqb Ascii.eqb Bool.eqb].
  rewrite Hpool. cbn [negb].
  destruct (create_sale_try_run e body
              {| srv := st; txn := None; tick := O; connected := false |}
              b inv' Hrel eq_refl eq_refl Hh Hbi Hfresh Hst) as (r & s1 & Htry).
  unfold handle. fold body. rewrite Htry. cbn [fst snd].
  apply create_sale_try_Ok in Htry; [| reflexivity].
  destruct Htry as (b' & m & inv'' & Hb' & _ & _ & _ & Hst' & Hsrv & ->).
  cbn [srv] in Hst', Hsrv.
  rewrite Hbi in Hb'. injection Hb' as <-.
  rewrite Hst in Hst'. injection Hst' as <-.
  split; [reflexivity |]. intros p.
  cbn [set_committed committed]. rewrite Hsrv. cbn [sold committed Inventario].
  destruct (stock_after_units b _ _ _ Hst) as (Hu & _).
  destruct (Hu p) as (_ & -> & _).
  now rewrite Hitems, pos_units_sold.
Qed.

(** Three units of product 7 sold by branch 2, which holds five. *)
Lemma pos_sale_accepted_witness :
  exists req,
    Pos.handleFinalizeSale (Some PosEx.cashier) (Finite 30) Efectivo
      (Pos.cart_after [PosEx.tornillo] (repeat (Pos.Add PosEx.tornillo) 3))
    = Some req
    /\ stock_of (Inventario (committed (snd (create_sale Ex.e req Ex.st)))) 7 2
       = 5 - 3.
Proof.
  destruct (pos_sale_accepted Ex.e Ex.st [PosEx.tornillo]
              (Pos.cart_after [PosEx.tornillo] (repeat (Pos.Add PosEx.tornillo) 3))
              PosEx.cashier 2 30 Efectivo) as (req & Hreq & _ & Hq).
  - unfold Pos.cart_after. apply pos_run_within.
    + apply NoDup_singleton.
    + simpl. repeat constructor.
    + split; [apply NoDup_nil_2 | constructor].
  - discriminate.
  - reflexivity.
  - discriminate.
  - discriminate.
  - intros p [<- | []]. split; [reflexivity | vm_compute; discriminate].
  - intros n. reflexivity.
  - reflexivity.
  - reflexivity.
  - exists req. split; [exact Hreq | apply (Hq 7)].
Defined.

(** ** The users page and the payments modal *)

Lemma strict_eq_refl a : strict_eq a a = true.
Proof. destruct a; simpl; auto. apply Z.eqb_refl. Qed.

(** X19.  On the users page, whoever may deactivate a user may also edit
    that user; nobody deactivates the own account or a 'Propietario'; an
    'Administrador' edits only users of the own branch who are not
    'Propietario'; an 'Empleado' edits the own account and nothing else, and
    deactivates nobody; without a profile nothing is allowed. *)
Theorem users_page_permissions profile u :
  (Users.canDeleteUser profile u = true -> Users.canEditUser profile u = true)
  /\ (Users.canDeleteUser profile u = true ->
      User.rol u <> "Propietario"
      /\ exists p, profile = Some p /\ User.id u <> User.id p
                   /\ (User.rol p = "Propietario"
                       \/ User.rol p = "Administrador"))
  /\ (forall p, profile = Some p -> User.rol p = "Administrador" ->
                Users.canEditUser profile u = true ->
                User.rol u <> "Propietario"
                /\ strict_eq (User.id_Sucursal u) (User.id_Sucursal p) = true)
  /\ (forall p, profile = Some p -> User.rol p = "Empleado" ->
                Users.canDeleteUser profile u = false
                /\ (Users.canEditUser profile u = true
                    <-> User.id u = User.id p))
  /\ (profile = None ->
      Users.canEditUser profile u = false
      /\ Users.canDeleteUser profile u = false).
Proof.
  unfold Users.canDeleteUser, Users.canEditUser, Users.isOwner,
    Users.isAdministrator, Users.isEmployee, Users.has_rol.
  destruct profile as [p |].
  2:{ repeat split; try discriminate; intros; discriminate. }
  destruct (String.eqb_spec (User.id u) (User.id p)) as [Hid | Hid];
    destruct (String.eqb_spec (User.rol p) "Propietario") as [Ho | Ho];
    destruct (String.eqb_spec (User.rol p) "Administrador") as [Ha | Ha];
    destruct (String.eqb_spec (User.rol p) "Empleado") as [He | He];
    try congruence;
    destruct (String.eqb_spec (User.rol u) "Propietario") as [Hu | Hu];
    destruct (strict_eq (User.id_Sucursal u) (User.id_Sucursal p)) eqn:Hs;
    cbn [negb andb];
    repeat match goal with
           | |- _ /\ _ => split
           | |- _ <-> _ => split
           | |- _ -> _ => intro
           | |- forall _, _ => intro
           | H : Some _ = Some _ |- _ => injection H as <-
           | |- exists _, _ => exists p
           end;
    try congruence; try discriminate; auto.
Qed.

(** The manager of branch 2 cannot edit the owner. *)
Lemma users_page_permissions_witness :
  Users.canEditUser (Some UsersEx.manager) UsersEx.owner = false.
Proof.
  destruct (users_page_permissions (Some UsersEx.manager) UsersEx.owner)
    as (_ & _ & H & _).
  destruct (Users.canEditUser (Some UsersEx.manager) UsersEx.owner) eqn:E;
    [| reflexivity].
  destruct (H UsersEx.manager eq_refl eq_refl eq_refl) as [Hn _].
  exfalso. apply Hn. reflexivity.
Defined.

Lemma payments_request_of_row purchase_id q paymentDate method_ notes :
  {| method := "POST";
     json_body :=
       JObj [("purchaseId", num_of_Z purchase_id);
             ("amount", JNum q);
             ("paymentDate", JStr paymentDate);
             ("method", JStr (method_text method_));
             ("notes", if String.eqb notes "" then JNull else JStr notes)] |}
  = payment_request (Payments.payment_row purchase_id q paymentDate method_ notes).
Proof. reflexivity. Qed.

(** X20.  A payment that the payments modal sends is recorded as typed: for
    a purchase with a non-zero id, on a reliable connection, the request is
    answered 200 by registrar-pago-compra and one row with the purchase, the
    amount, the date, the method and the notes of the form (null when empty)
    is appended to [Pagos_Compra].  The one amount that the form lets
    through and the handler refuses is Infinity, sent as null. *)
Theorem payments_modal_payment_recorded e st purchase_id paymentAmount
        paymentDate method_ notes req :
  Payments.handleAddPayment purchase_id paymentAmount paymentDate method_ notes
  = Payments.Sent req ->
  purchase_id <> 0 -> reliable e -> pool e = true ->
  match paymentAmount with
  | Finite q =>
      status (fst (registrar_pago_compra e req st)) = 200
      /\ Pagos_Compra (committed (snd (registrar_pago_compra e req st)))
         = (Pagos_Compra (committed st)
              ++ [Payments.payment_row purchase_id q paymentDate method_ notes])%list
  | _ =>
      registrar_pago_compra e req st
      = ({| status := 400; body := ErrMsg faltan_datos_pago |}, st)
  end.
Proof.
  unfold Payments.handleAddPayment. intros Hsent Hid Hrel Hpool.
  destruct (isNaN paymentAmount || number_le_zero paymentAmount) eqn:Hamt;
    [discriminate |].
  destruct (String.eqb paymentDate "" || String.eqb (method_text method_) "")
    eqn:Hdm; [discriminate |].
  injection Hsent as <-.
  apply orb_false_elim in Hdm as [Hd _]. apply String.eqb_neq in Hd.
  destruct paymentAmount as [q | | |]; try discriminate.
  - cbn [stringify_number]. rewrite payments_request_of_row.
    set (row := Payments.payment_row purchase_id q paymentDate method_ notes).
    assert (Hq : (0 < q)%Q).
    { simpl in Hamt. destruct (Qle_bool q 0) eqn:Hle; [discriminate |].
      apply Qnot_le_lt. intros Hc. apply Qle_bool_iff in Hc. congruence. }
    assert (Hvalid : valid_payment purchase_id row).
    { repeat split; auto.
      - simpl. destruct paymentDate; [congruence | reflexivity].
      - destruct method_; reflexivity. }
    pose proof (registrar_pago_compra_accepts e purchase_id row st Hrel Hpool
                  Hid Hvalid) as H200.
    split; [exact H200 |].
    destruct (registrar_pago_compra_success e (payment_request row) st)
      as (id & a & Hbi & Ha & _ & Hp & _); [discriminate | exact H200 |].
    rewrite Hp. f_equal. f_equal.
    change (bind_int (num_of_Z purchase_id) = Some id) in Hbi.
    rewrite bind_int_num_of_Z in Hbi. injection Hbi as <-.
    change (JNum q = JNum a) in Ha. injection Ha as <-.
    reflexivity.
  - unfold registrar_pago_compra. cbn [method json_body String.eqb Ascii.eqb Bool.eqb].
    rewrite Hpool. cbn [negb]. unfold handle.
    rewrite registrar_pago_compra_try_rejected; [reflexivity | reflexivity |].
    unfold payment_invalid.
    replace (field _ "amount") with JNull by reflexivity.
    cbn [is_number negb]. now rewrite orb_true_r.
Qed.

(** Forty paid in cash on purchase 1. *)
Lemma payments_modal_payment_recorded_witness :
  Pagos_Compra (committed (snd (registrar_pago_compra Ex.e
                  (Ex.post (JObj [("purchaseId", num_of_Z 1);
                                  ("amount", JNum 40);
                                  ("paymentDate", JStr "2024-05-01");
                                  ("method", JStr "Efectivo");
                                  ("notes", JNull)]))
                  Ex.books)))
  = [Payments.payment_row 1 40 "2024-05-01" Efectivo ""].
Proof.
  destruct (payments_modal_payment_recorded Ex.e Ex.books 1 (Finite 40)
              "2024-05-01" Efectivo ""
              (Ex.post (JObj [("purchaseId", num_of_Z 1);
                              ("amount", JNum 40);
                              ("paymentDate", JStr "2024-05-01");
                              ("method", JStr "Efectivo");
                              ("notes", JNull)])))
    as [_ Hp]; [reflexivity | discriminate | intros n; reflexivity
               | reflexivity |].
  exact Hp.
Defined.

(** ** The product page *)

Section PageFacts.
Variable parseFloat : string -> number.
Variable trim : string -> string.
Variable branchPrices : list ProductPage.BranchPrice.
Variable editable : gmap Z string.

Local Abbreviation visit := (ProductPage.visit parseFloat trim branchPrices editable).
Local Abbreviation decided := (ProductPage.decided parseFloat trim branchPrices editable).
Local Abbreviation upserts := (ProductPage.upserts parseFloat trim branchPrices editable).
Local Abbreviation deletes := (ProductPage.deletes parseFloat trim branchPrices editable).
Local Abbreviation original := (ProductPage.originalPricesMap branchPrices).

Lemma page_visit_decided rs ds b :
  visit (rs, ds) b
  = match decided b with
    | ProductPage.Upsert n => ((rs ++ [(b, n)])%list, ds)
    | ProductPage.Delete => (rs, (ds ++ [b])%list)
    | ProductPage.Keep => (rs, ds)
    end.
Proof.
  unfold ProductPage.visit, ProductPage.decided.
  destruct (editable !! b) as [s |].
  - destruct (negb (String.eqb (trim s) "")).
    + cbv zeta.
      destruct (negb (isNaN (parseFloat s)) && number_ge_zero (parseFloat s));
        [| reflexivity].
      destruct (ProductPage.differs _ _); reflexivity.
    + destruct (ProductPage.has branchPrices b); reflexivity.
  - destruct (ProductPage.has branchPrices b); reflexivity.
Qed.

Lemma page_visit_fold l :
  forall rs ds,
    fold_left visit l (rs, ds) = ((rs ++ upserts l)%list, (ds ++ deletes l)%list).
Proof.
  induction l as [| b l IH]; intros rs ds.
  - simpl. now rewrite !app_nil_r.
  - cbn [fold_left]. rewrite page_visit_decided.
    unfold ProductPage.upserts, ProductPage.deletes. cbn [omap list_omap].
    destruct (decided b) as [n | |]; rewrite IH;
      unfold ProductPage.upserts, ProductPage.deletes;
      rewrite <- ?app_assoc; reflexivity.
Qed.

Lemma page_deletes_In l b :
  In b (deletes l) <-> In b l /\ decided b = ProductPage.Delete.
Proof.
  unfold ProductPage.deletes. induction l as [| x l IH]; simpl.
  - tauto.
  - destruct (decided x) eqn:Hx; simpl; rewrite ?IH;
      intuition (subst; congruence || auto).
Qed.

Lemma page_last_price l b :
  (forall x, In x l -> decided x <> ProductPage.Upsert NaN
                       /\ decided x <> ProductPage.Upsert PlusInfinity
                       /\ decided x <> ProductPage.Upsert MinusInfinity) ->
  last_price b (List.map ProductPage.record_payload (upserts l))
  = match decided b with
    | ProductPage.Upsert (Finite q) => if decide (b ∈ l) then Some q else None
    | _ => None
    end.
Proof.
  unfold ProductPage.upserts. induction l as [| x l IH]; intros Hfin.
  - simpl. destruct (decided b) as [[] | |];
      first [reflexivity
            | rewrite decide_False by (apply not_elem_of_nil); reflexivity].
  - assert (Hfin' : forall y, In y l ->
              decided y <> ProductPage.Upsert NaN
              /\ decided y <> ProductPage.Upsert PlusInfinity
              /\ decided y <> ProductPage.Upsert MinusInfinity)
      by (intros y Hy; apply Hfin; now right).
    specialize (IH Hfin'). cbn [omap list_omap].
    destruct (Hfin x (or_introl eq_refl)) as (H1 & H2 & H3).
    assert (Hcons : forall q : Q,
              (if decide (b ∈ x :: l) then Some q else None)
              = if decide (b ∈ l) then Some q
                else if x =? b then Some q else None).
    { intros q. destruct (decide (b ∈ l)) as [Hin | Hin].
      - rewrite decide_True by (apply elem_of_cons; now right). reflexivity.
      - destruct (Z.eqb_spec x b) as [-> | Hne].
        + rewrite decide_True by (apply elem_of_cons; now left). reflexivity.
        + rewrite decide_False; [reflexivity |].
          intros [? | ?]%elem_of_cons; congruence. }
    destruct (decided x) as [[q | | |] | |] eqn:Hx; try congruence.
    + cbn [List.map last_price]. rewrite IH.
      unfold price_record, ProductPage.record_payload.
      replace (field _ "id_sucursal") with (num_of_Z x) by reflexivity.
      replace (field _ "precio_venta") with (JNum q) by reflexivity.
      rewrite bind_int_num_of_Z. cbn [bind_decimal fst snd stringify_number].
      destruct (decided b) as [[q' | | |] | |] eqn:Hb;
        try (destruct (Z.eqb_spec x b) as [-> | Hne]; [congruence | reflexivity]).
      rewrite Hcons. destruct (decide (b ∈ l)); [reflexivity |].
      destruct (Z.eqb_spec x b) as [-> | Hne]; [congruence | reflexivity].
    + rewrite IH. destruct (decided b) as [[q' | | |] | |] eqn:Hb; try reflexivity.
      rewrite Hcons. destruct (decide (b ∈ l)); [reflexivity |].
      destruct (Z.eqb_spec x b) as [-> | Hne]; [congruence | reflexivity].
    + rewrite IH. destruct (decided b) as [[q' | | |] | |] eqn:Hb; try reflexivity.
      rewrite Hcons. destruct (decide (b ∈ l)); [reflexivity |].
      destruct (Z.eqb_spec x b) as [-> | Hne]; [congruence | reflexivity].
Qed.

Lemma page_decided_finite l :
  ProductPage.finite_entries parseFloat trim editable l ->
  forall x, In x l -> decided x <> ProductPage.Upsert NaN
                      /\ decided x <> ProductPage.Upsert PlusInfinity
                      /\ decided x <> ProductPage.Upsert MinusInfinity.
Proof.
  intros Hfin x Hx. unfold ProductPage.decided.
  destruct (editable !! x) as [s |] eqn:Hs.
  2:{ destruct (ProductPage.has branchPrices x); repeat split; discriminate. }
  destruct (negb (String.eqb (trim s) "")) eqn:Ht.
  2:{ destruct (ProductPage.has branchPrices x); repeat split; discriminate. }
  pose proof (Hfin x s Hx Hs Ht) as Hinf. cbv zeta.
  destruct (parseFloat s) as [q | | |]; cbn [isNaN negb andb number_ge_zero];
    try (repeat split; discriminate); [| congruence].
  destruct (Qle_bool 0 q); [| repeat split; discriminate].
  destruct (ProductPage.differs _ _); repeat split; discriminate.
Qed.

Lemma page_records_good sc p l :
  (forall k v, Prices.admissible sc k v = true) ->
  (forall x, In x l -> decided x <> ProductPage.Upsert NaN
                       /\ decided x <> ProductPage.Upsert PlusInfinity
                       /\ decided x <> ProductPage.Upsert MinusInfinity) ->
  Forall (price_record_good sc p)
         (List.map ProductPage.record_payload (upserts l)).
Proof.
  intros Hadm. unfold ProductPage.upserts.
  induction l as [| x l IH]; intros Hfin; [constructor |].
  assert (Hfin' : forall y, In y l ->
            decided y <> ProductPage.Upsert NaN
            /\ decided y <> ProductPage.Upsert PlusInfinity
            /\ decided y <> ProductPage.Upsert MinusInfinity)
    by (intros y Hy; apply Hfin; now right).
  cbn [omap list_omap].
  destruct (Hfin x (or_introl eq_refl)) as (H1 & H2 & H3).
  destruct (decided x) as [[q | | |] | |] eqn:Hx; try congruence; auto.
  cbn [List.map]. constructor; [| auto].
  split; [reflexivity |]. exists x, q. split; [| apply Hadm].
  unfold price_record, ProductPage.record_payload.
  replace (field _ "id_sucursal") with (num_of_Z x) by reflexivity.
  replace (field _ "precio_venta") with (JNum q) by reflexivity.
  now rewrite bind_int_num_of_Z.
Qed.
Lemma page_entered_decided b :
  match ProductPage.entered parseFloat trim editable b with
  | ProductPage.Blank =>
      (decided b = ProductPage.Delete /\ original !! b <> None)
      \/ (decided b = ProductPage.Keep /\ original !! b = None)
  | ProductPage.Price q =>
      decided b = ProductPage.Upsert (Finite q)
      \/ (decided b = ProductPage.Keep
          /\ exists q', original !! b = Some q' /\ (q' == q)%Q)
  | ProductPage.Unusable =>
      decided b = ProductPage.Keep
      \/ decided b = ProductPage.Upsert PlusInfinity
  end.
Proof.
  unfold ProductPage.entered, ProductPage.decided, ProductPage.has.
  assert (Hblank :
            ((if match original !! b with Some _ => true | None => false end
              then ProductPage.Delete else ProductPage.Keep) = ProductPage.Delete
             /\ original !! b <> None)
            \/ ((if match original !! b with Some _ => true | None => false end
                 then ProductPage.Delete else ProductPage.Keep) = ProductPage.Keep
                /\ original !! b = None)).
  { destruct (original !! b); [left | right]; split; congruence. }
  destruct (editable !! b) as [s |]; [| exact Hblank].
  destruct (String.eqb (trim s) ""); cbn [negb]; [exact Hblank |].
  cbv zeta.
  destruct (parseFloat s) as [q | | |];
    cbn [isNaN negb andb number_ge_zero]; auto.
  destruct (Qle_bool 0 q); [| auto].
  unfold ProductPage.differs.
  destruct (original !! b) as [q' |]; [| auto].
  destruct (Qeq_bool q q') eqn:Heq; cbn [negb]; [| auto].
  right. split; [reflexivity |]. exists q'. split; [reflexivity |].
  apply Qeq_bool_iff in Heq. now symmetry.
Qed.
End PageFacts.

(** X21.  Saving the prices of a product leaves the table as the form reads:
    when the page's prices are those of the table and no field reads as
    Infinity, the request of the product page is answered 200 by
    update-branch-prices on a reliable connection, and then every branch of
    the page has no price of its own if its field is blank, the price typed
    if the field holds one, and the price it had if the field holds anything
    else; the prices of other products and branches stay. *)
Theorem branch_prices_saved e sc parseFloat trim branchPrices editable
        p allBranches req t :
  ProductPage.handleSaveBranchPrices parseFloat trim branchPrices editable
    (Some p) allBranches = ProductPage.Sent req ->
  ProductPage.finite_entries parseFloat trim editable allBranches ->
  (forall b, ProductPage.originalPricesMap branchPrices !! b
             = Prices.Precios_Sucursal t !! (p, b)) ->
  (forall bs, Prices.int4_array sc (List.map num_of_Z bs) = Some bs) ->
  (forall k v, Prices.admissible sc k v = true) ->
  reliable e -> pool e = true ->
  fst (Prices.update_branch_prices e sc req t)
  = {| status := 200; body := SuccessMsg "Precios actualizados correctamente." |}
  /\ (forall b, In b allBranches ->
        match ProductPage.entered parseFloat trim editable b with
        | ProductPage.Blank =>
            Prices.Precios_Sucursal (snd (Prices.update_branch_prices e sc req t))
              !! (p, b) = None
        | ProductPage.Price q =>
            exists v,
              Prices.Precios_Sucursal (snd (Prices.update_branch_prices e sc req t))
                !! (p, b) = Some v
              /\ (v == q)%Q
        | ProductPage.Unusable =>
            Prices.Precios_Sucursal (snd (Prices.update_branch_prices e sc req t))
              !! (p, b)
            = Prices.Precios_Sucursal t !! (p, b)
        end)
  /\ (forall k, k.1 <> p \/ ~ In k.2 allBranches ->
        Prices.Precios_Sucursal (snd (Prices.update_branch_prices e sc req t)) !! k
        = Prices.Precios_Sucursal t !! k).
Proof.
  intros Hsent Hfinite Hfresh Harr Hadm Hrel Hpool.
  unfold ProductPage.handleSaveBranchPrices in Hsent.
  rewrite page_visit_fold in Hsent. cbn [app] in Hsent.
  set (rs := ProductPage.upserts parseFloat trim branchPrices editable allBranches)
    in *.
  set (ds := ProductPage.deletes parseFloat trim branchPrices editable allBranches)
    in *.
  destruct ((length rs =? 0)%nat && (length ds =? 0)%nat) eqn:Hempty;
    [discriminate |].
  injection Hsent as <-.
  set (body := JObj [("productId", num_of_Z p);
                     ("recordsToUpsert",
                      JArr (List.map ProductPage.record_payload rs));
                     ("branchIdsToDelete", JArr (List.map num_of_Z ds))]).
  pose proof (page_decided_finite parseFloat trim branchPrices editable
                allBranches Hfinite) as Hdec.
  assert (Hrecs : elements (field body "recordsToUpsert")
                  = List.map ProductPage.record_payload rs) by reflexivity.
  assert (Hdels : elements (field body "branchIdsToDelete")
                  = List.map num_of_Z ds) by reflexivity.
  assert (Hpid : bind_int (field body "productId") = Some p)
    by apply bind_int_num_of_Z.
  assert (Hbs : (elements (field body "branchIdsToDelete") = [] /\ ds = [])
                \/ (elements (field body "branchIdsToDelete") <> []
                    /\ Prices.int4_array sc
                         (elements (field body "branchIdsToDelete")) = Some ds)).
  { rewrite Hdels. destruct ds as [| d ds']; [left; auto |].
    right. split; [discriminate | apply Harr]. }
  assert (Hgood : Forall (price_record_good sc p)
                         (elements (field body "recordsToUpsert"))).
  { rewrite Hrecs. apply page_records_good; assumption. }
  destruct (prices_try_run e sc body t p ds Hrel eq_refl eq_refl
              (or_introl Hpid) Hbs Hgood) as (r & s1 & Htry).
  assert (Hrun : Prices.update_branch_prices e sc
                   {| method := "POST"; json_body := body |} t
                 = (r, Prices.srv s1)).
  { unfold Prices.update_branch_prices.
    cbn [method json_body String.eqb Ascii.eqb Bool.eqb]. rewrite Hpool.
    cbn [negb]. unfold Prices.handle. fold (prices_start t). now rewrite Htry. }
  rewrite Hrun. cbn [fst snd].
  pose proof (prices_try_Ok_status e sc _ _ _ _ Htry) as Hr.
  apply prices_try_Ok in Htry
    as (p' & bs' & _ & _ & Hp' & Hbs' & _ & Hlook).
  assert (p' = p) as ->.
  { destruct Hp' as [Hp' | [Hd0 Hr0]]; [congruence |].
    rewrite Hrecs in Hr0. rewrite Hdels in Hd0.
    destruct rs; [| discriminate]. destruct ds; [| discriminate].
    discriminate. }
  assert (bs' = ds) as ->.
  { destruct Hbs as [[Hb ->] | [Hb Hb']]; destruct Hbs' as [[Hb2 ->] | [Hb2 Hb2']];
      congruence. }
  rewrite Hrecs in Hlook.
  split; [exact Hr |]. split.
  - intros b Hb. rewrite Hlook. unfold repriced. cbn [fst snd].
    rewrite decide_True by reflexivity.
    unfold rs. rewrite (page_last_price _ _ _ _ _ _ Hdec).
    assert (Hin_ds : b ∈ ds <-> ProductPage.decided parseFloat trim branchPrices
                                  editable b = ProductPage.Delete).
    { rewrite list_elem_of_In. unfold ds. rewrite page_deletes_In. tauto. }
    destruct (Hdec b Hb) as (_ & Hinf & _).
    pose proof (page_entered_decided parseFloat trim branchPrices editable b)
      as Hcase.
    rewrite Hfresh in Hcase.
    destruct (ProductPage.entered parseFloat trim editable b) as [| q |].
    + destruct Hcase as [[Hd Ho] | [Hd Ho]]; rewrite Hd.
      * rewrite decide_True by (now apply Hin_ds). reflexivity.
      * rewrite decide_False by (rewrite Hin_ds; congruence). exact Ho.
    + destruct Hcase as [Hd | (Hd & q' & Ho & Hq)]; rewrite Hd.
      * rewrite decide_True by (now apply list_elem_of_In).
        exists q. split; reflexivity.
      * rewrite decide_False by (rewrite Hin_ds; congruence).
        exists q'. split; assumption.
    + destruct Hcase as [Hd | Hd]; [| contradiction]. rewrite Hd.
      rewrite decide_False by (rewrite Hin_ds; congruence). reflexivity.
  - intros k Hk. rewrite Hlook. unfold repriced.
    destruct (decide (k.1 = p)) as [Hk1 | Hk1]; [| reflexivity].
    destruct Hk as [Hk | Hk]; [contradiction |].
    unfold rs. rewrite (page_last_price _ _ _ _ _ _ Hdec).
    assert (Hnd : ~ k.2 ∈ ds).
    { rewrite list_elem_of_In. unfold ds. rewrite page_deletes_In. tauto. }
    rewrite (decide_False (P := k.2 ∈ ds)) by exact Hnd.
    destruct (ProductPage.decided _ _ _ _ _) as [[q | | |] | |]; try reflexivity.
    rewrite decide_False by (now rewrite list_elem_of_In). reflexivity.
Qed.

(** Branch 2 is repriced to 13.5 and branch 3 loses its price. *)
Lemma branch_prices_saved_witness :
  exists req,
    ProductPage.handleSaveBranchPrices PageEx.parseFloat PageEx.trim
      PageEx.branchPrices PageEx.fields (Some 7) [2; 3] = ProductPage.Sent req
    /\ Prices.Precios_Sucursal
         (snd (Prices.update_branch_prices Ex.e PricesEx.strict req PricesEx.list_))
         !! (7, 3) = None
    /\ Prices.Precios_Sucursal
         (snd (Prices.update_branch_prices Ex.e PricesEx.strict req PricesEx.list_))
         !! (8, 2) = Some 9%Q.
Proof.
  eexists. split; [reflexivity |].
  match goal with |- context [Prices.update_branch_prices _ _ ?r _] =>
    destruct (branch_prices_saved Ex.e PricesEx.strict PageEx.parseFloat
                PageEx.trim PageEx.branchPrices PageEx.fields 7 [2; 3] r
                PricesEx.list_) as (_ & Hb & Hk)
  end.
  - reflexivity.
  - intros b s [<- | [<- | []]]; vm_compute; intros [= <-]; discriminate.
  - intros b. unfold PricesEx.list_, Prices.Precios_Sucursal.
    destruct (decide (b = 2)) as [-> | H2]; [reflexivity |].
    destruct (decide (b = 3)) as [-> | H3]; [reflexivity |].
    unfold ProductPage.originalPricesMap, PageEx.branchPrices.
    cbn [fold_left ProductPage.id_sucursal ProductPage.precio_venta].
    transitivity (@None Q).
    + rewrite !lookup_insert_ne by congruence. apply lookup_empty.
    + symmetry. rewrite !lookup_insert_ne by congruence.
      apply lookup_singleton_ne. congruence.
  - intros bs. unfold PricesEx.strict, Prices.int4_array.
    induction bs as [| x bs IH]; [reflexivity |].
    cbn [List.map mapM]. rewrite bind_int_num_of_Z. cbn [mbind option_bind].
    cbn [PricesEx.strict Prices.int4_array] in IH. rewrite IH. reflexivity.
  - reflexivity.
  - intros n. reflexivity.
  - reflexivity.
  - split.
    + exact (Hb 3 (or_intror (or_introl eq_refl))).
    + rewrite (Hk (8, 2)) by (left; discriminate). reflexivity.
Defined.


(** * Inventory merges and receipts *)







(** C6.  receive-purchase-stock, asked for purchase [id]: with no such
    purchase it answers with the not-found message naming the id; with a
    purchase whose state is not 'Pendiente' it answers with the message
    naming that state; either way nothing is committed.  A pending purchase
    with line items is received when the cost of each line in local
    currency is a number that the store can read.  After a call answered
    200 the purchase is the old one in state 'Confirmado', every product
    of the purchase's branch holds what it held plus the units of the
    purchase's lines (a line of no units adds nothing), the rows of the
    inventory are the old ones with the lines merged in order, the rate
    being the purchase's, whatever it is, and 1 only when it has none, and
    the rest of the tables is as it was.  A second call for the same id
    then fails with the state message naming 'Confirmado' and changes
    nothing: the purchase is confirmed once and credited once. *)
Theorem receive_purchase_stock_terminal e req st id :
  method req <> "OPTIONS" ->
  is_nullish (json_body req) = false ->
  truthy (field (json_body req) "purchase_id") = true ->
  bind_int (field (json_body req) "purchase_id") = Some id ->
  (reliable e -> pool e = true -> Compras (committed st) !! id = None ->
   fst (receive_purchase_stock e req st)
   = {| status := 400;
        body := ErrMsg (compra_no_existe (field (json_body req) "purchase_id")) |}
   /\ committed (snd (receive_purchase_stock e req st)) = committed st)
  /\ (reliable e -> pool e = true ->
      forall c, Compras (committed st) !! id = Some c ->
                is_text (c_estado c) "Pendiente" = false ->
      fst (receive_purchase_stock e req st)
      = {| status := 400; body := ErrMsg (compra_ya_en_estado (c_estado c)) |}
      /\ committed (snd (receive_purchase_stock e req st)) = committed st)
  /\ (reliable e -> pool e = true ->
      forall c, Compras (committed st) !! id = Some c ->
                is_text (c_estado c) "Pendiente" = true ->
                purchase_lines id (committed st) <> [] ->
                Forall (receivable (coalesce (c_tipo_cambio c) 1))
                       (purchase_lines id (committed st)) ->
      status (fst (receive_purchase_stock e req st)) = 200)
  /\ (status (fst (receive_purchase_stock e req st)) = 200 ->
      (exists c,
          Compras (committed st) !! id = Some c
          /\ is_text (c_estado c) "Pendiente" = true
          /\ committed (snd (receive_purchase_stock e req st))
             = with_Compras
                 (credit (numeric_div e) (c_id_sucursal c)
                         (coalesce (c_tipo_cambio c) 1)
                         (purchase_lines id (committed st)) (committed st))
                 (<[id := confirmed c]> (Compras (committed st)))
          /\ Compras (committed (snd (receive_purchase_stock e req st)))
             = <[id := confirmed c]> (Compras (committed st))
          /\ (forall p,
                stock_of (Inventario (committed (snd (receive_purchase_stock
                                                        e req st))))
                         p (c_id_sucursal c)
                = stock_of (Inventario (committed st)) p (c_id_sucursal c)
                  + units_received p (purchase_lines id (committed st)))
          /\ (forall p b', b' <> c_id_sucursal c ->
                Inventario (committed (snd (receive_purchase_stock e req st)))
                !! (p, b')
                = Inventario (committed st) !! (p, b'))
          /\ Detalles_Compra (committed (snd (receive_purchase_stock e req st)))
             = Detalles_Compra (committed st)
          /\ Pagos_Compra (committed (snd (receive_purchase_stock e req st)))
             = Pagos_Compra (committed st)
          /\ Ventas (committed (snd (receive_purchase_stock e req st)))
             = Ventas (committed st)
          /\ Detalles_Venta (committed (snd (receive_purchase_stock e req st)))
             = Detalles_Venta (committed st)
          /\ Productos (committed (snd (receive_purchase_stock e req st)))
             = Productos (committed st))
      /\ forall e2, reliable e2 -> pool e2 = true ->
           fst (receive_purchase_stock e2 req (snd (receive_purchase_stock e req st)))
           = {| status := 400;
                body := ErrMsg (compra_ya_en_estado (JStr "Confirmado")) |}
           /\ committed (snd (receive_purchase_stock e2 req
                                (snd (receive_purchase_stock e req st))))
              = committed (snd (receive_purchase_stock e req st))).
Proof.
  intros Hm Hn Htr Hid.
  assert (Hfail : forall e' st' t,
             fst (receive_purchase_stock e' req st')
             = {| status := 400; body := ErrMsg t |} ->
             committed (snd (receive_purchase_stock e' req st')) = committed st').
  { intros e' st' t H.
    destruct (receive_purchase_stock_outcome e' req st') as [H2 | [_ Hc]];
      [| exact Hc].
    rewrite H in H2. discriminate. }
  split; [| split; [| split]].
  - intros Hrel Hpool Hc.
    pose proof (receive_purchase_stock_run e Hrel req st id Hpool Hm Hn Htr Hid) as H.
    rewrite Hc in H. split; [exact H | eapply Hfail; exact H].
  - intros Hrel Hpool c Hc Hp.
    pose proof (receive_purchase_stock_run e Hrel req st id Hpool Hm Hn Htr Hid) as H.
    rewrite Hc, Hp in H. split; [exact H | eapply Hfail; exact H].
  - intros Hrel Hpool c Hc Hp Hl Hcosts.
    pose proof (receive_purchase_stock_run e Hrel req st id Hpool Hm Hn Htr Hid) as H.
    rewrite Hc, Hp in H.
    destruct (purchase_lines id (committed st)); [congruence |].
    now rewrite (H Hcosts).
  - intros H200.
    destruct (receive_purchase_stock_success e req st Hm H200)
      as (id' & c & Hid' & Hc & Hp & _ & Hcm & Hcosts).
    rewrite Hid in Hid'. injection Hid' as <-.
    split.
    + exists c. split; [exact Hc |]. split; [exact Hp |].
      split; [exact Hcm |]. rewrite Hcm.
      cbn [Compras Inventario Detalles_Compra Pagos_Compra Ventas
           Detalles_Venta Productos with_Compras].
      destruct (credit_units (numeric_div e) (c_id_sucursal c)
                  (exchange_rate (c_tipo_cambio c))
                  (purchase_lines id (committed st)) Hcosts (committed st))
        as (H1 & H2 & H3 & H4 & H5).
      destruct (credit_Compras (numeric_div e) (c_id_sucursal c)
                  (exchange_rate (c_tipo_cambio c))
                  (purchase_lines id (committed st)) (committed st))
        as (_ & G2 & G3).
      split; [reflexivity |]. split; [exact H1 |]. split; [exact H2 |].
      repeat split; assumption.
    + intros e2 Hrel2 Hpool2.
      pose proof (receive_purchase_stock_run e2 Hrel2 req
                    (snd (receive_purchase_stock e req st)) id
                    Hpool2 Hm Hn Htr Hid) as H.
      assert (Hc1 : Compras (committed (snd (receive_purchase_stock e req st))) !! id
                    = Some (confirmed c))
        by (rewrite Hcm; simpl; apply lookup_insert_eq).
      rewrite Hc1 in H. simpl in H. split; [exact H | eapply Hfail; exact H].
Qed.

(** Purchase 1 is pending with two lines, ten units and five of product
    7, of which branch 2 holds five; purchase 5 does not exist. *)
Lemma receive_purchase_stock_terminal_witness :
  fst (receive_purchase_stock Ex.e (Ex.receipt 1) Ex.books)
  = {| status := 200; body := SuccessMsg "Stock actualizado correctamente." |}
  /\ stock_of (Inventario (committed (snd (receive_purchase_stock Ex.e
                 (Ex.receipt 1) Ex.books)))) 7 2 = 5 + 15
  /\ fst (receive_purchase_stock Ex.e (Ex.receipt 1)
            (snd (receive_purchase_stock Ex.e (Ex.receipt 1) Ex.books)))
     = {| status := 400; body := ErrMsg (compra_ya_en_estado (JStr "Confirmado")) |}
  /\ committed (snd (receive_purchase_stock Ex.e (Ex.receipt 1)
                       (snd (receive_purchase_stock Ex.e (Ex.receipt 1) Ex.books))))
     = committed (snd (receive_purchase_stock Ex.e (Ex.receipt 1) Ex.books))
  /\ fst (receive_purchase_stock Ex.e (Ex.receipt 5) Ex.books)
     = {| status := 400; body := ErrMsg (compra_no_existe (num_of_Z 5)) |}.
Proof.
  assert (Hrel : reliable Ex.e) by (intros n; reflexivity).
  destruct (receive_purchase_stock_terminal Ex.e (Ex.receipt 1) Ex.books 1)
    as (_ & _ & _ & H4); [discriminate | reflexivity | reflexivity | reflexivity |].
  destruct (receive_purchase_stock_terminal Ex.e (Ex.receipt 5) Ex.books 5)
    as (H1 & _); [discriminate | reflexivity | reflexivity | reflexivity |].
  assert (H200 : status (fst (receive_purchase_stock Ex.e (Ex.receipt 1) Ex.books)) = 200)
    by (vm_compute; reflexivity).
  destruct (H4 H200) as [(c & Hc & _ & _ & _ & Hq & _) Htwice].
  destruct (Htwice Ex.e Hrel eq_refl) as [Hr Hcm].
  split; [vm_compute; reflexivity |].
  split. { vm_compute in Hc. injection Hc as <-. apply (Hq 7). }
  split; [exact Hr |]. split; [exact Hcm |].
  apply H1; [exact Hrel | reflexivity | reflexivity].
Defined.

(** An id written as a text is read by the store as the integer it
    spells: the calls go the way of the calls with the number.  A text
    that spells no integer is refused by the store. *)
Lemma ids_written_as_text :
  registrar_pago_compra Ex.e (Ex.payment_by_text "1" 40) Ex.books
  = registrar_pago_compra Ex.e (Ex.payment 1 40) Ex.books
  /\ status (fst (registrar_pago_compra Ex.e (Ex.payment_by_text "1" 40)
                    Ex.books)) = 200
  /\ receive_purchase_stock Ex.e (Ex.receipt_by_text " 01 ") Ex.books
     = receive_purchase_stock Ex.e (Ex.receipt 1) Ex.books
  /\ status (fst (receive_purchase_stock Ex.e (Ex.receipt_by_text " 01 ")
                    Ex.books)) = 200
  /\ fst (registrar_pago_compra Ex.e (Ex.payment_by_text "1.0" 40) Ex.books)
     = {| status := 400; body := ErrMsg [Drv InvalidParameter] |}
  /\ snd (registrar_pago_compra Ex.e (Ex.payment_by_text "1.0" 40) Ex.books)
     = Ex.books.
Proof.
  repeat split; vm_compute; reflexivity.
Qed.
